(** * The WebGPU render-pipeline state cache ([WebGPUCacheRenderPipeline])

    A shallow embedding of the class [WebGPUCacheRenderPipeline]: the state
    encoder (the setters and the [_setXxx] packers), the pipeline resolver
    ([getRenderPipeline]) and the descriptor builder
    ([_getVertexInputDescriptor], [_createRenderPipeline]).

    JavaScript numbers are modelled by the integers they hold ([Z]); the
    32-bit operators ([<<], [&]) wrap as in the language, and sums,
    differences and products are rounded as doubles are ([JS.plus],
    [JS.minus], [JS.add], [JS.mul]).  A number that may be [NaN] is a
    [JS.num]; [undefined] and [null] are [None]. *)

From Stdlib Require Import ZArith Lia String List Bool.
From stdpp Require Import base option list gmap strings.
From coqutil Require Import Datatypes.RecordSetters.
Import RecordSetters.DoubleBraceUpdate.
Local Open Scope Z_scope.

(** ** JavaScript arithmetic *)

Module JS.

(** [ToInt32]: the operand of a bitwise operator, wrapped to a signed 32-bit
    integer. *)
Definition to_int32 (z : Z) : Z := (z + 2 ^ 31) mod 2 ^ 32 - 2 ^ 31.

(** [x << k] *)
Definition shl (x k : Z) : Z := to_int32 (Z.shiftl (to_int32 x) (k mod 32)).

(** [x & y] *)
Definition land (x y : Z) : Z := Z.land (to_int32 x) (to_int32 y).

(** Truthiness of a number. *)
Definition truthy (z : Z) : bool := negb (z =? 0).

Definition MAX_SAFE_INTEGER : Z := 2 ^ 53 - 1.

(** The double nearest to an integer (ties to the even mantissa).  Integers
    of magnitude below 2^53 are doubles; above, the 53-bit mantissa keeps
    the leading bits only. *)
Definition round_double (z : Z) : Z :=
  let a := Z.abs z in
  if a <? 2 ^ 53 then z
  else
    let ulp := 2 ^ (Z.log2 a - 52) in
    let q := a / ulp in
    let r := a mod ulp in
    let q' := if (ulp <? 2 * r) || ((2 * r =? ulp) && Z.odd q) then q + 1 else q in
    Z.sgn z * (q' * ulp).

(** [x + y] and [x - y] on numbers: the double nearest to the result. *)
Definition plus (x y : Z) : Z := round_double (x + y).
Definition minus (x y : Z) : Z := round_double (x - y).

(** A number that holds an integer, or [NaN]. *)
Inductive num := Fin (z : Z) | NaN.

#[global] Instance num_eq_dec : EqDecision num.
Proof. solve_decision. Defined.

Definition add (a b : num) : num :=
  match a, b with
  | Fin x, Fin y => Fin (round_double (x + y))
  | _, _ => NaN
  end.

Definition mul (a b : num) : num :=
  match a, b with
  | Fin x, Fin y => Fin (round_double (x * y))
  | _, _ => NaN
  end.

(** [ToNumber] of a table entry: a missing entry is [undefined], hence
    [NaN]. *)
Definition to_number (o : option Z) : num :=
  match o with Some z => Fin z | None => NaN end.

(** [a !== b] on array slots ([None] is [undefined]); [NaN] differs from
    everything, itself included. *)
Definition strict_neq (a b : option num) : bool :=
  match a, b with
  | None, None => false
  | Some (Fin x), Some (Fin y) => negb (x =? y)
  | _, _ => true
  end.

(** [a > 0] on a field ([None] is [undefined]): false for [undefined] and
    for [NaN]. *)
Definition positive (a : option num) : bool :=
  match a with
  | Some (Fin x) => 0 <? x
  | _ => false
  end.

(** [a[i]]: a hole or an index past the end reads [undefined]. *)
Definition array_get {A} (i : nat) (a : list (option A)) : option A :=
  mjoin (a !! i).

(** [a[i] = v]: writing past the end extends the array with holes. *)
Definition array_set {A} (i : nat) (v : A) (a : list (option A)) : list (option A) :=
  if decide (i < length a)%nat then <[i := Some v]> a
  else a ++ replicate (i - length a) None ++ [Some v].

(** [a.length = n] *)
Definition array_resize {A} (n : nat) (a : list (option A)) : list (option A) :=
  take n a ++ replicate (n - length a) None.

End JS.

(** ** Enumerations of [WebGPUConstants] *)

Module PrimitiveTopology.
Inductive t := PointList | LineList | LineStrip | TriangleList | TriangleStrip.
#[global] Instance eq_dec : EqDecision t.
Proof. solve_decision. Defined.
End PrimitiveTopology.

Module CompareFunction.
Inductive t := Never | Less | Equal | LessEqual | Greater | NotEqual | GreaterEqual | Always.
End CompareFunction.

Module StencilOperation.
Inductive t :=
  Keep | Zero | Replace | Invert | IncrementClamp | DecrementClamp | IncrementWrap | DecrementWrap.
End StencilOperation.

Module BlendFactor.
Inductive t :=
  Zero | One | Src | OneMinusSrc | SrcAlpha | OneMinusSrcAlpha | Dst | OneMinusDst
| DstAlpha | OneMinusDstAlpha | SrcAlphaSaturated | Constant | OneMinusConstant
| Src1 | OneMinusSrc1 | Src1Alpha | OneMinusSrc1Alpha.
End BlendFactor.

Module BlendOperation.
Inductive t := Add | Subtract | ReverseSubtract | Min | Max.
End BlendOperation.

Module VertexFormat.
Inductive t :=
  Uint8x2 | Uint8x4 | Sint8x2 | Sint8x4 | Unorm8x2 | Unorm8x4 | Snorm8x2 | Snorm8x4
| Uint16x2 | Uint16x4 | Sint16x2 | Sint16x4 | Unorm16x2 | Unorm16x4 | Snorm16x2 | Snorm16x4
| Float32 | Float32x2 | Float32x3 | Float32x4
| Uint32 | Uint32x2 | Uint32x3 | Uint32x4
| Sint32 | Sint32x2 | Sint32x3 | Sint32x4.
End VertexFormat.

Module VertexStepMode.
Inductive t := Vertex | Instance.
End VertexStepMode.

Module IndexFormat.
Inductive t := Uint16 | Uint32.
End IndexFormat.

Module FrontFace.
Inductive t := CCW | CW.
End FrontFace.

Module CullMode.
Inductive t := None | Front | Back.
End CullMode.

(** A texture format is the string WebGPU names it by. *)
Abbreviation GPUTextureFormat := string.

(** Handles the device returns. *)
Definition GPURenderPipeline := nat.
Definition GPUBuffer := nat.

(** ** The descriptor handed to [createRenderPipeline] *)

Record GPUVertexAttribute := {
  shaderLocation : option Z;
  offset : Z;
  format : VertexFormat.t;
}.

Record GPUVertexBufferLayout := {
  arrayStride : Z;
  stepMode : VertexStepMode.t;
  attributes : list GPUVertexAttribute;
}.

Record GPUBlendComponent := {
  srcFactor : BlendFactor.t;
  dstFactor : BlendFactor.t;
  operation : BlendOperation.t;
}.

Record GPUBlendState := {
  alpha : GPUBlendComponent;
  color : GPUBlendComponent;
}.

Record GPUColorTargetState := {
  target_format : GPUTextureFormat;
  writeMask : Z;
  blend : option GPUBlendState;
}.

Record GPUStencilFaceState := {
  compare : CompareFunction.t;
  depthFailOp : StencilOperation.t;
  failOp : StencilOperation.t;
  passOp : StencilOperation.t;
}.

Record GPUDepthStencilState := {
  depthWriteEnabled : bool;
  depthCompare : CompareFunction.t;
  depthStencil_format : GPUTextureFormat;
  stencilFront : option GPUStencilFaceState;
  stencilBack : option GPUStencilFaceState;
  stencilReadMask : option Z;
  stencilWriteMask : option Z;
  depthBias : option Z;
  depthBiasClamp : option Z;
  depthBiasSlopeScale : option Z;
}.

Record GPUPrimitiveState := {
  topology : PrimitiveTopology.t;
  stripIndexFormat : option IndexFormat.t;
  frontFace : FrontFace.t;
  cullMode : CullMode.t;
}.

Record GPUVertexState := {
  vertex_module : nat;
  vertex_entryPoint : string;
  buffers : list GPUVertexBufferLayout;
}.

Record GPUFragmentState := {
  fragment_module : nat;
  fragment_entryPoint : string;
  targets : list (option GPUColorTargetState);
}.

(** The label is kept as the four values its template string prints: the
    first target's format, the depth-stencil format, the sample count and the
    texture state. *)
Record GPURenderPipelineDescriptor := {
  label : option GPUTextureFormat * option GPUTextureFormat * Z * option Z;
  layout : nat;
  vertex : GPUVertexState;
  primitive : GPUPrimitiveState;
  fragment : option GPUFragmentState;
  multisample_count : Z;
  depthStencil : option GPUDepthStencilState;
}.

(** ** Objects of the engine the cache reads *)

(** A [VertexBuffer], by what the cache reads of it.  [uid] is the identity
    of the object: the memo [_validOffsetRange], which the cache writes on
    the shared object, is kept per [uid] in the world (see [World]). *)
Record VertexBuffer := {
  uid : nat;
  type : Z;
  normalized : bool;
  getSize : Z;                       (* getSize() *)
  getSize_bytes : Z;                 (* getSize(true) *)
  effectiveByteOffset : Z;
  effectiveByteStride : Z;
  underlyingResource : option GPUBuffer;   (* effectiveBuffer?.underlyingResource *)
  hashCode : Z;
  getIsInstanced : bool;
  getKind : string;
}.

Record DataBuffer := { is32Bits : bool }.

Record WebGPUHardwareTexture := { texture_format : GPUTextureFormat }.

Record InternalTexture := { _hardwareTexture : option WebGPUHardwareTexture }.

Record ProgrammableStage := { shader_module : nat; entryPoint : string }.

(** An [Effect], by the parts of its pipeline context the cache reads. *)
Record Effect := {
  uniqueId : Z;
  attributeNamesFromEffect : list string;
  attributeLocationsFromEffect : list Z;
  vertexStage : ProgrammableStage;
  fragmentStage : option ProgrammableStage;
}.

(** What the code throws. *)
Inductive exn :=
| Throw (message : string)                     (* throw "..." *)
| ErrorObject (message : string)               (* throw new Error("...") *)
| InvalidFormat (kind : string) (ty : Z) (norm : bool) (size : Z)
| TypeError                                    (* a property read on null *)
| RangeError                                   (* an invalid array length *)
| DeviceError (reason : string).               (* thrown by the device *)

(** ** Constants of the engine

    The values of [Constants], of [VertexBuffer] and of
    [WebGPUConstants.TextureFormat] are not part of the file of the cache:
    the model takes them as parameters. *)
Class EngineConstants := {
  MATERIAL_TriangleFillMode : Z;
  MATERIAL_WireFrameFillMode : Z;
  MATERIAL_PointFillMode : Z;
  MATERIAL_PointListDrawMode : Z;
  MATERIAL_LineListDrawMode : Z;
  MATERIAL_LineLoopDrawMode : Z;
  MATERIAL_LineStripDrawMode : Z;
  MATERIAL_TriangleStripDrawMode : Z;
  MATERIAL_TriangleFanDrawMode : Z;
  ALWAYS : Z;
  KEEP : Z;
  REPLACE : Z;
  GL_ALPHA_EQUATION_ADD : Z;
  GL_ALPHA_EQUATION_SUBTRACT : Z;
  GL_ALPHA_EQUATION_REVERSE_SUBTRACT : Z;
  GL_ALPHA_EQUATION_MIN : Z;
  GL_ALPHA_EQUATION_MAX : Z;
  GL_ALPHA_FUNCTION_SRC : Z;
  GL_ALPHA_FUNCTION_ONE_MINUS_SRC_COLOR : Z;
  GL_ALPHA_FUNCTION_SRC_ALPHA : Z;
  GL_ALPHA_FUNCTION_ONE_MINUS_SRC_ALPHA : Z;
  GL_ALPHA_FUNCTION_DST_ALPHA : Z;
  GL_ALPHA_FUNCTION_ONE_MINUS_DST_ALPHA : Z;
  GL_ALPHA_FUNCTION_DST_COLOR : Z;
  GL_ALPHA_FUNCTION_ONE_MINUS_DST_COLOR : Z;
  GL_ALPHA_FUNCTION_SRC_ALPHA_SATURATED : Z;
  GL_ALPHA_FUNCTION_CONSTANT_COLOR : Z;
  GL_ALPHA_FUNCTION_CONSTANT_ALPHA : Z;
  GL_ALPHA_FUNCTION_ONE_MINUS_CONSTANT_COLOR : Z;
  GL_ALPHA_FUNCTION_ONE_MINUS_CONSTANT_ALPHA : Z;
  GL_ALPHA_FUNCTION_SRC1_COLOR : Z;
  GL_ALPHA_FUNCTION_ONE_MINUS_SRC1_COLOR : Z;
  GL_ALPHA_FUNCTION_SRC1_ALPHA : Z;
  GL_ALPHA_FUNCTION_ONE_MINUS_SRC1_ALPHA : Z;
  VertexBuffer_BYTE : Z;
  VertexBuffer_UNSIGNED_BYTE : Z;
  VertexBuffer_SHORT : Z;
  VertexBuffer_UNSIGNED_SHORT : Z;
  VertexBuffer_INT : Z;
  VertexBuffer_UNSIGNED_INT : Z;
  VertexBuffer_FLOAT : Z;
  TextureFormat_BGRA8Unorm : GPUTextureFormat;
  TextureFormat_Depth24PlusStencil8 : GPUTextureFormat;
}.

(** The draw modes [_GetTopology] names, in the order of its [case]s. *)
Definition recognized_fill_modes `{EngineConstants} : list Z :=
  [ MATERIAL_TriangleFillMode; MATERIAL_PointFillMode; MATERIAL_WireFrameFillMode;
    MATERIAL_PointListDrawMode; MATERIAL_LineListDrawMode; MATERIAL_LineLoopDrawMode;
    MATERIAL_LineStripDrawMode; MATERIAL_TriangleStripDrawMode; MATERIAL_TriangleFanDrawMode ].

(** ** Tables of the file *)

Module StatePosition.
Definition StencilReadMask : nat := 0.
Definition StencilWriteMask : nat := 1.
(* DepthBiasClamp = 1, not used *)
Definition DepthBias : nat := 2.
Definition DepthBiasSlopeScale : nat := 3.
Definition DepthStencilState : nat := 4.
Definition MRTAttachments : nat := 5.
Definition RasterizationState : nat := 6.
Definition ColorStates1 : nat := 7.
Definition ColorStates2 : nat := 8.
Definition ColorStates3 : nat := 9.
Definition ColorStates4 : nat := 10.
Definition ShaderStage : nat := 11.
Definition TextureStage : nat := 12.
(* vertex state consumes positions 13, 14, ... *)
Definition VertexState : nat := 13.
Definition NumStates : nat := 14.
End StatePosition.

Definition alphaBlendFactorToIndex (name : Z) : option Z :=
  if name =? 0 then Some 1                (* Zero *)
  else if name =? 1 then Some 2           (* One *)
  else if name =? 0x0300 then Some 3      (* SrcColor *)
  else if name =? 0x0301 then Some 4      (* OneMinusSrcColor *)
  else if name =? 0x0302 then Some 5      (* SrcAlpha *)
  else if name =? 0x0303 then Some 6      (* OneMinusSrcAlpha *)
  else if name =? 0x0304 then Some 7      (* DstAlpha *)
  else if name =? 0x0305 then Some 8      (* OneMinusDstAlpha *)
  else if name =? 0x0306 then Some 9      (* DstColor *)
  else if name =? 0x0307 then Some 10     (* OneMinusDstColor *)
  else if name =? 0x0308 then Some 11     (* SrcAlphaSaturated *)
  else if name =? 0x8001 then Some 12     (* BlendColor *)
  else if name =? 0x8002 then Some 13     (* OneMinusBlendColor *)
  else if name =? 0x8003 then Some 14     (* BlendColor (alpha) *)
  else if name =? 0x8004 then Some 15     (* OneMinusBlendColor (alpha) *)
  else if name =? 0x88f9 then Some 16     (* Src1Color *)
  else if name =? 0x88fa then Some 17     (* OneMinusSrc1Color *)
  else if name =? 0x8589 then Some 18     (* Src1Alpha *)
  else if name =? 0x88fb then Some 19     (* OneMinusSrc1Alpha *)
  else None.

Definition alphaBlendEquationToIndex (name : Z) : option Z :=
  if name =? 0x8006 then Some 0           (* Add *)
  else if name =? 0x8007 then Some 1      (* Min *)
  else if name =? 0x8008 then Some 2      (* Max *)
  else if name =? 0x800a then Some 3      (* Subtract *)
  else if name =? 0x800b then Some 4      (* ReverseSubtract *)
  else None.

Definition stencilOpToIndex (name : Z) : option Z :=
  if name =? 0x0000 then Some 0           (* ZERO *)
  else if name =? 0x1e00 then Some 1      (* KEEP *)
  else if name =? 0x1e01 then Some 2      (* REPLACE *)
  else if name =? 0x1e02 then Some 3      (* INCR *)
  else if name =? 0x1e03 then Some 4      (* DECR *)
  else if name =? 0x150a then Some 5      (* INVERT *)
  else if name =? 0x8507 then Some 6      (* INCR_WRAP *)
  else if name =? 0x8508 then Some 7      (* DECR_WRAP *)
  else None.

(** ** Collaborators of the cache

    Helpers of the engine and the device: none is part of the file of the
    cache, the model takes them as parameters.  The table
    [renderableTextureFormatToIndex] is read by key: a format it lacks reads
    [undefined].  [createRenderPipeline]
    answers a descriptor (given the descriptors the device received before)
    with a handle, or throws.  [_createPipelineLayout] stands for the bind
    group layouts and the pipeline layout the device builds from the
    reflection data of the effect and the texture state; it is kept
    abstract, as a handle. *)
Class Engine := {
  renderableTextureFormatToIndex : GPUTextureFormat -> option Z;
  GetSample : Z -> Z;                                  (* WebGPUTextureHelper.GetSample *)
  HasStencilAspect : GPUTextureFormat -> bool;         (* WebGPUTextureHelper.HasStencilAspect *)
  maxVertexBufferArrayStride : Z;                      (* device.limits *)
  createRenderPipeline :
    list GPURenderPipelineDescriptor -> GPURenderPipelineDescriptor -> exn + GPURenderPipeline;
  _createPipelineLayout : Effect -> option Z -> nat;
}.

(** The types of a lookup strategy: the token it leaves in [_parameter], and
    the structure it keeps the pipelines in. *)
Class LookupTypes := {
  Token : Type;
  Store : Type;
}.

(** ** The cache object *)

Section Cache.

Context {constants : EngineConstants} {engine : Engine} {types : LookupTypes}.

(** The object [{ token, pipeline }] a lookup strategy fills in. *)
Record PipelineParameter := {
  token : option Token;
  pipeline : option GPURenderPipeline;
}.

Record WebGPUCacheRenderPipeline := {
  disabled : bool;
  _states : list (option JS.num);
  _statesLength : nat;
  _stateDirtyLowestIndex : nat;
  lastStateDirtyLowestIndex : option nat;          (* for stats only *)
  _isDirty : bool;
  _emptyVertexBuffer : VertexBuffer;
  _parameter : PipelineParameter;
  _kMaxVertexBufferStride : Z;
  _shaderId : option Z;
  _alphaToCoverageEnabled : bool;
  _frontFace : Z;
  _cullEnabled : bool;
  _cullFace : Z;
  _clampDepth : bool;
  _rasterizationState : option Z;
  _depthBias : option Z;
  _depthBiasClamp : option Z;                      (* never assigned *)
  _depthBiasSlopeScale : option Z;
  _colorFormat : option Z;
  _webgpuColorFormat : list (option GPUTextureFormat);
  _mrtAttachments : option JS.num;
  _mrtFormats : list (option GPUTextureFormat);
  _mrtEnabledMask : Z;
  _alphaBlendEnabled : list bool;
  _numAlphaBlendTargetsEnabled : Z;
  _alphaBlendFuncParams : list (option Z);
  _alphaBlendEqParams : list (option Z);
  _writeMask : Z;
  _depthStencilFormat : option Z;
  _webgpuDepthStencilFormat : option GPUTextureFormat;
  _depthTestEnabled : bool;
  _depthWriteEnabled : bool;
  _depthCompare : Z;
  _stencilEnabled : bool;
  _stencilFrontCompare : Z;
  _stencilFrontDepthFailOp : option Z;
  _stencilFrontPassOp : option Z;
  _stencilFrontFailOp : option Z;
  _stencilBackCompare : Z;
  _stencilBackDepthFailOp : option Z;
  _stencilBackPassOp : option Z;
  _stencilBackFailOp : option Z;
  _stencilReadMask : option Z;
  _stencilWriteMask : option Z;
  _depthStencilState : option JS.num;
  _vertexBuffers : option (gmap string (option VertexBuffer));
  _overrideVertexBuffers : option (gmap string (option VertexBuffer));
  _textureState : option Z;
  _useTextureStage : bool;
  vertexBuffers : list (option VertexBuffer);
  indexBuffer : option DataBuffer;
  mrtAttachments : list Z;
  mrtTextureArray : list InternalTexture;
  mrtTextureCount : Z;
}.

(** Field updaters of the record, behind the notation [this {{ field := value }}]. *)
#[local] Instance upd_disabled : Setter disabled :=
  ltac:(setter WebGPUCacheRenderPipeline (bool) disabled).
#[local] Instance upd__states : Setter _states :=
  ltac:(setter WebGPUCacheRenderPipeline (list (option JS.num)) _states).
#[local] Instance upd__statesLength : Setter _statesLength :=
  ltac:(setter WebGPUCacheRenderPipeline (nat) _statesLength).
#[local] Instance upd__stateDirtyLowestIndex : Setter _stateDirtyLowestIndex :=
  ltac:(setter WebGPUCacheRenderPipeline (nat) _stateDirtyLowestIndex).
#[local] Instance upd_lastStateDirtyLowestIndex : Setter lastStateDirtyLowestIndex :=
  ltac:(setter WebGPUCacheRenderPipeline (option nat) lastStateDirtyLowestIndex).
#[local] Instance upd__isDirty : Setter _isDirty :=
  ltac:(setter WebGPUCacheRenderPipeline (bool) _isDirty).
#[local] Instance upd__emptyVertexBuffer : Setter _emptyVertexBuffer :=
  ltac:(setter WebGPUCacheRenderPipeline (VertexBuffer) _emptyVertexBuffer).
#[local] Instance upd__parameter : Setter _parameter :=
  ltac:(setter WebGPUCacheRenderPipeline (PipelineParameter) _parameter).
#[local] Instance upd__kMaxVertexBufferStride : Setter _kMaxVertexBufferStride :=
  ltac:(setter WebGPUCacheRenderPipeline (Z) _kMaxVertexBufferStride).
#[local] Instance upd__shaderId : Setter _shaderId :=
  ltac:(setter WebGPUCacheRenderPipeline (option Z) _shaderId).
#[local] Instance upd__alphaToCoverageEnabled : Setter _alphaToCoverageEnabled :=
  ltac:(setter WebGPUCacheRenderPipeline (bool) _alphaToCoverageEnabled).
#[local] Instance upd__frontFace : Setter _frontFace :=
  ltac:(setter WebGPUCacheRenderPipeline (Z) _frontFace).
#[local] Instance upd__cullEnabled : Setter _cullEnabled :=
  ltac:(setter WebGPUCacheRenderPipeline (bool) _cullEnabled).
#[local] Instance upd__cullFace : Setter _cullFace :=
  ltac:(setter WebGPUCacheRenderPipeline (Z) _cullFace).
#[local] Instance upd__clampDepth : Setter _clampDepth :=
  ltac:(setter WebGPUCacheRenderPipeline (bool) _clampDepth).
#[local] Instance upd__rasterizationState : Setter _rasterizationState :=
  ltac:(setter WebGPUCacheRenderPipeline (option Z) _rasterizationState).
#[local] Instance upd__depthBias : Setter _depthBias :=
  ltac:(setter WebGPUCacheRenderPipeline (option Z) _depthBias).
#[local] Instance upd__depthBiasClamp : Setter _depthBiasClamp :=
  ltac:(setter WebGPUCacheRenderPipeline (option Z) _depthBiasClamp).
#[local] Instance upd__depthBiasSlopeScale : Setter _depthBiasSlopeScale :=
  ltac:(setter WebGPUCacheRenderPipeline (option Z) _depthBiasSlopeScale).
#[local] Instance upd__colorFormat : Setter _colorFormat :=
  ltac:(setter WebGPUCacheRenderPipeline (option Z) _colorFormat).
#[local] Instance upd__webgpuColorFormat : Setter _webgpuColorFormat :=
  ltac:(setter WebGPUCacheRenderPipeline (list (option GPUTextureFormat)) _webgpuColorFormat).
#[local] Instance upd__mrtAttachments : Setter _mrtAttachments :=
  ltac:(setter WebGPUCacheRenderPipeline (option JS.num) _mrtAttachments).
#[local] Instance upd__mrtFormats : Setter _mrtFormats :=
  ltac:(setter WebGPUCacheRenderPipeline (list (option GPUTextureFormat)) _mrtFormats).
#[local] Instance upd__mrtEnabledMask : Setter _mrtEnabledMask :=
  ltac:(setter WebGPUCacheRenderPipeline (Z) _mrtEnabledMask).
#[local] Instance upd__alphaBlendEnabled : Setter _alphaBlendEnabled :=
  ltac:(setter WebGPUCacheRenderPipeline (list bool) _alphaBlendEnabled).
#[local] Instance upd__numAlphaBlendTargetsEnabled : Setter _numAlphaBlendTargetsEnabled :=
  ltac:(setter WebGPUCacheRenderPipeline (Z) _numAlphaBlendTargetsEnabled).
#[local] Instance upd__alphaBlendFuncParams : Setter _alphaBlendFuncParams :=
  ltac:(setter WebGPUCacheRenderPipeline (list (option Z)) _alphaBlendFuncParams).
#[local] Instance upd__alphaBlendEqParams : Setter _alphaBlendEqParams :=
  ltac:(setter WebGPUCacheRenderPipeline (list (option Z)) _alphaBlendEqParams).
#[local] Instance upd__writeMask : Setter _writeMask :=
  ltac:(setter WebGPUCacheRenderPipeline (Z) _writeMask).
#[local] Instance upd__depthStencilFormat : Setter _depthStencilFormat :=
  ltac:(setter WebGPUCacheRenderPipeline (option Z) _depthStencilFormat).
#[local] Instance upd__webgpuDepthStencilFormat : Setter _webgpuDepthStencilFormat :=
  ltac:(setter WebGPUCacheRenderPipeline (option GPUTextureFormat) _webgpuDepthStencilFormat).
#[local] Instance upd__depthTestEnabled : Setter _depthTestEnabled :=
  ltac:(setter WebGPUCacheRenderPipeline (bool) _depthTestEnabled).
#[local] Instance upd__depthWriteEnabled : Setter _depthWriteEnabled :=
  ltac:(setter WebGPUCacheRenderPipeline (bool) _depthWriteEnabled).
#[local] Instance upd__depthCompare : Setter _depthCompare :=
  ltac:(setter WebGPUCacheRenderPipeline (Z) _depthCompare).
#[local] Instance upd__stencilEnabled : Setter _stencilEnabled :=
  ltac:(setter WebGPUCacheRenderPipeline (bool) _stencilEnabled).
#[local] Instance upd__stencilFrontCompare : Setter _stencilFrontCompare :=
  ltac:(setter WebGPUCacheRenderPipeline (Z) _stencilFrontCompare).
#[local] Instance upd__stencilFrontDepthFailOp : Setter _stencilFrontDepthFailOp :=
  ltac:(setter WebGPUCacheRenderPipeline (option Z) _stencilFrontDepthFailOp).
#[local] Instance upd__stencilFrontPassOp : Setter _stencilFrontPassOp :=
  ltac:(setter WebGPUCacheRenderPipeline (option Z) _stencilFrontPassOp).
#[local] Instance upd__stencilFrontFailOp : Setter _stencilFrontFailOp :=
  ltac:(setter WebGPUCacheRenderPipeline (option Z) _stencilFrontFailOp).
#[local] Instance upd__stencilBackCompare : Setter _stencilBackCompare :=
  ltac:(setter WebGPUCacheRenderPipeline (Z) _stencilBackCompare).
#[local] Instance upd__stencilBackDepthFailOp : Setter _stencilBackDepthFailOp :=
  ltac:(setter WebGPUCacheRenderPipeline (option Z) _stencilBackDepthFailOp).
#[local] Instance upd__stencilBackPassOp : Setter _stencilBackPassOp :=
  ltac:(setter WebGPUCacheRenderPipeline (option Z) _stencilBackPassOp).
#[local] Instance upd__stencilBackFailOp : Setter _stencilBackFailOp :=
  ltac:(setter WebGPUCacheRenderPipeline (option Z) _stencilBackFailOp).
#[local] Instance upd__stencilReadMask : Setter _stencilReadMask :=
  ltac:(setter WebGPUCacheRenderPipeline (option Z) _stencilReadMask).
#[local] Instance upd__stencilWriteMask : Setter _stencilWriteMask :=
  ltac:(setter WebGPUCacheRenderPipeline (option Z) _stencilWriteMask).
#[local] Instance upd__depthStencilState : Setter _depthStencilState :=
  ltac:(setter WebGPUCacheRenderPipeline (option JS.num) _depthStencilState).
#[local] Instance upd__vertexBuffers : Setter _vertexBuffers :=
  ltac:(setter WebGPUCacheRenderPipeline (option (gmap string (option VertexBuffer))) _vertexBuffers).
#[local] Instance upd__overrideVertexBuffers : Setter _overrideVertexBuffers :=
  ltac:(setter WebGPUCacheRenderPipeline (option (gmap string (option VertexBuffer))) _overrideVertexBuffers).
#[local] Instance upd__textureState : Setter _textureState :=
  ltac:(setter WebGPUCacheRenderPipeline (option Z) _textureState).
#[local] Instance upd__useTextureStage : Setter _useTextureStage :=
  ltac:(setter WebGPUCacheRenderPipeline (bool) _useTextureStage).
#[local] Instance upd_vertexBuffers : Setter vertexBuffers :=
  ltac:(setter WebGPUCacheRenderPipeline (list (option VertexBuffer)) vertexBuffers).
#[local] Instance upd_indexBuffer : Setter indexBuffer :=
  ltac:(setter WebGPUCacheRenderPipeline (option DataBuffer) indexBuffer).
#[local] Instance upd_mrtAttachments : Setter mrtAttachments :=
  ltac:(setter WebGPUCacheRenderPipeline (list Z) mrtAttachments).
#[local] Instance upd_mrtTextureArray : Setter mrtTextureArray :=
  ltac:(setter WebGPUCacheRenderPipeline (list InternalTexture) mrtTextureArray).
#[local] Instance upd_mrtTextureCount : Setter mrtTextureCount :=
  ltac:(setter WebGPUCacheRenderPipeline (Z) mrtTextureCount).

(** [this._stateDirtyLowestIndex = Math.min(this._stateDirtyLowestIndex, position)],
    with the dirty flag: the tail every tracked setter ends with. *)
Definition mark_dirty (position : nat) (this : WebGPUCacheRenderPipeline) : WebGPUCacheRenderPipeline :=
  this {{ _isDirty := true;
          _stateDirtyLowestIndex := Nat.min (_stateDirtyLowestIndex this) position }}.

(** *** Setters *)

Definition setAlphaToCoverage (enabled : bool) (this : WebGPUCacheRenderPipeline) :=
  this {{ _alphaToCoverageEnabled := enabled }}.

Definition setFrontFace (frontFace : Z) (this : WebGPUCacheRenderPipeline) :=
  this {{ _frontFace := frontFace }}.

Definition setCullEnabled (enabled : bool) (this : WebGPUCacheRenderPipeline) :=
  this {{ _cullEnabled := enabled }}.

Definition setCullFace (cullFace : Z) (this : WebGPUCacheRenderPipeline) :=
  this {{ _cullFace := cullFace }}.

Definition setClampDepth (clampDepth : bool) (this : WebGPUCacheRenderPipeline) :=
  this {{ _clampDepth := clampDepth }}.

Definition setDepthBias (depthBias : Z) (this : WebGPUCacheRenderPipeline) :=
  if bool_decide (_depthBias this <> Some depthBias) then
    mark_dirty StatePosition.DepthBias
      (this {{ _depthBias := Some depthBias;
               _states := JS.array_set StatePosition.DepthBias (JS.Fin depthBias) (_states this) }})
  else this.

Definition setDepthBiasSlopeScale (depthBiasSlopeScale : Z) (this : WebGPUCacheRenderPipeline) :=
  if bool_decide (_depthBiasSlopeScale this <> Some depthBiasSlopeScale) then
    mark_dirty StatePosition.DepthBiasSlopeScale
      (this {{ _depthBiasSlopeScale := Some depthBiasSlopeScale;
               _states := JS.array_set StatePosition.DepthBiasSlopeScale
                            (JS.Fin depthBiasSlopeScale) (_states this) }})
  else this.

Definition setDepthCullingState (cullEnabled : bool) (frontFace cullFace zOffset zOffsetUnits : Z)
    (depthTestEnabled depthWriteEnabled : bool) (depthCompare : option Z)
    (this : WebGPUCacheRenderPipeline) :=
  let this := this {{ _depthWriteEnabled := depthWriteEnabled;
                      _depthTestEnabled := depthTestEnabled;
                      _depthCompare := JS.minus (default ALWAYS depthCompare) 0x0200;
                      _cullFace := cullFace;
                      _cullEnabled := cullEnabled;
                      _frontFace := frontFace }} in
  setDepthBias zOffsetUnits (setDepthBiasSlopeScale zOffset this).

Definition resetDepthCullingState (this : WebGPUCacheRenderPipeline) :=
  setDepthCullingState false 2 1 0 0 true true (Some ALWAYS) this.

Definition setColorFormat (format : option GPUTextureFormat) (this : WebGPUCacheRenderPipeline) :=
  this {{ _webgpuColorFormat :=
            match _webgpuColorFormat this with
            | [] => [format]
            | _ :: rest => format :: rest
            end;
          _colorFormat := renderableTextureFormatToIndex (default EmptyString format) }}.

(** Must be called after [setMRT]. *)
Definition setMRTAttachments (attachments : list Z) (this : WebGPUCacheRenderPipeline) :=
  let this := this {{ mrtAttachments := attachments }} in
  let mask :=
    fold_left (fun mask '(i, a) => if a =? 0 then mask else mask + JS.shl 1 (Z.of_nat i))
              (imap (fun i a => (i, a)) attachments) 0 in
  if bool_decide (_mrtEnabledMask this <> mask) then
    mark_dirty StatePosition.MRTAttachments (this {{ _mrtEnabledMask := mask }})
  else this.

(** The loop of [setMRT] over [i < textureCount]: the formats of the
    attachments, and their 6-bit indices packed into one number, which is
    [NaN] once a format is missing from the table. *)
Fixpoint setMRT_loop (textureArray : list InternalTexture) (webgpuColorFormat0 : option GPUTextureFormat)
    (n i : nat) (mrtFormats : list (option GPUTextureFormat)) (mrtAttachments : JS.num)
    : list (option GPUTextureFormat) * JS.num :=
  match n with
  | O => (mrtFormats, mrtAttachments)
  | S n' =>
      let gpuWrapper := textureArray !! i ≫= _hardwareTexture in
      let format :=
        match gpuWrapper with
        | Some w => Some (texture_format w)
        | None => webgpuColorFormat0
        end in
      let mrtFormats :=
        if decide (i < length mrtFormats)%nat then <[i := format]> mrtFormats
        else mrtFormats ++ replicate (i - length mrtFormats) None ++ [format] in
      setMRT_loop textureArray webgpuColorFormat0 n' (S i) mrtFormats
        (JS.add mrtAttachments
           (JS.mul (JS.to_number (renderableTextureFormatToIndex (default EmptyString format)))
                   (JS.Fin (2 ^ (6 * Z.of_nat i)))))
  end.

(** [setMRT] throws before it writes anything when there are more than 8
    attachments; [this._mrtFormats.length = textureCount] throws a
    [RangeError] on a negative count, the first fields being written by
    then. *)
Definition setMRT (textureArray : list InternalTexture) (textureCount : option Z)
    (this : WebGPUCacheRenderPipeline) : option exn * WebGPUCacheRenderPipeline :=
  let textureCount := default (Z.of_nat (length textureArray)) textureCount in
  if 8 <? textureCount then
    (* We only support 8 MRTs in WebGPU *)
    (Some (ErrorObject "Can't handle more than 8 attachments for a MRT in cache render pipeline!"),
     this)
  else
    let this := this {{ mrtTextureArray := textureArray;
                        mrtTextureCount := textureCount;
                        (* all textures are enabled at start *)
                        _mrtEnabledMask := 0xffff }} in
    let '(mrtFormats, mrtAttachments) :=
      setMRT_loop textureArray (mjoin (_webgpuColorFormat this !! 0%nat))
        (Z.to_nat textureCount) 0 (_mrtFormats this) (JS.Fin 0) in
    if textureCount <? 0 then (Some RangeError, this {{ _mrtFormats := mrtFormats }})
    else
      let this := this {{ _mrtFormats := take (Z.to_nat textureCount) mrtFormats }} in
      (None,
       if JS.strict_neq (_mrtAttachments this) (Some mrtAttachments) then
         mark_dirty StatePosition.MRTAttachments
           (this {{ _mrtAttachments := Some mrtAttachments;
                    _states := JS.array_set StatePosition.MRTAttachments
                                 mrtAttachments (_states this) }})
       else this).

Definition setAlphaBlendEnabled (enabled : list bool) (numAlphaBlendTargetsEnabled : Z)
    (this : WebGPUCacheRenderPipeline) :=
  this {{ _alphaBlendEnabled := enabled;
          _numAlphaBlendTargetsEnabled := numAlphaBlendTargetsEnabled }}.

Definition setAlphaBlendFactors (factors operations : list (option Z))
    (this : WebGPUCacheRenderPipeline) :=
  this {{ _alphaBlendFuncParams := factors; _alphaBlendEqParams := operations }}.

Definition setWriteMask (mask : Z) (this : WebGPUCacheRenderPipeline) :=
  this {{ _writeMask := mask }}.

Definition setDepthStencilFormat (format : option GPUTextureFormat) (this : WebGPUCacheRenderPipeline) :=
  this {{ _webgpuDepthStencilFormat := format;
          _depthStencilFormat :=
            match format with
            | None => Some 0
            | Some f => renderableTextureFormatToIndex f
            end }}.

Definition setDepthTestEnabled (enabled : bool) (this : WebGPUCacheRenderPipeline) :=
  this {{ _depthTestEnabled := enabled }}.

Definition setDepthWriteEnabled (enabled : bool) (this : WebGPUCacheRenderPipeline) :=
  this {{ _depthWriteEnabled := enabled }}.

Definition setDepthCompare (func : option Z) (this : WebGPUCacheRenderPipeline) :=
  this {{ _depthCompare := JS.minus (default ALWAYS func) 0x0200 }}.

Definition setStencilEnabled (enabled : bool) (this : WebGPUCacheRenderPipeline) :=
  this {{ _stencilEnabled := enabled }}.

Definition setStencilCompare (func : option Z) (this : WebGPUCacheRenderPipeline) :=
  this {{ _stencilFrontCompare := JS.minus (default ALWAYS func) 0x0200 }}.

(** [op === null ? dflt : stencilOpToIndex[op]] *)
Definition stencil_op_index (dflt : Z) (op : option Z) : option Z :=
  match op with
  | None => Some dflt
  | Some op => stencilOpToIndex op
  end.

Definition setStencilDepthFailOp (op : option Z) (this : WebGPUCacheRenderPipeline) :=
  this {{ _stencilFrontDepthFailOp := stencil_op_index 1 (* KEEP *) op }}.

Definition setStencilPassOp (op : option Z) (this : WebGPUCacheRenderPipeline) :=
  this {{ _stencilFrontPassOp := stencil_op_index 2 (* REPLACE *) op }}.

Definition setStencilFailOp (op : option Z) (this : WebGPUCacheRenderPipeline) :=
  this {{ _stencilFrontFailOp := stencil_op_index 1 (* KEEP *) op }}.

Definition setStencilBackCompare (func : option Z) (this : WebGPUCacheRenderPipeline) :=
  this {{ _stencilBackCompare := JS.minus (default ALWAYS func) 0x0200 }}.

Definition setStencilBackDepthFailOp (op : option Z) (this : WebGPUCacheRenderPipeline) :=
  this {{ _stencilBackDepthFailOp := stencil_op_index 1 (* KEEP *) op }}.

Definition setStencilBackPassOp (op : option Z) (this : WebGPUCacheRenderPipeline) :=
  this {{ _stencilBackPassOp := stencil_op_index 2 (* REPLACE *) op }}.

Definition setStencilBackFailOp (op : option Z) (this : WebGPUCacheRenderPipeline) :=
  this {{ _stencilBackFailOp := stencil_op_index 1 (* KEEP *) op }}.

Definition setStencilReadMask (mask : Z) (this : WebGPUCacheRenderPipeline) :=
  if bool_decide (_stencilReadMask this <> Some mask) then
    mark_dirty StatePosition.StencilReadMask
      (this {{ _stencilReadMask := Some mask;
               _states := JS.array_set StatePosition.StencilReadMask (JS.Fin mask) (_states this) }})
  else this.

Definition setStencilWriteMask (mask : Z) (this : WebGPUCacheRenderPipeline) :=
  if bool_decide (_stencilWriteMask this <> Some mask) then
    mark_dirty StatePosition.StencilWriteMask
      (this {{ _stencilWriteMask := Some mask;
               _states := JS.array_set StatePosition.StencilWriteMask (JS.Fin mask) (_states this) }})
  else this.

Definition setStencilState (stencilEnabled : bool) (compare depthFailOp passOp failOp : option Z)
    (readMask writeMask : Z) (backCompare backDepthFailOp backPassOp backFailOp : option Z)
    (this : WebGPUCacheRenderPipeline) :=
  let this := this {{ _stencilEnabled := stencilEnabled;
                      _stencilFrontCompare := JS.minus (default ALWAYS compare) 0x0200;
                      _stencilFrontDepthFailOp := stencil_op_index 1 depthFailOp;
                      _stencilFrontPassOp := stencil_op_index 2 passOp;
                      _stencilFrontFailOp := stencil_op_index 1 failOp;
                      _stencilBackCompare := JS.minus (default ALWAYS backCompare) 0x0200;
                      _stencilBackDepthFailOp := stencil_op_index 1 backDepthFailOp;
                      _stencilBackPassOp := stencil_op_index 2 backPassOp;
                      _stencilBackFailOp := stencil_op_index 1 backFailOp }} in
  setStencilWriteMask writeMask (setStencilReadMask readMask this).

Definition resetStencilState (this : WebGPUCacheRenderPipeline) :=
  setStencilState false (Some ALWAYS) (Some KEEP) (Some REPLACE) (Some KEEP) 0xff 0xff
    None None None None this.

Definition setBuffers (vertexBuffers : option (gmap string (option VertexBuffer)))
    (indexBuffer' : option DataBuffer)
    (overrideVertexBuffers : option (gmap string (option VertexBuffer)))
    (this : WebGPUCacheRenderPipeline) :=
  this {{ _vertexBuffers := vertexBuffers;
          _overrideVertexBuffers := overrideVertexBuffers;
          indexBuffer := indexBuffer' }}.

Definition colorFormats (this : WebGPUCacheRenderPipeline) : list (option GPUTextureFormat) :=
  if JS.positive (_mrtAttachments this) then _mrtFormats this else _webgpuColorFormat this.

(** *** The packers run by [getRenderPipeline] *)

Definition _setShaderStage (id : Z) (this : WebGPUCacheRenderPipeline) :=
  if bool_decide (_shaderId this <> Some id) then
    mark_dirty StatePosition.ShaderStage
      (this {{ _shaderId := Some id;
               _states := JS.array_set StatePosition.ShaderStage (JS.Fin id) (_states this) }})
  else this.

(** The value [_setRasterizationState] packs: a sum of doubles, added from
    left to right. *)
Definition rasterizationState_of (topology sampleCount : Z) (this : WebGPUCacheRenderPipeline) : Z :=
  let frontFace := _frontFace this in
  let cullMode := if _cullEnabled this then _cullFace this else 0 in
  let clampDepth := if _clampDepth this then 1 else 0 in
  let alphaToCoverage := if _alphaToCoverageEnabled this then 1 else 0 in
  fold_left JS.plus
    [ JS.shl cullMode 1; JS.shl clampDepth 3; JS.shl alphaToCoverage 4;
      JS.shl topology 5; JS.shl sampleCount 8 ]
    (JS.minus frontFace 1).

Definition _setRasterizationState (topology sampleCount : Z) (this : WebGPUCacheRenderPipeline) :=
  let rasterizationState := rasterizationState_of topology sampleCount this in
  if bool_decide (_rasterizationState this <> Some rasterizationState) then
    mark_dirty StatePosition.RasterizationState
      (this {{ _rasterizationState := Some rasterizationState;
               _states := JS.array_set StatePosition.RasterizationState
                            (JS.Fin rasterizationState) (_states this) }})
  else this.

Definition _setTextureState (textureState : Z) (this : WebGPUCacheRenderPipeline) :=
  if bool_decide (_textureState this <> Some textureState) then
    mark_dirty StatePosition.TextureStage
      (this {{ _textureState := Some textureState;
               _states := JS.array_set StatePosition.TextureStage (JS.Fin textureState) (_states this) }})
  else this.

(** The stencil half of the value [_setDepthStencilState] packs: a sum of
    doubles, added from left to right. *)
Definition stencilState_of (this : WebGPUCacheRenderPipeline) : Z :=
  let op (o : option Z) := default 0 o in     (* ToInt32(undefined) = 0 *)
  if negb (_stencilEnabled this) then
    fold_left JS.plus
      [ JS.shl 1 (* KEEP *) 3; JS.shl 1 (* KEEP *) 6; JS.shl 1 (* KEEP *) 9;        (* front *)
        JS.shl 7 (* ALWAYS *) 12; JS.shl 1 (* KEEP *) 15; JS.shl 1 (* KEEP *) 18;
        JS.shl 1 (* KEEP *) 21 ]                                                    (* back *)
      7 (* ALWAYS *)
  else
    fold_left JS.plus
      [ JS.shl (op (_stencilFrontDepthFailOp this)) 3;
        JS.shl (op (_stencilFrontPassOp this)) 6;
        JS.shl (op (_stencilFrontFailOp this)) 9;            (* front *)
        JS.shl (_stencilBackCompare this) 12;
        JS.shl (op (_stencilBackDepthFailOp this)) 15;
        JS.shl (op (_stencilBackPassOp this)) 18;
        JS.shl (op (_stencilBackFailOp this)) 21 ]           (* back *)
      (_stencilFrontCompare this).

(** The value [_setDepthStencilState] packs; it is [NaN] when the index of
    the depth-stencil format is [undefined]. *)
Definition depthStencilState_of (this : WebGPUCacheRenderPipeline) : JS.num :=
  JS.add
    (JS.add (JS.to_number (_depthStencilFormat this))
            (JS.Fin (JS.shl (if _depthTestEnabled this then _depthCompare this
                             else 7 (* ALWAYS *)) 6)))
    (JS.mul (JS.Fin (stencilState_of this)) (JS.Fin (JS.shl 1 10))).   (* stencil front + back *)

Definition _setDepthStencilState (this : WebGPUCacheRenderPipeline) :=
  let depthStencilState := depthStencilState_of this in
  if JS.strict_neq (_depthStencilState this) (Some depthStencilState) then
    mark_dirty StatePosition.DepthStencilState
      (this {{ _depthStencilState := Some depthStencilState;
               _states := JS.array_set StatePosition.DepthStencilState
                            depthStencilState (_states this) }})
  else this.

(** [(params[index] === null ? 1 : alphaBlendFactorToIndex[params[index]]) << k];
    a missing parameter or entry is [undefined], which [<<] reads as 0. *)
Definition blend_factor_bits (params : list (option Z)) (index : nat) (k : Z) : Z :=
  JS.shl (match params !! index with
          | Some None => 1
          | Some (Some factor) => default 0 (alphaBlendFactorToIndex factor)
          | None => 0
          end) k.

(** [params[index] === null ? 0 : alphaBlendEquationToIndex[params[index]]];
    [undefined] becomes [NaN] in the sum it enters. *)
Definition blend_equation_index (params : list (option Z)) (index : nat) : JS.num :=
  match params !! index with
  | Some None => JS.Fin 0
  | Some (Some equation) => JS.to_number (alphaBlendEquationToIndex equation)
  | None => JS.NaN
  end.

(** What one enabled blend target adds to its color state. *)
Definition blend_target_bits (this : WebGPUCacheRenderPipeline) (i : nat) : JS.num :=
  let index0 := (i * 4 + 0)%nat in
  let index1 := (i * 4 + 1)%nat in
  let index2 := (i * 4 + 2)%nat in
  let index3 := (i * 4 + 3)%nat in
  let indexEq0 := (i * 2 + 0)%nat in
  let indexEq1 := (i * 2 + 1)%nat in
  let eq0 := blend_equation_index (_alphaBlendEqParams this) indexEq0 in
  let eq1 := blend_equation_index (_alphaBlendEqParams this) indexEq1 in
  JS.add
    (JS.add
       (JS.add
          (JS.add (JS.Fin (blend_factor_bits (_alphaBlendFuncParams this) index0 0))
                  (JS.Fin (blend_factor_bits (_alphaBlendFuncParams this) index1 5)))
          (JS.Fin (blend_factor_bits (_alphaBlendFuncParams this) index2 10)))
       (JS.Fin (blend_factor_bits (_alphaBlendFuncParams this) index3 15)))
    (JS.mul (JS.add eq0 (JS.mul eq1 (JS.Fin 5))) (JS.Fin (JS.shl 1 20))).

(** The loop [for (let i = 0; i < 8; i++)] of [_setColorStates], from [i] on
    for [n] more rounds. *)
Fixpoint _setColorStates_loop (n i : nat) (colorStates : list JS.num) (colorStateIndex : nat)
    (isDirty : bool) (this : WebGPUCacheRenderPipeline)
    : bool * WebGPUCacheRenderPipeline :=
  match n with
  | O => (isDirty, this)
  | S n' =>
      let colorStates :=
        if default false (_alphaBlendEnabled this !! i)
        then alter (fun c => JS.add c (blend_target_bits this i)) colorStateIndex colorStates
        else colorStates in
      if Nat.odd i then
        let position := (StatePosition.ColorStates1 + colorStateIndex)%nat in
        let isDirty :=
          isDirty || JS.strict_neq (JS.array_get position (_states this))
                                     (colorStates !! colorStateIndex) in
        let this :=
          match colorStates !! colorStateIndex with
          | Some c => this {{ _states := JS.array_set position c (_states this) }}
          | None => this
          end in
        _setColorStates_loop n' (S i) colorStates (S colorStateIndex) isDirty this
      else
        _setColorStates_loop n' (S i) colorStates colorStateIndex isDirty this
  end.

(** The four numbers [_setColorStates] starts from; [&] reads an
    [undefined] format index as 0. *)
Definition colorStates_init (this : WebGPUCacheRenderPipeline) : list JS.num :=
  [ JS.mul (JS.Fin (if JS.truthy (_writeMask this) then 1 else 0)) (JS.Fin (2 ^ 53));
    JS.mul (JS.Fin (if _depthWriteEnabled this then 1 else 0)) (JS.Fin (2 ^ 53));
    JS.mul (JS.Fin (JS.land (default 0 (_colorFormat this)) 0x07)) (JS.Fin (2 ^ 50));
    JS.mul (JS.Fin (JS.land (default 0 (_colorFormat this)) 0x38)) (JS.Fin (2 ^ 47)) ].

Definition _setColorStates (this : WebGPUCacheRenderPipeline) :=
  let '(isDirty, this) := _setColorStates_loop 8 0 (colorStates_init this) 0 false this in
  if isDirty then mark_dirty StatePosition.ColorStates1 this else this.

(** *** The world around the cache *)

(** The lookup strategy: the two abstract methods of the class.  They read
    the object (its state vector, its dirty index, its [_parameter]);
    [_getRenderPipeline] answers with the parameter it filled in, and both
    may change the structure the strategy keeps. *)
Class Strategy := {
  _getRenderPipeline : WebGPUCacheRenderPipeline -> Store -> PipelineParameter * Store;
  _setRenderPipeline : WebGPUCacheRenderPipeline -> Store -> Store;
}.

Context {strategy : Strategy}.

(** The cache object together with what it shares with the rest of the
    engine: the memo [_validOffsetRange] it writes on vertex buffers (by
    [uid]), the structure of the lookup strategy, the descriptors the device
    received (latest first), and the static counters of the class. *)
Record World := {
  cache : WebGPUCacheRenderPipeline;
  _validOffsetRange : gmap nat bool;
  store : Store;
  device_log : list GPURenderPipelineDescriptor;
  NumCacheHitWithoutHash : Z;
  NumCacheHitWithHash : Z;
  NumCacheMiss : Z;
  NumPipelineCreationLastFrame : Z;
  _NumPipelineCreationCurrentFrame : Z;
}.

Definition endFrame (w : World) : World :=
  w {{ NumPipelineCreationLastFrame := _NumPipelineCreationCurrentFrame w;
       _NumPipelineCreationCurrentFrame := 0 }}.

(** [(this._overrideVertexBuffers && this._overrideVertexBuffers[name])
      ?? this._vertexBuffers![name]], then the empty vertex buffer when
    nothing is bound. *)
Definition bound_vertex_buffer (this : WebGPUCacheRenderPipeline) (name : string)
    : exn + VertexBuffer :=
  match _overrideVertexBuffers this ≫= (fun o => mjoin (o !! name)) with
  | Some vertexBuffer => inr vertexBuffer
  | None =>
      match _vertexBuffers this with
      | None => inl TypeError
      | Some buffers => inr (default (_emptyVertexBuffer this) (mjoin (buffers !! name)))
      end
  end.

(** The value [_setVertexState] memoizes in [vertexBuffer._validOffsetRange]. *)
Definition validOffsetRange_of (this : WebGPUCacheRenderPipeline) (vertexBuffer : VertexBuffer) : bool :=
  let offset := effectiveByteOffset vertexBuffer in
  let formatSize := getSize_bytes vertexBuffer in
  let byteStride := effectiveByteStride vertexBuffer in
  ((offset + formatSize <=? _kMaxVertexBufferStride this) && (byteStride =? 0))
  || (negb (byteStride =? 0) && (offset + formatSize <=? byteStride)).

(** [currentGPUBuffer && currentGPUBuffer === buffer] *)
Definition same_buffer (currentGPUBuffer buffer : option GPUBuffer) : bool :=
  match currentGPUBuffer with
  | Some current => bool_decide (buffer = Some current)
  | None => false
  end.

(** The loop of [_setVertexState] over the attributes, from [index] on. *)
Fixpoint _setVertexState_loop (attributes : list string) (locations : list Z) (index : nat)
    (currentGPUBuffer : option GPUBuffer) (numVertexBuffers newNumStates : nat) (w : World)
    : option exn * (nat * nat * World) :=
  match attributes with
  | [] => (None, (numVertexBuffers, newNumStates, w))
  | name :: attributes' =>
      let this := cache w in
      let location := locations !! index in
      match bound_vertex_buffer this name with
      | inl e => (Some e, (numVertexBuffers, newNumStates, w))
      | inr vertexBuffer =>
          let buffer := underlyingResource vertexBuffer in
          let memo :=
            match _validOffsetRange w !! uid vertexBuffer with
            | Some _ => _validOffsetRange w
            | None => <[uid vertexBuffer := validOffsetRange_of this vertexBuffer]> (_validOffsetRange w)
            end in
          let validOffsetRange := default false (memo !! uid vertexBuffer) in
          let '(this, numVertexBuffers, currentGPUBuffer) :=
            if negb (same_buffer currentGPUBuffer buffer && validOffsetRange) then
              (* we can't combine the previous vertexBuffer with the current one *)
              (this {{ vertexBuffers := JS.array_set numVertexBuffers vertexBuffer (vertexBuffers this) }},
               S numVertexBuffers,
               if validOffsetRange then buffer else None)
            else (this, numVertexBuffers, currentGPUBuffer) in
          let vid := JS.plus (hashCode vertexBuffer) (JS.shl (default 0 location) 7) in
          let this :=
            this {{ _isDirty := _isDirty this
                                || JS.strict_neq (JS.array_get newNumStates (_states this))
                                                 (Some (JS.Fin vid));
                    _states := JS.array_set newNumStates (JS.Fin vid) (_states this) }} in
          _setVertexState_loop attributes' locations (S index) currentGPUBuffer
            numVertexBuffers (S newNumStates)
            (w {{ cache := this; _validOffsetRange := memo }})
      end
  end.

Definition _setVertexState (effect : Effect) (w : World) : option exn * World :=
  let currStateLen := _statesLength (cache w) in
  let '(e, (numVertexBuffers, newNumStates, w)) :=
    _setVertexState_loop (attributeNamesFromEffect effect) (attributeLocationsFromEffect effect)
      0 None 0 StatePosition.VertexState w in
  match e with
  | Some e => (Some e, w)
  | None =>
      let this := cache w in
      let this :=
        this {{ vertexBuffers := JS.array_resize numVertexBuffers (vertexBuffers this);
                _statesLength := newNumStates;
                _isDirty := _isDirty this || negb (newNumStates =? currStateLen)%nat }} in
      let this :=
        if _isDirty this
        then this {{ _stateDirtyLowestIndex :=
                       Nat.min (_stateDirtyLowestIndex this) StatePosition.VertexState }}
        else this in
      (None, w {{ cache := this }})
  end.

(** *** The descriptor builder *)

Definition _GetTopology (fillMode : Z) : exn + PrimitiveTopology.t :=
  (* Triangle views *)
  if fillMode =? MATERIAL_TriangleFillMode then inr PrimitiveTopology.TriangleList
  else if fillMode =? MATERIAL_PointFillMode then inr PrimitiveTopology.PointList
  else if fillMode =? MATERIAL_WireFrameFillMode then inr PrimitiveTopology.LineList
  (* Draw modes *)
  else if fillMode =? MATERIAL_PointListDrawMode then inr PrimitiveTopology.PointList
  else if fillMode =? MATERIAL_LineListDrawMode then inr PrimitiveTopology.LineList
  else if fillMode =? MATERIAL_LineLoopDrawMode then
    inl (Throw "LineLoop is an unsupported fillmode in WebGPU")
  else if fillMode =? MATERIAL_LineStripDrawMode then inr PrimitiveTopology.LineStrip
  else if fillMode =? MATERIAL_TriangleStripDrawMode then inr PrimitiveTopology.TriangleStrip
  else if fillMode =? MATERIAL_TriangleFanDrawMode then
    inl (Throw "TriangleFan is an unsupported fillmode in WebGPU")
  else inr PrimitiveTopology.TriangleList.

(** The argument is [None] for [null] and for [undefined]. *)
Definition _GetAphaBlendOperation (operation : option Z) : BlendOperation.t :=
  match operation with
  | None => BlendOperation.Add
  | Some operation =>
      if operation =? GL_ALPHA_EQUATION_ADD then BlendOperation.Add
      else if operation =? GL_ALPHA_EQUATION_SUBTRACT then BlendOperation.Subtract
      else if operation =? GL_ALPHA_EQUATION_REVERSE_SUBTRACT then BlendOperation.ReverseSubtract
      else if operation =? GL_ALPHA_EQUATION_MIN then BlendOperation.Min
      else if operation =? GL_ALPHA_EQUATION_MAX then BlendOperation.Max
      else BlendOperation.Add
  end.

Definition _GetAphaBlendFactor (factor : option Z) : BlendFactor.t :=
  match factor with
  | None => BlendFactor.One
  | Some factor =>
      if factor =? 0 then BlendFactor.Zero
      else if factor =? 1 then BlendFactor.One
      else if factor =? GL_ALPHA_FUNCTION_SRC then BlendFactor.Src
      else if factor =? GL_ALPHA_FUNCTION_ONE_MINUS_SRC_COLOR then BlendFactor.OneMinusSrc
      else if factor =? GL_ALPHA_FUNCTION_SRC_ALPHA then BlendFactor.SrcAlpha
      else if factor =? GL_ALPHA_FUNCTION_ONE_MINUS_SRC_ALPHA then BlendFactor.OneMinusSrcAlpha
      else if factor =? GL_ALPHA_FUNCTION_DST_ALPHA then BlendFactor.DstAlpha
      else if factor =? GL_ALPHA_FUNCTION_ONE_MINUS_DST_ALPHA then BlendFactor.OneMinusDstAlpha
      else if factor =? GL_ALPHA_FUNCTION_DST_COLOR then BlendFactor.Dst
      else if factor =? GL_ALPHA_FUNCTION_ONE_MINUS_DST_COLOR then BlendFactor.OneMinusDst
      else if factor =? GL_ALPHA_FUNCTION_SRC_ALPHA_SATURATED then BlendFactor.SrcAlphaSaturated
      else if (factor =? GL_ALPHA_FUNCTION_CONSTANT_COLOR)
              || (factor =? GL_ALPHA_FUNCTION_CONSTANT_ALPHA) then BlendFactor.Constant
      else if (factor =? GL_ALPHA_FUNCTION_ONE_MINUS_CONSTANT_COLOR)
              || (factor =? GL_ALPHA_FUNCTION_ONE_MINUS_CONSTANT_ALPHA)
           then BlendFactor.OneMinusConstant
      else if factor =? GL_ALPHA_FUNCTION_SRC1_COLOR then BlendFactor.Src1
      else if factor =? GL_ALPHA_FUNCTION_ONE_MINUS_SRC1_COLOR then BlendFactor.OneMinusSrc1
      else if factor =? GL_ALPHA_FUNCTION_SRC1_ALPHA then BlendFactor.Src1Alpha
      else if factor =? GL_ALPHA_FUNCTION_ONE_MINUS_SRC1_ALPHA then BlendFactor.OneMinusSrc1Alpha
      else BlendFactor.One
  end.

Definition _GetCompareFunction (compareFunction : Z) : CompareFunction.t :=
  if compareFunction =? 0 then CompareFunction.Never
  else if compareFunction =? 1 then CompareFunction.Less
  else if compareFunction =? 2 then CompareFunction.Equal
  else if compareFunction =? 3 then CompareFunction.LessEqual
  else if compareFunction =? 4 then CompareFunction.Greater
  else if compareFunction =? 5 then CompareFunction.NotEqual
  else if compareFunction =? 6 then CompareFunction.GreaterEqual
  else if compareFunction =? 7 then CompareFunction.Always
  else CompareFunction.Never.

(** The argument is [None] for [undefined]. *)
Definition _GetStencilOpFunction (operation : option Z) : StencilOperation.t :=
  match operation with
  | None => StencilOperation.Keep
  | Some operation =>
      if operation =? 0 then StencilOperation.Zero
      else if operation =? 1 then StencilOperation.Keep
      else if operation =? 2 then StencilOperation.Replace
      else if operation =? 3 then StencilOperation.IncrementClamp
      else if operation =? 4 then StencilOperation.DecrementClamp
      else if operation =? 5 then StencilOperation.Invert
      else if operation =? 6 then StencilOperation.IncrementWrap
      else if operation =? 7 then StencilOperation.DecrementWrap
      else StencilOperation.Keep
  end.

Definition _GetVertexInputDescriptorFormat (vertexBuffer : VertexBuffer) : exn + VertexFormat.t :=
  let type := type vertexBuffer in
  let normalized := normalized vertexBuffer in
  let size := getSize vertexBuffer in
  let invalid : exn + VertexFormat.t :=
    inl (InvalidFormat (getKind vertexBuffer) type normalized size) in
  let two_or_four (n2 i2 n4 i4 : VertexFormat.t) : exn + VertexFormat.t :=
    if (size =? 1) || (size =? 2) then inr (if normalized then n2 else i2)
    else if (size =? 3) || (size =? 4) then inr (if normalized then n4 else i4)
    else invalid in
  let one_to_four (f1 f2 f3 f4 : VertexFormat.t) : exn + VertexFormat.t :=
    if size =? 1 then inr f1
    else if size =? 2 then inr f2
    else if size =? 3 then inr f3
    else if size =? 4 then inr f4
    else invalid in
  if type =? VertexBuffer_BYTE then
    two_or_four VertexFormat.Snorm8x2 VertexFormat.Sint8x2 VertexFormat.Snorm8x4 VertexFormat.Sint8x4
  else if type =? VertexBuffer_UNSIGNED_BYTE then
    two_or_four VertexFormat.Unorm8x2 VertexFormat.Uint8x2 VertexFormat.Unorm8x4 VertexFormat.Uint8x4
  else if type =? VertexBuffer_SHORT then
    two_or_four VertexFormat.Snorm16x2 VertexFormat.Sint16x2 VertexFormat.Snorm16x4 VertexFormat.Sint16x4
  else if type =? VertexBuffer_UNSIGNED_SHORT then
    two_or_four VertexFormat.Unorm16x2 VertexFormat.Uint16x2 VertexFormat.Unorm16x4 VertexFormat.Uint16x4
  else if type =? VertexBuffer_INT then
    one_to_four VertexFormat.Sint32 VertexFormat.Sint32x2 VertexFormat.Sint32x3 VertexFormat.Sint32x4
  else if type =? VertexBuffer_UNSIGNED_INT then
    one_to_four VertexFormat.Uint32 VertexFormat.Uint32x2 VertexFormat.Uint32x3 VertexFormat.Uint32x4
  else if type =? VertexBuffer_FLOAT then
    one_to_four VertexFormat.Float32 VertexFormat.Float32x2 VertexFormat.Float32x3 VertexFormat.Float32x4
  else invalid.

Definition _getAphaBlendState (targetIndex : nat) (this : WebGPUCacheRenderPipeline)
    : option GPUBlendComponent :=
  if negb (default false (_alphaBlendEnabled this !! targetIndex)) then None
  else
    Some {| srcFactor := _GetAphaBlendFactor (mjoin (_alphaBlendFuncParams this !! (targetIndex * 4 + 2)%nat));
            dstFactor := _GetAphaBlendFactor (mjoin (_alphaBlendFuncParams this !! (targetIndex * 4 + 3)%nat));
            operation := _GetAphaBlendOperation (mjoin (_alphaBlendEqParams this !! (targetIndex * 2 + 1)%nat)) |}.

(** The test [!this._alphaBlendEnabled] is on the array itself, which is
    never falsy: the color component is always built. *)
Definition _getColorBlendState (targetIndex : nat) (this : WebGPUCacheRenderPipeline)
    : option GPUBlendComponent :=
  Some {| srcFactor := _GetAphaBlendFactor (mjoin (_alphaBlendFuncParams this !! (targetIndex * 4 + 0)%nat));
          dstFactor := _GetAphaBlendFactor (mjoin (_alphaBlendFuncParams this !! (targetIndex * 4 + 1)%nat));
          operation := _GetAphaBlendOperation (mjoin (_alphaBlendEqParams this !! (targetIndex * 2 + 0)%nat)) |}.

(** One round of the loop of [_getVertexInputDescriptor].  The descriptors
    are kept latest first: [currentGPUAttributes] is the attribute list of
    the head, and is undefined as long as there is none. *)
Definition _getVertexInputDescriptor_step (w : World) (name : string) (location : option Z)
    (acc : list GPUVertexBufferLayout * option GPUBuffer)
    : exn + (list GPUVertexBufferLayout * option GPUBuffer) :=
  let '(descriptors, currentGPUBuffer) := acc in
  match bound_vertex_buffer (cache w) name with
  | inl e => inl e
  | inr vertexBuffer =>
      let buffer := underlyingResource vertexBuffer in
      let offset := effectiveByteOffset vertexBuffer in
      let invalidOffsetRange := negb (default false (_validOffsetRange w !! uid vertexBuffer)) in
      let newLayout :=
        negb (same_buffer currentGPUBuffer buffer && bool_decide (descriptors <> []))
        || invalidOffsetRange in
      let descriptors :=
        if newLayout then
          {| arrayStride := effectiveByteStride vertexBuffer;
             stepMode := if getIsInstanced vertexBuffer
                         then VertexStepMode.Instance else VertexStepMode.Vertex;
             attributes := [] |} :: descriptors
        else descriptors in
      (* the offset will be set directly in the setVertexBuffer call; buffer can't be reused *)
      let offset := if newLayout && invalidOffsetRange then 0 else offset in
      let buffer := if newLayout && invalidOffsetRange then None else buffer in
      match _GetVertexInputDescriptorFormat vertexBuffer with
      | inl e => inl e
      | inr format =>
          let attribute :=
            {| shaderLocation := location; offset := offset; format := format |} in
          match descriptors with
          | current :: previous =>
              inr ({| arrayStride := arrayStride current;
                      stepMode := stepMode current;
                      attributes := attributes current ++ [attribute] |} :: previous,
                   buffer)
          | [] => inl TypeError
          end
      end
  end.

Fixpoint _getVertexInputDescriptor_loop (w : World) (attributes : list string) (locations : list Z)
    (index : nat) (acc : list GPUVertexBufferLayout * option GPUBuffer)
    : exn + list GPUVertexBufferLayout :=
  match attributes with
  | [] => inr (rev (fst acc))
  | name :: attributes' =>
      match _getVertexInputDescriptor_step w name (locations !! index) acc with
      | inl e => inl e
      | inr acc => _getVertexInputDescriptor_loop w attributes' locations (S index) acc
      end
  end.

Definition _getVertexInputDescriptor (effect : Effect) (w : World)
    : exn + list GPUVertexBufferLayout :=
  _getVertexInputDescriptor_loop w (attributeNamesFromEffect effect)
    (attributeLocationsFromEffect effect) 0 ([], None).

(** A string in a condition: [null], [undefined] and the empty string are
    falsy. *)
Definition truthy_format (format : option GPUTextureFormat) : option GPUTextureFormat :=
  match format with
  | Some EmptyString => None
  | other => other
  end.

(** One color target, for the blend parameters of target [blendIndex]. *)
Definition color_target (format : option GPUTextureFormat) (mask : Z) (blendIndex : nat)
    (this : WebGPUCacheRenderPipeline) : option GPUColorTargetState :=
  match truthy_format format with
  | Some format =>
      let alphaBlend := _getAphaBlendState blendIndex this in
      let colorBlend := _getColorBlendState blendIndex this in
      Some {| target_format := format;
              writeMask := mask;
              blend := match alphaBlend, colorBlend with
                       | Some a, Some c => Some {| alpha := a; color := c |}
                       | _, _ => None
                       end |}
  | None => None
  end.

(** [this._mrtAttachments > 0] *)
Definition mrt_active (this : WebGPUCacheRenderPipeline) : bool :=
  JS.positive (_mrtAttachments this).

Definition color_targets (this : WebGPUCacheRenderPipeline) : list (option GPUColorTargetState) :=
  if mrt_active this then
    imap (fun i format =>
            color_target format
              (if negb (JS.land (_mrtEnabledMask this) (JS.shl 1 (Z.of_nat i)) =? 0)
               then _writeMask this else 0)
              (if Z.of_nat i <? _numAlphaBlendTargetsEnabled this then i else 0%nat)
              this)
         (_mrtFormats this)
  else
    [ color_target (mjoin (_webgpuColorFormat this !! 0%nat)) (_writeMask this) 0 this ].

Definition stencil_face (compare : Z) (depthFailOp failOp passOp : option Z)
    (this : WebGPUCacheRenderPipeline) : GPUStencilFaceState :=
  let enabled := _stencilEnabled this in
  {| compare := _GetCompareFunction (if enabled then compare else 7 (* ALWAYS *));
     depthFailOp := _GetStencilOpFunction (if enabled then depthFailOp else Some 1 (* KEEP *));
     failOp := _GetStencilOpFunction (if enabled then failOp else Some 1 (* KEEP *));
     passOp := _GetStencilOpFunction (if enabled then passOp else Some 1 (* KEEP *)) |}.

(** The descriptor [_createRenderPipeline] hands to the device. *)
Definition render_pipeline_descriptor (effect : Effect) (topology : PrimitiveTopology.t)
    (sampleCount : Z) (inputStateDescriptor : list GPUVertexBufferLayout)
    (this : WebGPUCacheRenderPipeline) : GPURenderPipelineDescriptor :=
  let pipelineLayout := _createPipelineLayout effect (_textureState this) in
  let colorStates := color_targets this in
  let stencilFront :=
    stencil_face (_stencilFrontCompare this) (_stencilFrontDepthFailOp this)
      (_stencilFrontFailOp this) (_stencilFrontPassOp this) this in
  let stencilBack :=
    stencil_face (_stencilBackCompare this) (_stencilBackDepthFailOp this)
      (_stencilBackFailOp this) (_stencilBackPassOp this) this in
  let topologyIsTriangle :=
    bool_decide (topology = PrimitiveTopology.TriangleList)
    || bool_decide (topology = PrimitiveTopology.TriangleStrip) in
  let stripIndexFormat :=
    if bool_decide (topology = PrimitiveTopology.LineStrip)
       || bool_decide (topology = PrimitiveTopology.TriangleStrip)
    then Some (match indexBuffer this with
               | None => IndexFormat.Uint32
               | Some b => if is32Bits b then IndexFormat.Uint32 else IndexFormat.Uint16
               end)
    else None in
  let depthStencilFormatHasStencil :=
    match truthy_format (_webgpuDepthStencilFormat this) with
    | Some format => HasStencilAspect format
    | None => false
    end in
  let withStencil := _stencilEnabled this && depthStencilFormatHasStencil in
  {| label := (mjoin (colorStates !! 0%nat) ≫= (fun target => Some (target_format target)),
               _webgpuDepthStencilFormat this, sampleCount, _textureState this);
     layout := pipelineLayout;
     vertex := {| vertex_module := shader_module (vertexStage effect);
                  vertex_entryPoint := entryPoint (vertexStage effect);
                  buffers := inputStateDescriptor |};
     primitive :=
       {| topology := topology;
          stripIndexFormat := stripIndexFormat;
          frontFace := if _frontFace this =? 1 then FrontFace.CCW else FrontFace.CW;
          cullMode := if negb (_cullEnabled this) then CullMode.None
                      else if _cullFace this =? 2 then CullMode.Front else CullMode.Back |};
     fragment :=
       match fragmentStage effect with
       | None => None
       | Some stage => Some {| fragment_module := shader_module stage;
                               fragment_entryPoint := entryPoint stage;
                               targets := colorStates |}
       end;
     multisample_count := sampleCount;
     depthStencil :=
       match _webgpuDepthStencilFormat this with
       | None => None
       | Some format =>
           Some {| depthWriteEnabled := _depthWriteEnabled this;
                   depthCompare := if _depthTestEnabled this
                                   then _GetCompareFunction (_depthCompare this)
                                   else CompareFunction.Always;
                   depthStencil_format := format;
                   stencilFront := if withStencil then Some stencilFront else None;
                   stencilBack := if withStencil then Some stencilBack else None;
                   stencilReadMask := if withStencil then _stencilReadMask this else None;
                   stencilWriteMask := if withStencil then _stencilWriteMask this else None;
                   depthBias := _depthBias this;
                   depthBiasClamp := if topologyIsTriangle then _depthBiasClamp this else Some 0;
                   depthBiasSlopeScale :=
                     if topologyIsTriangle then _depthBiasSlopeScale this else Some 0 |}
       end |}.

(** [_createRenderPipeline]: the vertex layout may throw; then the device is
    called, and the call is logged whatever it answers. *)
Definition _createRenderPipeline (effect : Effect) (topology : PrimitiveTopology.t)
    (sampleCount : Z) (w : World) : (exn + GPURenderPipeline) * World :=
  match _getVertexInputDescriptor effect w with
  | inl e => (inl e, w)
  | inr inputStateDescriptor =>
      let descriptor :=
        render_pipeline_descriptor effect topology sampleCount inputStateDescriptor (cache w) in
      (createRenderPipeline (device_log w) descriptor,
       w {{ device_log := descriptor :: device_log w }})
  end.

(** *** The pipeline resolver *)

#[local] Instance upd_pipeline : Setter pipeline :=
  ltac:(setter PipelineParameter (option GPURenderPipeline) pipeline).

(** The packers [getRenderPipeline] runs with the cache enabled, up to the
    test of the fast path; [_setVertexState] may throw on the way. *)
Definition prepare (fillMode : Z) (effect : Effect) (sampleCount textureState : Z) (w : World)
    : option exn * World :=
  let this := _setShaderStage (uniqueId effect) (cache w) in
  let this := _setRasterizationState fillMode sampleCount this in
  let this := _setColorStates this in
  let this := _setDepthStencilState this in
  match _setVertexState effect (w {{ cache := this }}) with
  | (Some e, w) => (Some e, w)
  | (None, w) =>
      let this := _setTextureState textureState (cache w) in
      (None,
       w {{ cache := this {{ lastStateDirtyLowestIndex := Some (_stateDirtyLowestIndex this) }} }})
  end.

(** The fast path: the memo answers, counted as a hit without hash. *)
Definition memo_hit (w : World) : World :=
  w {{ cache := (cache w) {{ _stateDirtyLowestIndex := _statesLength (cache w) }};
       NumCacheHitWithoutHash := NumCacheHitWithoutHash w + 1 }}.

(** [this._getRenderPipeline(this._parameter)], then the dirty flag is
    cleared and the lowest dirty index reset. *)
Definition looked_up (w : World) : World :=
  let this := cache w in
  let '(parameter, st) := _getRenderPipeline this (store w) in
  w {{ cache := this {{ _parameter := parameter;
                        _isDirty := false;
                        _stateDirtyLowestIndex := _statesLength this }};
       store := st }}.

(** A pipeline the device created becomes the memo, is handed to
    [_setRenderPipeline] when the cache is enabled ([stored]), and is counted
    as a miss and as a creation of the frame. *)
Definition adopt (stored : bool) (created : GPURenderPipeline) (w : World) : World :=
  let this := (cache w) {{ _parameter := (_parameter (cache w)) {{ pipeline := Some created }} }} in
  w {{ cache := this;
       store := if stored then _setRenderPipeline this (store w) else store w;
       NumCacheMiss := NumCacheMiss w + 1;
       _NumPipelineCreationCurrentFrame := _NumPipelineCreationCurrentFrame w + 1 }}.

Definition getRenderPipeline (fillMode : Z) (effect : Effect) (sampleCount textureState : Z)
    (w : World) : (exn + GPURenderPipeline) * World :=
  let sampleCount := GetSample sampleCount in
  if disabled (cache w) then
    match _GetTopology fillMode with
    | inl e => (inl e, w)
    | inr topology =>
        (* to fill this.vertexBuffers with correct data *)
        match _setVertexState effect w with
        | (Some e, w) => (inl e, w)
        | (None, w) =>
            let w := w {{ cache := _setTextureState textureState (cache w) }} in
            match _createRenderPipeline effect topology sampleCount w with
            | (inl e, w) => (inl e, w)
            | (inr created, w) => (inr created, adopt false created w)
            end
        end
    end
  else
    match prepare fillMode effect sampleCount textureState w with
    | (Some e, w) => (inl e, w)
    | (None, w) =>
        match negb (_isDirty (cache w)), pipeline (_parameter (cache w)) with
        | true, Some cached => (inr cached, memo_hit w)
        | _, _ =>
            let w := looked_up w in
            match pipeline (_parameter (cache w)) with
            | Some found =>
                (inr found, w {{ NumCacheHitWithHash := NumCacheHitWithHash w + 1 }})
            | None =>
                match _GetTopology fillMode with
                | inl e => (inl e, w)
                | inr topology =>
                    match _createRenderPipeline effect topology sampleCount w with
                    | (inl e, w) => (inl e, w)
                    | (inr created, w) => (inr created, adopt true created w)
                    end
                end
            end
        end
    end.

(** *** Construction *)

Definition reset (this : WebGPUCacheRenderPipeline) : option exn * WebGPUCacheRenderPipeline :=
  let this := this {{ _isDirty := true; vertexBuffers := [] }} in
  let this := setAlphaToCoverage false this in
  let this := resetDepthCullingState this in
  let this := setClampDepth false this in
  let this := setDepthBias 0 this in
  let this := this {{ _webgpuColorFormat := [Some TextureFormat_BGRA8Unorm] }} in
  let this := setColorFormat (Some TextureFormat_BGRA8Unorm) this in
  match setMRT [] None this with
  | (Some e, this) => (Some e, this)
  | (None, this) =>
      let this := setAlphaBlendEnabled [false] 1 this in
      let this := setAlphaBlendFactors [None; None; None; None] [None; None] this in
      let this := setWriteMask 0xf this in
      let this := setDepthStencilFormat (Some TextureFormat_Depth24PlusStencil8) this in
      let this := setStencilEnabled false this in
      let this := resetStencilState this in
      let this := setBuffers None None None this in
      (None, _setTextureState 0 this)
  end.

(** The object as the constructor has it when it calls [reset]: the fields
    assigned so far, the others [undefined] ([None], or a value [reset]
    overwrites before anything reads it). *)
Definition allocated (emptyVertexBuffer : VertexBuffer) : WebGPUCacheRenderPipeline :=
  {| disabled := false;
     _states := replicate 30 None;
     _statesLength := 0;
     _stateDirtyLowestIndex := 0;
     lastStateDirtyLowestIndex := None;
     _isDirty := false;
     _emptyVertexBuffer := emptyVertexBuffer;
     _parameter := {| token := None; pipeline := None |};
     _kMaxVertexBufferStride :=
       if maxVertexBufferArrayStride =? 0 then 2048 else maxVertexBufferArrayStride;
     _shaderId := None;
     _alphaToCoverageEnabled := false;
     _frontFace := 0;
     _cullEnabled := false;
     _cullFace := 0;
     _clampDepth := false;
     _rasterizationState := None;
     _depthBias := None;
     _depthBiasClamp := None;
     _depthBiasSlopeScale := None;
     _colorFormat := None;
     _webgpuColorFormat := [];
     _mrtAttachments := None;
     _mrtFormats := [];
     _mrtEnabledMask := 0;
     _alphaBlendEnabled := [];
     _numAlphaBlendTargetsEnabled := 0;
     _alphaBlendFuncParams := [];
     _alphaBlendEqParams := [];
     _writeMask := 0;
     _depthStencilFormat := None;
     _webgpuDepthStencilFormat := None;
     _depthTestEnabled := false;
     _depthWriteEnabled := false;
     _depthCompare := 0;
     _stencilEnabled := false;
     _stencilFrontCompare := 0;
     _stencilFrontDepthFailOp := None;
     _stencilFrontPassOp := None;
     _stencilFrontFailOp := None;
     _stencilBackCompare := 0;
     _stencilBackDepthFailOp := None;
     _stencilBackPassOp := None;
     _stencilBackFailOp := None;
     _stencilReadMask := None;
     _stencilWriteMask := None;
     _depthStencilState := None;
     _vertexBuffers := None;
     _overrideVertexBuffers := None;
     _textureState := None;
     _useTextureStage := true;
     vertexBuffers := [];
     indexBuffer := None;
     mrtAttachments := [];
     mrtTextureArray := [];
     mrtTextureCount := 0 |}.

Definition constructor (emptyVertexBuffer : VertexBuffer)
    : option exn * WebGPUCacheRenderPipeline :=
  reset (allocated emptyVertexBuffer).

End Cache.

(** * The loop block ([FlowGraphForLoopBlock])

    The block runs its loop by recursion on the context: the index, the end
    index and the step are execution variables of the block, read again at
    every round.  The context, the data connections and the signal
    connections are not part of the file: the model keeps of the context
    the execution variables of the block, by name, and takes the values of
    the inputs and the effect of the two signals as parameters.  Numbers
    are modelled as for the cache, by the integers they hold; a variable
    that was never set is [undefined] ([None]).  The recursion is bounded by
    [fuel], the depth the stack allows: [None] is a run that did not
    return. *)

Section ForLoopBlock.

(** What the flow graph holds besides the block. *)
Context {Graph : Type}.

Record FlowGraphContext := {
  _executionVariables : gmap string JS.num;   (* of the block, by name *)
  index_value : option JS.num;                (* this.index.value *)
  graph : Graph;
}.

#[local] Instance upd__executionVariables : Setter _executionVariables :=
  ltac:(setter FlowGraphContext (gmap string JS.num) _executionVariables).
#[local] Instance upd_index_value : Setter index_value :=
  ltac:(setter FlowGraphContext (option JS.num) index_value).

(** The connections of the block: [getValue] of the three inputs, and
    [_activateSignal] of the two signals, which runs the blocks connected to
    the signal. *)
Class Connections := {
  startIndex_getValue : FlowGraphContext -> JS.num;
  endIndex_getValue : FlowGraphContext -> JS.num;
  step_getValue : FlowGraphContext -> JS.num;
  onLoop_activateSignal : FlowGraphContext -> FlowGraphContext;
  onDone_activateSignal : FlowGraphContext -> FlowGraphContext;
}.

Context {connections : Connections}.

Definition _getExecutionVariable (name : string) (context : FlowGraphContext) : option JS.num :=
  _executionVariables context !! name.

Definition _setExecutionVariable (name : string) (value : JS.num) (context : FlowGraphContext)
    : FlowGraphContext :=
  context {{ _executionVariables := <[name := value]> (_executionVariables context) }}.

(** [a < b]: false when an operand is [undefined] or [NaN]. *)
Definition less_than (a b : option JS.num) : bool :=
  match a, b with
  | Some (JS.Fin x), Some (JS.Fin y) => x <? y
  | _, _ => false
  end.

(** [ToNumber] of a variable: [undefined] is [NaN]. *)
Definition number_of (a : option JS.num) : JS.num := default JS.NaN a.

Fixpoint _executeLoop (fuel : nat) (context : FlowGraphContext) : option FlowGraphContext :=
  match fuel with
  | O => None
  | S fuel =>
      let index := _getExecutionVariable "index" context in
      let endIndex := _getExecutionVariable "endIndex" context in
      if less_than index endIndex then
        let context := context {{ index_value := index }} in
        let context := onLoop_activateSignal context in
        let step := _getExecutionVariable "step" context in
        let index := JS.add (number_of index) (number_of step) in
        let context := _setExecutionVariable "index" index context in
        _executeLoop fuel context
      else Some (onDone_activateSignal context)
  end.

Definition _execute (fuel : nat) (context : FlowGraphContext) : option FlowGraphContext :=
  let index := startIndex_getValue context in
  let endIndex := endIndex_getValue context in
  let step := step_getValue context in
  let context := _setExecutionVariable "index" index context in
  let context := _setExecutionVariable "endIndex" endIndex context in
  let context := _setExecutionVariable "step" step context in
  _executeLoop fuel context.

(** The blocks [onLoop] runs leave the execution variables of the loop
    block as they are. *)
Definition onLoop_keeps_variables : Prop :=
  forall context : FlowGraphContext,
    _executionVariables (onLoop_activateSignal context) = _executionVariables context.

(** The context as [_execute] hands it to [_executeLoop]. *)
Definition started (context : FlowGraphContext) : FlowGraphContext :=
  _setExecutionVariable "step" (step_getValue context)
    (_setExecutionVariable "endIndex" (endIndex_getValue context)
       (_setExecutionVariable "index" (startIndex_getValue context) context)).

(** One round of the loop at the index [i], for the step [k]: the output
    [index] gets [i], the blocks of [onLoop] run, and the variable [index]
    becomes [i + k]. *)
Definition loop_round (k : Z) (context : FlowGraphContext) (i : Z)
    : FlowGraphContext :=
  _setExecutionVariable "index" (JS.Fin (i + k))
    (onLoop_activateSignal (context {{ index_value := Some (JS.Fin i) }})).

(** The number of indices [s], [s + k], ... below [e], and these indices. *)
Definition loop_count (s e k : Z) : nat :=
  if e <=? s then 0%nat else Z.to_nat ((e - s + k - 1) / k).

Fixpoint loop_indices (n : nat) (s k : Z) : list Z :=
  match n with
  | O => []
  | S n => s :: loop_indices n (s + k) k
  end.

(** The indices, the end index and the sums the loop forms are integers a
    double holds exactly. *)
Definition safe_range (s e k : Z) : Prop :=
  - 2 ^ 53 < s /\ - 2 ^ 53 < e <= 2 ^ 53 /\ e + k <= 2 ^ 53.

End ForLoopBlock.

Arguments FlowGraphContext : clear implicits.
Arguments Connections : clear implicits.

(** ** A concrete engine, for runs of the model *)

(** The values the engine gives its constants. *)
#[local] Instance babylon_constants : EngineConstants := {|
  MATERIAL_TriangleFillMode := 0;
  MATERIAL_WireFrameFillMode := 1;
  MATERIAL_PointFillMode := 2;
  MATERIAL_PointListDrawMode := 3;
  MATERIAL_LineListDrawMode := 4;
  MATERIAL_LineLoopDrawMode := 5;
  MATERIAL_LineStripDrawMode := 6;
  MATERIAL_TriangleStripDrawMode := 7;
  MATERIAL_TriangleFanDrawMode := 8;
  ALWAYS := 0x0207;
  KEEP := 0x1e00;
  REPLACE := 0x1e01;
  GL_ALPHA_EQUATION_ADD := 0x8006;
  GL_ALPHA_EQUATION_SUBTRACT := 0x800a;
  GL_ALPHA_EQUATION_REVERSE_SUBTRACT := 0x800b;
  GL_ALPHA_EQUATION_MIN := 0x8007;
  GL_ALPHA_EQUATION_MAX := 0x8008;
  GL_ALPHA_FUNCTION_SRC := 0x0300;
  GL_ALPHA_FUNCTION_ONE_MINUS_SRC_COLOR := 0x0301;
  GL_ALPHA_FUNCTION_SRC_ALPHA := 0x0302;
  GL_ALPHA_FUNCTION_ONE_MINUS_SRC_ALPHA := 0x0303;
  GL_ALPHA_FUNCTION_DST_ALPHA := 0x0304;
  GL_ALPHA_FUNCTION_ONE_MINUS_DST_ALPHA := 0x0305;
  GL_ALPHA_FUNCTION_DST_COLOR := 0x0306;
  GL_ALPHA_FUNCTION_ONE_MINUS_DST_COLOR := 0x0307;
  GL_ALPHA_FUNCTION_SRC_ALPHA_SATURATED := 0x0308;
  GL_ALPHA_FUNCTION_CONSTANT_COLOR := 0x8001;
  GL_ALPHA_FUNCTION_CONSTANT_ALPHA := 0x8003;
  GL_ALPHA_FUNCTION_ONE_MINUS_CONSTANT_COLOR := 0x8002;
  GL_ALPHA_FUNCTION_ONE_MINUS_CONSTANT_ALPHA := 0x8004;
  GL_ALPHA_FUNCTION_SRC1_COLOR := 0x88f9;
  GL_ALPHA_FUNCTION_ONE_MINUS_SRC1_COLOR := 0x88fa;
  GL_ALPHA_FUNCTION_SRC1_ALPHA := 0x8589;
  GL_ALPHA_FUNCTION_ONE_MINUS_SRC1_ALPHA := 0x88fb;
  VertexBuffer_BYTE := 5120;
  VertexBuffer_UNSIGNED_BYTE := 5121;
  VertexBuffer_SHORT := 5122;
  VertexBuffer_UNSIGNED_SHORT := 5123;
  VertexBuffer_INT := 5124;
  VertexBuffer_UNSIGNED_INT := 5125;
  VertexBuffer_FLOAT := 5126;
  TextureFormat_BGRA8Unorm := "bgra8unorm";
  TextureFormat_Depth24PlusStencil8 := "depth24plus-stencil8";
|}.

(** A device for the runs: every format has index 1 but the empty one,
    which has index 0, and the block-compressed ones ([bc...]), which are
    not renderable and missing from the table; sample counts are 1 or 4, the formats with a stencil aspect are the
    three WebGPU has, and the [n]-th call of [createRenderPipeline]
    answers the handle [n], or throws when [accepts] is false. *)
Definition sample_engine (accepts : bool) : Engine := {|
  renderableTextureFormatToIndex := fun format =>
    if String.prefix "bc" format then None
    else match format with EmptyString => Some 0 | _ => Some 1 end;
  GetSample := fun sampleCount => if 1 <? sampleCount then 4 else 1;
  HasStencilAspect := fun format =>
    bool_decide (format = "stencil8"%string)
    || bool_decide (format = "depth24plus-stencil8"%string)
    || bool_decide (format = "depth32float-stencil8"%string);
  maxVertexBufferArrayStride := 2048;
  createRenderPipeline := fun log _ =>
    if accepts then inr (length log) else inl (DeviceError "validation error");
  _createPipelineLayout := fun _ _ => 0%nat;
|}.

(** Modelled from the spec: the lookup strategy "hash map keyed by the full
    state vector" (its file is not among the sources).  The key is the state
    vector up to [_statesLength]; the token is the key. *)
#[local] Instance indexed_types : LookupTypes := {|
  Token := list (option JS.num);
  Store := list (list (option JS.num) * GPURenderPipeline);
|}.

Fixpoint indexed_lookup (key : list (option JS.num))
    (entries : list (list (option JS.num) * GPURenderPipeline)) : option GPURenderPipeline :=
  match entries with
  | [] => None
  | (k, p) :: entries' => if decide (k = key) then Some p else indexed_lookup key entries'
  end.

#[local] Instance indexed_strategy : Strategy := {|
  _getRenderPipeline := fun this entries =>
    let key := take (_statesLength this) (_states this) in
    ({| token := Some key; pipeline := indexed_lookup key entries |}, entries);
  _setRenderPipeline := fun this entries =>
    match token (_parameter this), pipeline (_parameter this) with
    | Some key, Some p => (key, p) :: entries
    | _, _ => entries
    end;
|}.

(** The vertex buffer the engine binds when an attribute has none. *)
Definition emptyVertexBuffer : VertexBuffer := {|
  uid := 0;
  type := 5126;
  normalized := false;
  getSize := 4;
  getSize_bytes := 16;
  effectiveByteOffset := 0;
  effectiveByteStride := 16;
  underlyingResource := Some 0%nat;
  hashCode := 0;
  getIsInstanced := false;
  getKind := "empty";
|}.

(** An effect without attributes. *)
Definition plain_effect : Effect := {|
  uniqueId := 1;
  attributeNamesFromEffect := [];
  attributeLocationsFromEffect := [];
  vertexStage := {| shader_module := 0; entryPoint := "main" |};
  fragmentStage := Some {| shader_module := 1; entryPoint := "main" |};
|}.

(** The world of a cache just constructed. *)
Definition new_world `{EngineConstants} `{Engine} `{LookupTypes} (entries : Store) : World := {|
  cache := snd (constructor emptyVertexBuffer);
  _validOffsetRange := ∅;
  store := entries;
  device_log := [];
  NumCacheHitWithoutHash := 0;
  NumCacheHitWithHash := 0;
  NumCacheMiss := 0;
  NumPipelineCreationLastFrame := 0;
  _NumPipelineCreationCurrentFrame := 0;
|}.

(** *** Inputs of the runs *)

Definition accepting_device : Engine := sample_engine true.
Definition rejecting_device : Engine := sample_engine false.

(** A cache just constructed, on a device that accepts every pipeline and
    on one that refuses every pipeline. *)
Definition first_world : World :=
  @new_world babylon_constants accepting_device indexed_types [].
Definition refused_world : World :=
  @new_world babylon_constants rejecting_device indexed_types [].

(** The four color states of an object. *)
Definition color_state_slots (this : WebGPUCacheRenderPipeline) : list (option JS.num) :=
  map (fun k => JS.array_get (StatePosition.ColorStates1 + k) (_states this)) [0; 1; 2; 3]%nat.

(** Two render targets with the default blend factors and equations:
    blending on the first target only, and on the second target only. *)
Definition blend_on_first_target : WebGPUCacheRenderPipeline :=
  setAlphaBlendFactors (replicate 8 None) (replicate 4 None)
    (setAlphaBlendEnabled [true; false] 1 (cache first_world)).
Definition blend_on_second_target : WebGPUCacheRenderPipeline :=
  setAlphaBlendFactors (replicate 8 None) (replicate 4 None)
    (setAlphaBlendEnabled [false; true] 1 (cache first_world)).

(** One render target, write mask [0xf], blending with the source color
    factor [SRC_COLOR] (0x0300), and with [ONE_MINUS_SRC_COLOR] (0x0301). *)
Definition blend_src_color : WebGPUCacheRenderPipeline :=
  setAlphaBlendFactors [Some 0x0300; None; None; None] [None; None]
    (setAlphaBlendEnabled [true] 1 (cache first_world)).
Definition blend_one_minus_src_color : WebGPUCacheRenderPipeline :=
  setAlphaBlendFactors [Some 0x0301; None; None; None] [None; None]
    (setAlphaBlendEnabled [true] 1 (cache first_world)).

(** Two vertex buffers interleaved in one GPU buffer, and one in a GPU
    buffer of its own. *)
Definition position_buffer : VertexBuffer := {|
  uid := 1;
  type := 5126;
  normalized := false;
  getSize := 3;
  getSize_bytes := 12;
  effectiveByteOffset := 0;
  effectiveByteStride := 24;
  underlyingResource := Some 7%nat;
  hashCode := 11;
  getIsInstanced := false;
  getKind := "position";
|}.

Definition normal_buffer : VertexBuffer := {|
  uid := 2;
  type := 5126;
  normalized := false;
  getSize := 3;
  getSize_bytes := 12;
  effectiveByteOffset := 12;
  effectiveByteStride := 24;
  underlyingResource := Some 7%nat;
  hashCode := 12;
  getIsInstanced := false;
  getKind := "normal";
|}.

Definition uv_buffer : VertexBuffer := {|
  uid := 3;
  type := 5126;
  normalized := false;
  getSize := 2;
  getSize_bytes := 8;
  effectiveByteOffset := 0;
  effectiveByteStride := 8;
  underlyingResource := Some 9%nat;
  hashCode := 13;
  getIsInstanced := false;
  getKind := "uv";
|}.

(** A vertex buffer in the GPU buffer of [position] and [normal] whose
    offset is out of range: 16 + 12 bytes exceed the stride of 24. *)
Definition tangent_buffer : VertexBuffer := {|
  uid := 4;
  type := 5126;
  normalized := false;
  getSize := 3;
  getSize_bytes := 12;
  effectiveByteOffset := 16;
  effectiveByteStride := 24;
  underlyingResource := Some 7%nat;
  hashCode := 14;
  getIsInstanced := false;
  getKind := "tangent";
|}.

(** An effect with the attributes [position] and [normal], one with
    [position] and [uv], and one with [tangent] and [normal]. *)
Definition lit_effect : Effect := {|
  uniqueId := 2;
  attributeNamesFromEffect := ["position"; "normal"];
  attributeLocationsFromEffect := [0; 1];
  vertexStage := {| shader_module := 2; entryPoint := "main" |};
  fragmentStage := Some {| shader_module := 3; entryPoint := "main" |};
|}.

Definition textured_effect : Effect := {|
  uniqueId := 3;
  attributeNamesFromEffect := ["position"; "uv"];
  attributeLocationsFromEffect := [0; 1];
  vertexStage := {| shader_module := 4; entryPoint := "main" |};
  fragmentStage := Some {| shader_module := 5; entryPoint := "main" |};
|}.

Definition bumped_effect : Effect := {|
  uniqueId := 4;
  attributeNamesFromEffect := ["tangent"; "normal"];
  attributeLocationsFromEffect := [0; 1];
  vertexStage := {| shader_module := 6; entryPoint := "main" |};
  fragmentStage := Some {| shader_module := 7; entryPoint := "main" |};
|}.

(** The world of a cache with the four vertex buffers bound, after
    [_setVertexState] ran for [effect]. *)
Definition bound_world (effect : Effect) : World :=
  snd (_setVertexState effect
         (first_world {{ cache :=
            setBuffers (Some {[ "position" := Some position_buffer;
                                "normal" := Some normal_buffer;
                                "uv" := Some uv_buffer;
                                "tangent" := Some tangent_buffer ]})
              None None (cache first_world) }})).

(** The world of a cache with a depth format without stencil aspect and
    the stencil test enabled. *)
Definition depth_only_world : World :=
  first_world {{ cache := setStencilEnabled true
                            (setDepthStencilFormat (engine := accepting_device) (Some "depth24plus")
                               (cache first_world)) }}.

(** The world after the first resolution on a cache just constructed. *)
Definition resolved_world : World :=
  snd (getRenderPipeline (engine := accepting_device) 0 plain_effect 1 0 first_world).

(** The world of a cache just constructed on which blending is enabled for
    the first target with no equation given: [setAlphaBlendFactors] gets an
    empty array of operations. *)
Definition blend_without_equation_world : World :=
  first_world {{ cache := setAlphaBlendFactors [None; None; None; None] []
                            (setAlphaBlendEnabled [true] 1 (cache first_world)) }}.

(** The world of a cache just constructed and then disabled. *)
Definition disabled_world : World :=
  first_world {{ cache := (cache first_world) {{ disabled := true }} }}.

(** A multi render target of two attachments, the second one without
    hardware texture, and the cache set to it. *)
Definition mrt_textures : list InternalTexture :=
  [ {| _hardwareTexture := Some {| texture_format := "rgba8unorm" |} |};
    {| _hardwareTexture := None |} ].
Definition mrt_cache : WebGPUCacheRenderPipeline :=
  snd (setMRT (engine := accepting_device) mrt_textures None (cache first_world)).

(** The world of a cache with the four vertex buffers bound. *)
Definition buffers_world : World :=
  first_world {{ cache :=
    setBuffers (Some {[ "position" := Some position_buffer;
                        "normal" := Some normal_buffer;
                        "uv" := Some uv_buffer;
                        "tangent" := Some tangent_buffer ]})
      None None (cache first_world) }}.

(** A loop block whose inputs are constants and whose signals are
    recorded: the blocks of [onLoop] note the index they see (-2 when there
    is none), the blocks of [onDone] note -1. *)
Definition recording_connections (s e k : Z) : Connections (list Z) := {|
  startIndex_getValue := fun _ => JS.Fin s;
  endIndex_getValue := fun _ => JS.Fin e;
  step_getValue := fun _ => JS.Fin k;
  onLoop_activateSignal := fun context =>
    {| _executionVariables := _executionVariables context;
       index_value := index_value context;
       graph := graph context
                ++ [match index_value context with Some (JS.Fin i) => i | _ => -2 end] |};
  onDone_activateSignal := fun context =>
    {| _executionVariables := _executionVariables context;
       index_value := index_value context;
       graph := graph context ++ [-1] |};
|}.

(** A context in which the block has not run yet. *)
Definition fresh_context : FlowGraphContext (list Z) :=
  {| _executionVariables := ∅; index_value := None; graph := [] |}.

(** * Properties *)

Section Properties.

Context {constants : EngineConstants} {engine : Engine} {types : LookupTypes}
        {strategy : Strategy}.

(** The field updaters of the object, for the statements below. *)
#[local] Existing Instances
  upd_disabled upd__states upd__statesLength upd__stateDirtyLowestIndex
  upd_lastStateDirtyLowestIndex upd__isDirty upd__emptyVertexBuffer upd__parameter
  upd__kMaxVertexBufferStride upd__shaderId upd__alphaToCoverageEnabled upd__frontFace
  upd__cullEnabled upd__cullFace upd__clampDepth upd__rasterizationState upd__depthBias
  upd__depthBiasClamp upd__depthBiasSlopeScale upd__colorFormat upd__webgpuColorFormat
  upd__mrtAttachments upd__mrtFormats upd__mrtEnabledMask upd__alphaBlendEnabled
  upd__numAlphaBlendTargetsEnabled upd__alphaBlendFuncParams upd__alphaBlendEqParams
  upd__writeMask upd__depthStencilFormat upd__webgpuDepthStencilFormat
  upd__depthTestEnabled upd__depthWriteEnabled upd__depthCompare upd__stencilEnabled
  upd__stencilFrontCompare upd__stencilFrontDepthFailOp upd__stencilFrontPassOp
  upd__stencilFrontFailOp upd__stencilBackCompare upd__stencilBackDepthFailOp
  upd__stencilBackPassOp upd__stencilBackFailOp upd__stencilReadMask
  upd__stencilWriteMask upd__depthStencilState upd__vertexBuffers
  upd__overrideVertexBuffers upd__textureState upd__useTextureStage upd_vertexBuffers
  upd_indexBuffer upd_mrtAttachments upd_mrtTextureArray upd_mrtTextureCount
  upd_pipeline.

(** The functions of the model are unfolded by name only. *)
Arguments _setShaderStage : simpl never.
Arguments _setRasterizationState : simpl never.
Arguments _setColorStates : simpl never.
Arguments _setDepthStencilState : simpl never.
Arguments _setVertexState : simpl never.
Arguments _setTextureState : simpl never.
Arguments prepare : simpl never.
Arguments looked_up : simpl never.
Arguments memo_hit : simpl never.
Arguments adopt : simpl never.
Arguments _GetTopology : simpl never.
Arguments _createRenderPipeline : simpl never.
Arguments _getVertexInputDescriptor : simpl never.
Arguments _getVertexInputDescriptor_step : simpl never.
Arguments _GetVertexInputDescriptorFormat : simpl never.
Arguments render_pipeline_descriptor : simpl never.
Arguments getRenderPipeline : simpl never.
Arguments bound_vertex_buffer : simpl never.
Arguments blend_target_bits : simpl never.
Arguments colorStates_init : simpl never.
Arguments rasterizationState_of : simpl never.
Arguments depthStencilState_of : simpl never.
Arguments stencilState_of : simpl never.
Arguments JS.plus : simpl never.
Arguments JS.minus : simpl never.
Arguments JS.array_set : simpl never.
Arguments JS.array_get : simpl never.
Arguments JS.array_resize : simpl never.
Arguments JS.strict_neq : simpl never.
Arguments JS.shl : simpl never.

(** The rasterization slot as the specification words it. *)
Definition rasterization_slot_as_specified (topology sampleCount : Z)
    (this : WebGPUCacheRenderPipeline) : Z :=
  let frontFace := _frontFace this in
  let cullMode := if _cullEnabled this then _cullFace this else 0 in
  let clampDepth := if _clampDepth this then 1 else 0 in
  let alphaToCoverage := if _alphaToCoverageEnabled this then 1 else 0 in
  frontFace + JS.shl cullMode 1 + JS.shl clampDepth 3 + JS.shl alphaToCoverage 4
  + JS.shl topology 5 + JS.shl sampleCount 8.



(** ** Notions of the statements *)

(** The slot and the field [_rasterizationState] move together. *)
Definition rasterization_in_sync (this : WebGPUCacheRenderPipeline) : Prop :=
  JS.array_get StatePosition.RasterizationState (_states this)
  = JS.Fin <$> _rasterizationState this.

(** The configuration of the object: the object without what the packers
    and the resolver write (the state vector and its bookkeeping, the
    memoized values of the packers, the list of vertex buffers, the memo). *)
Definition config_of (this : WebGPUCacheRenderPipeline) : WebGPUCacheRenderPipeline :=
  this {{ _states := [];
          _statesLength := 0%nat;
          _stateDirtyLowestIndex := 0%nat;
          lastStateDirtyLowestIndex := None;
          _isDirty := false;
          _parameter := {| token := None; pipeline := None |};
          _shaderId := None;
          _rasterizationState := None;
          _depthStencilState := None;
          _textureState := None;
          vertexBuffers := [] }}.

(** The static counters of the class. *)
Definition counters (w : World) :=
  (NumCacheHitWithoutHash w, NumCacheHitWithHash w, NumCacheMiss w,
   NumPipelineCreationLastFrame w, _NumPipelineCreationCurrentFrame w).

(** The world outside the object and the memo of the vertex buffers. *)
Definition outside (w : World) := (store w, device_log w, counters w).

(** The object without what the two loops write. *)
Definition untracked (this : WebGPUCacheRenderPipeline) : WebGPUCacheRenderPipeline :=
  this {{ _states := [];
          _statesLength := 0%nat;
          _stateDirtyLowestIndex := 0%nat;
          _isDirty := false;
          vertexBuffers := [] }}.

(** The structure of the strategy was at most looked up. *)
Definition looked_up_only (w w' : World) : Prop :=
  store w' = store w \/ exists this, store w' = snd (_getRenderPipeline this (store w)).

(** The memo after a resolution that ended in an exception: with the cache
    disabled it is the memo of before; with the cache enabled the strategy
    was asked and had no pipeline. *)
Definition memo_after_failure (w w' : World) : Prop :=
  if disabled (cache w) then _parameter (cache w') = _parameter (cache w)
  else pipeline (_parameter (cache w')) = None.

(** What a call of [getRenderPipeline] returns or throws, and the world it
    leaves, case by case. *)
Inductive outcome (fillMode : Z) (effect : Effect) (sampleCount textureState : Z) (w : World)
    : exn + GPURenderPipeline -> World -> Prop :=
| unsupported_fill_mode e w' :
    _GetTopology fillMode = inl e ->
    config_of (cache w') = config_of (cache w) ->
    device_log w' = device_log w ->
    counters w' = counters w ->
    looked_up_only w w' ->
    memo_after_failure w w' ->
    outcome fillMode effect sampleCount textureState w (inl e) w'
| vertex_state_thrown e w' :
    e = TypeError ->
    config_of (cache w') = config_of (cache w) ->
    device_log w' = device_log w ->
    counters w' = counters w ->
    store w' = store w ->
    _parameter (cache w') = _parameter (cache w) ->
    outcome fillMode effect sampleCount textureState w (inl e) w'
| answered_by_memo cached w' :
    disabled (cache w) = false ->
    pipeline (_parameter (cache w)) = Some cached ->
    _parameter (cache w') = _parameter (cache w) ->
    config_of (cache w') = config_of (cache w) ->
    device_log w' = device_log w ->
    store w' = store w ->
    counters w' = (NumCacheHitWithoutHash w + 1, NumCacheHitWithHash w, NumCacheMiss w,
                   NumPipelineCreationLastFrame w, _NumPipelineCreationCurrentFrame w) ->
    outcome fillMode effect sampleCount textureState w (inr cached) w'
| answered_by_lookup found this w' :
    disabled (cache w) = false ->
    pipeline (fst (_getRenderPipeline this (store w))) = Some found ->
    _parameter (cache w') = fst (_getRenderPipeline this (store w)) ->
    store w' = snd (_getRenderPipeline this (store w)) ->
    config_of (cache w') = config_of (cache w) ->
    device_log w' = device_log w ->
    counters w' = (NumCacheHitWithoutHash w, NumCacheHitWithHash w + 1, NumCacheMiss w,
                   NumPipelineCreationLastFrame w, _NumPipelineCreationCurrentFrame w) ->
    outcome fillMode effect sampleCount textureState w (inr found) w'
| vertex_layout_thrown topology e w' :
    _GetTopology fillMode = inr topology ->
    (e = TypeError \/ exists kind ty norm size, e = InvalidFormat kind ty norm size) ->
    config_of (cache w') = config_of (cache w) ->
    device_log w' = device_log w ->
    counters w' = counters w ->
    looked_up_only w w' ->
    memo_after_failure w w' ->
    outcome fillMode effect sampleCount textureState w (inl e) w'
| device_thrown topology layouts this e w' :
    _GetTopology fillMode = inr topology ->
    config_of this = config_of (cache w) ->
    _textureState this = Some textureState ->
    device_log w'
    = render_pipeline_descriptor effect topology (GetSample sampleCount) layouts this
      :: device_log w ->
    createRenderPipeline (device_log w)
      (render_pipeline_descriptor effect topology (GetSample sampleCount) layouts this)
    = inl e ->
    config_of (cache w') = config_of (cache w) ->
    counters w' = counters w ->
    looked_up_only w w' ->
    memo_after_failure w w' ->
    outcome fillMode effect sampleCount textureState w (inl e) w'
| device_created topology layouts this created w' :
    _GetTopology fillMode = inr topology ->
    config_of this = config_of (cache w) ->
    _textureState this = Some textureState ->
    device_log w'
    = render_pipeline_descriptor effect topology (GetSample sampleCount) layouts this
      :: device_log w ->
    createRenderPipeline (device_log w)
      (render_pipeline_descriptor effect topology (GetSample sampleCount) layouts this)
    = inr created ->
    config_of (cache w') = config_of (cache w) ->
    counters w' = (NumCacheHitWithoutHash w, NumCacheHitWithHash w, NumCacheMiss w + 1,
                   NumPipelineCreationLastFrame w, _NumPipelineCreationCurrentFrame w + 1) ->
    pipeline (_parameter (cache w')) = Some created ->
    outcome fillMode effect sampleCount textureState w (inr created) w'.

(** The error [_GetTopology] throws for a draw mode WebGPU has no topology
    for. *)
Definition unsupported_fill_mode_error (fillMode : Z) : exn :=
  if fillMode =? MATERIAL_LineLoopDrawMode
  then Throw "LineLoop is an unsupported fillmode in WebGPU"
  else Throw "TriangleFan is an unsupported fillmode in WebGPU".

(** Looking a pipeline up does not change what later lookups answer. *)
Definition lookup_is_pure : Prop :=
  forall (this this' : WebGPUCacheRenderPipeline) (st : Store),
    pipeline (fst (_getRenderPipeline this' (snd (_getRenderPipeline this st))))
    = pipeline (fst (_getRenderPipeline this' st)).

(** A layout with more attributes at its end. *)
Definition extend_layout (layout : GPUVertexBufferLayout) (more : list GPUVertexAttribute)
    : GPUVertexBufferLayout :=
  {| arrayStride := arrayStride layout;
     stepMode := stepMode layout;
     attributes := attributes layout ++ more |}.

(** The rounds of the loop of [_getVertexInputDescriptor] over the first
    attributes. *)
Fixpoint _getVertexInputDescriptor_steps (w : World) (names : list string) (locations : list Z)
    (index : nat) (acc : list GPUVertexBufferLayout * option GPUBuffer)
    : exn + (list GPUVertexBufferLayout * option GPUBuffer) :=
  match names with
  | [] => inr acc
  | name :: names' =>
      match _getVertexInputDescriptor_step w name (locations !! index) acc with
      | inl e => inl e
      | inr acc => _getVertexInputDescriptor_steps w names' locations (S index) acc
      end
  end.

(** The number of attributes in a list of layouts. *)
Definition attribute_count (layouts : list GPUVertexBufferLayout) : nat :=
  length (concat (attributes <$> layouts)).

(** The range check of [_setVertexState], in the words of the
    specification. *)
Definition offset_in_valid_range (this : WebGPUCacheRenderPipeline) (vertexBuffer : VertexBuffer)
    : Prop :=
  if effectiveByteStride vertexBuffer =? 0
  then effectiveByteOffset vertexBuffer + getSize_bytes vertexBuffer
       <= _kMaxVertexBufferStride this
  else effectiveByteOffset vertexBuffer + getSize_bytes vertexBuffer
       <= effectiveByteStride vertexBuffer.

(** The memo of a vertex buffer holds its range check. *)
Definition range_checked (w : World) (vertexBuffer : VertexBuffer) : Prop :=
  _validOffsetRange w !! uid vertexBuffer = Some (validOffsetRange_of (cache w) vertexBuffer).

(** The object without what the resolver writes after the packers: the
    memo, the dirty flag and the dirty indices. *)
Definition settled_of (this : WebGPUCacheRenderPipeline) : WebGPUCacheRenderPipeline :=
  this {{ _parameter := {| token := None; pipeline := None |};
          _isDirty := false;
          _stateDirtyLowestIndex := 0%nat;
          lastStateDirtyLowestIndex := None }}.

(** No color state of the object is [NaN]. *)
Definition color_states_are_numbers (this : WebGPUCacheRenderPipeline) : Prop :=
  forall k, (k < 4)%nat ->
    JS.array_get (StatePosition.ColorStates1 + k) (_states this) <> Some JS.NaN.

(** No packed state of the object is [NaN]: neither a color state nor the
    depth-stencil state. *)
Definition packed_states_are_numbers (this : WebGPUCacheRenderPipeline) : Prop :=
  color_states_are_numbers this
  /\ JS.array_get StatePosition.DepthStencilState (_states this) <> Some JS.NaN.

(** [getRenderPipeline] with the cache enabled, past the test of the fast
    path: the lookup, then the creation. *)
Definition resolve (fillMode : Z) (effect : Effect) (sampleCount : Z) (w : World)
    : (exn + GPURenderPipeline) * World :=
  let w := looked_up w in
  match pipeline (_parameter (cache w)) with
  | Some found => (inr found, w {{ NumCacheHitWithHash := NumCacheHitWithHash w + 1 }})
  | None =>
      match _GetTopology fillMode with
      | inl e => (inl e, w)
      | inr topology =>
          match _createRenderPipeline effect topology sampleCount w with
          | (inl e, w) => (inl e, w)
          | (inr created, w) => (inr created, adopt true created w)
          end
      end
  end.

Arguments resolve : simpl never.

(** The pipeline the cache holds for the state the packers left: the one of
    the memo when the object is not dirty, the one the lookup strategy
    finds otherwise. *)
Definition cached_pipeline (w : World) : option GPURenderPipeline :=
  match negb (_isDirty (cache w)), pipeline (_parameter (cache w)) with
  | true, Some cached => Some cached
  | _, _ => pipeline (fst (_getRenderPipeline (cache w) (store w)))
  end.

(** What happens between two calls of [endFrame]: calls of
    [getRenderPipeline], and changes of the object by its setters. *)
Inductive frame_step (w : World) : World -> Prop :=
| frame_resolves fillMode effect sampleCount textureState :
    frame_step w (snd (getRenderPipeline fillMode effect sampleCount textureState w))
| frame_sets this :
    frame_step w (w {{ cache := this }}).

(** A packer may lower the lowest dirty index, and leaves the slots below
    it as they were. *)
Definition keeps_below_dirty_index (this this' : WebGPUCacheRenderPipeline) : Prop :=
  (_stateDirtyLowestIndex this' <= _stateDirtyLowestIndex this)%nat
  /\ forall j, (j < _stateDirtyLowestIndex this')%nat ->
               JS.array_get j (_states this') = JS.array_get j (_states this).





(** The attribute descriptors of a list of layouts, in order. *)
Definition layout_attributes (layouts : list GPUVertexBufferLayout) : list GPUVertexAttribute :=
  concat (attributes <$> layouts).

(** The attribute descriptor of one shader attribute: the location of the
    attribute, the format of its vertex buffer, and the byte offset of the
    buffer when it was found in range, 0 otherwise. *)
Definition attribute_of (w : World) (name : string) (location : option Z)
    : option GPUVertexAttribute :=
  match bound_vertex_buffer (cache w) name with
  | inr vertexBuffer =>
      match _GetVertexInputDescriptorFormat vertexBuffer with
      | inr format =>
          Some {| shaderLocation := location;
                  offset := if default false (_validOffsetRange w !! uid vertexBuffer)
                            then effectiveByteOffset vertexBuffer else 0;
                  format := format |}
      | inl _ => None
      end
  | inl _ => None
  end.

(** The values of the fields [_setRasterizationState] packs, as the engine
    sets them: a front face of 1 or 2, a cull face of 1 or 2 when culling
    is enabled, a fill mode that fits its 3 bits. *)
Definition rasterization_fields_in_range (fillMode sampleCount : Z)
    (this : WebGPUCacheRenderPipeline) : Prop :=
  (_frontFace this = 1 \/ _frontFace this = 2)
  /\ (_cullEnabled this = true -> _cullFace this = 1 \/ _cullFace this = 2)
  /\ 0 <= fillMode < 8
  /\ 0 <= sampleCount < 2 ^ 23.

(** A stencil operation as the setters store it: the index of an operation
    the table knows. *)
Definition stencil_op_in_range (op : option Z) : Prop :=
  exists index, op = Some index /\ 0 <= index < 8.

(** The values of the fields [_setDepthStencilState] packs, as the setters
    store them: a format index that fits 6 bits, comparison functions and
    stencil operations that fit 3 bits. *)
Definition depth_stencil_fields_in_range (this : WebGPUCacheRenderPipeline) : Prop :=
  (exists index, _depthStencilFormat this = Some index /\ 0 <= index < 64)
  /\ 0 <= _depthCompare this < 8
  /\ 0 <= _stencilFrontCompare this < 8
  /\ 0 <= _stencilBackCompare this < 8
  /\ stencil_op_in_range (_stencilFrontDepthFailOp this)
  /\ stencil_op_in_range (_stencilFrontPassOp this)
  /\ stencil_op_in_range (_stencilFrontFailOp this)
  /\ stencil_op_in_range (_stencilBackDepthFailOp this)
  /\ stencil_op_in_range (_stencilBackPassOp this)
  /\ stencil_op_in_range (_stencilBackFailOp this).

(** The mask of [setMRTAttachments]: one bit per attachment that is not 0. *)
Definition mrtEnabledMask_of (attachments : list Z) : Z :=
  fold_left (fun mask '(i, a) => if a =? 0 then mask else mask + JS.shl 1 (Z.of_nat i))
            (imap (fun i a => (i, a)) attachments) 0.

(** Whether the attachment at an index is there and is not 0. *)
Definition attachment_enabled (attachments : list Z) (i : nat) : bool :=
  match attachments !! i with
  | Some a => negb (a =? 0)
  | None => false
  end.

(** [gpuWrapper?.format ?? this._webgpuColorFormat[0]]: the format [setMRT]
    takes for the attachment at an index. *)
Definition mrt_format (textureArray : list InternalTexture)
    (webgpuColorFormat0 : option GPUTextureFormat) (i : nat) : option GPUTextureFormat :=
  match textureArray !! i ≫= _hardwareTexture with
  | Some wrapper => Some (texture_format wrapper)
  | None => webgpuColorFormat0
  end.

(** The fields a setter or a packer compares with the new value before it
    writes, each with the position of its slot in the state vector. *)
Definition tracked_fields : list (nat * (WebGPUCacheRenderPipeline -> option JS.num)) :=
  [ (StatePosition.StencilReadMask, fun this => JS.Fin <$> _stencilReadMask this);
    (StatePosition.StencilWriteMask, fun this => JS.Fin <$> _stencilWriteMask this);
    (StatePosition.DepthBias, fun this => JS.Fin <$> _depthBias this);
    (StatePosition.DepthBiasSlopeScale, fun this => JS.Fin <$> _depthBiasSlopeScale this);
    (StatePosition.DepthStencilState, _depthStencilState);
    (StatePosition.MRTAttachments, _mrtAttachments);
    (StatePosition.RasterizationState, fun this => JS.Fin <$> _rasterizationState this);
    (StatePosition.ShaderStage, fun this => JS.Fin <$> _shaderId this);
    (StatePosition.TextureStage, fun this => JS.Fin <$> _textureState this) ].

(** The slot of every tracked field holds the value of the field, and
    nothing as long as the field is undefined. *)
Definition slots_in_sync (this : WebGPUCacheRenderPipeline) : Prop :=
  forall position field, In (position, field) tracked_fields ->
    JS.array_get position (_states this) = field this.

(** The public methods that change the object alone. *)
Inductive setter_call (this : WebGPUCacheRenderPipeline) : WebGPUCacheRenderPipeline -> Prop :=
| call_reset : setter_call this (snd (reset this))
| call_setAlphaToCoverage enabled : setter_call this (setAlphaToCoverage enabled this)
| call_setFrontFace frontFace : setter_call this (setFrontFace frontFace this)
| call_setCullEnabled enabled : setter_call this (setCullEnabled enabled this)
| call_setCullFace cullFace : setter_call this (setCullFace cullFace this)
| call_setClampDepth clampDepth : setter_call this (setClampDepth clampDepth this)
| call_resetDepthCullingState : setter_call this (resetDepthCullingState this)
| call_setDepthCullingState cullEnabled frontFace cullFace zOffset zOffsetUnits
    depthTestEnabled depthWriteEnabled depthCompare :
    setter_call this
      (setDepthCullingState cullEnabled frontFace cullFace zOffset zOffsetUnits
         depthTestEnabled depthWriteEnabled depthCompare this)
| call_setDepthBias depthBias : setter_call this (setDepthBias depthBias this)
| call_setDepthBiasSlopeScale depthBiasSlopeScale :
    setter_call this (setDepthBiasSlopeScale depthBiasSlopeScale this)
| call_setColorFormat format : setter_call this (setColorFormat format this)
| call_setMRTAttachments attachments : setter_call this (setMRTAttachments attachments this)
| call_setMRT textureArray textureCount :
    setter_call this (snd (setMRT textureArray textureCount this))
| call_setAlphaBlendEnabled enabled numAlphaBlendTargetsEnabled :
    setter_call this (setAlphaBlendEnabled enabled numAlphaBlendTargetsEnabled this)
| call_setAlphaBlendFactors factors operations :
    setter_call this (setAlphaBlendFactors factors operations this)
| call_setWriteMask mask : setter_call this (setWriteMask mask this)
| call_setDepthStencilFormat format : setter_call this (setDepthStencilFormat format this)
| call_setDepthTestEnabled enabled : setter_call this (setDepthTestEnabled enabled this)
| call_setDepthWriteEnabled enabled : setter_call this (setDepthWriteEnabled enabled this)
| call_setDepthCompare func : setter_call this (setDepthCompare func this)
| call_setStencilEnabled enabled : setter_call this (setStencilEnabled enabled this)
| call_setStencilCompare func : setter_call this (setStencilCompare func this)
| call_setStencilDepthFailOp op : setter_call this (setStencilDepthFailOp op this)
| call_setStencilPassOp op : setter_call this (setStencilPassOp op this)
| call_setStencilFailOp op : setter_call this (setStencilFailOp op this)
| call_setStencilBackCompare func : setter_call this (setStencilBackCompare func this)
| call_setStencilBackDepthFailOp op : setter_call this (setStencilBackDepthFailOp op this)
| call_setStencilBackPassOp op : setter_call this (setStencilBackPassOp op this)
| call_setStencilBackFailOp op : setter_call this (setStencilBackFailOp op this)
| call_setStencilReadMask mask : setter_call this (setStencilReadMask mask this)
| call_setStencilWriteMask mask : setter_call this (setStencilWriteMask mask this)
| call_resetStencilState : setter_call this (resetStencilState this)
| call_setStencilState stencilEnabled compare depthFailOp passOp failOp readMask writeMask
    backCompare backDepthFailOp backPassOp backFailOp :
    setter_call this
      (setStencilState stencilEnabled compare depthFailOp passOp failOp readMask writeMask
         backCompare backDepthFailOp backPassOp backFailOp this)
| call_setBuffers vertexBuffers indexBuffer overrideVertexBuffers :
    setter_call this (setBuffers vertexBuffers indexBuffer overrideVertexBuffers this).

(** A call of a public method of the cache. *)
Inductive method_call (w : World) : World -> Prop :=
| calls_setter this' :
    setter_call (cache w) this' -> method_call w (w {{ cache := this' }})
| calls_getRenderPipeline fillMode effect sampleCount textureState :
    method_call w (snd (getRenderPipeline fillMode effect sampleCount textureState w))
| calls_endFrame : method_call w (endFrame w).

(** What the resolver and the setters that only store leave alone. *)
Definition tracked_view (this : WebGPUCacheRenderPipeline) :=
  (_states this, map (fun entry => snd entry this) tracked_fields).

(** The values of the tracked fields. *)
Definition fields_of (this : WebGPUCacheRenderPipeline) : list (option JS.num) :=
  map (fun entry => snd entry this) tracked_fields.

(** The 6-bit indices of [count] formats, packed as [setMRT] packs them:
    [NaN] once a format has no index. *)
Fixpoint packed_indices (index : nat -> option Z) (count : nat) : JS.num :=
  match count with
  | O => JS.Fin 0
  | S n => JS.add (packed_indices index n)
                  (JS.mul (JS.to_number (index n)) (JS.Fin (2 ^ (6 * Z.of_nat n))))
  end.

(** The numbers the packers put in the key for the formats are the entries
    of the table for the formats the descriptor is built from: the color
    format, the depth-stencil format (0 when there is none), the formats of
    a multi render target. *)
Definition format_indices_in_step (this : WebGPUCacheRenderPipeline) : Prop :=
  length (_webgpuColorFormat this) = 1%nat
  /\ _colorFormat this
     = renderableTextureFormatToIndex
         (default EmptyString (mjoin (_webgpuColorFormat this !! 0%nat)))
  /\ _depthStencilFormat this
     = match _webgpuDepthStencilFormat this with
       | None => Some 0
       | Some format => renderableTextureFormatToIndex format
       end
  /\ _mrtAttachments this
     = Some (packed_indices
               (fun i => renderableTextureFormatToIndex
                           (default EmptyString (mjoin (_mrtFormats this !! i))))
               (length (_mrtFormats this))).

(** The fields [format_indices_in_step] reads. *)
Definition format_view (this : WebGPUCacheRenderPipeline) :=
  (_webgpuColorFormat this, _colorFormat this, _webgpuDepthStencilFormat this,
   _depthStencilFormat this, _mrtFormats this, _mrtAttachments this).

(** ** Arrays *)

Lemma array_get_set_eq {A} (i : nat) (v : A) (a : list (option A)) :
  JS.array_get i (JS.array_set i v a) = Some v.
Proof.
  unfold JS.array_get, JS.array_set. case_decide as Hi.
  - by rewrite list_lookup_insert_eq.
  - rewrite lookup_app_r by lia. rewrite lookup_app_r; rewrite length_replicate; [|lia].
    by replace (i - length a - (i - length a))%nat with 0%nat by lia.
Qed.

Lemma array_get_set_ne {A} (i j : nat) (v : A) (a : list (option A)) :
  i <> j -> JS.array_get j (JS.array_set i v a) = JS.array_get j a.
Proof.
  intros Hij. unfold JS.array_get, JS.array_set. case_decide as Hi.
  - by rewrite list_lookup_insert_ne.
  - destruct (decide (j < length a)%nat) as [Hj|Hj].
    + by rewrite lookup_app_l.
    + rewrite (lookup_ge_None_2 a j) by lia. rewrite lookup_app_r by lia.
      destruct (decide (j - length a < i - length a)%nat) as [Hlt|Hge].
      * rewrite lookup_app_l by (rewrite length_replicate; lia).
        by rewrite lookup_replicate_2.
      * rewrite lookup_app_r by (rewrite length_replicate; lia).
        rewrite length_replicate.
        destruct (j - length a - (i - length a))%nat as [|k] eqn:Hk; [lia|done].
Qed.

Lemma array_set_id {A} (i : nat) (v : A) (a : list (option A)) :
  JS.array_get i a = Some v -> JS.array_set i v a = a.
Proof.
  unfold JS.array_get, JS.array_set. intros Hget.
  destruct (a !! i) as [[x|]|] eqn:Hi; simplify_eq/=.
  rewrite decide_True by (by eapply lookup_lt_Some).
  by apply list_insert_id.
Qed.

(** ** The setters (C2) *)

(** Unfolds the field updaters. *)
Ltac unfold_updates :=
  cbv [mark_dirty apply_update constant
       upd_disabled upd__states upd__statesLength upd__stateDirtyLowestIndex
       upd_lastStateDirtyLowestIndex upd__isDirty upd__emptyVertexBuffer upd__parameter
       upd__kMaxVertexBufferStride upd__shaderId upd__alphaToCoverageEnabled
       upd__frontFace upd__cullEnabled upd__cullFace upd__clampDepth
       upd__rasterizationState upd__depthBias upd__depthBiasClamp
       upd__depthBiasSlopeScale upd__colorFormat upd__webgpuColorFormat
       upd__mrtAttachments upd__mrtFormats upd__mrtEnabledMask upd__alphaBlendEnabled
       upd__numAlphaBlendTargetsEnabled upd__alphaBlendFuncParams
       upd__alphaBlendEqParams upd__writeMask upd__depthStencilFormat
       upd__webgpuDepthStencilFormat upd__depthTestEnabled upd__depthWriteEnabled
       upd__depthCompare upd__stencilEnabled upd__stencilFrontCompare
       upd__stencilFrontDepthFailOp upd__stencilFrontPassOp upd__stencilFrontFailOp
       upd__stencilBackCompare upd__stencilBackDepthFailOp upd__stencilBackPassOp
       upd__stencilBackFailOp upd__stencilReadMask upd__stencilWriteMask
       upd__depthStencilState upd__vertexBuffers upd__overrideVertexBuffers
       upd__textureState upd__useTextureStage upd_vertexBuffers upd_indexBuffer
       upd_mrtAttachments upd_mrtTextureArray upd_mrtTextureCount upd_pipeline] in *;
  cbn in *.






(** ** The arithmetic of the packers *)

Lemma round_double_safe (z : Z) : - 2 ^ 53 < z < 2 ^ 53 -> JS.round_double z = z.
Proof.
  intros Hz. unfold JS.round_double. cbv zeta.
  rewrite (proj2 (Z.ltb_lt (Z.abs z) (2 ^ 53))) by lia. reflexivity.
Qed.

Lemma plus_exact (x y : Z) : - 2 ^ 53 < x + y < 2 ^ 53 -> JS.plus x y = x + y.
Proof. apply round_double_safe. Qed.

Lemma minus_exact (x y : Z) : - 2 ^ 53 < x - y < 2 ^ 53 -> JS.minus x y = x - y.
Proof. apply round_double_safe. Qed.

Lemma to_int32_range (z : Z) : - 2 ^ 31 <= JS.to_int32 z < 2 ^ 31.
Proof.
  unfold JS.to_int32.
  pose proof (Z.mod_pos_bound (z + 2 ^ 31) (2 ^ 32) ltac:(lia)). lia.
Qed.

Lemma shl_range (x k : Z) : - 2 ^ 31 <= JS.shl x k < 2 ^ 31.
Proof. apply to_int32_range. Qed.

Lemma to_int32_small (z : Z) : - 2 ^ 31 <= z < 2 ^ 31 -> JS.to_int32 z = z.
Proof. intros Hz. unfold JS.to_int32. rewrite Z.mod_small; lia. Qed.

Lemma shl_small (x k : Z) :
  0 <= k < 32 -> 0 <= x -> x * 2 ^ k < 2 ^ 31 -> JS.shl x k = x * 2 ^ k.
Proof.
  intros Hk Hx Hlt. unfold JS.shl.
  assert (Hpow : 1 <= 2 ^ k) by (apply (Z.pow_le_mono_r 2 0 k); lia).
  rewrite (to_int32_small x) by nia.
  rewrite (Z.mod_small k) by lia.
  rewrite Z.shiftl_mul_pow2 by lia. apply to_int32_small. nia.
Qed.

(** A sum of 32-bit terms that starts below 2^52 in magnitude is exact as
    long as it has fewer than 2^20 terms. *)
Lemma fold_plus_exact (terms : list Z) (start : Z) :
  Forall (fun term => - 2 ^ 31 <= term < 2 ^ 31) terms ->
  - 2 ^ 52 - 2 ^ 31 * (2 ^ 20 - Z.of_nat (length terms)) <= start
    <= 2 ^ 52 + 2 ^ 31 * (2 ^ 20 - Z.of_nat (length terms)) ->
  (Z.of_nat (length terms) <= 2 ^ 20) ->
  fold_left JS.plus terms start = fold_left Z.add terms start.
Proof.
  revert start. induction terms as [|term terms IH]; intros start Hterms Hstart Hlen.
  - reflexivity.
  - inversion Hterms as [|? ? Hterm Hrest]; subst. cbn [fold_left length] in *.
    rewrite plus_exact by lia. apply IH; [assumption|lia|lia].
Qed.

(** ** The rasterization slot (C3) *)

Lemma _setRasterizationState_slot (topology sampleCount : Z) (this : WebGPUCacheRenderPipeline) :
  rasterization_in_sync this ->
  JS.array_get StatePosition.RasterizationState
    (_states (_setRasterizationState topology sampleCount this))
  = Some (JS.Fin (rasterizationState_of topology sampleCount this)).
Proof.
  unfold rasterization_in_sync, _setRasterizationState. intros Hsync.
  case_bool_decide as Hne.
  - unfold_updates. apply array_get_set_eq.
  - rewrite Hsync, Hne. reflexivity.
Qed.

Lemma _setRasterizationState_in_sync (topology sampleCount : Z) (this : WebGPUCacheRenderPipeline) :
  rasterization_in_sync this ->
  rasterization_in_sync (_setRasterizationState topology sampleCount this).
Proof.
  intros Hsync. unfold rasterization_in_sync.
  rewrite _setRasterizationState_slot by assumption.
  unfold _setRasterizationState. case_bool_decide as Hne.
  - reflexivity.
  - by rewrite Hne.
Qed.

(** The sum of [_setRasterizationState] is exact for a front face below
    2^52 in magnitude. *)
Lemma rasterizationState_of_exact (topology sampleCount : Z) (this : WebGPUCacheRenderPipeline) :
  - 2 ^ 52 <= _frontFace this <= 2 ^ 52 ->
  rasterizationState_of topology sampleCount this
  = _frontFace this - 1
    + JS.shl (if _cullEnabled this then _cullFace this else 0) 1
    + JS.shl (if _clampDepth this then 1 else 0) 3
    + JS.shl (if _alphaToCoverageEnabled this then 1 else 0) 4
    + JS.shl topology 5 + JS.shl sampleCount 8.
Proof.
  intros Hfront. unfold rasterizationState_of. cbv zeta.
  rewrite minus_exact by lia.
  rewrite fold_plus_exact.
  - reflexivity.
  - repeat constructor; apply shl_range.
  - cbn [length]. lia.
  - cbn [length]. lia.
Qed.

(** ** The attachments of [setMRT] (C9) *)

Lemma setMRT_loop_length textureArray color0 n i mrtFormats mrtAttachments :
  (i <= length mrtFormats)%nat ->
  (i + n <= length (fst (setMRT_loop textureArray color0 n i mrtFormats mrtAttachments)))%nat.
Proof.
  revert i mrtFormats mrtAttachments.
  induction n as [|n IH]; intros i mrtFormats mrtAttachments Hi; cbn [setMRT_loop].
  - cbn. lia.
  - etransitivity; [|apply IH].
    + lia.
    + case_decide.
      * rewrite length_insert. lia.
      * rewrite !length_app, length_replicate. cbn. lia.
Qed.

(** C9.  [setMRT] with more than 8 attachments throws its configuration
    error (and leaves the object as it was); with 8 attachments, or fewer, it
    succeeds and holds one format per attachment. *)
Theorem C9_setMRT_attachment_bound (textureArray : list InternalTexture)
    (textureCount : option Z) (this : WebGPUCacheRenderPipeline) :
  let count := default (Z.of_nat (length textureArray)) textureCount in
  (8 < count ->
   setMRT textureArray textureCount this
   = (Some (ErrorObject "Can't handle more than 8 attachments for a MRT in cache render pipeline!"),
      this))
  /\ (0 <= count <= 8 ->
      fst (setMRT textureArray textureCount this) = None
      /\ mrtTextureCount (snd (setMRT textureArray textureCount this)) = count
      /\ length (_mrtFormats (snd (setMRT textureArray textureCount this))) = Z.to_nat count).
Proof.
  cbv zeta. unfold setMRT.
  set (count := default (Z.of_nat (length textureArray)) textureCount).
  split.
  - intros Hgt. by rewrite (proj2 (Z.ltb_lt 8 count)) by lia.
  - intros [Hlo Hhi].
    rewrite (proj2 (Z.ltb_ge 8 count)) by lia.
    match goal with
    | |- context [setMRT_loop ?ta ?c0 ?n ?i ?fmts ?att] =>
        pose proof (setMRT_loop_length ta c0 n i fmts att) as Hlen;
        destruct (setMRT_loop ta c0 n i fmts att) as [mrtFormats mrtAttachments]
    end.
    cbn [fst] in Hlen. specialize (Hlen ltac:(lia)).
    rewrite (proj2 (Z.ltb_ge count 0)) by lia.
    split; [reflexivity|].
    destruct (JS.strict_neq _ _); destruct this; unfold_updates;
      (split; [reflexivity | rewrite length_take; lia]).
Qed.

(** ** What a resolution leaves alone *)

Lemma config_of_mark_dirty position this :
  config_of (mark_dirty position this) = config_of this.
Proof. destruct this; reflexivity. Qed.

Lemma config_of__setShaderStage id this : config_of (_setShaderStage id this) = config_of this.
Proof. unfold _setShaderStage. case_bool_decide; destruct this; reflexivity. Qed.

Lemma config_of__setRasterizationState topology sampleCount this :
  config_of (_setRasterizationState topology sampleCount this) = config_of this.
Proof. unfold _setRasterizationState. case_bool_decide; destruct this; reflexivity. Qed.

Lemma config_of__setDepthStencilState this :
  config_of (_setDepthStencilState this) = config_of this.
Proof. unfold _setDepthStencilState. destruct (JS.strict_neq _ _); destruct this; reflexivity. Qed.

Lemma config_of__setTextureState textureState this :
  config_of (_setTextureState textureState this) = config_of this.
Proof. unfold _setTextureState. case_bool_decide; destruct this; reflexivity. Qed.

(** The loop of [_setColorStates] writes the state vector only. *)
Lemma _setColorStates_loop_states n i colorStates colorStateIndex isDirty this :
  exists states,
    snd (_setColorStates_loop n i colorStates colorStateIndex isDirty this)
    = this {{ _states := states }}.
Proof.
  revert i colorStates colorStateIndex isDirty this.
  induction n as [|n IH]; intros i colorStates colorStateIndex isDirty this.
  - exists (_states this). destruct this; reflexivity.
  - cbn [_setColorStates_loop]. cbv zeta.
    destruct (Nat.odd i); [|apply IH].
    match goal with
    | |- context [_setColorStates_loop n (S i) ?cs ?idx ?d ?t] =>
        destruct (IH (S i) cs idx d t) as [states ->]
    end.
    eexists. destruct (_ !! colorStateIndex); destruct this; reflexivity.
Qed.

Lemma config_of__setColorStates this : config_of (_setColorStates this) = config_of this.
Proof.
  unfold _setColorStates.
  destruct (_setColorStates_loop_states 8 0 (colorStates_init this) 0 false this) as [states Hs].
  destruct (_setColorStates_loop 8 0 (colorStates_init this) 0 false this) as [isDirty this'].
  cbn [snd] in Hs. subst this'.
  destruct isDirty; destruct this; reflexivity.
Qed.

(** The packed values are read from the configuration. *)
Lemma rasterizationState_of_config topology sampleCount this :
  rasterizationState_of topology sampleCount (config_of this)
  = rasterizationState_of topology sampleCount this.
Proof.
  unfold rasterizationState_of, config_of. destruct this. unfold_updates.
  cbn [_frontFace _cullEnabled _cullFace _clampDepth _alphaToCoverageEnabled]. reflexivity.
Qed.

Lemma stencilState_of_config this : stencilState_of (config_of this) = stencilState_of this.
Proof.
  unfold stencilState_of, config_of. destruct this. unfold_updates.
  cbn [_stencilEnabled _stencilFrontCompare _stencilFrontDepthFailOp _stencilFrontPassOp
       _stencilFrontFailOp _stencilBackCompare _stencilBackDepthFailOp _stencilBackPassOp
       _stencilBackFailOp].
  reflexivity.
Qed.

Lemma depthStencilState_of_config this :
  depthStencilState_of (config_of this) = depthStencilState_of this.
Proof.
  unfold depthStencilState_of. rewrite stencilState_of_config.
  unfold config_of. destruct this. unfold_updates.
  cbn [_depthStencilFormat _depthTestEnabled _depthCompare]. reflexivity.
Qed.

Lemma config_of_untracked this this' :
  untracked this = untracked this' -> config_of this = config_of this'.
Proof.
  intros Hu. apply (f_equal config_of) in Hu.
  destruct this, this'. exact Hu.
Qed.

Lemma untracked_proj {A} (f : WebGPUCacheRenderPipeline -> A) :
  (forall this, f (untracked this) = f this) ->
  forall this this', untracked this = untracked this' -> f this = f this'.
Proof. intros Hf this this' Hu. by rewrite <- (Hf this), <- (Hf this'), Hu. Qed.

Lemma _setVertexState_loop_frame attributes locations index currentGPUBuffer
    numVertexBuffers newNumStates w :
  let w' := snd (snd (_setVertexState_loop attributes locations index currentGPUBuffer
                        numVertexBuffers newNumStates w)) in
  untracked (cache w') = untracked (cache w)
  /\ _statesLength (cache w') = _statesLength (cache w)
  /\ _stateDirtyLowestIndex (cache w') = _stateDirtyLowestIndex (cache w)
  /\ outside w' = outside w.
Proof.
  revert index currentGPUBuffer numVertexBuffers newNumStates w.
  induction attributes as [|name attributes IH];
    intros index currentGPUBuffer numVertexBuffers newNumStates w.
  - cbn. auto.
  - cbn [_setVertexState_loop]. cbv zeta.
    destruct (bound_vertex_buffer (cache w) name) as [e|vertexBuffer].
    + cbn. auto.
    + destruct (negb _);
        match goal with
        | |- context [_setVertexState_loop attributes locations ?i ?c ?n ?m ?w'] =>
            destruct (IH i c n m w') as (H1 & H2 & H3 & H4)
        end.
      all: rewrite H1, H2, H3, H4.
      all: destruct w as [[] ? ? ? ? ? ? ? ?]; repeat split.
Qed.

Lemma _setVertexState_frame effect w :
  let w' := snd (_setVertexState effect w) in
  untracked (cache w') = untracked (cache w) /\ outside w' = outside w.
Proof.
  unfold _setVertexState.
  pose proof (_setVertexState_loop_frame (attributeNamesFromEffect effect)
              (attributeLocationsFromEffect effect) 0 None 0 StatePosition.VertexState w)
    as (H1 & _ & _ & H4).
  destruct (_setVertexState_loop _ _ _ _ _ _ _) as [e [[numVertexBuffers newNumStates] w']].
  cbn [snd] in *. destruct e as [e|]; cbn [snd]; [auto|].
  cbv zeta. rewrite <- H1, <- H4.
  match goal with |- context [if ?b then _ else _] => destruct b end;
    destruct w' as [[] ? ? ? ? ? ? ? ?]; split; reflexivity.
Qed.

Lemma cache_with_cache (w : World) this : cache (w {{ cache := this }}) = this.
Proof. destruct w; reflexivity. Qed.

Lemma outside_with_cache (w : World) this : outside (w {{ cache := this }}) = outside w.
Proof. destruct w; reflexivity. Qed.

Lemma config_of_with_lastStateDirtyLowestIndex this index :
  config_of (this {{ lastStateDirtyLowestIndex := index }}) = config_of this.
Proof. destruct this; reflexivity. Qed.

Lemma _parameter__setShaderStage id this :
  _parameter (_setShaderStage id this) = _parameter this.
Proof. unfold _setShaderStage. case_bool_decide; destruct this; reflexivity. Qed.

Lemma _parameter__setRasterizationState topology sampleCount this :
  _parameter (_setRasterizationState topology sampleCount this) = _parameter this.
Proof. unfold _setRasterizationState. case_bool_decide; destruct this; reflexivity. Qed.

Lemma _parameter__setDepthStencilState this :
  _parameter (_setDepthStencilState this) = _parameter this.
Proof. unfold _setDepthStencilState. destruct (JS.strict_neq _ _); destruct this; reflexivity. Qed.

Lemma _parameter__setTextureState textureState this :
  _parameter (_setTextureState textureState this) = _parameter this.
Proof. unfold _setTextureState. case_bool_decide; destruct this; reflexivity. Qed.

Lemma _parameter__setColorStates this : _parameter (_setColorStates this) = _parameter this.
Proof.
  unfold _setColorStates.
  destruct (_setColorStates_loop_states 8 0 (colorStates_init this) 0 false this) as [states Hs].
  destruct (_setColorStates_loop 8 0 (colorStates_init this) 0 false this) as [isDirty this'].
  cbn [snd] in Hs. subst this'.
  destruct isDirty; destruct this; reflexivity.
Qed.

Lemma _textureState__setTextureState textureState this :
  _textureState (_setTextureState textureState this) = Some textureState.
Proof.
  unfold _setTextureState. case_bool_decide as Hts; [by destruct this|assumption].
Qed.

Lemma with_lastStateDirtyLowestIndex this index :
  _parameter (this {{ lastStateDirtyLowestIndex := index }}) = _parameter this
  /\ _textureState (this {{ lastStateDirtyLowestIndex := index }}) = _textureState this
  /\ _isDirty (this {{ lastStateDirtyLowestIndex := index }}) = _isDirty this.
Proof. by destruct this. Qed.

(** The parts of the object the descriptor is built from and the memo of
    the resolver, which the packers leave alone. *)
Lemma prepare_frame fillMode effect sampleCount textureState w :
  let w' := snd (prepare fillMode effect sampleCount textureState w) in
  config_of (cache w') = config_of (cache w)
  /\ _parameter (cache w') = _parameter (cache w)
  /\ outside w' = outside w
  /\ (fst (prepare fillMode effect sampleCount textureState w) = None ->
      _textureState (cache w') = Some textureState).
Proof.
  unfold prepare. cbv zeta.
  match goal with
  | |- context [_setVertexState effect ?w0] =>
      pose proof (_setVertexState_frame effect w0) as [Hu Ho];
      destruct (_setVertexState effect w0) as [e w1]
  end.
  cbn [snd] in Hu, Ho. apply config_of_untracked in Hu as Hc.
  apply (untracked_proj _parameter) in Hu; [|by intros []].
  rewrite cache_with_cache in Hc, Hu. rewrite outside_with_cache in Ho.
  rewrite config_of__setDepthStencilState, config_of__setColorStates,
      config_of__setRasterizationState, config_of__setShaderStage in Hc.
  rewrite _parameter__setDepthStencilState, _parameter__setColorStates,
      _parameter__setRasterizationState, _parameter__setShaderStage in Hu.
  destruct e as [e|]; cbn [fst snd].
  - repeat split; try assumption. discriminate.
  - rewrite cache_with_cache, outside_with_cache, config_of_with_lastStateDirtyLowestIndex,
      config_of__setTextureState.
    destruct (with_lastStateDirtyLowestIndex (_setTextureState textureState (cache w1))
      (Some (_stateDirtyLowestIndex (_setTextureState textureState (cache w1)))))
      as (-> & -> & _).
    rewrite _parameter__setTextureState, _textureState__setTextureState. auto.
Qed.

Lemma looked_up_frame w :
  config_of (cache (looked_up w)) = config_of (cache w)
  /\ _textureState (cache (looked_up w)) = _textureState (cache w)
  /\ _parameter (cache (looked_up w)) = fst (_getRenderPipeline (cache w) (store w))
  /\ store (looked_up w) = snd (_getRenderPipeline (cache w) (store w))
  /\ device_log (looked_up w) = device_log w
  /\ counters (looked_up w) = counters w.
Proof.
  unfold looked_up. cbv zeta. destruct (_getRenderPipeline _ _) as [parameter st].
  destruct w as [[] ? ? ? ? ? ? ? ?]; repeat split.
Qed.

Lemma memo_hit_frame w :
  config_of (cache (memo_hit w)) = config_of (cache w)
  /\ _parameter (cache (memo_hit w)) = _parameter (cache w)
  /\ store (memo_hit w) = store w
  /\ device_log (memo_hit w) = device_log w
  /\ counters (memo_hit w)
     = (NumCacheHitWithoutHash w + 1, NumCacheHitWithHash w, NumCacheMiss w,
        NumPipelineCreationLastFrame w, _NumPipelineCreationCurrentFrame w).
Proof. unfold memo_hit. destruct w as [[] ? ? ? ? ? ? ? ?]; repeat split. Qed.

Lemma adopt_frame stored created w :
  config_of (cache (adopt stored created w)) = config_of (cache w)
  /\ pipeline (_parameter (cache (adopt stored created w))) = Some created
  /\ (stored = false -> store (adopt stored created w) = store w)
  /\ device_log (adopt stored created w) = device_log w
  /\ counters (adopt stored created w)
     = (NumCacheHitWithoutHash w, NumCacheHitWithHash w, NumCacheMiss w + 1,
        NumPipelineCreationLastFrame w, _NumPipelineCreationCurrentFrame w + 1).
Proof.
  unfold adopt. destruct w as [[] ? ? ? ? ? ? ? ?]; repeat split.
  by intros ->.
Qed.

(** [_createRenderPipeline] either throws on the vertex layout, or calls the
    device with the descriptor of the object and logs the call. *)
Lemma _createRenderPipeline_cases effect topology sampleCount w :
  (exists e, _getVertexInputDescriptor effect w = inl e
             /\ _createRenderPipeline effect topology sampleCount w = (inl e, w))
  \/ (exists inputStateDescriptor,
        _getVertexInputDescriptor effect w = inr inputStateDescriptor
        /\ _createRenderPipeline effect topology sampleCount w
           = (createRenderPipeline (device_log w)
                (render_pipeline_descriptor effect topology sampleCount inputStateDescriptor
                   (cache w)),
              w {{ device_log :=
                     render_pipeline_descriptor effect topology sampleCount
                       inputStateDescriptor (cache w) :: device_log w }})).
Proof.
  unfold _createRenderPipeline.
  destruct (_getVertexInputDescriptor effect w) as [e|inputStateDescriptor]; eauto.
Qed.

Lemma with_device_log (w : World) log :
  cache (w {{ device_log := log }}) = cache w
  /\ store (w {{ device_log := log }}) = store w
  /\ device_log (w {{ device_log := log }}) = log
  /\ counters (w {{ device_log := log }}) = counters w.
Proof. by destruct w. Qed.

Lemma with_NumCacheHitWithHash (w : World) n :
  cache (w {{ NumCacheHitWithHash := n }}) = cache w
  /\ store (w {{ NumCacheHitWithHash := n }}) = store w
  /\ device_log (w {{ NumCacheHitWithHash := n }}) = device_log w
  /\ counters (w {{ NumCacheHitWithHash := n }})
     = (NumCacheHitWithoutHash w, n, NumCacheMiss w,
        NumPipelineCreationLastFrame w, _NumPipelineCreationCurrentFrame w).
Proof. by destruct w. Qed.

(** The descriptor reads the configuration and the texture state only. *)
Lemma render_pipeline_descriptor_config effect topology sampleCount layouts this this' :
  config_of this = config_of this' -> _textureState this = _textureState this' ->
  render_pipeline_descriptor effect topology sampleCount layouts this
  = render_pipeline_descriptor effect topology sampleCount layouts this'.
Proof.
  intros Hc Ht.
  assert (Hd : forall t, render_pipeline_descriptor effect topology sampleCount layouts t
                         = render_pipeline_descriptor effect topology sampleCount layouts
                             ((config_of t) {{ _textureState := _textureState t }})).
  { by intros []. }
  rewrite (Hd this), (Hd this'), Hc, Ht. reflexivity.
Qed.

(** ** What a call of [getRenderPipeline] can do *)

Lemma outside_inv w w' :
  outside w' = outside w ->
  store w' = store w /\ device_log w' = device_log w /\ counters w' = counters w.
Proof.
  intros Ho. split; [|split].
  - exact (f_equal (fun x => fst (fst x)) Ho).
  - exact (f_equal (fun x => snd (fst x)) Ho).
  - exact (f_equal snd Ho).
Qed.

Lemma counters_inv w w' :
  counters w' = counters w ->
  NumCacheHitWithoutHash w' = NumCacheHitWithoutHash w
  /\ NumCacheHitWithHash w' = NumCacheHitWithHash w
  /\ NumCacheMiss w' = NumCacheMiss w
  /\ NumPipelineCreationLastFrame w' = NumPipelineCreationLastFrame w
  /\ _NumPipelineCreationCurrentFrame w' = _NumPipelineCreationCurrentFrame w.
Proof.
  intros Hc. repeat split.
  - exact (f_equal (fun x => fst (fst (fst (fst x)))) Hc).
  - exact (f_equal (fun x => snd (fst (fst (fst x)))) Hc).
  - exact (f_equal (fun x => snd (fst (fst x))) Hc).
  - exact (f_equal (fun x => snd (fst x)) Hc).
  - exact (f_equal snd Hc).
Qed.

Lemma bound_vertex_buffer_error this name e :
  bound_vertex_buffer this name = inl e -> e = TypeError.
Proof.
  unfold bound_vertex_buffer.
  destruct (_ ≫= _); [discriminate|].
  destruct (_vertexBuffers this); [discriminate|]. congruence.
Qed.

Lemma _setVertexState_error effect w e :
  fst (_setVertexState effect w) = Some e -> e = TypeError.
Proof.
  unfold _setVertexState.
  assert (Hloop : forall names locations index current n m w0,
             fst (_setVertexState_loop names locations index current n m w0) = Some e ->
             e = TypeError).
  { intros names. induction names as [|name names IH]; intros locations index current n m w0.
    - discriminate.
    - cbn [_setVertexState_loop]. cbv zeta.
      destruct (bound_vertex_buffer (cache w0) name) as [e'|vertexBuffer] eqn:Hbound.
      + cbn. intros [= ->]. by eapply bound_vertex_buffer_error.
      + destruct (negb _); apply IH. }
  specialize (Hloop (attributeNamesFromEffect effect) (attributeLocationsFromEffect effect)
                0%nat None 0%nat StatePosition.VertexState w).
  destruct (_setVertexState_loop _ _ _ _ _ _ _) as [[e'|] [[n m] w1]]; cbn in *.
  - assumption.
  - discriminate.
Qed.

Lemma _GetVertexInputDescriptorFormat_error vertexBuffer e :
  _GetVertexInputDescriptorFormat vertexBuffer = inl e ->
  exists kind ty norm size, e = InvalidFormat kind ty norm size.
Proof.
  unfold _GetVertexInputDescriptorFormat. cbv zeta. intros He.
  repeat match type of He with
         | (if ?b then _ else _) = _ => destruct b
         end; try discriminate; injection He as <-; eauto.
Qed.

Lemma _getVertexInputDescriptor_error effect w e :
  _getVertexInputDescriptor effect w = inl e ->
  e = TypeError \/ exists kind ty norm size, e = InvalidFormat kind ty norm size.
Proof.
  unfold _getVertexInputDescriptor.
  generalize (@nil GPUVertexBufferLayout, @None GPUBuffer) as acc.
  generalize 0%nat as index.
  generalize (attributeLocationsFromEffect effect) as locations.
  generalize (attributeNamesFromEffect effect) as names.
  intros names. induction names as [|name names IH]; intros locations index acc.
  - discriminate.
  - cbn [_getVertexInputDescriptor_loop].
    destruct (_getVertexInputDescriptor_step w name (locations !! index) acc)
      as [e'|acc'] eqn:Hstep; [|apply IH].
    intros [= ->]. unfold _getVertexInputDescriptor_step in Hstep.
    destruct acc as [descriptors currentGPUBuffer].
    destruct (bound_vertex_buffer (cache w) name) as [e'|vertexBuffer] eqn:Hbound.
    + injection Hstep as <-. left. by eapply bound_vertex_buffer_error.
    + cbv zeta in Hstep.
      destruct (_GetVertexInputDescriptorFormat vertexBuffer) as [e'|format] eqn:Hf.
      * injection Hstep as <-. right. by eapply _GetVertexInputDescriptorFormat_error.
      * match type of Hstep with
        | match ?d with _ => _ end = _ => destruct d
        end; [|discriminate]. injection Hstep as <-. by left.
Qed.

Lemma outcome_of_creation fillMode effect sampleCount textureState w topology w0 :
  _GetTopology fillMode = inr topology ->
  config_of (cache w0) = config_of (cache w) ->
  _textureState (cache w0) = Some textureState ->
  device_log w0 = device_log w ->
  counters w0 = counters w ->
  looked_up_only w w0 ->
  memo_after_failure w w0 ->
  (disabled (cache w) = true -> store w0 = store w) ->
  let result := _createRenderPipeline effect topology (GetSample sampleCount) w0 in
  outcome fillMode effect sampleCount textureState w
    (fst result)
    (match fst result with
     | inl _ => snd result
     | inr created => adopt (negb (disabled (cache w))) created (snd result)
     end).
Proof.
  intros Ht Hc Hts Hlog Hcnt Hst Hmemo Hdis. cbv zeta.
  destruct (_createRenderPipeline_cases effect topology (GetSample sampleCount) w0)
    as [(e & Hl & ->)|(layouts & Hl & ->)]; cbn [fst snd].
  - eapply vertex_layout_thrown; try eassumption.
    by eapply _getVertexInputDescriptor_error.
  - destruct (with_device_log w0
                (render_pipeline_descriptor effect topology (GetSample sampleCount) layouts
                   (cache w0) :: device_log w0)) as (Hd1 & Hd2 & Hd3 & Hd4).
    destruct (createRenderPipeline _ _) as [e|created] eqn:Hdev.
    + eapply (device_thrown _ _ _ _ _ topology layouts (cache w0)); try eassumption;
        unfold looked_up_only, memo_after_failure in *;
        rewrite ?Hd1, ?Hd2, ?Hd3, ?Hd4, <- ?Hlog; done.
    + destruct (adopt_frame (negb (disabled (cache w))) created
                  (w0 {{ device_log :=
                           render_pipeline_descriptor effect topology (GetSample sampleCount)
                             layouts (cache w0) :: device_log w0 }}))
        as (Ha1 & Ha2 & Ha3 & Ha4 & Ha5).
      apply counters_inv in Hd4 as (Hn1 & Hn2 & Hn3 & Hn4 & Hn5).
      apply counters_inv in Hcnt as (Hm1 & Hm2 & Hm3 & Hm4 & Hm5).
      eapply (device_created _ _ _ _ _ topology layouts (cache w0)); try eassumption;
        rewrite ?Ha1, ?Ha4, ?Ha5, ?Hd1, ?Hd3, ?Hn1, ?Hn2, ?Hn3, ?Hn4, ?Hn5,
          ?Hm1, ?Hm2, ?Hm3, ?Hm4, ?Hm5, <- ?Hlog; done.
Qed.

Lemma getRenderPipeline_outcome fillMode effect sampleCount textureState w :
  outcome fillMode effect sampleCount textureState w
    (fst (getRenderPipeline fillMode effect sampleCount textureState w))
    (snd (getRenderPipeline fillMode effect sampleCount textureState w)).
Proof.
  unfold getRenderPipeline. cbv zeta.
  destruct (disabled (cache w)) eqn:Hdis.
  - (* the cache is bypassed *)
    destruct (_GetTopology fillMode) as [e|topology] eqn:Ht; cbn [fst snd].
    { eapply unsupported_fill_mode; eauto.
      - by left.
      - unfold memo_after_failure. by rewrite Hdis. }
    pose proof (_setVertexState_frame effect w) as [Hu Ho].
    pose proof (_setVertexState_error effect w) as He.
    destruct (_setVertexState effect w) as [[e|] w1]; cbn [fst snd] in *.
    { apply config_of_untracked in Hu as Hc.
      apply (untracked_proj _parameter) in Hu; [|by intros []].
      apply outside_inv in Ho as (? & ? & ?).
      eapply vertex_state_thrown; eauto. }
    apply config_of_untracked in Hu as Hc.
    apply (untracked_proj _parameter) in Hu; [|by intros []].
    apply outside_inv in Ho as (Hst & Hlog & Hcnt).
    pose proof (outcome_of_creation fillMode effect sampleCount textureState w topology
                  (w1 {{ cache := _setTextureState textureState (cache w1) }})) as Hout.
    rewrite cache_with_cache, config_of__setTextureState, _textureState__setTextureState in Hout.
    pose proof (outside_with_cache w1 (_setTextureState textureState (cache w1))) as Ho'.
    apply outside_inv in Ho' as (Hst' & Hlog' & Hcnt').
    rewrite Hdis in Hout. cbn [negb] in Hout.
    destruct (_createRenderPipeline effect topology (GetSample sampleCount) _)
      as [[e|created] w2]; cbn [fst snd] in Hout |- *; apply Hout; try congruence.
    all: try (left; congruence).
    all: unfold memo_after_failure; rewrite Hdis, cache_with_cache, _parameter__setTextureState;
      congruence.
  - (* the cache is enabled *)
    pose proof (prepare_frame fillMode effect (GetSample sampleCount) textureState w)
      as (Hc & Hp & Ho & Hts).
    destruct (prepare fillMode effect (GetSample sampleCount) textureState w) as [[e|] w1] eqn:Hprep;
      cbn [fst snd] in *.
    { apply outside_inv in Ho as (? & ? & ?).
      eapply vertex_state_thrown; eauto.
      unfold prepare in Hprep. cbv zeta in Hprep.
      match type of Hprep with
      | context [_setVertexState effect ?w0] =>
          pose proof (_setVertexState_error effect w0) as He;
          destruct (_setVertexState effect w0) as [[e'|] w0']
      end; [|discriminate].
      injection Hprep as -> _. by apply He. }
    specialize (Hts eq_refl).
    apply outside_inv in Ho as (Hst & Hlog & Hcnt).
    assert (Hslow :
      outcome fillMode effect sampleCount textureState w
        (fst (let w := looked_up w1 in
              match pipeline (_parameter (cache w)) with
              | Some found =>
                  (inr found, w {{ NumCacheHitWithHash := NumCacheHitWithHash w + 1 }})
              | None =>
                  match _GetTopology fillMode with
                  | inl e => (inl e, w)
                  | inr topology =>
                      match _createRenderPipeline effect topology (GetSample sampleCount) w with
                      | (inl e, w) => (inl e, w)
                      | (inr created, w) => (inr created, adopt true created w)
                      end
                  end
              end))
        (snd (let w := looked_up w1 in
              match pipeline (_parameter (cache w)) with
              | Some found =>
                  (inr found, w {{ NumCacheHitWithHash := NumCacheHitWithHash w + 1 }})
              | None =>
                  match _GetTopology fillMode with
                  | inl e => (inl e, w)
                  | inr topology =>
                      match _createRenderPipeline effect topology (GetSample sampleCount) w with
                      | (inl e, w) => (inl e, w)
                      | (inr created, w) => (inr created, adopt true created w)
                      end
                  end
              end))).
    { cbv zeta.
      destruct (looked_up_frame w1) as (Hc2 & Hts2 & Hp2 & Hst2 & Hlog2 & Hcnt2).
      destruct (pipeline (_parameter (cache (looked_up w1)))) as [found|] eqn:Hfound;
        cbn [fst snd].
      - destruct (with_NumCacheHitWithHash (looked_up w1)
                    (NumCacheHitWithHash (looked_up w1) + 1)) as (Hh1 & Hh2 & Hh3 & Hh4).
        eapply (answered_by_lookup _ _ _ _ _ found (cache w1)); try assumption.
        + rewrite <- Hst, <- Hp2. exact Hfound.
        + by rewrite Hh1, Hp2, Hst.
        + by rewrite Hh2, Hst2, Hst.
        + by rewrite Hh1, Hc2.
        + by rewrite Hh3, Hlog2.
        + rewrite Hh4. apply counters_inv in Hcnt2 as (-> & -> & -> & -> & ->).
          apply counters_inv in Hcnt as (-> & -> & -> & -> & ->). reflexivity.
      - assert (Hlook : looked_up_only w (looked_up w1)).
        { right. exists (cache w1). by rewrite Hst2, Hst. }
        assert (Hmemo : memo_after_failure w (looked_up w1)).
        { unfold memo_after_failure. by rewrite Hdis. }
        destruct (_GetTopology fillMode) as [e|topology] eqn:Ht; cbn [fst snd].
        + eapply unsupported_fill_mode; eauto; congruence.
        + pose proof (outcome_of_creation fillMode effect sampleCount textureState w topology
                        (looked_up w1) Ht) as Hout.
          rewrite Hdis in Hout. cbn [negb] in Hout.
          destruct (_createRenderPipeline effect topology (GetSample sampleCount) _)
            as [[e|created] w2]; cbn [fst snd] in Hout |- *; apply Hout; try congruence.
          all: discriminate. }
    destruct (negb (_isDirty (cache w1))); [|exact Hslow].
    destruct (pipeline (_parameter (cache w1))) as [cached|] eqn:Hcached; [|exact Hslow].
    cbn [fst snd].
    destruct (memo_hit_frame w1) as (Hm1 & Hm2 & Hm3 & Hm4 & Hm5).
    eapply answered_by_memo; try congruence.
    rewrite Hm5. apply counters_inv in Hcnt as (-> & -> & -> & -> & ->). reflexivity.
Qed.

Lemma config_proj {A} (f : WebGPUCacheRenderPipeline -> A) :
  (forall this, f (config_of this) = f this) ->
  forall this this', config_of this = config_of this' -> f this = f this'.
Proof. intros Hf this this' Hc. by rewrite <- (Hf this), <- (Hf this'), Hc. Qed.

Lemma cons_neq_self {A} (x : A) (l : list A) : x :: l <> l.
Proof. intros Heq. apply (f_equal length) in Heq. cbn in Heq. lia. Qed.

(** ** Stencil state and the stencil aspect of the format (C7) *)

Lemma render_pipeline_descriptor_stencil effect topology sampleCount layouts this :
  (forall format, _webgpuDepthStencilFormat this = Some format ->
                  HasStencilAspect format = false) ->
  match depthStencil (render_pipeline_descriptor effect topology sampleCount layouts this) with
  | None => True
  | Some state =>
      stencilFront state = None /\ stencilBack state = None
      /\ stencilReadMask state = None /\ stencilWriteMask state = None
  end.
Proof.
  intros Hformat. unfold render_pipeline_descriptor. cbn.
  destruct (_webgpuDepthStencilFormat this) as [format|] eqn:Hf; [|exact I].
  cbn. specialize (Hformat format eq_refl).
  destruct format as [|a format]; cbn.
  - rewrite andb_false_r. auto.
  - rewrite Hformat, andb_false_r. auto.
Qed.

(** C7.  When the depth-stencil format of the cache has no stencil aspect,
    the descriptor a call of [getRenderPipeline] hands to
    [createRenderPipeline] has no [stencilFront], [stencilBack],
    [stencilReadMask] or [stencilWriteMask], whether stencil is enabled or
    not; and [_stencilEnabled] stays as it was. *)
Theorem C7_stencil_state_needs_stencil_aspect (fillMode : Z) (effect : Effect)
    (sampleCount textureState : Z) (w : World) :
  (forall format, _webgpuDepthStencilFormat (cache w) = Some format ->
                  HasStencilAspect format = false) ->
  let w' := snd (getRenderPipeline fillMode effect sampleCount textureState w) in
  _stencilEnabled (cache w') = _stencilEnabled (cache w)
  /\ forall descriptor,
       device_log w' = descriptor :: device_log w ->
       match depthStencil descriptor with
       | None => True
       | Some state =>
           stencilFront state = None /\ stencilBack state = None
           /\ stencilReadMask state = None /\ stencilWriteMask state = None
       end.
Proof.
  intros Hformat. cbv zeta.
  pose proof (getRenderPipeline_outcome fillMode effect sampleCount textureState w) as Hout.
  destruct (getRenderPipeline fillMode effect sampleCount textureState w) as [r w'].
  cbn [fst snd] in *.
  assert (Hquiet : config_of (cache w') = config_of (cache w) -> device_log w' = device_log w ->
            _stencilEnabled (cache w') = _stencilEnabled (cache w)
            /\ forall descriptor, device_log w' = descriptor :: device_log w ->
                 match depthStencil descriptor with
                 | None => True
                 | Some state =>
                     stencilFront state = None /\ stencilBack state = None
                     /\ stencilReadMask state = None /\ stencilWriteMask state = None
                 end).
  { intros Hc Hlog. split.
    - by apply (config_proj _stencilEnabled); [intros []|].
    - intros descriptor Hd. rewrite Hlog in Hd. symmetry in Hd. by apply cons_neq_self in Hd. }
  assert (Hdevice : forall topology layouts this,
            config_of this = config_of (cache w) ->
            config_of (cache w') = config_of (cache w) ->
            device_log w'
            = render_pipeline_descriptor effect topology (GetSample sampleCount) layouts this
              :: device_log w ->
            _stencilEnabled (cache w') = _stencilEnabled (cache w)
            /\ forall descriptor, device_log w' = descriptor :: device_log w ->
                 match depthStencil descriptor with
                 | None => True
                 | Some state =>
                     stencilFront state = None /\ stencilBack state = None
                     /\ stencilReadMask state = None /\ stencilWriteMask state = None
                 end).
  { intros topology layouts this Hthis Hc Hlog. split.
    - by apply (config_proj _stencilEnabled); [intros []|].
    - intros descriptor Hd. rewrite Hlog in Hd. injection Hd as <-.
      apply render_pipeline_descriptor_stencil.
      intros format Hf. apply Hformat. rewrite <- Hf. symmetry.
      by apply (config_proj _webgpuDepthStencilFormat); [intros []|]. }
  inversion Hout; subst; eauto.
Qed.

(** ** Fill modes and topologies *)

Lemma _GetTopology_unrecognized (fillMode : Z) :
  ~ In fillMode recognized_fill_modes ->
  _GetTopology fillMode = inr PrimitiveTopology.TriangleList.
Proof.
  unfold recognized_fill_modes, _GetTopology. cbn [In]. intros Hnot.
  repeat match goal with
         | |- context [fillMode =? ?c] =>
             destruct (Z.eqb_spec fillMode c) as [->|_]; [exfalso; apply Hnot; tauto|]
         end.
  reflexivity.
Qed.

Lemma _GetTopology_unsupported (fillMode : Z) :
  NoDup recognized_fill_modes ->
  fillMode = MATERIAL_LineLoopDrawMode \/ fillMode = MATERIAL_TriangleFanDrawMode ->
  _GetTopology fillMode = inl (unsupported_fill_mode_error fillMode).
Proof.
  unfold recognized_fill_modes, _GetTopology, unsupported_fill_mode_error.
  intros Hnodup Hmode.
  rewrite !NoDup_cons, !not_elem_of_cons in Hnodup. destruct_and!.
  destruct Hmode as [-> | ->];
    rewrite !(proj2 (Z.eqb_neq _ _)) by congruence; rewrite Z.eqb_refl; reflexivity.
Qed.

Lemma render_pipeline_descriptor_topology effect topology' sampleCount layouts this :
  topology (primitive (render_pipeline_descriptor effect topology' sampleCount layouts this))
  = topology'.
Proof. reflexivity. Qed.

(** ** A device that throws (C5) *)

(** C5.  When [createRenderPipeline] throws during a call of
    [getRenderPipeline], the exception reaches the caller; the structure of
    the strategy was at most looked up, so (for a strategy whose lookups are
    pure) every state has the pipeline it had before, and none was stored
    for the current state; the memo holds no pipeline (with the cache
    disabled it is the memo of before); and no counter moved. *)
Theorem C5_device_failure (fillMode : Z) (effect : Effect) (sampleCount textureState : Z)
    (w : World) (descriptor : GPURenderPipelineDescriptor) (e : exn) :
  let r := fst (getRenderPipeline fillMode effect sampleCount textureState w) in
  let w' := snd (getRenderPipeline fillMode effect sampleCount textureState w) in
  device_log w' = descriptor :: device_log w ->
  createRenderPipeline (device_log w) descriptor = inl e ->
  r = inl e
  /\ looked_up_only w w'
  /\ (lookup_is_pure ->
      forall this, pipeline (fst (_getRenderPipeline this (store w')))
                   = pipeline (fst (_getRenderPipeline this (store w))))
  /\ (if disabled (cache w) then _parameter (cache w') = _parameter (cache w)
      else pipeline (_parameter (cache w')) = None)
  /\ counters w' = counters w.
Proof.
  cbv zeta.
  pose proof (getRenderPipeline_outcome fillMode effect sampleCount textureState w) as Hout.
  destruct (getRenderPipeline fillMode effect sampleCount textureState w) as [r w'].
  cbn [fst snd] in *. intros Hd Hthrown.
  assert (Hpure : looked_up_only w w' -> lookup_is_pure ->
            forall this, pipeline (fst (_getRenderPipeline this (store w')))
                         = pipeline (fst (_getRenderPipeline this (store w)))).
  { intros [-> | (this0 & ->)] Hlaw this; [reflexivity|apply Hlaw]. }
  inversion Hout as
    [ e0 w1 Htop Hc Hlog | e0 w1 He Hc Hlog | cached w1 Hen Hcached Hp Hc Hlog
    | found this w1 Hen Hfound Hp Hst Hc Hlog | topology e0 w1 Htop He Hc Hlog
    | topology layouts this e0 w1 Htop Hc Hts Hlog Hdev Hc' Hcnt Hlook Hmemo
    | topology layouts this created w1 Htop Hc Hts Hlog Hdev ]; subst.
  1-5: exfalso; eapply cons_neq_self; etransitivity; [symmetry|]; eassumption.
  - rewrite Hlog in Hd. injection Hd as <-. rewrite Hdev in Hthrown. injection Hthrown as <-.
    auto.
  - rewrite Hlog in Hd. injection Hd as <-. congruence.
Qed.
(** ** The vertex layout (C6) *)

Lemma validOffsetRange_of_spec this vertexBuffer :
  validOffsetRange_of this vertexBuffer = true <-> offset_in_valid_range this vertexBuffer.
Proof.
  unfold validOffsetRange_of, offset_in_valid_range.
  destruct (effectiveByteStride vertexBuffer =? 0); cbn;
    rewrite ?andb_true_r, ?andb_false_r, ?orb_false_r; cbn; apply Z.leb_le.
Qed.

Lemma _getVertexInputDescriptor_loop_app w names names' locations index acc :
  _getVertexInputDescriptor_loop w (names ++ names') locations index acc
  = match _getVertexInputDescriptor_steps w names locations index acc with
    | inl e => inl e
    | inr acc' =>
        _getVertexInputDescriptor_loop w names' locations (index + length names) acc'
    end.
Proof.
  revert index acc. induction names as [|name names IH]; intros index acc; cbn.
  - by rewrite Nat.add_0_r.
  - destruct (_getVertexInputDescriptor_step w name (locations !! index) acc) as [e|acc'];
      [reflexivity|].
    rewrite IH. by replace (S index + length names)%nat with (index + S (length names))%nat by lia.
Qed.

(** One round either opens a layout with the attribute, or puts the
    attribute at the end of the current layout. *)
Lemma _getVertexInputDescriptor_step_cases w name location descriptors currentGPUBuffer acc'
    vertexBuffer :
  bound_vertex_buffer (cache w) name = inr vertexBuffer ->
  _getVertexInputDescriptor_step w name location (descriptors, currentGPUBuffer) = inr acc' ->
  let invalidOffsetRange :=
    negb (default false (_validOffsetRange w !! uid vertexBuffer)) in
  let merged :=
    same_buffer currentGPUBuffer (underlyingResource vertexBuffer)
    && bool_decide (descriptors <> []) && negb invalidOffsetRange in
  exists format,
    _GetVertexInputDescriptorFormat vertexBuffer = inr format
    /\ if merged then
         exists current previous,
           descriptors = current :: previous
           /\ acc' = (extend_layout current
                        [ {| shaderLocation := location;
                             offset := effectiveByteOffset vertexBuffer;
                             format := format |} ] :: previous,
                      underlyingResource vertexBuffer)
       else
         acc' = ({| arrayStride := effectiveByteStride vertexBuffer;
                    stepMode := if getIsInstanced vertexBuffer
                                then VertexStepMode.Instance else VertexStepMode.Vertex;
                    attributes :=
                      [ {| shaderLocation := location;
                           offset := if invalidOffsetRange then 0
                                     else effectiveByteOffset vertexBuffer;
                           format := format |} ] |} :: descriptors,
                 if invalidOffsetRange then None else underlyingResource vertexBuffer).
Proof.
  intros Hbound Hstep. cbv zeta. unfold _getVertexInputDescriptor_step in Hstep.
  rewrite Hbound in Hstep. cbv zeta in Hstep.
  destruct (_GetVertexInputDescriptorFormat vertexBuffer) as [e|format]; [discriminate|].
  exists format. split; [reflexivity|].
  destruct (same_buffer currentGPUBuffer (underlyingResource vertexBuffer)) eqn:Hsame;
    destruct (default false (_validOffsetRange w !! uid vertexBuffer)) eqn:Hvalid;
    destruct descriptors as [|current previous];
    cbn in Hstep |- *; try (injection Hstep as <-);
    first [ by do 2 eexists | reflexivity ].
Qed.

Lemma extend_layout_nil layout : extend_layout layout [] = layout.
Proof. destruct layout. unfold extend_layout. cbn. by rewrite app_nil_r. Qed.

Lemma extend_layout_extend layout more more' :
  extend_layout (extend_layout layout more) more' = extend_layout layout (more ++ more').
Proof. unfold extend_layout. cbn. by rewrite app_assoc. Qed.

Lemma _getVertexInputDescriptor_step_error w name location acc acc' :
  _getVertexInputDescriptor_step w name location acc = inr acc' ->
  exists vertexBuffer, bound_vertex_buffer (cache w) name = inr vertexBuffer.
Proof.
  unfold _getVertexInputDescriptor_step. destruct acc.
  destruct (bound_vertex_buffer (cache w) name); [discriminate|eauto].
Qed.

(** The rounds after a layout was opened leave the layouts before it alone,
    and only add attributes at its end. *)
Lemma _getVertexInputDescriptor_loop_suffix w names locations index current previous
    currentGPUBuffer layouts :
  _getVertexInputDescriptor_loop w names locations index (current :: previous, currentGPUBuffer)
  = inr layouts ->
  exists more later, layouts = rev previous ++ extend_layout current more :: later.
Proof.
  revert index current previous currentGPUBuffer.
  induction names as [|name names IH]; intros index current previous currentGPUBuffer; cbn.
  - intros [= <-]. exists [], []. by rewrite extend_layout_nil.
  - destruct (_getVertexInputDescriptor_step w name (locations !! index)
                (current :: previous, currentGPUBuffer)) as [e|acc'] eqn:Hstep; [discriminate|].
    destruct (_getVertexInputDescriptor_step_error _ _ _ _ _ Hstep) as [vertexBuffer Hbound].
    pose proof (_getVertexInputDescriptor_step_cases _ _ _ _ _ _ _ Hbound Hstep)
      as (format & _ & Hcases).
    destruct (_ && _ && _).
    + destruct Hcases as (current' & previous' & [= <- <-] & ->).
      intros Hloop. apply IH in Hloop as (more & later & ->).
      rewrite extend_layout_extend. eauto.
    + rewrite Hcases.
      intros Hloop. apply IH in Hloop as (more & later & ->).
      eexists [], (_ :: later).
      rewrite extend_layout_nil. cbn. by rewrite <- app_assoc.
Qed.

(** After [n] rounds the layouts hold [n] attributes more. *)
Lemma _getVertexInputDescriptor_steps_count w names locations index descriptors
    currentGPUBuffer descriptors' currentGPUBuffer' :
  _getVertexInputDescriptor_steps w names locations index (descriptors, currentGPUBuffer)
  = inr (descriptors', currentGPUBuffer') ->
  attribute_count descriptors' = (attribute_count descriptors + length names)%nat.
Proof.
  revert index descriptors currentGPUBuffer.
  induction names as [|name names IH]; intros index descriptors currentGPUBuffer; cbn.
  - intros [= <- <-]. lia.
  - destruct (_getVertexInputDescriptor_step w name (locations !! index)
                (descriptors, currentGPUBuffer)) as [e|acc'] eqn:Hstep; [discriminate|].
    destruct (_getVertexInputDescriptor_step_error _ _ _ _ _ Hstep) as [vertexBuffer Hbound].
    pose proof (_getVertexInputDescriptor_step_cases _ _ _ _ _ _ _ Hbound Hstep)
      as (format & _ & Hcases).
    destruct (_ && _ && _).
    + destruct Hcases as (current & previous & -> & ->).
      intros Hsteps. apply IH in Hsteps as ->.
      unfold attribute_count. cbn. rewrite !length_app. cbn. lia.
    + rewrite Hcases.
      intros Hsteps. apply IH in Hsteps as ->.
      unfold attribute_count. cbn. lia.
Qed.

Lemma attribute_count_rev layouts : attribute_count (rev layouts) = attribute_count layouts.
Proof.
  unfold attribute_count. induction layouts as [|layout layouts IH]; [reflexivity|].
  cbn. rewrite fmap_app, concat_app, !length_app, IH. cbn. rewrite app_nil_r. lia.
Qed.

(** After a round the attribute is the last one of the layout at the head. *)
Lemma _getVertexInputDescriptor_step_shape w name location descriptors currentGPUBuffer acc'
    vertexBuffer :
  bound_vertex_buffer (cache w) name = inr vertexBuffer ->
  range_checked w vertexBuffer ->
  _getVertexInputDescriptor_step w name location (descriptors, currentGPUBuffer) = inr acc' ->
  exists current previous l attribute format,
    acc' = (current :: previous,
            if validOffsetRange_of (cache w) vertexBuffer
            then underlyingResource vertexBuffer else None)
    /\ attributes current = l ++ [attribute]
    /\ shaderLocation attribute = location
    /\ _GetVertexInputDescriptorFormat vertexBuffer = inr format
    /\ (validOffsetRange_of (cache w) vertexBuffer = true ->
        attribute = {| shaderLocation := location;
                       offset := effectiveByteOffset vertexBuffer;
                       format := format |})
    /\ (attribute_count previous + length l = attribute_count descriptors)%nat.
Proof.
  intros Hbound Hmemo Hstep.
  pose proof (_getVertexInputDescriptor_step_cases _ _ _ _ _ _ _ Hbound Hstep)
    as (format & Hformat & Hcases).
  unfold range_checked in Hmemo. rewrite Hmemo in Hcases. cbn in Hcases.
  destruct (_ && _ && _) eqn:Hmerged.
  - destruct Hcases as (current & previous & -> & ->).
    apply andb_prop in Hmerged as [_ Hvalid]. apply negb_true_iff, negb_false_iff in Hvalid.
    rewrite Hvalid.
    exists (extend_layout current
              [ {| shaderLocation := location; offset := effectiveByteOffset vertexBuffer;
                   format := format |} ]), previous, (attributes current),
      {| shaderLocation := location; offset := effectiveByteOffset vertexBuffer;
         format := format |}, format.
    repeat split; try done. unfold attribute_count. cbn. rewrite length_app. lia.
  - rewrite Hcases.
    exists {| arrayStride := effectiveByteStride vertexBuffer;
              stepMode := if getIsInstanced vertexBuffer
                          then VertexStepMode.Instance else VertexStepMode.Vertex;
              attributes :=
                [ {| shaderLocation := location;
                     offset := if negb (validOffsetRange_of (cache w) vertexBuffer) then 0
                               else effectiveByteOffset vertexBuffer;
                     format := format |} ] |}, descriptors, [],
      {| shaderLocation := location;
         offset := if negb (validOffsetRange_of (cache w) vertexBuffer) then 0
                   else effectiveByteOffset vertexBuffer;
         format := format |}, format.
    destruct (validOffsetRange_of (cache w) vertexBuffer); repeat split; try done; lia.
Qed.

(** C6.  In the vertex layout [_getVertexInputDescriptor] builds, two
    attributes that follow each other and resolve to the same GPU buffer,
    each with its byte offset in the valid range of its vertex buffer
    (offset + element size at most the maximal stride of the device when the
    stride of the buffer is 0, at most the stride of the buffer otherwise),
    are two attribute descriptors, one after the other, of one layout; two
    that resolve to different GPU buffers are the last attribute of a
    layout and the first of the next layout. *)
Theorem C6_vertex_layout_merging (effect : Effect) (w : World)
    (before after : list string) (a b : string) (bufferA bufferB : VertexBuffer)
    (layouts : list GPUVertexBufferLayout) :
  attributeNamesFromEffect effect = before ++ a :: b :: after ->
  bound_vertex_buffer (cache w) a = inr bufferA ->
  bound_vertex_buffer (cache w) b = inr bufferB ->
  range_checked w bufferA ->
  range_checked w bufferB ->
  _getVertexInputDescriptor effect w = inr layouts ->
  let locations := attributeLocationsFromEffect effect in
  (forall gpuBuffer,
      underlyingResource bufferA = Some gpuBuffer ->
      underlyingResource bufferB = Some gpuBuffer ->
      offset_in_valid_range (cache w) bufferA ->
      offset_in_valid_range (cache w) bufferB ->
      exists i layout l r formatA formatB,
        layouts !! i = Some layout
        /\ attributes layout
           = l ++ [ {| shaderLocation := locations !! length before;
                       offset := effectiveByteOffset bufferA;
                       format := formatA |};
                    {| shaderLocation := locations !! S (length before);
                       offset := effectiveByteOffset bufferB;
                       format := formatB |} ] ++ r
        /\ (attribute_count (take i layouts) + length l = length before)%nat)
  /\ (underlyingResource bufferA <> underlyingResource bufferB ->
      exists i layoutA layoutB l r attributeA attributeB,
        layouts !! i = Some layoutA
        /\ layouts !! S i = Some layoutB
        /\ attributes layoutA = l ++ [attributeA]
        /\ attributes layoutB = attributeB :: r
        /\ shaderLocation attributeA = locations !! length before
        /\ shaderLocation attributeB = locations !! S (length before)
        /\ (attribute_count (take i layouts) + length l = length before)%nat).
Proof.
  intros Hnames HboundA HboundB HmemoA HmemoB Hlayouts. cbv zeta.
  unfold _getVertexInputDescriptor in Hlayouts.
  rewrite Hnames, _getVertexInputDescriptor_loop_app in Hlayouts.
  destruct (_getVertexInputDescriptor_steps w before _ 0 ([], None))
    as [e|[descriptors1 current1]] eqn:Hbefore; [discriminate|].
  apply _getVertexInputDescriptor_steps_count in Hbefore. cbn in Hbefore.
  cbn [_getVertexInputDescriptor_loop Nat.add] in Hlayouts.
  destruct (_getVertexInputDescriptor_step w a _ _) as [e|acc2] eqn:HstepA; [discriminate|].
  destruct (_getVertexInputDescriptor_step_shape _ _ _ _ _ _ _ HboundA HmemoA HstepA)
    as (layoutA & previous & l & attributeA & formatA & -> & HattrsA & HlocA & _ & HvalidA
        & Hcount).
  destruct (_getVertexInputDescriptor_step w b _ _) as [e|acc3] eqn:HstepB; [discriminate|].
  pose proof (_getVertexInputDescriptor_step_cases _ _ _ _ _ _ _ HboundB HstepB)
    as (formatB & _ & Hcases).
  unfold range_checked in HmemoB. rewrite HmemoB in Hcases. cbn in Hcases.
  assert (Hi : forall x later, (rev previous ++ x :: later) !! length previous = Some x).
  { intros x later. rewrite <- length_rev. apply list_lookup_middle. reflexivity. }
  assert (Htake : forall later, attribute_count (take (length previous) (rev previous ++ later))
                                = attribute_count previous).
  { intros later. rewrite <- length_rev, take_app_length. apply attribute_count_rev. }
  split.
  - intros gpuBuffer HgpuA HgpuB HrangeA HrangeB.
    apply validOffsetRange_of_spec in HrangeA, HrangeB.
    rewrite HrangeA, HrangeB, HgpuA, HgpuB in Hcases.
    unfold same_buffer in Hcases. rewrite bool_decide_eq_true_2 in Hcases by reflexivity.
    cbn in Hcases.
    destruct Hcases as (current' & previous' & [= <- <-] & ->).
    apply _getVertexInputDescriptor_loop_suffix in Hlayouts as (more & later & ->).
    eexists (length previous), _, l, more, formatA, formatB.
    split; [apply Hi|]. split.
    + cbn. rewrite HattrsA, (HvalidA HrangeA). by rewrite <- !app_assoc.
    + rewrite Htake. lia.
  - intros Hdifferent.
    assert (Hsame : same_buffer
                      (if validOffsetRange_of (cache w) bufferA
                       then underlyingResource bufferA else None)
                      (underlyingResource bufferB) = false).
    { destruct (validOffsetRange_of (cache w) bufferA); [|reflexivity].
      unfold same_buffer. destruct (underlyingResource bufferA) as [g|]; [|reflexivity].
      apply bool_decide_eq_false_2. congruence. }
    rewrite Hsame in Hcases. cbn in Hcases. subst acc3.
    apply _getVertexInputDescriptor_loop_suffix in Hlayouts as (more & later & ->).
    cbn [rev]. rewrite <- app_assoc. cbn [app].
    eexists (length previous), layoutA, _, l, more, attributeA, _.
    split; [apply Hi|]. split.
    { rewrite lookup_app_r by (rewrite length_rev; lia). rewrite length_rev.
      by replace (S (length previous) - length previous)%nat with 1%nat by lia. }
    split; [assumption|]. split; [reflexivity|]. split; [assumption|]. split; [reflexivity|].
    rewrite Htake. lia.
Qed.
(** ** Two calls in a row (C4) *)

Lemma settled_proj {A} (f : WebGPUCacheRenderPipeline -> A) :
  (forall this, f (settled_of this) = f this) ->
  forall this this', settled_of this = settled_of this' -> f this = f this'.
Proof. intros Hf this this' Hs. by rewrite <- (Hf this), <- (Hf this'), Hs. Qed.

Lemma config_of_settled this this' :
  settled_of this = settled_of this' -> config_of this = config_of this'.
Proof.
  intros Hs. apply (f_equal config_of) in Hs.
  destruct this, this'. exact Hs.
Qed.

(** *** What each packer writes *)

Lemma strict_neq_same (c : JS.num) :
  c <> JS.NaN -> JS.strict_neq (Some c) (Some c) = false.
Proof.
  destruct c as [z|]; [|done]. intros _. unfold JS.strict_neq.
  by rewrite Z.eqb_refl.
Qed.

Ltac packer_footprint :=
  intros; cbv zeta; case_bool_decide;
  [ match goal with this : WebGPUCacheRenderPipeline |- _ => destruct this end;
    unfold_updates; repeat split; intros; by apply array_get_set_ne
  | repeat split; try assumption; try reflexivity ].

Lemma _setShaderStage_footprint id this :
  let this' := _setShaderStage id this in
  _shaderId this' = Some id
  /\ forall j, j <> StatePosition.ShaderStage ->
               JS.array_get j (_states this') = JS.array_get j (_states this).
Proof. unfold _setShaderStage. packer_footprint. Qed.

Lemma _setRasterizationState_footprint topology sampleCount this :
  let this' := _setRasterizationState topology sampleCount this in
  _rasterizationState this' = Some (rasterizationState_of topology sampleCount this)
  /\ _shaderId this' = _shaderId this
  /\ forall j, j <> StatePosition.RasterizationState ->
               JS.array_get j (_states this') = JS.array_get j (_states this).
Proof. unfold _setRasterizationState. packer_footprint. Qed.

Lemma strict_neq_stored (a : option JS.num) (c : JS.num) :
  JS.strict_neq a (Some c) = false -> a = Some c /\ c <> JS.NaN.
Proof.
  unfold JS.strict_neq. destruct a as [[x|]|], c as [y|]; try discriminate.
  intros Heq. apply negb_false_iff, Z.eqb_eq in Heq. by subst.
Qed.

Lemma _setDepthStencilState_footprint this :
  let this' := _setDepthStencilState this in
  _depthStencilState this' = Some (depthStencilState_of this)
  /\ _shaderId this' = _shaderId this
  /\ _rasterizationState this' = _rasterizationState this
  /\ forall j, j <> StatePosition.DepthStencilState ->
               JS.array_get j (_states this') = JS.array_get j (_states this).
Proof.
  unfold _setDepthStencilState. cbv zeta.
  destruct (JS.strict_neq _ _) eqn:Hne.
  - destruct this; unfold_updates; repeat split; intros; by apply array_get_set_ne.
  - apply strict_neq_stored in Hne as [Hfield _]. repeat split; try assumption; reflexivity.
Qed.

(** The value [_setDepthStencilState] packed is in the slot, unless it was
    stored already, and then it is a number. *)
Lemma _setDepthStencilState_slot this :
  JS.array_get StatePosition.DepthStencilState (_states (_setDepthStencilState this))
  = Some (depthStencilState_of this)
  \/ depthStencilState_of this <> JS.NaN.
Proof.
  unfold _setDepthStencilState. cbv zeta.
  destruct (JS.strict_neq _ _) eqn:Hne.
  - left. destruct this; unfold_updates. apply array_get_set_eq.
  - right. by apply strict_neq_stored in Hne as [_ Hnumber].
Qed.

Lemma _setTextureState_footprint textureState this :
  let this' := _setTextureState textureState this in
  _textureState this' = Some textureState
  /\ _shaderId this' = _shaderId this
  /\ _rasterizationState this' = _rasterizationState this
  /\ _depthStencilState this' = _depthStencilState this
  /\ _statesLength this' = _statesLength this
  /\ vertexBuffers this' = vertexBuffers this
  /\ forall j, j <> StatePosition.TextureStage ->
               JS.array_get j (_states this') = JS.array_get j (_states this).
Proof. unfold _setTextureState. packer_footprint. Qed.

(** *** A packer whose value is stored already leaves the object alone *)

Ltac packer_at_rest :=
  intros Hfield; rewrite bool_decide_eq_false_2; [reflexivity|];
  intros Hne; by apply Hne.

Lemma _setShaderStage_at_rest id this :
  _shaderId this = Some id -> _setShaderStage id this = this.
Proof. unfold _setShaderStage. packer_at_rest. Qed.

Lemma _setRasterizationState_at_rest topology sampleCount this :
  _rasterizationState this = Some (rasterizationState_of topology sampleCount this) ->
  _setRasterizationState topology sampleCount this = this.
Proof. unfold _setRasterizationState. cbv zeta. packer_at_rest. Qed.

Lemma _setDepthStencilState_at_rest this :
  _depthStencilState this = Some (depthStencilState_of this) ->
  depthStencilState_of this <> JS.NaN ->
  _setDepthStencilState this = this.
Proof.
  unfold _setDepthStencilState. cbv zeta. intros -> Hnumber.
  by rewrite strict_neq_same.
Qed.

Lemma _setTextureState_at_rest textureState this :
  _textureState this = Some textureState -> _setTextureState textureState this = this.
Proof. unfold _setTextureState. packer_at_rest. Qed.

(** *** The color states *)

Lemma config_of_with__states this states :
  config_of (this {{ _states := states }}) = config_of this.
Proof. by destruct this. Qed.

Lemma with__states this states :
  _states (this {{ _states := states }}) = states.
Proof. by destruct this. Qed.

Lemma with__states_same this : this {{ _states := _states this }} = this.
Proof. by destruct this. Qed.

(** A run of the loop of [_setColorStates] writes the color states from
    [colorStateIndex] on only, and a second run on an object that holds
    what the first one wrote, none of it [NaN], changes nothing. *)
Lemma _setColorStates_loop_replay n :
  forall i colorStates colorStateIndex isDirty this isDirty' this',
    _setColorStates_loop n i colorStates colorStateIndex isDirty this = (isDirty', this') ->
    (i + n <= 2 * length colorStates)%nat ->
    (i = 2 * colorStateIndex + Nat.b2n (Nat.odd i))%nat ->
    (forall j, (j < StatePosition.ColorStates1 + colorStateIndex
                \/ StatePosition.ColorStates1 + length colorStates <= j)%nat ->
               JS.array_get j (_states this') = JS.array_get j (_states this))
    /\ forall this2 isDirty2,
         config_of this2 = config_of this ->
         (forall j, (StatePosition.ColorStates1 + colorStateIndex <= j)%nat ->
                    (j < StatePosition.ColorStates1 + length colorStates)%nat ->
                    JS.array_get j (_states this2) = JS.array_get j (_states this')
                    /\ JS.array_get j (_states this2) <> Some JS.NaN) ->
         _setColorStates_loop n i colorStates colorStateIndex isDirty2 this2
         = (isDirty2, this2).
Proof.
  induction n as [|n IH];
    intros i colorStates colorStateIndex isDirty this isDirty' this' Hrun Hbound Hindex.
  { cbn in Hrun. injection Hrun as <- <-. auto. }
  cbn [_setColorStates_loop] in Hrun. cbv zeta in Hrun.
  assert (Hsame : forall this2, config_of this2 = config_of this ->
            (if default false (_alphaBlendEnabled this2 !! i)
             then alter (fun c => JS.add c (blend_target_bits this2 i)) colorStateIndex colorStates
             else colorStates)
            = (if default false (_alphaBlendEnabled this !! i)
               then alter (fun c => JS.add c (blend_target_bits this i)) colorStateIndex colorStates
               else colorStates)).
  { intros this2 Hc.
    rewrite (config_proj _alphaBlendEnabled (fun t => ltac:(by destruct t)) _ _ Hc).
    rewrite (config_proj (fun t => blend_target_bits t i) (fun t => ltac:(by destruct t)) _ _ Hc).
    reflexivity. }
  remember (if default false (_alphaBlendEnabled this !! i)
            then alter (fun c => JS.add c (blend_target_bits this i)) colorStateIndex colorStates
            else colorStates) as colorStates' eqn:Hcs.
  assert (Hlen : length colorStates' = length colorStates).
  { subst colorStates'. destruct (default false _); [apply length_alter|reflexivity]. }
  destruct (Nat.odd i) eqn:Hodd.
  - cbn [Nat.b2n] in Hindex.
    destruct (colorStates' !! colorStateIndex) as [c|] eqn:Hc.
    2: { apply lookup_ge_None in Hc. lia. }
    apply IH in Hrun as [Hlow Hreplay].
    2: { rewrite Hlen. lia. }
    2: { rewrite Nat.odd_succ, <- Nat.negb_odd, Hodd. cbn. lia. }
    rewrite Hlen in Hlow, Hreplay. rewrite with__states in Hlow.
    split.
    + intros j Hj. rewrite Hlow by lia. apply array_get_set_ne. lia.
    + intros this2 isDirty2 Hconfig Hslots.
      cbn [_setColorStates_loop]. cbv zeta. rewrite (Hsame this2 Hconfig), Hodd, Hc.
      destruct (Hslots (StatePosition.ColorStates1 + colorStateIndex)%nat) as [Hslot Hnumber];
        [lia| apply lookup_lt_Some in Hc; lia |].
      rewrite Hlow, array_get_set_eq in Hslot by lia.
      rewrite Hslot in Hnumber |- *.
      rewrite strict_neq_same by congruence. rewrite orb_false_r.
      rewrite (array_set_id _ _ _ Hslot), with__states_same.
      apply Hreplay.
      * by rewrite config_of_with__states.
      * intros j Hj Hj'. apply Hslots; lia.
  - cbn [Nat.b2n] in Hindex.
    apply IH in Hrun as [Hlow Hreplay].
    2: { rewrite Hlen. lia. }
    2: { rewrite Nat.odd_succ, <- Nat.negb_odd, Hodd. cbn. lia. }
    rewrite Hlen in Hlow, Hreplay.
    split; [exact Hlow|].
    intros this2 isDirty2 Hconfig Hslots.
    cbn [_setColorStates_loop]. cbv zeta. rewrite (Hsame this2 Hconfig), Hodd.
    by apply Hreplay.
Qed.

Lemma mark_dirty_fields position this :
  _states (mark_dirty position this) = _states this
  /\ _shaderId (mark_dirty position this) = _shaderId this
  /\ _rasterizationState (mark_dirty position this) = _rasterizationState this.
Proof. by destruct this. Qed.

Lemma _setColorStates_footprint this :
  let this' := _setColorStates this in
  _shaderId this' = _shaderId this
  /\ _rasterizationState this' = _rasterizationState this
  /\ forall j, (j < StatePosition.ColorStates1 \/ StatePosition.ColorStates4 < j)%nat ->
               JS.array_get j (_states this') = JS.array_get j (_states this).
Proof.
  cbv zeta. unfold _setColorStates.
  destruct (_setColorStates_loop_states 8 0 (colorStates_init this) 0 false this) as [states Hs].
  destruct (_setColorStates_loop 8 0 (colorStates_init this) 0 false this)
    as [isDirty this'] eqn:Hrun.
  apply _setColorStates_loop_replay in Hrun as [Hlow _]; [|unfold colorStates_init; cbn; lia..].
  unfold colorStates_init in Hlow; cbn [length] in Hlow.
  cbn [snd] in Hs.
  assert (Hfields : _shaderId this' = _shaderId this
                    /\ _rasterizationState this' = _rasterizationState this).
  { subst this'. by destruct this. }
  destruct Hfields as [Hshader Hraster].
  destruct isDirty.
  - destruct (mark_dirty_fields StatePosition.ColorStates1 this') as (-> & -> & ->).
    split; [assumption|]. split; [assumption|].
    intros j Hj. apply Hlow.
    unfold StatePosition.ColorStates4, StatePosition.ColorStates1 in *. lia.
  - split; [assumption|]. split; [assumption|].
    intros j Hj. apply Hlow.
    unfold StatePosition.ColorStates4, StatePosition.ColorStates1 in *. lia.
Qed.

(** [_setColorStates] on an object that holds the color states of its
    configuration, none of them [NaN], changes nothing. *)
Lemma _setColorStates_at_rest this this2 :
  config_of this2 = config_of this ->
  (forall k, (k < 4)%nat ->
     JS.array_get (StatePosition.ColorStates1 + k) (_states this2)
     = JS.array_get (StatePosition.ColorStates1 + k) (_states (_setColorStates this))) ->
  color_states_are_numbers this2 ->
  _setColorStates this2 = this2.
Proof.
  intros Hconfig Hslots Hnumbers. unfold _setColorStates in *.
  rewrite (config_proj colorStates_init (fun t => ltac:(by destruct t)) _ _ Hconfig).
  destruct (_setColorStates_loop 8 0 (colorStates_init this) 0 false this)
    as [isDirty this'] eqn:Hrun.
  apply _setColorStates_loop_replay in Hrun as [_ Hreplay]; [|unfold colorStates_init; cbn; lia..].
  rewrite (Hreplay this2 false Hconfig); [reflexivity|].
  intros j Hj Hj'. unfold colorStates_init in Hj'. cbn in Hj, Hj'.
  replace j with (StatePosition.ColorStates1 + (j - StatePosition.ColorStates1))%nat
    by (unfold StatePosition.ColorStates1 in *; lia).
  split; [|apply Hnumbers; unfold StatePosition.ColorStates1 in *; lia].
  rewrite Hslots by (unfold StatePosition.ColorStates1 in *; lia).
  destruct isDirty; [|reflexivity].
  by destruct (mark_dirty_fields StatePosition.ColorStates1 this') as (-> & _).
Qed.

(** *** The vertex state *)

Lemma with_vertex_slot this dirty states :
  _states (this {{ _isDirty := dirty; _states := states }}) = states
  /\ vertexBuffers (this {{ _isDirty := dirty; _states := states }}) = vertexBuffers this
  /\ config_of (this {{ _isDirty := dirty; _states := states }}) = config_of this.
Proof. by destruct this. Qed.

Lemma with_vertexBuffers this buffers :
  _states (this {{ vertexBuffers := buffers }}) = _states this
  /\ vertexBuffers (this {{ vertexBuffers := buffers }}) = buffers
  /\ config_of (this {{ vertexBuffers := buffers }}) = config_of this.
Proof. by destruct this. Qed.

Lemma with_cache_and_memo (w : World) this memo :
  cache (w {{ cache := this; _validOffsetRange := memo }}) = this
  /\ _validOffsetRange (w {{ cache := this; _validOffsetRange := memo }}) = memo.
Proof. by destruct w. Qed.

Lemma world_at_rest (w : World) this :
  this = cache w ->
  w {{ cache := this; _validOffsetRange := _validOffsetRange w }} = w.
Proof. intros ->. by destruct w. Qed.

Lemma vertex_slot_at_rest this position vid :
  JS.array_get position (_states this) = Some (JS.Fin vid) ->
  this {{ _isDirty := _isDirty this
                      || JS.strict_neq (JS.array_get position (_states this))
                                       (Some (JS.Fin vid));
          _states := JS.array_set position (JS.Fin vid) (_states this) }}
  = this.
Proof.
  intros Hslot. rewrite Hslot, strict_neq_same, orb_false_r, (array_set_id _ _ _ Hslot) by done.
  by destruct this.
Qed.

Lemma vertex_buffer_at_rest this position (vertexBuffer : VertexBuffer) :
  JS.array_get position (vertexBuffers this) = Some vertexBuffer ->
  this {{ vertexBuffers := JS.array_set position vertexBuffer (vertexBuffers this) }} = this.
Proof. intros Hslot. rewrite (array_set_id _ _ _ Hslot). by destruct this. Qed.

(** A run of the loop of [_setVertexState] writes the vertex states from
    [newNumStates] on and the vertex buffers from [numVertexBuffers] on,
    and adds to the memo of the offset ranges; a second run on a world that
    holds what the first one wrote changes nothing. *)
Lemma _setVertexState_loop_replay names :
  forall locations index currentGPUBuffer numVertexBuffers newNumStates w
         numVertexBuffers' newNumStates' w',
    _setVertexState_loop names locations index currentGPUBuffer numVertexBuffers
      newNumStates w = (None, (numVertexBuffers', newNumStates', w')) ->
    newNumStates' = (newNumStates + length names)%nat
    /\ (numVertexBuffers <= numVertexBuffers')%nat
    /\ (forall j, (j < newNumStates)%nat ->
          JS.array_get j (_states (cache w')) = JS.array_get j (_states (cache w)))
    /\ (forall j, (j < numVertexBuffers)%nat ->
          JS.array_get j (vertexBuffers (cache w')) = JS.array_get j (vertexBuffers (cache w)))
    /\ (forall u v, _validOffsetRange w !! u = Some v -> _validOffsetRange w' !! u = Some v)
    /\ forall w2,
         config_of (cache w2) = config_of (cache w) ->
         (forall j, (newNumStates <= j < newNumStates')%nat ->
            JS.array_get j (_states (cache w2)) = JS.array_get j (_states (cache w'))) ->
         (forall j, (numVertexBuffers <= j < numVertexBuffers')%nat ->
            JS.array_get j (vertexBuffers (cache w2))
            = JS.array_get j (vertexBuffers (cache w'))) ->
         _validOffsetRange w2 = _validOffsetRange w' ->
         _setVertexState_loop names locations index currentGPUBuffer numVertexBuffers
           newNumStates w2 = (None, (numVertexBuffers', newNumStates', w2)).
Proof.
  induction names as [|name names IH];
    intros locations index currentGPUBuffer numVertexBuffers newNumStates w
           numVertexBuffers' newNumStates' w' Hrun.
  { cbn in Hrun. injection Hrun as <- <- <-. cbn. repeat split; auto with lia. }
  cbn [_setVertexState_loop] in Hrun. cbv zeta in Hrun.
  destruct (bound_vertex_buffer (cache w) name) as [e|vertexBuffer] eqn:Hbound; [discriminate|].
  remember (match _validOffsetRange w !! uid vertexBuffer with
            | Some _ => _validOffsetRange w
            | None => <[uid vertexBuffer := validOffsetRange_of (cache w) vertexBuffer]>
                        (_validOffsetRange w)
            end) as memo eqn:Hmemo.
  assert (Hmemo' : (exists v, memo !! uid vertexBuffer = Some v)
                   /\ forall u v, _validOffsetRange w !! u = Some v -> memo !! u = Some v).
  { subst memo. destruct (_validOffsetRange w !! uid vertexBuffer) as [v|] eqn:Hv.
    - eauto.
    - split; [by rewrite lookup_insert_eq; eauto|].
      intros u v Hu. rewrite lookup_insert_ne; [done|congruence]. }
  clear Hmemo. destruct Hmemo' as [[v Hv] Hgrows].
  rewrite Hv in Hrun. change (default false (Some v)) with v in Hrun.
  set (vid := JS.plus (hashCode vertexBuffer) (JS.shl (default 0 (locations !! index)) 7)) in *.
  destruct (same_buffer currentGPUBuffer (underlyingResource vertexBuffer) && v) eqn:Hmerge;
    cbn [negb] in Hrun; cbv beta iota in Hrun;
    match type of Hrun with
    | _setVertexState_loop _ _ _ _ _ _ ?W = _ => remember W as w1 eqn:Hw1
    end.
  - (* the attribute joins the vertex buffer of the one before *)
    assert (Hmid : _validOffsetRange w1 = memo
                   /\ _states (cache w1)
                      = JS.array_set newNumStates (JS.Fin vid) (_states (cache w))
                   /\ vertexBuffers (cache w1) = vertexBuffers (cache w)
                   /\ config_of (cache w1) = config_of (cache w)).
    { subst w1. by destruct w as [[] ? ? ? ? ? ? ? ?]. }
    clear Hw1. destruct Hmid as (Hmemo1 & Hstates1 & Hbuffers1 & Hconfig1).
    apply IH in Hrun as (-> & Hcount & Hstates & Hbuffers & Hgrows' & Hreplay).
    rewrite Hmemo1 in Hgrows'. rewrite Hstates1 in Hstates. rewrite Hbuffers1 in Hbuffers.
    rewrite Hconfig1 in Hreplay.
    split; [cbn; lia|]. split; [lia|].
    split; [intros j Hj; rewrite Hstates by lia; apply array_get_set_ne; lia|].
    split; [intros j Hj; apply Hbuffers; lia|].
    split; [auto|].
    intros w2 Hconfig Hstates2 Hbuffers2 Hmemo2.
    cbn [_setVertexState_loop]. cbv zeta.
    rewrite (config_proj (fun t => bound_vertex_buffer t name) (fun t => ltac:(by destruct t))
               _ _ Hconfig), Hbound.
    rewrite Hmemo2, (Hgrows' _ _ Hv). cbv beta iota. rewrite ?(Hgrows' _ _ Hv).
    change (default false (Some v)) with v. rewrite Hmerge. cbn [negb]. cbv beta iota.
    rewrite <- Hmemo2. fold vid.
    rewrite vertex_slot_at_rest, world_at_rest;
      [|reflexivity|rewrite Hstates2, Hstates by (cbn; lia); apply array_get_set_eq].
    apply Hreplay; try assumption.
    intros j Hj. apply Hstates2. cbn in *. lia.
  - (* the attribute opens a vertex buffer *)
    assert (Hmid : _validOffsetRange w1 = memo
                   /\ _states (cache w1)
                      = JS.array_set newNumStates (JS.Fin vid) (_states (cache w))
                   /\ vertexBuffers (cache w1)
                      = JS.array_set numVertexBuffers vertexBuffer (vertexBuffers (cache w))
                   /\ config_of (cache w1) = config_of (cache w)).
    { subst w1. by destruct w as [[] ? ? ? ? ? ? ? ?]. }
    clear Hw1. destruct Hmid as (Hmemo1 & Hstates1 & Hbuffers1 & Hconfig1).
    apply IH in Hrun as (-> & Hcount & Hstates & Hbuffers & Hgrows' & Hreplay).
    rewrite Hmemo1 in Hgrows'. rewrite Hstates1 in Hstates. rewrite Hbuffers1 in Hbuffers.
    rewrite Hconfig1 in Hreplay.
    split; [cbn; lia|]. split; [lia|].
    split; [intros j Hj; rewrite Hstates by lia; apply array_get_set_ne; lia|].
    split; [intros j Hj; rewrite Hbuffers by lia; apply array_get_set_ne; lia|].
    split; [auto|].
    intros w2 Hconfig Hstates2 Hbuffers2 Hmemo2.
    cbn [_setVertexState_loop]. cbv zeta.
    rewrite (config_proj (fun t => bound_vertex_buffer t name) (fun t => ltac:(by destruct t))
               _ _ Hconfig), Hbound.
    rewrite Hmemo2, (Hgrows' _ _ Hv). cbv beta iota. rewrite ?(Hgrows' _ _ Hv).
    change (default false (Some v)) with v. rewrite Hmerge. cbn [negb]. cbv beta iota.
    rewrite <- Hmemo2. fold vid.
    rewrite (vertex_buffer_at_rest (cache w2) numVertexBuffers vertexBuffer)
      by (rewrite Hbuffers2, Hbuffers by lia; apply array_get_set_eq).
    rewrite vertex_slot_at_rest, world_at_rest;
      [|reflexivity|rewrite Hstates2, Hstates by (cbn; lia); apply array_get_set_eq].
    apply Hreplay; try assumption.
    + intros j Hj. apply Hstates2. cbn in *. lia.
    + intros j Hj. apply Hbuffers2. lia.
Qed.

Lemma array_resize_length {A} (n : nat) (a : list (option A)) :
  length (JS.array_resize n a) = n.
Proof. unfold JS.array_resize. rewrite length_app, length_take, length_replicate. lia. Qed.

Lemma array_get_resize {A} (n j : nat) (a : list (option A)) :
  (j < n)%nat -> JS.array_get j (JS.array_resize n a) = JS.array_get j a.
Proof.
  intros Hj. unfold JS.array_get, JS.array_resize.
  destruct (decide (j < length a)%nat) as [Hlt|Hge].
  - rewrite lookup_app_l by (rewrite length_take; lia). by rewrite lookup_take_lt.
  - rewrite (lookup_ge_None_2 a j) by lia.
    rewrite lookup_app_r by (rewrite length_take; lia).
    rewrite lookup_replicate_2; [done|]. rewrite length_take. lia.
Qed.

Lemma array_resize_same {A} (a : list (option A)) : JS.array_resize (length a) a = a.
Proof.
  unfold JS.array_resize. rewrite firstn_all, Nat.sub_diag. apply app_nil_r.
Qed.

(** What [_setVertexState] leaves in the world when it returns. *)
Lemma _setVertexState_result effect w w' :
  _setVertexState effect w = (None, w') ->
  exists numVertexBuffers newNumStates wl,
    _setVertexState_loop (attributeNamesFromEffect effect)
      (attributeLocationsFromEffect effect) 0 None 0 StatePosition.VertexState w
    = (None, (numVertexBuffers, newNumStates, wl))
    /\ _statesLength (cache w') = newNumStates
    /\ vertexBuffers (cache w') = JS.array_resize numVertexBuffers (vertexBuffers (cache wl))
    /\ _states (cache w') = _states (cache wl)
    /\ _validOffsetRange w' = _validOffsetRange wl.
Proof.
  unfold _setVertexState. cbv zeta.
  destruct (_setVertexState_loop _ _ _ _ _ _ _) as [e [[numVertexBuffers newNumStates] wl]].
  destruct e as [e|]; [discriminate|]. intros [= <-].
  exists numVertexBuffers, newNumStates, wl. split; [reflexivity|].
  destruct wl as [[] ? ? ? ? ? ? ? ?]. unfold_updates.
  match goal with |- context [if ?b then _ else _] => destruct b end; by cbn.
Qed.

(** [_setVertexState] on a world that holds what a call wrote, with the
    object not dirty, changes nothing. *)
Lemma _setVertexState_at_rest effect w w' w2 :
  _setVertexState effect w = (None, w') ->
  config_of (cache w2) = config_of (cache w) ->
  (forall j, (StatePosition.VertexState <= j)%nat ->
     JS.array_get j (_states (cache w2)) = JS.array_get j (_states (cache w'))) ->
  vertexBuffers (cache w2) = vertexBuffers (cache w') ->
  _statesLength (cache w2) = _statesLength (cache w') ->
  _validOffsetRange w2 = _validOffsetRange w' ->
  _isDirty (cache w2) = false ->
  _setVertexState effect w2 = (None, w2).
Proof.
  intros Hcall Hconfig Hstates2 Hbuffers2 Hlength2 Hmemo2 Hclean.
  apply _setVertexState_result in Hcall
    as (numVertexBuffers & newNumStates & wl & Hrun & Hlength & Hbuffers & Hstates & Hmemo).
  apply _setVertexState_loop_replay in Hrun as (_ & _ & _ & _ & _ & Hreplay).
  unfold _setVertexState. cbv zeta.
  rewrite (Hreplay w2); try assumption; try congruence.
  2: { intros j Hj. rewrite Hstates2 by lia. by rewrite Hstates. }
  2: { intros j Hj. rewrite Hbuffers2, Hbuffers. apply array_get_resize. lia. }
  assert (Hsize : JS.array_resize numVertexBuffers (vertexBuffers (cache w2))
                  = vertexBuffers (cache w2)).
  { rewrite <- (array_resize_length numVertexBuffers (vertexBuffers (cache wl))), <- Hbuffers,
      <- Hbuffers2. apply array_resize_same. }
  rewrite Hsize. rewrite Hlength in Hlength2. rewrite Hlength2, Hclean, Nat.eqb_refl.
  f_equal. clear -Hclean Hlength2.
  destruct w2 as [[] ? ? ? ? ? ? ? ?]. cbn in *. subst. reflexivity.
Qed.

Lemma _setVertexState_footprint effect w w' :
  _setVertexState effect w = (None, w') ->
  forall j, (j < StatePosition.VertexState)%nat ->
    JS.array_get j (_states (cache w')) = JS.array_get j (_states (cache w)).
Proof.
  intros Hcall j Hj.
  apply _setVertexState_result in Hcall
    as (numVertexBuffers & newNumStates & wl & Hrun & _ & _ & -> & _).
  apply _setVertexState_loop_replay in Hrun as (_ & _ & Hlow & _).
  by apply Hlow.
Qed.

(** *** The packers, one call after another *)

Lemma settled_of_with_lastStateDirtyLowestIndex this index :
  settled_of (this {{ lastStateDirtyLowestIndex := index }}) = settled_of this.
Proof. by destruct this. Qed.

Lemma memo_with_cache (w : World) this :
  _validOffsetRange (w {{ cache := this }}) = _validOffsetRange w.
Proof. by destruct w. Qed.

Lemma with_same_cache (w : World) : w {{ cache := cache w }} = w.
Proof. by destruct w. Qed.

(** After the packers ran, they change nothing on a world that differs in
    the memo of the resolver, the dirty flag and the dirty indices only,
    when the object is not dirty and its packed states are numbers. *)
Lemma prepare_at_rest fillMode effect sampleCount textureState w wp w2 :
  prepare fillMode effect sampleCount textureState w = (None, wp) ->
  settled_of (cache w2) = settled_of (cache wp) ->
  _validOffsetRange w2 = _validOffsetRange wp ->
  _isDirty (cache w2) = false ->
  packed_states_are_numbers (cache w2) ->
  prepare fillMode effect sampleCount textureState w2
  = (None,
     w2 {{ cache := (cache w2) {{ lastStateDirtyLowestIndex :=
                                    Some (_stateDirtyLowestIndex (cache w2)) }} }}).
Proof.
  intros Hcall Hsettled Hmemo Hclean [Hnumbers Hnumber].
  pose proof (prepare_frame fillMode effect sampleCount textureState w) as (Hconfig & _).
  rewrite Hcall in Hconfig. cbn [snd] in Hconfig.
  unfold prepare in Hcall. cbv zeta in Hcall.
  remember (_setShaderStage (uniqueId effect) (cache w)) as c1 eqn:Hc1.
  remember (_setRasterizationState fillMode sampleCount c1) as c2 eqn:Hc2.
  remember (_setColorStates c2) as c3 eqn:Hc3.
  remember (_setDepthStencilState c3) as c4 eqn:Hc4.
  destruct (_setVertexState effect (w {{ cache := c4 }})) as [[e|] w5] eqn:Hvertex;
    [discriminate|].
  remember (_setTextureState textureState (cache w5)) as c6 eqn:Hc6.
  apply (f_equal snd) in Hcall. cbn [snd] in Hcall. subst wp.
  rewrite cache_with_cache, settled_of_with_lastStateDirtyLowestIndex in Hsettled.
  rewrite memo_with_cache in Hmemo.
  rewrite cache_with_cache, config_of_with_lastStateDirtyLowestIndex in Hconfig.
  (* the configuration is the same all along *)
  assert (Hconfig2 : config_of (cache w2) = config_of (cache w)).
  { rewrite <- Hconfig. by apply config_of_settled. }
  assert (Hconfig1 : config_of c1 = config_of (cache w)).
  { subst c1. apply config_of__setShaderStage. }
  assert (Hconfig2' : config_of c2 = config_of (cache w)).
  { subst c2. by rewrite config_of__setRasterizationState. }
  assert (Hconfig3 : config_of c3 = config_of (cache w)).
  { subst c3. by rewrite config_of__setColorStates. }
  assert (Hconfig4 : config_of c4 = config_of (cache w)).
  { subst c4. by rewrite config_of__setDepthStencilState. }
  (* what each packer wrote *)
  pose proof (_setShaderStage_footprint (uniqueId effect) (cache w)) as [Hs1 _].
  pose proof (_setRasterizationState_footprint fillMode sampleCount c1) as (Hr2 & Hs2 & _).
  pose proof (_setColorStates_footprint c2) as (Hs3 & Hr3 & _).
  pose proof (_setDepthStencilState_footprint c3) as (Hd4 & Hs4 & Hr4 & Hslots4).
  pose proof (_setVertexState_frame effect (w {{ cache := c4 }})) as [Hu5 _].
  pose proof (_setVertexState_footprint _ _ _ Hvertex) as Hslots5.
  pose proof (_setTextureState_footprint textureState (cache w5))
    as (Ht6 & Hs6 & Hr6 & Hd6 & Hl6 & Hb6 & Hslots6).
  cbv zeta in *. rewrite Hvertex in Hu5. cbn [snd] in Hu5.
  rewrite cache_with_cache in Hu5, Hslots5.
  rewrite <- Hc1 in Hs1. rewrite <- Hc2 in Hr2, Hs2. rewrite <- Hc3 in Hs3, Hr3.
  rewrite <- Hc4 in Hd4, Hs4, Hr4, Hslots4.
  rewrite <- Hc6 in Ht6, Hs6, Hr6, Hd6, Hl6, Hb6, Hslots6.
  pose proof (untracked_proj _shaderId (fun t => ltac:(by destruct t)) _ _ Hu5) as Hs5.
  pose proof (untracked_proj _rasterizationState (fun t => ltac:(by destruct t)) _ _ Hu5)
    as Hr5.
  pose proof (untracked_proj _depthStencilState (fun t => ltac:(by destruct t)) _ _ Hu5)
    as Hd5.
  (* the object of the second call holds all of it *)
  assert (Hshader : _shaderId (cache w2) = Some (uniqueId effect)).
  { rewrite (settled_proj _shaderId (fun t => ltac:(by destruct t)) _ _ Hsettled).
    congruence. }
  assert (Hraster : _rasterizationState (cache w2)
                    = Some (rasterizationState_of fillMode sampleCount (cache w2))).
  { rewrite (settled_proj _rasterizationState (fun t => ltac:(by destruct t)) _ _ Hsettled).
    rewrite (config_proj (rasterizationState_of fillMode sampleCount)
               (rasterizationState_of_config fillMode sampleCount) (cache w2) c1)
      by congruence.
    congruence. }
  assert (Hdepth : _depthStencilState (cache w2) = Some (depthStencilState_of (cache w2))).
  { rewrite (settled_proj _depthStencilState (fun t => ltac:(by destruct t)) _ _ Hsettled).
    rewrite (config_proj depthStencilState_of depthStencilState_of_config (cache w2) c3)
      by congruence.
    congruence. }
  assert (Htexture : _textureState (cache w2) = Some textureState).
  { rewrite (settled_proj _textureState (fun t => ltac:(by destruct t)) _ _ Hsettled).
    congruence. }
  assert (Hstates : _states (cache w2) = _states c6).
  { apply (settled_proj _states (fun t => ltac:(by destruct t)) _ _ Hsettled). }
  assert (Hbuffers : vertexBuffers (cache w2) = vertexBuffers (cache w5)).
  { rewrite (settled_proj vertexBuffers (fun t => ltac:(by destruct t)) _ _ Hsettled).
    congruence. }
  assert (Hlength : _statesLength (cache w2) = _statesLength (cache w5)).
  { rewrite (settled_proj _statesLength (fun t => ltac:(by destruct t)) _ _ Hsettled).
    congruence. }
  (* so that each packer finds its value stored *)
  unfold prepare. cbv zeta.
  rewrite (_setShaderStage_at_rest _ _ Hshader).
  rewrite (_setRasterizationState_at_rest _ _ _ Hraster).
  rewrite (_setColorStates_at_rest c2 (cache w2)); [|congruence| |assumption].
  2: { intros k Hk. rewrite Hstates, <- Hc3.
       rewrite Hslots6, Hslots5, Hslots4; [reflexivity|..];
         unfold StatePosition.ColorStates1, StatePosition.DepthStencilState,
           StatePosition.VertexState, StatePosition.TextureStage; lia. }
  rewrite (_setDepthStencilState_at_rest _ Hdepth).
  2: { rewrite (config_proj depthStencilState_of depthStencilState_of_config (cache w2) c3)
         by congruence.
       destruct (_setDepthStencilState_slot c3) as [Hslot|Hdone]; [|assumption].
       intros Hnan. apply Hnumber. rewrite Hstates, Hslots6, Hslots5, <- Hnan, <- Hslot.
       - by rewrite Hc4.
       - unfold StatePosition.DepthStencilState, StatePosition.VertexState. lia.
       - unfold StatePosition.DepthStencilState, StatePosition.TextureStage. lia. }
  rewrite with_same_cache.
  rewrite (_setVertexState_at_rest effect (w {{ cache := c4 }}) w5 w2 Hvertex);
    try assumption.
  - by rewrite (_setTextureState_at_rest _ _ Htexture).
  - rewrite cache_with_cache. congruence.
  - intros j Hj. rewrite Hstates. apply Hslots6.
    unfold StatePosition.VertexState, StatePosition.TextureStage in *. lia.
Qed.

(** *** The resolver after the packers *)

Lemma memo_hit_settled w :
  settled_of (cache (memo_hit w)) = settled_of (cache w)
  /\ _validOffsetRange (memo_hit w) = _validOffsetRange w
  /\ _isDirty (cache (memo_hit w)) = _isDirty (cache w).
Proof. unfold memo_hit. by destruct w as [[] ? ? ? ? ? ? ? ?]. Qed.

Lemma looked_up_settled w :
  settled_of (cache (looked_up w)) = settled_of (cache w)
  /\ _validOffsetRange (looked_up w) = _validOffsetRange w
  /\ _isDirty (cache (looked_up w)) = false.
Proof.
  unfold looked_up. cbv zeta. destruct (_getRenderPipeline _ _) as [parameter st].
  by destruct w as [[] ? ? ? ? ? ? ? ?].
Qed.

Lemma adopt_settled stored created w :
  settled_of (cache (adopt stored created w)) = settled_of (cache w)
  /\ _validOffsetRange (adopt stored created w) = _validOffsetRange w
  /\ _isDirty (cache (adopt stored created w)) = _isDirty (cache w).
Proof. unfold adopt. by destruct w as [[] ? ? ? ? ? ? ? ?]. Qed.

Lemma memo_with_device_log (w : World) log :
  _validOffsetRange (w {{ device_log := log }}) = _validOffsetRange w.
Proof. by destruct w. Qed.

Lemma memo_with_NumCacheHitWithHash (w : World) n :
  _validOffsetRange (w {{ NumCacheHitWithHash := n }}) = _validOffsetRange w.
Proof. by destruct w. Qed.

(** A call that returns a pipeline, with the cache enabled, leaves the
    object as the packers left it, not dirty, and with that pipeline as
    its memo. *)
Lemma getRenderPipeline_returns fillMode effect sampleCount textureState w created w1 :
  disabled (cache w) = false ->
  getRenderPipeline fillMode effect sampleCount textureState w = (inr created, w1) ->
  exists wp,
    prepare fillMode effect (GetSample sampleCount) textureState w = (None, wp)
    /\ settled_of (cache w1) = settled_of (cache wp)
    /\ _validOffsetRange w1 = _validOffsetRange wp
    /\ _isDirty (cache w1) = false
    /\ pipeline (_parameter (cache w1)) = Some created.
Proof.
  intros Hdis Hcall. unfold getRenderPipeline in Hcall. cbv zeta in Hcall.
  rewrite Hdis in Hcall.
  destruct (prepare fillMode effect (GetSample sampleCount) textureState w)
    as [[e|] wp] eqn:Hprep; [discriminate|].
  exists wp. split; [reflexivity|].
  destruct (looked_up_settled wp) as (Hl1 & Hl2 & Hl3).
  remember (looked_up wp) as wl eqn:Hwl. clear Hwl.
  assert (Hslow :
    match pipeline (_parameter (cache wl)) with
    | Some found =>
        (inr found, wl {{ NumCacheHitWithHash := NumCacheHitWithHash wl + 1 }})
    | None =>
        match _GetTopology fillMode with
        | inl e => (inl e, wl)
        | inr topology =>
            match _createRenderPipeline effect topology (GetSample sampleCount) wl with
            | (inl e, w) => (inl e, w)
            | (inr created, w) => (inr created, adopt true created w)
            end
        end
    end = (inr created, w1) ->
    settled_of (cache w1) = settled_of (cache wp)
    /\ _validOffsetRange w1 = _validOffsetRange wp
    /\ _isDirty (cache w1) = false
    /\ pipeline (_parameter (cache w1)) = Some created).
  { clear Hcall. intros Hcall.
    destruct (pipeline (_parameter (cache wl))) as [found|] eqn:Hfound.
    - apply (f_equal snd) in Hcall as Hw. apply (f_equal fst) in Hcall as Hr.
      cbn [fst snd] in Hw, Hr. injection Hr as ->. subst w1.
      destruct (with_NumCacheHitWithHash wl (NumCacheHitWithHash wl + 1)) as (-> & _).
      by rewrite memo_with_NumCacheHitWithHash.
    - destruct (_GetTopology fillMode) as [e|topology]; [discriminate|].
      destruct (_createRenderPipeline_cases effect topology (GetSample sampleCount) wl)
        as [(e & _ & Hcreate)|(layouts & _ & Hcreate)];
        rewrite Hcreate in Hcall; [discriminate|].
      destruct (createRenderPipeline _ _) as [e|made]; [discriminate|].
      apply (f_equal snd) in Hcall as Hw. apply (f_equal fst) in Hcall as Hr.
      cbn [fst snd] in Hw, Hr. injection Hr as ->. subst w1.
      match goal with
      | |- context [adopt true created ?W] =>
          destruct (adopt_settled true created W) as (-> & -> & ->);
          destruct (adopt_frame true created W) as (_ & -> & _)
      end.
      match goal with
      | |- context [wl {{ device_log := ?log }}] =>
          destruct (with_device_log wl log) as (-> & _);
          rewrite memo_with_device_log
      end.
      auto. }
  destruct (negb (_isDirty (cache wp))) eqn:Hclean; [|by apply Hslow].
  destruct (pipeline (_parameter (cache wp))) as [cached|] eqn:Hcached; [|by apply Hslow].
  apply (f_equal snd) in Hcall as Hw. apply (f_equal fst) in Hcall as Hr.
  cbn [fst snd] in Hw, Hr. injection Hr as ->. subst w1.
  destruct (memo_hit_settled wp) as (-> & -> & ->).
  destruct (memo_hit_frame wp) as (_ & -> & _).
  apply negb_true_iff in Hclean. auto.
Qed.

Lemma counters_values w a b c d e :
  counters w = (a, b, c, d, e) ->
  NumCacheHitWithoutHash w = a /\ NumCacheHitWithHash w = b /\ NumCacheMiss w = c
  /\ NumPipelineCreationLastFrame w = d /\ _NumPipelineCreationCurrentFrame w = e.
Proof.
  unfold counters. intros H. repeat split.
  - exact (f_equal (fun c => fst (fst (fst (fst c)))) H).
  - exact (f_equal (fun c => snd (fst (fst (fst c)))) H).
  - exact (f_equal (fun c => snd (fst (fst c))) H).
  - exact (f_equal (fun c => snd (fst c)) H).
  - exact (f_equal snd H).
Qed.

(** C4, for packed states that are numbers.  When a call of
    [getRenderPipeline], with the cache enabled, returned a pipeline and
    left color states and a depth-stencil state that are numbers (none is
    [NaN]), a second call with the same fill mode, effect, sample count and
    texture state, with no setter called in between, returns the same
    pipeline and counts one more hit without hash: the other counters, the
    calls the device received and the structure of the lookup strategy are
    as before. *)
Theorem C4_second_call_hits_memo (fillMode : Z) (effect : Effect)
    (sampleCount textureState : Z) (w w1 : World) (created : GPURenderPipeline) :
  disabled (cache w) = false ->
  getRenderPipeline fillMode effect sampleCount textureState w = (inr created, w1) ->
  packed_states_are_numbers (cache w1) ->
  exists w2,
    getRenderPipeline fillMode effect sampleCount textureState w1 = (inr created, w2)
    /\ NumCacheHitWithoutHash w2 = NumCacheHitWithoutHash w1 + 1
    /\ NumCacheHitWithHash w2 = NumCacheHitWithHash w1
    /\ NumCacheMiss w2 = NumCacheMiss w1
    /\ _NumPipelineCreationCurrentFrame w2 = _NumPipelineCreationCurrentFrame w1
    /\ NumPipelineCreationLastFrame w2 = NumPipelineCreationLastFrame w1
    /\ device_log w2 = device_log w1
    /\ store w2 = store w1.
Proof.
  intros Hdis Hcall Hnumbers.
  destruct (getRenderPipeline_returns _ _ _ _ _ _ _ Hdis Hcall)
    as (wp & Hprep & Hsettled & Hmemo & Hclean & Hpipeline).
  pose proof (prepare_frame fillMode effect (GetSample sampleCount) textureState w)
    as (Hconfig & _).
  rewrite Hprep in Hconfig. cbn [snd] in Hconfig.
  assert (Hdis1 : disabled (cache w1) = false).
  { rewrite <- Hdis.
    apply (config_proj disabled (fun t => ltac:(by destruct t))).
    rewrite <- Hconfig. by apply config_of_settled. }
  unfold getRenderPipeline. cbv zeta. rewrite Hdis1.
  rewrite (prepare_at_rest _ _ _ _ _ _ w1 Hprep Hsettled Hmemo Hclean Hnumbers).
  rewrite cache_with_cache.
  destruct (with_lastStateDirtyLowestIndex (cache w1)
              (Some (_stateDirtyLowestIndex (cache w1)))) as (-> & _ & ->).
  rewrite Hclean, Hpipeline. cbn [negb].
  eexists. split; [reflexivity|].
  match goal with
  | |- context [memo_hit ?W] =>
      destruct (memo_hit_frame W) as (_ & _ & Hstore & Hlog & Hcounters);
      pose proof (outside_with_cache w1 (cache W)) as Houtside
  end.
  rewrite cache_with_cache in Houtside.
  apply outside_inv in Houtside as (Hstore' & Hlog' & Hcounters').
  apply counters_values in Hcounters as (-> & -> & -> & -> & ->).
  apply counters_inv in Hcounters' as (-> & -> & -> & -> & ->).
  rewrite Hstore, Hlog, Hstore', Hlog'. repeat split.
Qed.

(** ** The paths of [getRenderPipeline] *)

Lemma getRenderPipeline_enabled fillMode effect sampleCount textureState w :
  disabled (cache w) = false ->
  (exists e wp,
      prepare fillMode effect (GetSample sampleCount) textureState w = (Some e, wp)
      /\ getRenderPipeline fillMode effect sampleCount textureState w = (inl e, wp))
  \/ (exists wp cached,
        prepare fillMode effect (GetSample sampleCount) textureState w = (None, wp)
        /\ _isDirty (cache wp) = false
        /\ pipeline (_parameter (cache wp)) = Some cached
        /\ getRenderPipeline fillMode effect sampleCount textureState w
           = (inr cached, memo_hit wp))
  \/ (exists wp,
        prepare fillMode effect (GetSample sampleCount) textureState w = (None, wp)
        /\ (_isDirty (cache wp) = true \/ pipeline (_parameter (cache wp)) = None)
        /\ getRenderPipeline fillMode effect sampleCount textureState w
           = resolve fillMode effect (GetSample sampleCount) wp).
Proof.
  intros Hdis. unfold getRenderPipeline. cbv zeta. rewrite Hdis.
  destruct (prepare fillMode effect (GetSample sampleCount) textureState w)
    as [[e|] wp] eqn:Hprep.
  { left. eauto. }
  right.
  destruct (_isDirty (cache wp)) eqn:Hdirty; cbn [negb].
  { right. exists wp. split; [reflexivity|]. split; [by left|].
    destruct (pipeline (_parameter (cache wp))); reflexivity. }
  destruct (pipeline (_parameter (cache wp))) as [cached|] eqn:Hcached.
  - left. exists wp, cached. auto.
  - right. exists wp. split; [reflexivity|]. split; [by right|]. reflexivity.
Qed.

(** What the lookup and the creation leave alone. *)
Lemma resolve_frame fillMode effect sampleCount w :
  let w' := snd (resolve fillMode effect sampleCount w) in
  settled_of (cache w') = settled_of (cache w)
  /\ _validOffsetRange w' = _validOffsetRange w
  /\ NumCacheHitWithoutHash w' = NumCacheHitWithoutHash w.
Proof.
  cbv zeta. unfold resolve. cbv zeta.
  destruct (looked_up_settled w) as (Hl1 & Hl2 & _).
  destruct (looked_up_frame w) as (_ & _ & _ & _ & _ & Hl3).
  apply counters_inv in Hl3 as (Hl3 & _).
  remember (looked_up w) as wl eqn:Hwl. clear Hwl.
  destruct (pipeline (_parameter (cache wl))) as [found|]; cbn [snd].
  - destruct (with_NumCacheHitWithHash wl (NumCacheHitWithHash wl + 1)) as (-> & _ & _ & Hc).
    apply counters_values in Hc as (-> & _).
    by rewrite memo_with_NumCacheHitWithHash.
  - destruct (_GetTopology fillMode) as [e|topology]; cbn [snd]; [auto|].
    destruct (_createRenderPipeline_cases effect topology sampleCount wl)
      as [(e & _ & ->)|(layouts & _ & ->)]; cbn [snd]; [auto|].
    match goal with
    | |- context [wl {{ device_log := ?log }}] =>
        destruct (with_device_log wl log) as (Hd1 & _ & _ & Hd2);
        pose proof (memo_with_device_log wl log) as Hd3;
        remember (wl {{ device_log := log }}) as wd eqn:Hwd; clear Hwd
    end.
    apply counters_inv in Hd2 as (Hd2 & _).
    destruct (createRenderPipeline _ _) as [e|created]; cbn [snd].
    + rewrite Hd1, Hd2, Hd3. auto.
    + destruct (adopt_settled true created wd) as (-> & -> & _).
      destruct (adopt_frame true created wd) as (_ & _ & _ & _ & Hc).
      apply counters_values in Hc as (-> & _).
      rewrite Hd1, Hd2, Hd3. auto.
Qed.

(** ** The dirty flag *)

Lemma strict_neq_false (a : option JS.num) (c : JS.num) :
  JS.strict_neq a (Some c) = false -> a = Some c.
Proof.
  unfold JS.strict_neq. destruct a as [[x|]|], c as [y|]; try discriminate.
  intros H. apply negb_false_iff, Z.eqb_eq in H. by subst.
Qed.

Lemma mark_dirty_is_dirty position this : _isDirty (mark_dirty position this) = true.
Proof. by destruct this. Qed.

Lemma mark_dirty_index position this :
  _stateDirtyLowestIndex (mark_dirty position this)
  = Nat.min (_stateDirtyLowestIndex this) position.
Proof. by destruct this. Qed.

(** A packer that leaves the object clean left it as it was. *)
Ltac packer_clean :=
  intros Hclean; case_bool_decide; [|reflexivity];
  by rewrite mark_dirty_is_dirty in Hclean.

Lemma _setShaderStage_clean id this :
  _isDirty (_setShaderStage id this) = false -> _setShaderStage id this = this.
Proof. unfold _setShaderStage. packer_clean. Qed.

Lemma _setRasterizationState_clean topology sampleCount this :
  _isDirty (_setRasterizationState topology sampleCount this) = false ->
  _setRasterizationState topology sampleCount this = this.
Proof. unfold _setRasterizationState. cbv zeta. packer_clean. Qed.

Lemma _setDepthStencilState_clean this :
  _isDirty (_setDepthStencilState this) = false -> _setDepthStencilState this = this.
Proof.
  unfold _setDepthStencilState. cbv zeta. intros Hclean.
  destruct (JS.strict_neq _ _); [|reflexivity].
  by rewrite mark_dirty_is_dirty in Hclean.
Qed.

Lemma _setTextureState_clean textureState this :
  _isDirty (_setTextureState textureState this) = false ->
  _setTextureState textureState this = this.
Proof. unfold _setTextureState. packer_clean. Qed.

Lemma _setColorStates_loop_clean n :
  forall i colorStates colorStateIndex isDirty this isDirty' this',
    _setColorStates_loop n i colorStates colorStateIndex isDirty this = (isDirty', this') ->
    isDirty' = false -> isDirty = false /\ this' = this.
Proof.
  induction n as [|n IH];
    intros i colorStates colorStateIndex isDirty this isDirty' this' Hrun Hclean.
  { cbn in Hrun. injection Hrun as <- <-. auto. }
  cbn [_setColorStates_loop] in Hrun. cbv zeta in Hrun.
  destruct (Nat.odd i); [|by eapply IH].
  apply IH in Hrun as [Hd ->]; [|assumption].
  apply orb_false_elim in Hd as [-> Hsame]. split; [reflexivity|].
  match goal with
  | |- context [?cs !! colorStateIndex] => destruct (cs !! colorStateIndex) as [c|]
  end; [|reflexivity].
  apply strict_neq_false in Hsame.
  by rewrite (array_set_id _ _ _ Hsame), with__states_same.
Qed.

Lemma _setColorStates_clean this :
  _isDirty (_setColorStates this) = false -> _setColorStates this = this.
Proof.
  unfold _setColorStates.
  destruct (_setColorStates_loop 8 0 (colorStates_init this) 0 false this)
    as [isDirty this'] eqn:Hrun.
  destruct isDirty.
  - by rewrite mark_dirty_is_dirty.
  - intros _. by apply _setColorStates_loop_clean in Hrun as [_ ->].
Qed.

Lemma _setVertexState_loop_clean names :
  forall locations index currentGPUBuffer numVertexBuffers newNumStates w
         numVertexBuffers' newNumStates' w',
    _setVertexState_loop names locations index currentGPUBuffer numVertexBuffers
      newNumStates w = (None, (numVertexBuffers', newNumStates', w')) ->
    _isDirty (cache w') = false ->
    _isDirty (cache w) = false /\ _states (cache w') = _states (cache w).
Proof.
  induction names as [|name names IH];
    intros locations index currentGPUBuffer numVertexBuffers newNumStates w
           numVertexBuffers' newNumStates' w' Hrun Hclean.
  { cbn in Hrun. injection Hrun as <- <- <-. auto. }
  cbn [_setVertexState_loop] in Hrun. cbv zeta in Hrun.
  destruct (bound_vertex_buffer (cache w) name) as [e|vertexBuffer]; [discriminate|].
  set (vid := JS.plus (hashCode vertexBuffer) (JS.shl (default 0 (locations !! index)) 7)) in *.
  match type of Hrun with
  | context [negb ?b] => destruct b
  end; cbn [negb] in Hrun; cbv beta iota in Hrun;
    match type of Hrun with
    | _setVertexState_loop _ _ _ _ _ _ ?W = _ => remember W as w1 eqn:Hw1
    end.
  all: assert (Hmid : _isDirty (cache w1)
                      = _isDirty (cache w)
                        || JS.strict_neq (JS.array_get newNumStates (_states (cache w)))
                             (Some (JS.Fin vid))
                      /\ _states (cache w1)
                         = JS.array_set newNumStates (JS.Fin vid) (_states (cache w)))
    by (subst w1; by destruct w as [[] ? ? ? ? ? ? ? ?]).
  all: clear Hw1; destruct Hmid as [Hdirty1 Hstates1].
  all: apply IH in Hrun as [Hclean1 ->]; try assumption.
  all: rewrite Hdirty1 in Hclean1; apply orb_false_elim in Hclean1 as [-> Hsame].
  all: apply strict_neq_false in Hsame.
  all: by rewrite Hstates1, (array_set_id _ _ _ Hsame).
Qed.

Lemma _setVertexState_clean effect w w' :
  _setVertexState effect w = (None, w') ->
  _isDirty (cache w') = false ->
  _isDirty (cache w) = false
  /\ _states (cache w') = _states (cache w)
  /\ _statesLength (cache w') = _statesLength (cache w).
Proof.
  unfold _setVertexState. cbv zeta.
  pose proof (_setVertexState_loop_frame (attributeNamesFromEffect effect)
                (attributeLocationsFromEffect effect) 0 None 0 StatePosition.VertexState w)
    as (_ & Hlength & _).
  destruct (_setVertexState_loop _ _ _ _ _ _ _)
    as [e [[numVertexBuffers newNumStates] wl]] eqn:Hrun.
  cbn [snd] in Hlength. destruct e as [e|]; [discriminate|]. intros [= <-] Hclean.
  assert (Hend : _isDirty (cache wl) = false
                 /\ (newNumStates =? _statesLength (cache w))%nat = true).
  { revert Hclean. clear. destruct wl as [[] ? ? ? ? ? ? ? ?]. unfold_updates.
    match goal with |- context [if ?b then _ else _] => destruct b eqn:Hb end;
      cbn; [discriminate|].
    intros _. apply orb_false_elim in Hb as [-> Hb]. by apply negb_false_iff in Hb. }
  destruct Hend as [Hcleanl Hsame]. apply Nat.eqb_eq in Hsame.
  apply _setVertexState_loop_clean in Hrun as [-> Hstates]; [|assumption].
  split; [reflexivity|]. rewrite <- Hstates, <- Hsame.
  clear. destruct wl as [[] ? ? ? ? ? ? ? ?]. unfold_updates.
  match goal with |- context [if ?b then _ else _] => destruct b end; by cbn.
Qed.

(** When the packers leave the object clean, it was clean, and its state
    vector is as it was. *)
Lemma prepare_clean fillMode effect sampleCount textureState w wp :
  prepare fillMode effect sampleCount textureState w = (None, wp) ->
  _isDirty (cache wp) = false ->
  _isDirty (cache w) = false
  /\ _states (cache wp) = _states (cache w)
  /\ _statesLength (cache wp) = _statesLength (cache w).
Proof.
  intros Hcall Hclean. unfold prepare in Hcall. cbv zeta in Hcall.
  remember (_setShaderStage (uniqueId effect) (cache w)) as c1 eqn:Hc1.
  remember (_setRasterizationState fillMode sampleCount c1) as c2 eqn:Hc2.
  remember (_setColorStates c2) as c3 eqn:Hc3.
  remember (_setDepthStencilState c3) as c4 eqn:Hc4.
  destruct (_setVertexState effect (w {{ cache := c4 }})) as [[e|] w5] eqn:Hvertex;
    [discriminate|].
  remember (_setTextureState textureState (cache w5)) as c6 eqn:Hc6.
  apply (f_equal snd) in Hcall. cbn [snd] in Hcall. subst wp.
  rewrite cache_with_cache in Hclean |- *.
  destruct (with_lastStateDirtyLowestIndex c6 (Some (_stateDirtyLowestIndex c6)))
    as (_ & _ & Hd).
  rewrite Hd in Hclean.
  assert (Hfields : forall this index,
            _states (this {{ lastStateDirtyLowestIndex := index }}) = _states this
            /\ _statesLength (this {{ lastStateDirtyLowestIndex := index }})
               = _statesLength this) by (by intros []).
  destruct (Hfields c6 (Some (_stateDirtyLowestIndex c6))) as [-> ->]. clear Hfields Hd.
  rewrite Hc6 in Hclean. rewrite Hc6, (_setTextureState_clean _ _ Hclean).
  rewrite (_setTextureState_clean _ _ Hclean) in Hclean.
  apply (_setVertexState_clean _ _ _ Hvertex) in Hclean as (Hclean & -> & ->).
  rewrite cache_with_cache in Hclean |- *.
  rewrite Hc4 in Hclean. rewrite Hc4, (_setDepthStencilState_clean _ Hclean).
  rewrite (_setDepthStencilState_clean _ Hclean) in Hclean.
  rewrite Hc3 in Hclean. rewrite Hc3, (_setColorStates_clean _ Hclean).
  rewrite (_setColorStates_clean _ Hclean) in Hclean.
  rewrite Hc2 in Hclean. rewrite Hc2, (_setRasterizationState_clean _ _ _ Hclean).
  rewrite (_setRasterizationState_clean _ _ _ Hclean) in Hclean.
  rewrite Hc1 in Hclean. rewrite Hc1, (_setShaderStage_clean _ _ Hclean).
  rewrite (_setShaderStage_clean _ _ Hclean) in Hclean. auto.
Qed.

Lemma memo_hit_fields w :
  _states (cache (memo_hit w)) = _states (cache w)
  /\ _statesLength (cache (memo_hit w)) = _statesLength (cache w)
  /\ lastStateDirtyLowestIndex (cache (memo_hit w)) = lastStateDirtyLowestIndex (cache w)
  /\ _stateDirtyLowestIndex (cache (memo_hit w)) = _statesLength (cache w).
Proof. unfold memo_hit. by destruct w as [[] ? ? ? ? ? ? ? ?]. Qed.

(** X1.  A call of [getRenderPipeline] that counts a hit without hash found
    the object clean and left the state vector and its length as they were:
    the pipeline it returns, the one of the memo, is returned for the state
    vector of the resolution before. *)
Theorem memo_hit_keeps_state_vector (fillMode : Z) (effect : Effect)
    (sampleCount textureState : Z) (w : World) :
  let r := fst (getRenderPipeline fillMode effect sampleCount textureState w) in
  let w' := snd (getRenderPipeline fillMode effect sampleCount textureState w) in
  NumCacheHitWithoutHash w' = NumCacheHitWithoutHash w + 1 ->
  disabled (cache w) = false
  /\ _isDirty (cache w) = false
  /\ (exists cached, pipeline (_parameter (cache w)) = Some cached /\ r = inr cached)
  /\ _parameter (cache w') = _parameter (cache w)
  /\ _states (cache w') = _states (cache w)
  /\ _statesLength (cache w') = _statesLength (cache w).
Proof.
  cbv zeta. intros Hhit.
  pose proof (getRenderPipeline_outcome fillMode effect sampleCount textureState w) as Hout.
  assert (Hmemo : disabled (cache w) = false
                  /\ (exists cached, pipeline (_parameter (cache w)) = Some cached
                        /\ fst (getRenderPipeline fillMode effect sampleCount textureState w)
                           = inr cached)
                  /\ _parameter (cache (snd (getRenderPipeline fillMode effect sampleCount
                                               textureState w)))
                     = _parameter (cache w)).
  { destruct (getRenderPipeline fillMode effect sampleCount textureState w) as [r w'].
    cbn [fst snd] in *.
    inversion Hout as
      [ e0 w1 Htop Hc Hlog Hcnt | e0 w1 He Hc Hlog Hcnt
      | cached w1 Hen Hcached Hp Hc Hlog Hst Hcnt
      | found this w1 Hen Hfound Hp Hst Hc Hlog Hcnt
      | topology e0 w1 Htop He Hc Hlog Hcnt
      | topology layouts this e0 w1 Htop Hc Hts Hlog Hdev Hc' Hcnt
      | topology layouts this created w1 Htop Hc Hts Hlog Hdev Hc' Hcnt ]; subst.
    3: { eauto. }
    1,2,4,5: apply counters_inv in Hcnt as (Hcnt & _); lia.
    all: try (apply counters_values in Hcnt as (Hcnt & _); lia). }
  destruct Hmemo as (Hdis & Hcached & Hparameter).
  assert (Hstate : _isDirty (cache w) = false
                   /\ _states (cache (snd (getRenderPipeline fillMode effect sampleCount
                                             textureState w)))
                      = _states (cache w)
                   /\ _statesLength (cache (snd (getRenderPipeline fillMode effect sampleCount
                                                   textureState w)))
                      = _statesLength (cache w)).
  { destruct (getRenderPipeline_enabled fillMode effect sampleCount textureState w Hdis)
      as [(e & wp & Hprep & Hcall)|[(wp & cached & Hprep & Hclean & _ & Hcall)
                                   |(wp & Hprep & _ & Hcall)]];
      pose proof (prepare_frame fillMode effect (GetSample sampleCount) textureState w)
        as (_ & _ & Ho & _);
      rewrite Hprep in Ho; cbn [snd] in Ho;
      apply outside_inv in Ho as (_ & _ & Hcnt); apply counters_inv in Hcnt as (Hcnt & _);
      rewrite Hcall in Hhit |- *; cbn [snd] in Hhit |- *.
    - lia.
    - destruct (memo_hit_fields wp) as (-> & -> & _).
      by apply (prepare_clean _ _ _ _ _ _ Hprep) in Hclean as (-> & -> & ->).
    - destruct (resolve_frame fillMode effect (GetSample sampleCount) wp)
        as (_ & _ & Hsame).
      lia. }
  destruct Hstate as (Hclean & Hstates & Hlength). auto 10.
Qed.

(** ** The lowest dirty index *)

Lemma keeps_below_dirty_index_refl this : keeps_below_dirty_index this this.
Proof. by split. Qed.

Lemma keeps_below_dirty_index_trans this1 this2 this3 :
  keeps_below_dirty_index this1 this2 -> keeps_below_dirty_index this2 this3 ->
  keeps_below_dirty_index this1 this3.
Proof.
  intros [Hle Hslots] [Hle' Hslots']. split; [lia|].
  intros j Hj. rewrite Hslots' by lia. apply Hslots. lia.
Qed.

Ltac packer_keeps_below :=
  first [case_bool_decide | destruct (JS.strict_neq _ _)];
  [|apply keeps_below_dirty_index_refl];
  match goal with this : WebGPUCacheRenderPipeline |- _ => destruct this end;
  unfold keeps_below_dirty_index; unfold_updates;
  split; [lia|intros j Hj; apply array_get_set_ne; lia].

Lemma _setShaderStage_keeps_below id this :
  keeps_below_dirty_index this (_setShaderStage id this).
Proof. unfold _setShaderStage. packer_keeps_below. Qed.

Lemma _setRasterizationState_keeps_below topology sampleCount this :
  keeps_below_dirty_index this (_setRasterizationState topology sampleCount this).
Proof. unfold _setRasterizationState. cbv zeta. packer_keeps_below. Qed.

Lemma _setDepthStencilState_keeps_below this :
  keeps_below_dirty_index this (_setDepthStencilState this).
Proof. unfold _setDepthStencilState. cbv zeta. packer_keeps_below. Qed.

Lemma _setTextureState_keeps_below textureState this :
  keeps_below_dirty_index this (_setTextureState textureState this).
Proof. unfold _setTextureState. packer_keeps_below. Qed.

Lemma _setColorStates_keeps_below this :
  keeps_below_dirty_index this (_setColorStates this).
Proof.
  pose proof (_setColorStates_footprint this) as (_ & _ & Hlow). cbv zeta in Hlow.
  revert Hlow. unfold _setColorStates.
  destruct (_setColorStates_loop_states 8 0 (colorStates_init this) 0 false this) as [states Hs].
  destruct (_setColorStates_loop 8 0 (colorStates_init this) 0 false this)
    as [isDirty this'] eqn:Hrun.
  cbn [snd] in Hs. destruct isDirty.
  - intros Hlow. split.
    + rewrite mark_dirty_index. subst this'. destruct this. unfold_updates. lia.
    + intros j Hj. rewrite mark_dirty_index in Hj. apply Hlow.
      unfold StatePosition.ColorStates1 in *. lia.
  - intros _. apply _setColorStates_loop_clean in Hrun as [_ ->]; [|reflexivity].
    apply keeps_below_dirty_index_refl.
Qed.

Lemma _setVertexState_keeps_below effect w w' :
  _setVertexState effect w = (None, w') ->
  keeps_below_dirty_index (cache w) (cache w').
Proof.
  intros Hcall.
  pose proof (_setVertexState_footprint _ _ _ Hcall) as Hlow.
  assert (Hindex : _stateDirtyLowestIndex (cache w')
                   = if _isDirty (cache w')
                     then Nat.min (_stateDirtyLowestIndex (cache w)) StatePosition.VertexState
                     else _stateDirtyLowestIndex (cache w)).
  { revert Hcall. unfold _setVertexState. cbv zeta.
    pose proof (_setVertexState_loop_frame (attributeNamesFromEffect effect)
                  (attributeLocationsFromEffect effect) 0 None 0 StatePosition.VertexState w)
      as (_ & _ & Hsame & _).
    destruct (_setVertexState_loop _ _ _ _ _ _ _)
      as [e [[numVertexBuffers newNumStates] wl]].
    cbn [snd] in Hsame. destruct e as [e|]; [discriminate|]. intros [= <-].
    rewrite <- Hsame. clear. destruct wl as [[] ? ? ? ? ? ? ? ?]. unfold_updates.
    match goal with |- context [if ?b then _ else _] => destruct b end; by cbn. }
  destruct (_isDirty (cache w')) eqn:Hdirty.
  - split; [lia|]. intros j Hj. apply Hlow. lia.
  - apply (_setVertexState_clean _ _ _ Hcall) in Hdirty as (_ & Hstates & _).
    split; [lia|]. intros j _. by rewrite Hstates.
Qed.

Lemma prepare_keeps_below fillMode effect sampleCount textureState w wp :
  prepare fillMode effect sampleCount textureState w = (None, wp) ->
  keeps_below_dirty_index (cache w) (cache wp)
  /\ lastStateDirtyLowestIndex (cache wp) = Some (_stateDirtyLowestIndex (cache wp)).
Proof.
  intros Hcall. unfold prepare in Hcall. cbv zeta in Hcall.
  pose proof (_setShaderStage_keeps_below (uniqueId effect) (cache w)) as H1.
  remember (_setShaderStage (uniqueId effect) (cache w)) as c1 eqn:Hc1. clear Hc1.
  pose proof (_setRasterizationState_keeps_below fillMode sampleCount c1) as H2.
  remember (_setRasterizationState fillMode sampleCount c1) as c2 eqn:Hc2. clear Hc2.
  pose proof (_setColorStates_keeps_below c2) as H3.
  remember (_setColorStates c2) as c3 eqn:Hc3. clear Hc3.
  pose proof (_setDepthStencilState_keeps_below c3) as H4.
  remember (_setDepthStencilState c3) as c4 eqn:Hc4. clear Hc4.
  destruct (_setVertexState effect (w {{ cache := c4 }})) as [[e|] w5] eqn:Hvertex;
    [discriminate|].
  apply _setVertexState_keeps_below in Hvertex as H5. rewrite cache_with_cache in H5.
  pose proof (_setTextureState_keeps_below textureState (cache w5)) as H6.
  remember (_setTextureState textureState (cache w5)) as c6 eqn:Hc6. clear Hc6.
  apply (f_equal snd) in Hcall. cbn [snd] in Hcall. subst wp.
  rewrite cache_with_cache.
  assert (Hlast : keeps_below_dirty_index c6
                    (c6 {{ lastStateDirtyLowestIndex := Some (_stateDirtyLowestIndex c6) }})
                  /\ lastStateDirtyLowestIndex
                       (c6 {{ lastStateDirtyLowestIndex := Some (_stateDirtyLowestIndex c6) }})
                     = Some (_stateDirtyLowestIndex
                               (c6 {{ lastStateDirtyLowestIndex :=
                                        Some (_stateDirtyLowestIndex c6) }})))
    by (by destruct c6).
  destruct Hlast as [H7 Hlast]. split; [|exact Hlast].
  apply (keeps_below_dirty_index_trans _ c1); [exact H1|].
  apply (keeps_below_dirty_index_trans _ c2); [exact H2|].
  apply (keeps_below_dirty_index_trans _ c3); [exact H3|].
  apply (keeps_below_dirty_index_trans _ c4); [exact H4|].
  apply (keeps_below_dirty_index_trans _ (cache w5)); [exact H5|].
  apply (keeps_below_dirty_index_trans _ c6); [exact H6|exact H7].
Qed.

Lemma resolve_fields fillMode effect sampleCount w :
  let w' := snd (resolve fillMode effect sampleCount w) in
  _states (cache w') = _states (cache w)
  /\ _statesLength (cache w') = _statesLength (cache w)
  /\ _isDirty (cache w') = false
  /\ _stateDirtyLowestIndex (cache w') = _statesLength (cache w)
  /\ lastStateDirtyLowestIndex (cache w') = lastStateDirtyLowestIndex (cache w).
Proof.
  cbv zeta. unfold resolve. cbv zeta.
  assert (Hl : _states (cache (looked_up w)) = _states (cache w)
               /\ _statesLength (cache (looked_up w)) = _statesLength (cache w)
               /\ _isDirty (cache (looked_up w)) = false
               /\ _stateDirtyLowestIndex (cache (looked_up w)) = _statesLength (cache w)
               /\ lastStateDirtyLowestIndex (cache (looked_up w))
                  = lastStateDirtyLowestIndex (cache w)).
  { unfold looked_up. cbv zeta. destruct (_getRenderPipeline _ _) as [parameter st].
    destruct w as [[] ? ? ? ? ? ? ? ?]. repeat split. }
  remember (looked_up w) as wl eqn:Hwl. clear Hwl.
  destruct Hl as (Hl1 & Hl2 & Hl3 & Hl4 & Hl5).
  rewrite <- Hl1, <- Hl2, <- Hl5. rewrite <- Hl2 in Hl4. clear Hl1 Hl2 Hl5.
  destruct (pipeline (_parameter (cache wl))) as [found|]; cbn [snd].
  - by destruct (with_NumCacheHitWithHash wl (NumCacheHitWithHash wl + 1)) as (-> & _).
  - destruct (_GetTopology fillMode) as [e|topology]; cbn [snd]; [auto|].
    destruct (_createRenderPipeline_cases effect topology sampleCount wl)
      as [(e & _ & ->)|(layouts & _ & ->)]; cbn [snd]; [auto|].
    match goal with
    | |- context [wl {{ device_log := ?log }}] =>
        destruct (with_device_log wl log) as (Hd1 & _);
        remember (wl {{ device_log := log }}) as wd eqn:Hwd; clear Hwd
    end.
    rewrite <- Hd1 in *.
    destruct (createRenderPipeline _ _) as [e|created]; cbn [snd]; [auto|].
    revert Hl3 Hl4. unfold adopt. clear. destruct wd as [[] ? ? ? ? ? ? ? ?]. cbn. auto.
Qed.

(** X2.  After a call of [getRenderPipeline] that returned a pipeline, with
    the cache enabled, [lastStateDirtyLowestIndex] is an index below which
    the call changed no slot of the state vector, at most the lowest dirty
    index of before; the object is clean and its lowest dirty index is back
    at the length of the state vector. *)
Theorem resolution_keeps_slots_below_dirty_index (fillMode : Z) (effect : Effect)
    (sampleCount textureState : Z) (w w' : World) (created : GPURenderPipeline) :
  disabled (cache w) = false ->
  getRenderPipeline fillMode effect sampleCount textureState w = (inr created, w') ->
  exists lowest,
    lastStateDirtyLowestIndex (cache w') = Some lowest
    /\ (lowest <= _stateDirtyLowestIndex (cache w))%nat
    /\ (forall j, (j < lowest)%nat ->
          JS.array_get j (_states (cache w')) = JS.array_get j (_states (cache w)))
    /\ _isDirty (cache w') = false
    /\ _stateDirtyLowestIndex (cache w') = _statesLength (cache w').
Proof.
  intros Hdis Hcall.
  destruct (getRenderPipeline_enabled fillMode effect sampleCount textureState w Hdis)
    as [(e & wp & Hprep & Hcall')|[(wp & cached & Hprep & Hclean & _ & Hcall')
                                  |(wp & Hprep & _ & Hcall')]];
    rewrite Hcall in Hcall'.
  - discriminate.
  - apply (f_equal snd) in Hcall'. cbn [snd] in Hcall'. subst w'.
    apply prepare_keeps_below in Hprep as [[Hle Hslots] Hlast].
    exists (_stateDirtyLowestIndex (cache wp)).
    destruct (memo_hit_fields wp) as (-> & -> & -> & ->).
    destruct (memo_hit_settled wp) as (_ & _ & ->). auto.
  - apply (f_equal snd) in Hcall'. cbn [snd] in Hcall'. subst w'.
    apply prepare_keeps_below in Hprep as [[Hle Hslots] Hlast].
    exists (_stateDirtyLowestIndex (cache wp)).
    destruct (resolve_fields fillMode effect (GetSample sampleCount) wp)
      as (-> & -> & -> & -> & ->). auto.
Qed.

(** ** What every call does *)

(** X3.  Whatever a call of [getRenderPipeline] returns or throws, the
    configuration of the object (all it holds but the state vector and its
    bookkeeping, the values the packers memoize, the vertex buffers of the
    draw and the memo) is as before the call. *)
Theorem getRenderPipeline_keeps_configuration (fillMode : Z) (effect : Effect)
    (sampleCount textureState : Z) (w : World) :
  config_of (cache (snd (getRenderPipeline fillMode effect sampleCount textureState w)))
  = config_of (cache w).
Proof.
  pose proof (getRenderPipeline_outcome fillMode effect sampleCount textureState w) as Hout.
  destruct (getRenderPipeline fillMode effect sampleCount textureState w) as [r w'].
  cbn [fst snd] in *. by inversion Hout.
Qed.

(** X4.  A call of [getRenderPipeline] that throws moves no counter and
    gets no pipeline from the device; a call that returns a pipeline is
    counted once: as a hit without hash (the pipeline is the one of the
    memo), as a hit with hash, or as a miss and a creation of the frame,
    and only then the device was called, once, and answered with the
    pipeline. *)
Theorem getRenderPipeline_counts_once (fillMode : Z) (effect : Effect)
    (sampleCount textureState : Z) (w : World) :
  let r := fst (getRenderPipeline fillMode effect sampleCount textureState w) in
  let w' := snd (getRenderPipeline fillMode effect sampleCount textureState w) in
  match r with
  | inl e =>
      counters w' = counters w
      /\ (device_log w' = device_log w
          \/ exists descriptor,
               device_log w' = descriptor :: device_log w
               /\ createRenderPipeline (device_log w) descriptor = inl e)
  | inr created =>
      (counters w'
       = (NumCacheHitWithoutHash w + 1, NumCacheHitWithHash w, NumCacheMiss w,
          NumPipelineCreationLastFrame w, _NumPipelineCreationCurrentFrame w)
       /\ device_log w' = device_log w
       /\ pipeline (_parameter (cache w)) = Some created)
      \/ (counters w'
          = (NumCacheHitWithoutHash w, NumCacheHitWithHash w + 1, NumCacheMiss w,
             NumPipelineCreationLastFrame w, _NumPipelineCreationCurrentFrame w)
          /\ device_log w' = device_log w)
      \/ (counters w'
          = (NumCacheHitWithoutHash w, NumCacheHitWithHash w, NumCacheMiss w + 1,
             NumPipelineCreationLastFrame w, _NumPipelineCreationCurrentFrame w + 1)
          /\ exists descriptor,
               device_log w' = descriptor :: device_log w
               /\ createRenderPipeline (device_log w) descriptor = inr created)
  end.
Proof.
  cbv zeta.
  pose proof (getRenderPipeline_outcome fillMode effect sampleCount textureState w) as Hout.
  destruct (getRenderPipeline fillMode effect sampleCount textureState w) as [r w'].
  cbn [fst snd] in *.
  inversion Hout as
    [ e0 w1 Htop Hc Hlog Hcnt | e0 w1 He Hc Hlog Hcnt
    | cached w1 Hen Hcached Hp Hc Hlog Hst Hcnt
    | found this w1 Hen Hfound Hp Hst Hc Hlog Hcnt
    | topology e0 w1 Htop He Hc Hlog Hcnt
    | topology layouts this e0 w1 Htop Hc Hts Hlog Hdev Hc' Hcnt
    | topology layouts this created w1 Htop Hc Hts Hlog Hdev Hc' Hcnt ]; subst; eauto 10.
Qed.

Lemma getRenderPipeline_disabled_store fillMode effect sampleCount textureState w :
  disabled (cache w) = true ->
  store (snd (getRenderPipeline fillMode effect sampleCount textureState w)) = store w.
Proof.
  intros Hdis. unfold getRenderPipeline. cbv zeta. rewrite Hdis.
  destruct (_GetTopology fillMode) as [e|topology]; [reflexivity|].
  pose proof (_setVertexState_frame effect w) as [_ Ho].
  destruct (_setVertexState effect w) as [[e|] w1]; cbn [snd] in Ho |- *;
    apply outside_inv in Ho as (Hst & _); [assumption|].
  pose proof (outside_with_cache w1 (_setTextureState textureState (cache w1))) as Ho.
  apply outside_inv in Ho as (Hst' & _).
  remember (w1 {{ cache := _setTextureState textureState (cache w1) }}) as w2 eqn:Hw2.
  clear Hw2.
  destruct (_createRenderPipeline_cases effect topology (GetSample sampleCount) w2)
    as [(e & _ & ->)|(layouts & _ & ->)]; cbn [snd]; [congruence|].
  match goal with
  | |- context [w2 {{ device_log := ?log }}] =>
      destruct (with_device_log w2 log) as (_ & Hd & _);
      remember (w2 {{ device_log := log }}) as wd eqn:Hwd; clear Hwd
  end.
  destruct (createRenderPipeline _ _) as [e|created]; cbn [snd]; [congruence|].
  destruct (adopt_frame false created wd) as (_ & _ & Ha & _).
  rewrite (Ha eq_refl). congruence.
Qed.

(** X5.  With the cache disabled, a call of [getRenderPipeline] never
    answers from the memo or from the lookup strategy, whose structure it
    leaves alone: no hit is counted, and a pipeline it returns was created
    by the device in this call, from one descriptor, and is counted as a
    miss. *)
Theorem disabled_cache_always_creates (fillMode : Z) (effect : Effect)
    (sampleCount textureState : Z) (w : World) :
  let r := fst (getRenderPipeline fillMode effect sampleCount textureState w) in
  let w' := snd (getRenderPipeline fillMode effect sampleCount textureState w) in
  disabled (cache w) = true ->
  store w' = store w
  /\ NumCacheHitWithoutHash w' = NumCacheHitWithoutHash w
  /\ NumCacheHitWithHash w' = NumCacheHitWithHash w
  /\ forall created,
       r = inr created ->
       (exists descriptor,
           device_log w' = descriptor :: device_log w
           /\ createRenderPipeline (device_log w) descriptor = inr created)
       /\ pipeline (_parameter (cache w')) = Some created
       /\ NumCacheMiss w' = NumCacheMiss w + 1.
Proof.
  cbv zeta. intros Hdis.
  split; [by apply getRenderPipeline_disabled_store|].
  pose proof (getRenderPipeline_outcome fillMode effect sampleCount textureState w) as Hout.
  destruct (getRenderPipeline fillMode effect sampleCount textureState w) as [r w'].
  cbn [fst snd] in *.
  inversion Hout as
    [ e0 w1 Htop Hc Hlog Hcnt | e0 w1 He Hc Hlog Hcnt
    | cached w1 Hen Hcached Hp Hc Hlog Hst Hcnt
    | found this w1 Hen Hfound Hp Hst Hc Hlog Hcnt
    | topology e0 w1 Htop He Hc Hlog Hcnt
    | topology layouts this e0 w1 Htop Hc Hts Hlog Hdev Hc' Hcnt
    | topology layouts this created w1 Htop Hc Hts Hlog Hdev Hc' Hcnt Hmemo ]; subst;
    try congruence.
  1-4: apply counters_inv in Hcnt as (-> & -> & _); by repeat split.
  apply counters_values in Hcnt as (-> & -> & -> & _).
  repeat split; try reflexivity; injection H as <-; eauto.
Qed.

(** ** Frames *)

Lemma getRenderPipeline_creations fillMode effect sampleCount textureState w :
  let w' := snd (getRenderPipeline fillMode effect sampleCount textureState w) in
  _NumPipelineCreationCurrentFrame w' - _NumPipelineCreationCurrentFrame w
  = NumCacheMiss w' - NumCacheMiss w
  /\ NumPipelineCreationLastFrame w' = NumPipelineCreationLastFrame w.
Proof.
  cbv zeta.
  pose proof (getRenderPipeline_outcome fillMode effect sampleCount textureState w) as Hout.
  destruct (getRenderPipeline fillMode effect sampleCount textureState w) as [r w'].
  cbn [fst snd] in *.
  inversion Hout as
    [ e0 w1 Htop Hc Hlog Hcnt | e0 w1 He Hc Hlog Hcnt
    | cached w1 Hen Hcached Hp Hc Hlog Hst Hcnt
    | found this w1 Hen Hfound Hp Hst Hc Hlog Hcnt
    | topology e0 w1 Htop He Hc Hlog Hcnt
    | topology layouts this e0 w1 Htop Hc Hts Hlog Hdev Hc' Hcnt
    | topology layouts this created w1 Htop Hc Hts Hlog Hdev Hc' Hcnt ]; subst.
  1,2,5,6: apply counters_inv in Hcnt as (_ & _ & -> & -> & ->); lia.
  all: apply counters_values in Hcnt as (_ & _ & -> & -> & ->); lia.
Qed.

(** X6.  Over any sequence of calls of [getRenderPipeline] and of changes
    of the object, the creations counted for the current frame grow as the
    misses do, and the count of the last frame stays; so [endFrame] reports
    as creations of the last frame the creations counted at the start plus
    the misses of the sequence, and starts the new frame at 0. *)
Theorem endFrame_reports_misses (w w' : World) :
  rtc frame_step w w' ->
  _NumPipelineCreationCurrentFrame w' - _NumPipelineCreationCurrentFrame w
  = NumCacheMiss w' - NumCacheMiss w
  /\ NumPipelineCreationLastFrame w' = NumPipelineCreationLastFrame w
  /\ NumPipelineCreationLastFrame (endFrame w')
     = _NumPipelineCreationCurrentFrame w + (NumCacheMiss w' - NumCacheMiss w)
  /\ _NumPipelineCreationCurrentFrame (endFrame w') = 0
  /\ NumCacheMiss (endFrame w') = NumCacheMiss w'
  /\ cache (endFrame w') = cache w'.
Proof.
  intros Hsteps.
  assert (Hsum : _NumPipelineCreationCurrentFrame w' - _NumPipelineCreationCurrentFrame w
                 = NumCacheMiss w' - NumCacheMiss w
                 /\ NumPipelineCreationLastFrame w' = NumPipelineCreationLastFrame w).
  { induction Hsteps as [w|w w1 w' Hstep _ [IH1 IH2]]; [split; lia|].
    destruct Hstep as [fillMode effect sampleCount textureState|this].
    - destruct (getRenderPipeline_creations fillMode effect sampleCount textureState w)
        as [H1 H2].
      split; [lia|congruence].
    - pose proof (outside_with_cache w this) as Ho.
      apply outside_inv in Ho as (_ & _ & Hcnt).
      apply counters_inv in Hcnt as (_ & _ & H1 & H2 & H3).
      split; [lia|congruence]. }
  destruct Hsum as [Hsum Hlast]. do 2 (split; [assumption|]).
  unfold endFrame. destruct w'. cbn in *. repeat split. lia.
Qed.

(** ** The format of a vertex attribute *)


(** ** The attributes of the vertex layout *)

Lemma layout_attributes_rev_cons layout layouts :
  layout_attributes (rev (layout :: layouts))
  = layout_attributes (rev layouts) ++ attributes layout.
Proof.
  unfold layout_attributes. cbn. by rewrite fmap_app, concat_app; cbn; rewrite app_nil_r.
Qed.

(** One round adds the descriptor of its attribute after the others. *)
Lemma _getVertexInputDescriptor_step_attribute w name location descriptors currentGPUBuffer
    descriptors' currentGPUBuffer' :
  _getVertexInputDescriptor_step w name location (descriptors, currentGPUBuffer)
  = inr (descriptors', currentGPUBuffer') ->
  exists attribute,
    attribute_of w name location = Some attribute
    /\ layout_attributes (rev descriptors')
       = layout_attributes (rev descriptors) ++ [attribute].
Proof.
  intros Hstep.
  destruct (_getVertexInputDescriptor_step_error _ _ _ _ _ Hstep) as [vertexBuffer Hbound].
  pose proof (_getVertexInputDescriptor_step_cases _ _ _ _ _ _ _ Hbound Hstep)
    as (format & Hformat & Hcases).
  unfold attribute_of. rewrite Hbound, Hformat.
  destruct (same_buffer currentGPUBuffer (underlyingResource vertexBuffer));
    destruct (bool_decide (descriptors <> []));
    destruct (default false (_validOffsetRange w !! uid vertexBuffer));
    cbn in Hcases.
  1: destruct Hcases as (current & previous & -> & [= -> ->]).
  2-8: injection Hcases as -> ->.
  all: eexists; split; [reflexivity|].
  all: rewrite !layout_attributes_rev_cons; cbn; by rewrite <- ?app_assoc.
Qed.

Lemma _getVertexInputDescriptor_loop_attributes w names :
  forall locations index descriptors currentGPUBuffer layouts,
    _getVertexInputDescriptor_loop w names locations index (descriptors, currentGPUBuffer)
    = inr layouts ->
    Some <$> layout_attributes layouts
    = (Some <$> layout_attributes (rev descriptors))
      ++ imap (fun i name => attribute_of w name (locations !! (index + i)%nat)) names.
Proof.
  induction names as [|name names IH];
    intros locations index descriptors currentGPUBuffer layouts; cbn.
  - intros [= <-]. by rewrite app_nil_r.
  - destruct (_getVertexInputDescriptor_step w name (locations !! index)
                (descriptors, currentGPUBuffer)) as [e|[descriptors' currentGPUBuffer']]
      eqn:Hstep; [discriminate|].
    apply _getVertexInputDescriptor_step_attribute in Hstep as (attribute & Hattribute & Hall).
    intros Hloop. apply IH in Hloop as ->.
    rewrite Hall, fmap_app, <- app_assoc, Nat.add_0_r, Hattribute. cbn. f_equal. f_equal.
    apply imap_ext. intros i x _. cbn. by rewrite Nat.add_succ_r.
Qed.

(** X8.  The layouts [_getVertexInputDescriptor] returns hold one attribute
    descriptor per attribute of the effect, in the order of the effect:
    each with the location of its attribute, the format of the vertex
    buffer bound to it, and the byte offset of that buffer, or 0 when the
    offset was found out of range. *)
Theorem vertex_layout_covers_attributes (effect : Effect) (w : World)
    (layouts : list GPUVertexBufferLayout) :
  _getVertexInputDescriptor effect w = inr layouts ->
  Some <$> layout_attributes layouts
  = imap (fun i name => attribute_of w name (attributeLocationsFromEffect effect !! i))
         (attributeNamesFromEffect effect).
Proof.
  unfold _getVertexInputDescriptor. intros Hloop.
  by apply _getVertexInputDescriptor_loop_attributes in Hloop.
Qed.

(** ** The vertex state *)

(** One round of the loop of [_setVertexState]. *)
Lemma _setVertexState_loop_round name names locations index currentGPUBuffer numVertexBuffers
    newNumStates w result :
  _setVertexState_loop (name :: names) locations index currentGPUBuffer numVertexBuffers
    newNumStates w = (None, result) ->
  exists vertexBuffer valid w1,
    bound_vertex_buffer (cache w) name = inr vertexBuffer
    /\ _validOffsetRange w1 !! uid vertexBuffer = Some valid
    /\ (forall u v, _validOffsetRange w !! u = Some v -> _validOffsetRange w1 !! u = Some v)
    /\ config_of (cache w1) = config_of (cache w)
    /\ _states (cache w1)
       = JS.array_set newNumStates
           (JS.Fin (JS.plus (hashCode vertexBuffer) (JS.shl (default 0 (locations !! index)) 7)))
           (_states (cache w))
    /\ let merged := same_buffer currentGPUBuffer (underlyingResource vertexBuffer) && valid in
       vertexBuffers (cache w1)
       = (if merged then vertexBuffers (cache w)
          else JS.array_set numVertexBuffers vertexBuffer (vertexBuffers (cache w)))
       /\ _setVertexState_loop names locations (S index)
            (if merged then currentGPUBuffer
             else if valid then underlyingResource vertexBuffer else None)
            (if merged then numVertexBuffers else S numVertexBuffers)
            (S newNumStates) w1
          = (None, result).
Proof.
  intros Hrun. cbn [_setVertexState_loop] in Hrun. cbv zeta in Hrun.
  destruct (bound_vertex_buffer (cache w) name) as [e|vertexBuffer] eqn:Hbound; [discriminate|].
  remember (match _validOffsetRange w !! uid vertexBuffer with
            | Some _ => _validOffsetRange w
            | None => <[uid vertexBuffer := validOffsetRange_of (cache w) vertexBuffer]>
                        (_validOffsetRange w)
            end) as memo eqn:Hmemo.
  assert (Hmemo' : (exists v, memo !! uid vertexBuffer = Some v)
                   /\ forall u v, _validOffsetRange w !! u = Some v -> memo !! u = Some v).
  { subst memo. destruct (_validOffsetRange w !! uid vertexBuffer) as [v|] eqn:Hv.
    - eauto.
    - split; [by rewrite lookup_insert_eq; eauto|].
      intros u v Hu. rewrite lookup_insert_ne; [done|congruence]. }
  clear Hmemo. destruct Hmemo' as [[valid Hv] Hgrows].
  rewrite Hv in Hrun. change (default false (Some valid)) with valid in Hrun.
  exists vertexBuffer, valid.
  set (vid := JS.plus (hashCode vertexBuffer) (JS.shl (default 0 (locations !! index)) 7)) in *.
  destruct (same_buffer currentGPUBuffer (underlyingResource vertexBuffer) && valid);
    cbn [negb] in Hrun; cbv beta iota in Hrun;
    match type of Hrun with
    | _setVertexState_loop _ _ _ _ _ _ ?W = _ => exists W
    end.
  all: split; [reflexivity|].
  all: cbv zeta.
  all: destruct w as [[] ? ? ? ? ? ? ? ?]; cbn in *.
  all: repeat split; assumption.
Qed.



Lemma same_buffer_true currentGPUBuffer buffer :
  same_buffer currentGPUBuffer buffer = true ->
  currentGPUBuffer <> None /\ buffer = currentGPUBuffer.
Proof.
  unfold same_buffer. destruct currentGPUBuffer as [current|]; [|discriminate].
  intros Hsame. by apply bool_decide_eq_true_1 in Hsame as ->.
Qed.

(** The loops of [_setVertexState] and of [_getVertexInputDescriptor] open
    a vertex buffer and a layout at the same attributes. *)
Lemma vertex_buffers_and_layouts names :
  forall locations index currentGPUBuffer numVertexBuffers newNumStates w
         numVertexBuffers' newNumStates' wl wg descriptors layouts,
    _setVertexState_loop names locations index currentGPUBuffer numVertexBuffers
      newNumStates w = (None, (numVertexBuffers', newNumStates', wl)) ->
    config_of (cache wg) = config_of (cache w) ->
    (forall u v, _validOffsetRange wl !! u = Some v -> _validOffsetRange wg !! u = Some v) ->
    _getVertexInputDescriptor_loop wg names locations index (descriptors, currentGPUBuffer)
    = inr layouts ->
    length descriptors = numVertexBuffers ->
    (currentGPUBuffer <> None -> descriptors <> []) ->
    length layouts = numVertexBuffers'
    /\ (forall i d,
          rev descriptors !! i = Some d ->
          exists layout,
            layouts !! i = Some layout
            /\ arrayStride layout = arrayStride d /\ stepMode layout = stepMode d)
    /\ (forall i,
          (numVertexBuffers <= i < numVertexBuffers')%nat ->
          exists vertexBuffer layout,
            JS.array_get i (vertexBuffers (cache wl)) = Some vertexBuffer
            /\ layouts !! i = Some layout
            /\ arrayStride layout = effectiveByteStride vertexBuffer
            /\ stepMode layout = (if getIsInstanced vertexBuffer
                                  then VertexStepMode.Instance else VertexStepMode.Vertex)).
Proof.
  induction names as [|name names IH];
    intros locations index currentGPUBuffer numVertexBuffers newNumStates w
           numVertexBuffers' newNumStates' wl wg descriptors layouts
           Hset Hconfig Hmemo Hget Hlength Hcurrent.
  { cbn in Hset, Hget. injection Hset as <- <- <-. injection Hget as <-.
    split; [by rewrite length_rev|]. split; [eauto|]. intros i Hi. lia. }
  apply _setVertexState_loop_round in Hset
    as (vertexBuffer & valid & w1 & Hbound & Hvalid & Hgrows & Hconfig1 & _ & Hround).
  cbv zeta in Hround. destruct Hround as [Hbuffers1 Hrest].
  pose proof (_setVertexState_loop_replay _ _ _ _ _ _ _ _ _ _ Hrest)
    as (_ & Hcount & _ & Hkept & Hgrows' & _).
  cbn [_getVertexInputDescriptor_loop] in Hget.
  destruct (_getVertexInputDescriptor_step wg name (locations !! index)
              (descriptors, currentGPUBuffer)) as [e|[descriptors' currentGPUBuffer']]
    eqn:Hstep; [discriminate|].
  assert (Hbound' : bound_vertex_buffer (cache wg) name = inr vertexBuffer).
  { rewrite <- Hbound.
    by apply (config_proj (fun t => bound_vertex_buffer t name) (fun t => ltac:(by destruct t))). }
  pose proof (_getVertexInputDescriptor_step_cases _ _ _ _ _ _ _ Hbound' Hstep)
    as (format & _ & Hcases).
  rewrite (Hmemo _ _ (Hgrows' _ _ Hvalid)) in Hcases. cbn [default from_option id] in Hcases.
  assert (Hconfig' : config_of (cache wg) = config_of (cache w1)) by congruence.
  destruct (same_buffer currentGPUBuffer (underlyingResource vertexBuffer) && valid)
    eqn:Hmerged.
  - (* the attribute joins the layout and the vertex buffer of the one before *)
    apply andb_true_iff in Hmerged as [Hsame ->].
    apply same_buffer_true in Hsame as Hsame'. destruct Hsame' as [Hsome Hsame'].
    rewrite Hsame, (bool_decide_eq_true_2 _ (Hcurrent Hsome)) in Hcases.
    cbn [andb negb] in Hcases.
    destruct Hcases as (current & previous & -> & [= -> ->]).
    rewrite Hsame' in Hget.
    destruct (IH _ _ _ _ _ _ _ _ _ _ _ _ Hrest Hconfig' Hmemo Hget Hlength ltac:(done))
      as (Hlayouts & Hbefore & Hopened).
    split; [assumption|]. split; [|assumption].
    intros i d Hi. cbn [rev] in Hi |- *.
    destruct (decide (i < length (rev previous))%nat) as [Hlt|Hge].
    + rewrite lookup_app_l in Hi by assumption.
      apply (Hbefore i d). cbn [rev]. by rewrite lookup_app_l.
    + rewrite lookup_app_r in Hi by lia.
      destruct (i - length (rev previous))%nat as [|k] eqn:Hk; [|done].
      injection Hi as <-.
      destruct (Hbefore i (extend_layout current
                   [ {| shaderLocation := locations !! index;
                        offset := effectiveByteOffset vertexBuffer;
                        format := format |} ])) as (layout & Hlayout & Hstride & Hmode).
      { cbn [rev]. rewrite lookup_app_r by lia. by rewrite Hk. }
      exists layout. by destruct current.
  - (* the attribute opens a layout and a vertex buffer *)
    assert (Hmerged' : same_buffer currentGPUBuffer (underlyingResource vertexBuffer)
                       && bool_decide (descriptors <> []) && negb (negb valid) = false).
    { revert Hmerged. clear.
      destruct (same_buffer _ _), valid, (bool_decide _); cbn; congruence. }
    rewrite Hmerged' in Hcases. injection Hcases as -> ->.
    assert (Hnext : (if negb valid then None else underlyingResource vertexBuffer)
                    = (if valid then underlyingResource vertexBuffer else None))
      by by destruct valid.
    rewrite Hnext in Hget.
    destruct (IH _ _ _ _ _ _ _ _ _ _ _ _ Hrest Hconfig' Hmemo Hget
                ltac:(by cbn; rewrite Hlength) ltac:(done))
      as (Hlayouts & Hbefore & Hopened).
    split; [assumption|].
    cbn [rev] in Hbefore. split.
    + intros i d Hi. apply Hbefore. apply lookup_app_l_Some. exact Hi.
    + intros i Hi. destruct (decide (i = numVertexBuffers)) as [->|Hne].
      * destruct (Hbefore numVertexBuffers _
                    ltac:(by rewrite lookup_app_r, length_rev, Hlength, Nat.sub_diag
                            by (rewrite length_rev; lia)))
          as (layout & Hlayout & Hstride & Hmode).
        exists vertexBuffer, layout. split; [|done].
        rewrite Hkept, Hbuffers1 by lia. apply array_get_set_eq.
      * apply Hopened. lia.
Qed.

(** X10.  The vertex buffers [_setVertexState] leaves in [vertexBuffers] and
    the layouts [_getVertexInputDescriptor] then gives line up: there are as
    many of the one as of the other, and the layout at an index has the
    stride and the step mode of the vertex buffer at that index. *)
Theorem vertex_buffers_match_layouts (effect : Effect) (w w' : World)
    (layouts : list GPUVertexBufferLayout) :
  _setVertexState effect w = (None, w') ->
  _getVertexInputDescriptor effect w' = inr layouts ->
  length (vertexBuffers (cache w')) = length layouts
  /\ forall i layout,
       layouts !! i = Some layout ->
       exists vertexBuffer,
         JS.array_get i (vertexBuffers (cache w')) = Some vertexBuffer
         /\ arrayStride layout = effectiveByteStride vertexBuffer
         /\ stepMode layout = (if getIsInstanced vertexBuffer
                               then VertexStepMode.Instance else VertexStepMode.Vertex).
Proof.
  intros Hset Hget.
  pose proof (_setVertexState_frame effect w) as [Hframe _].
  rewrite Hset in Hframe. cbn [snd] in Hframe. apply config_of_untracked in Hframe.
  apply _setVertexState_result in Hset
    as (numVertexBuffers & newNumStates & wl & Hrun & _ & Hbuffers & _ & Hmemo).
  unfold _getVertexInputDescriptor in Hget.
  destruct (vertex_buffers_and_layouts _ _ _ _ _ _ _ _ _ _ w' _ _ Hrun Hframe
              ltac:(by rewrite Hmemo) Hget eq_refl ltac:(done))
    as (Hlength & _ & Hopened).
  rewrite Hbuffers, array_resize_length. split; [done|].
  intros i layout Hi.
  assert (Hlt : (i < numVertexBuffers)%nat)
    by (rewrite <- Hlength; by apply lookup_lt_Some in Hi).
  destruct (Hopened i ltac:(lia)) as (vertexBuffer & layout' & Hvb & Hlayout & Hrest).
  exists vertexBuffer. rewrite array_get_resize by assumption.
  replace layout with layout' by congruence. done.
Qed.

Lemma _setVertexState_loop_bound names :
  forall locations index currentGPUBuffer numVertexBuffers newNumStates w,
    (forall name, In name names -> exists vertexBuffer,
        bound_vertex_buffer (cache w) name = inr vertexBuffer) ->
    fst (_setVertexState_loop names locations index currentGPUBuffer numVertexBuffers
           newNumStates w) = None.
Proof.
  induction names as [|name names IH];
    intros locations index currentGPUBuffer numVertexBuffers newNumStates w Hbound;
    [reflexivity|].
  cbn [_setVertexState_loop]. cbv zeta.
  destruct (Hbound name ltac:(by left)) as [vertexBuffer Hname]. rewrite Hname.
  match goal with |- context [if negb ?b then _ else _] => destruct b end;
    cbn [negb]; cbv beta iota;
    (apply IH; intros name' Hin;
     destruct (Hbound name' ltac:(by right)) as [vertexBuffer' Hname'];
     exists vertexBuffer'; rewrite <- Hname';
     apply (config_proj (fun t => bound_vertex_buffer t name') (fun t => ltac:(by destruct t)));
     destruct w as [[] ? ? ? ? ? ? ? ?]; unfold_updates;
     repeat match goal with |- context [if ?b then _ else _] => destruct b end; reflexivity).
Qed.

(** X11.  [_setVertexState] throws only for want of vertex buffers: with
    [_vertexBuffers] set it returns whatever the effect asks for (an
    attribute nothing is bound to gets the empty vertex buffer), and with
    neither [_vertexBuffers] nor [_overrideVertexBuffers] set it throws a
    [TypeError] as soon as the effect has an attribute, the cache left as
    it was. *)
Theorem vertex_state_needs_vertex_buffers (effect : Effect) (w : World) :
  (_vertexBuffers (cache w) <> None -> fst (_setVertexState effect w) = None)
  /\ (_vertexBuffers (cache w) = None ->
      _overrideVertexBuffers (cache w) = None ->
      attributeNamesFromEffect effect <> [] ->
      _setVertexState effect w = (Some TypeError, w)).
Proof.
  split.
  - intros Hbuffers. unfold _setVertexState. cbv zeta.
    pose proof (_setVertexState_loop_bound (attributeNamesFromEffect effect)
                  (attributeLocationsFromEffect effect) 0 None 0 StatePosition.VertexState w)
      as Hloop.
    destruct (_setVertexState_loop _ _ _ _ _ _ _) as [e [[numVertexBuffers newNumStates] wl]].
    cbn [fst] in Hloop. rewrite Hloop; [reflexivity|].
    intros name _. unfold bound_vertex_buffer.
    destruct (_overrideVertexBuffers (cache w) ≫= _) as [vertexBuffer|]; [eauto|].
    destruct (_vertexBuffers (cache w)) as [buffers|]; [eauto|done].
  - intros Hbuffers Hoverride Hnames. unfold _setVertexState. cbv zeta.
    destruct (attributeNamesFromEffect effect) as [|name names]; [done|].
    cbn [_setVertexState_loop]. unfold bound_vertex_buffer.
    rewrite Hbuffers, Hoverride. reflexivity.
Qed.

(** ** What the packed slots tell apart *)

Lemma rasterizationState_of_digits fillMode sampleCount this :
  rasterization_fields_in_range fillMode sampleCount this ->
  rasterizationState_of fillMode sampleCount this
  = _frontFace this - 1
    + 2 * (if _cullEnabled this then _cullFace this else 0)
    + 8 * (if _clampDepth this then 1 else 0)
    + 16 * (if _alphaToCoverageEnabled this then 1 else 0)
    + 32 * fillMode + 256 * sampleCount.
Proof.
  intros (Hfront & Hcull & Hfill & Hsample).
  rewrite rasterizationState_of_exact by lia.
  assert (Hmode : 0 <= (if _cullEnabled this then _cullFace this else 0) <= 2)
    by (destruct (_cullEnabled this); [destruct (Hcull eq_refl)|]; lia).
  rewrite (shl_small _ 1), (shl_small _ 3), (shl_small _ 4), (shl_small fillMode 5),
    (shl_small sampleCount 8);
    repeat match goal with |- context [if ?b then _ else _] => destruct b end; lia.
Qed.

(** X12.  With the fields in range, the rasterization slot tells the
    rasterization states apart: two objects that pack to the same number
    were given the same fill mode and sample count, have the same flags, and
    give the primitive state of the descriptor the same front face and cull
    mode. *)
Theorem rasterization_slot_tells_states_apart (fillMode sampleCount fillMode' sampleCount' : Z)
    (this this' : WebGPUCacheRenderPipeline) :
  rasterization_fields_in_range fillMode sampleCount this ->
  rasterization_fields_in_range fillMode' sampleCount' this' ->
  rasterizationState_of fillMode sampleCount this
  = rasterizationState_of fillMode' sampleCount' this' ->
  fillMode = fillMode' /\ sampleCount = sampleCount'
  /\ _clampDepth this = _clampDepth this'
  /\ _alphaToCoverageEnabled this = _alphaToCoverageEnabled this'
  /\ forall effect topology layouts effect' layouts',
       let descriptor :=
         render_pipeline_descriptor effect topology sampleCount layouts this in
       let descriptor' :=
         render_pipeline_descriptor effect' topology sampleCount' layouts' this' in
       frontFace (primitive descriptor) = frontFace (primitive descriptor')
       /\ cullMode (primitive descriptor) = cullMode (primitive descriptor').
Proof.
  intros Hrange Hrange' Hslot.
  rewrite !rasterizationState_of_digits in Hslot by assumption.
  destruct Hrange as (Hfront & Hcull & Hfill & Hsample),
           Hrange' as (Hfront' & Hcull' & Hfill' & Hsample').
  unfold render_pipeline_descriptor. cbn.
  destruct (_cullEnabled this);
    [destruct (Hcull eq_refl) as [Hface | Hface]; rewrite Hface in *|];
    (destruct (_cullEnabled this');
     [destruct (Hcull' eq_refl) as [Hface' | Hface']; rewrite Hface' in *|]);
    destruct (_clampDepth this), (_clampDepth this'),
             (_alphaToCoverageEnabled this), (_alphaToCoverageEnabled this');
    destruct Hfront as [Hfront | Hfront], Hfront' as [Hfront' | Hfront'];
    rewrite Hfront, Hfront' in *;
    try lia; cbn; repeat split; try lia; reflexivity.
Qed.

(** The stencil face of the descriptor, from the 3-bit numbers the slot
    holds for it. *)
Lemma stencil_face_of_digits compare depthFailOp failOp passOp this c d f p :
  (if _stencilEnabled this then compare else 7) = c ->
  (if _stencilEnabled this then default 0 depthFailOp else 1) = d ->
  (if _stencilEnabled this then default 0 failOp else 1) = f ->
  (if _stencilEnabled this then default 0 passOp else 1) = p ->
  stencil_op_in_range depthFailOp -> stencil_op_in_range failOp ->
  stencil_op_in_range passOp ->
  stencil_face compare depthFailOp failOp passOp this
  = {| compare := _GetCompareFunction c;
       depthFailOp := _GetStencilOpFunction (Some d);
       failOp := _GetStencilOpFunction (Some f);
       passOp := _GetStencilOpFunction (Some p) |}.
Proof.
  intros <- <- <- <- (d' & -> & _) (f' & -> & _) (p' & -> & _).
  unfold stencil_face. by destruct (_stencilEnabled this).
Qed.

Lemma depthStencilState_of_digits this :
  depth_stencil_fields_in_range this ->
  exists format depth c d p f c' d' p' f',
    depthStencilState_of this
    = JS.Fin (format + 64 * depth
              + 1024 * (c + 8 * d + 64 * p + 512 * f
                        + 4096 * c' + 32768 * d' + 262144 * p' + 2097152 * f'))
    /\ (0 <= format < 64 /\ 0 <= depth < 8)
    /\ (0 <= c < 8 /\ 0 <= d < 8 /\ 0 <= p < 8 /\ 0 <= f < 8)
    /\ (0 <= c' < 8 /\ 0 <= d' < 8 /\ 0 <= p' < 8 /\ 0 <= f' < 8)
    /\ Some format = _depthStencilFormat this
    /\ depth = (if _depthTestEnabled this then _depthCompare this else 7)
    /\ c = (if _stencilEnabled this then _stencilFrontCompare this else 7)
    /\ d = (if _stencilEnabled this then default 0 (_stencilFrontDepthFailOp this) else 1)
    /\ p = (if _stencilEnabled this then default 0 (_stencilFrontPassOp this) else 1)
    /\ f = (if _stencilEnabled this then default 0 (_stencilFrontFailOp this) else 1)
    /\ c' = (if _stencilEnabled this then _stencilBackCompare this else 7)
    /\ d' = (if _stencilEnabled this then default 0 (_stencilBackDepthFailOp this) else 1)
    /\ p' = (if _stencilEnabled this then default 0 (_stencilBackPassOp this) else 1)
    /\ f' = (if _stencilEnabled this then default 0 (_stencilBackFailOp this) else 1).
Proof.
  intros ((format & Hformat & Hformatr) & Hdepth & Hfront & Hback
          & (d & Hd & Hdr) & (p & Hp & Hpr) & (f & Hf & Hfr)
          & (d' & Hd' & Hdr') & (p' & Hp' & Hpr') & (f' & Hf' & Hfr')).
  exists format,
         (if _depthTestEnabled this then _depthCompare this else 7),
         (if _stencilEnabled this then _stencilFrontCompare this else 7),
         (if _stencilEnabled this then default 0 (_stencilFrontDepthFailOp this) else 1),
         (if _stencilEnabled this then default 0 (_stencilFrontPassOp this) else 1),
         (if _stencilEnabled this then default 0 (_stencilFrontFailOp this) else 1),
         (if _stencilEnabled this then _stencilBackCompare this else 7),
         (if _stencilEnabled this then default 0 (_stencilBackDepthFailOp this) else 1),
         (if _stencilEnabled this then default 0 (_stencilBackPassOp this) else 1),
         (if _stencilEnabled this then default 0 (_stencilBackFailOp this) else 1).
  split; [|split; [|split; [|split; [|repeat split; (reflexivity || by symmetry)]]]].
  - unfold depthStencilState_of, stencilState_of. cbv zeta.
    rewrite Hformat, Hd, Hp, Hf, Hd', Hp', Hf'. cbn [default from_option id JS.to_number].
    rewrite (shl_small 1 10), (shl_small _ 6)
      by (try destruct (_depthTestEnabled this); lia).
    assert (Hcompare : 0 <= (if _depthTestEnabled this then _depthCompare this else 7) < 8)
      by (destruct (_depthTestEnabled this); lia).
    destruct (_stencilEnabled this); cbn [negb].
    + rewrite fold_plus_exact;
        [|repeat constructor; apply shl_range|cbn [length]; lia|cbn [length]; lia].
      cbn [fold_left].
      rewrite (shl_small d 3), (shl_small p 6), (shl_small f 9),
        (shl_small (_stencilBackCompare this) 12), (shl_small d' 15), (shl_small p' 18),
        (shl_small f' 21) by lia.
      unfold JS.add, JS.mul.
      rewrite (round_double_safe (_ * _)) by lia.
      rewrite (round_double_safe (format + _)) by lia.
      rewrite round_double_safe by lia. f_equal. lia.
    + rewrite fold_plus_exact;
        [|repeat constructor; apply shl_range|cbn [length]; lia|cbn [length]; lia].
      cbn [fold_left].
      rewrite (shl_small 1 3), (shl_small 1 6), (shl_small 1 9), (shl_small 7 12),
        (shl_small 1 15), (shl_small 1 18), (shl_small 1 21) by lia.
      unfold JS.add, JS.mul.
      rewrite (round_double_safe (_ * _)) by lia.
      rewrite (round_double_safe (format + _)) by lia.
      rewrite round_double_safe by lia. f_equal. lia.
  - destruct (_depthTestEnabled this); lia.
  - rewrite Hd, Hp, Hf. destruct (_stencilEnabled this); cbn; lia.
  - rewrite Hd', Hp', Hf'. destruct (_stencilEnabled this); cbn; lia.
Qed.

Lemma digit_split (n a b a' b' : Z) :
  0 <= a < n -> 0 <= a' < n -> a + n * b = a' + n * b' -> a = a' /\ b = b'.
Proof.
  intros Ha Ha' Hsum.
  assert (Hb : b = b').
  { destruct (Z.lt_trichotomy b b') as [Hlt | [Heq | Hgt]]; [|assumption|].
    - assert (n * 1 <= n * (b' - b)) by (apply Z.mul_le_mono_nonneg_l; lia). lia.
    - assert (n * 1 <= n * (b - b')) by (apply Z.mul_le_mono_nonneg_l; lia). lia. }
  subst b'. lia.
Qed.

(** X13.  With the fields in range, the depth-stencil slot tells the
    depth-stencil states apart: two objects that pack to the same number
    have the same format index, and give the descriptor the same depth
    comparison and the same stencil faces. *)
Theorem depth_stencil_slot_tells_states_apart (this this' : WebGPUCacheRenderPipeline) :
  depth_stencil_fields_in_range this ->
  depth_stencil_fields_in_range this' ->
  depthStencilState_of this = depthStencilState_of this' ->
  _depthStencilFormat this = _depthStencilFormat this'
  /\ (if _depthTestEnabled this then _GetCompareFunction (_depthCompare this)
      else CompareFunction.Always)
     = (if _depthTestEnabled this' then _GetCompareFunction (_depthCompare this')
        else CompareFunction.Always)
  /\ stencil_face (_stencilFrontCompare this) (_stencilFrontDepthFailOp this)
       (_stencilFrontFailOp this) (_stencilFrontPassOp this) this
     = stencil_face (_stencilFrontCompare this') (_stencilFrontDepthFailOp this')
         (_stencilFrontFailOp this') (_stencilFrontPassOp this') this'
  /\ stencil_face (_stencilBackCompare this) (_stencilBackDepthFailOp this)
       (_stencilBackFailOp this) (_stencilBackPassOp this) this
     = stencil_face (_stencilBackCompare this') (_stencilBackDepthFailOp this')
         (_stencilBackFailOp this') (_stencilBackPassOp this') this'.
Proof.
  intros Hrange Hrange' Hslot.
  destruct (depthStencilState_of_digits this Hrange)
    as (format & depth & c & d & p & f & cb & db & pb & fb
        & Hpacked & Hlow & Hfront & Hback
        & Hformat & Hdepth & Hc & Hd & Hp & Hf & Hcb & Hdb & Hpb & Hfb).
  destruct (depthStencilState_of_digits this' Hrange')
    as (format' & depth' & c' & d' & p' & f' & cb' & db' & pb' & fb'
        & Hpacked' & Hlow' & Hfront' & Hback'
        & Hformat' & Hdepth' & Hc' & Hd' & Hp' & Hf' & Hcb' & Hdb' & Hpb' & Hfb').
  rewrite Hpacked, Hpacked' in Hslot. injection Hslot as Hslot.
  assert (Hhorner : forall x0 x1 x2 x3 x4 x5 x6 x7 x8 x9,
             x0 + 64 * x1
             + 1024 * (x2 + 8 * x3 + 64 * x4 + 512 * x5
                       + 4096 * x6 + 32768 * x7 + 262144 * x8 + 2097152 * x9)
             = x0 + 64 * (x1 + 16 * (x2 + 8 * (x3 + 8 * (x4 + 8 * (x5 + 8 * (x6
                 + 8 * (x7 + 8 * (x8 + 8 * x9)))))))))
    by (intros; ring).
  rewrite !Hhorner in Hslot. clear Hhorner Hpacked Hpacked'.
  apply digit_split in Hslot as [Ef Hslot]; [|lia..].
  apply digit_split in Hslot as [Edepth Hslot]; [|lia..].
  apply digit_split in Hslot as [Ec Hslot]; [|lia..].
  apply digit_split in Hslot as [Ed Hslot]; [|lia..].
  apply digit_split in Hslot as [Ep Hslot]; [|lia..].
  apply digit_split in Hslot as [Efl Hslot]; [|lia..].
  apply digit_split in Hslot as [Ecb Hslot]; [|lia..].
  apply digit_split in Hslot as [Edb Hslot]; [|lia..].
  apply digit_split in Hslot as [Epb Efb]; [|lia..].
  destruct Hrange as (_ & _ & _ & _ & R1 & R2 & R3 & R4 & R5 & R6),
           Hrange' as (_ & _ & _ & _ & R1' & R2' & R3' & R4' & R5' & R6').
  split; [congruence|]. split.
  - assert (Hcompare : forall (this0 : WebGPUCacheRenderPipeline),
               (if _depthTestEnabled this0 then _GetCompareFunction (_depthCompare this0)
                else CompareFunction.Always)
               = _GetCompareFunction
                   (if _depthTestEnabled this0 then _depthCompare this0 else 7))
      by (intros this0; by destruct (_depthTestEnabled this0)).
    rewrite !Hcompare. congruence.
  - split.
    + rewrite (stencil_face_of_digits _ _ _ _ this c d f p),
        (stencil_face_of_digits _ _ _ _ this' c' d' f' p') by (assumption || by symmetry).
      congruence.
    + rewrite (stencil_face_of_digits _ _ _ _ this cb db fb pb),
        (stencil_face_of_digits _ _ _ _ this' cb' db' fb' pb') by (assumption || by symmetry).
      congruence.
Qed.

(** ** The attachments of a multi render target *)

Lemma testbit_add_pow2 (acc k j : Z) :
  0 <= acc < 2 ^ k -> 0 <= k -> 0 <= j ->
  Z.testbit (acc + 2 ^ k) j = (j =? k) || Z.testbit acc j.
Proof.
  intros Hacc Hk Hj. rewrite !Z.testbit_eqb by assumption.
  destruct (Z.lt_trichotomy j k) as [Hlt | [-> | Hgt]].
  - rewrite (proj2 (Z.eqb_neq j k)) by lia. cbn [orb].
    replace (2 ^ k) with (2 * 2 ^ (k - j - 1) * 2 ^ j).
    + rewrite Z.div_add by lia.
      rewrite (Z.mul_comm 2 (2 ^ (k - j - 1))). by rewrite Z_mod_plus_full.
    + rewrite <- Z.mul_assoc, <- Z.pow_add_r, <- Z.pow_succ_r by lia. f_equal. lia.
  - rewrite Z.eqb_refl. cbn [orb].
    replace (acc + 2 ^ k) with (acc + 1 * 2 ^ k) by lia.
    rewrite Z.div_add, Z.div_small by lia. reflexivity.
  - rewrite (proj2 (Z.eqb_neq j k)) by lia. cbn [orb].
    assert (Hpow : 2 ^ (k + 1) <= 2 ^ j) by (apply Z.pow_le_mono_r; lia).
    rewrite Z.pow_add_r in Hpow by lia.
    rewrite !Z.div_small by lia. reflexivity.
Qed.

Lemma land_pow2 (m j : Z) :
  0 <= j -> Z.land m (2 ^ j) = if Z.testbit m j then 2 ^ j else 0.
Proof.
  intros Hj. apply Z.bits_inj'. intros n Hn.
  rewrite Z.land_spec, Z.pow2_bits_eqb by assumption.
  destruct (Z.eqb_spec j n) as [-> | Hne].
  - destruct (Z.testbit m n); [by rewrite Z.pow2_bits_true|by rewrite Z.bits_0].
  - rewrite andb_false_r.
    destruct (Z.testbit m j); [by rewrite Z.pow2_bits_false|by rewrite Z.bits_0].
Qed.

Lemma mrtEnabledMask_loop (attachments : list Z) :
  forall (k : nat) (acc : Z),
    (k + length attachments <= 31)%nat ->
    0 <= acc < 2 ^ Z.of_nat k ->
    let mask :=
      fold_left (fun mask '(i, a) => if a =? 0 then mask else mask + JS.shl 1 (Z.of_nat i))
                (imap (fun i a => ((k + i)%nat, a)) attachments) acc in
    0 <= mask < 2 ^ Z.of_nat (k + length attachments)
    /\ forall j : nat,
         Z.testbit mask (Z.of_nat j)
         = if decide (j < k)%nat then Z.testbit acc (Z.of_nat j)
           else attachment_enabled attachments (j - k).
Proof.
  induction attachments as [|a attachments IH]; intros k acc Hk Hacc; cbv zeta.
  - cbn. rewrite Nat.add_0_r. split; [assumption|].
    intros j. case_decide; [reflexivity|].
    unfold attachment_enabled. rewrite lookup_nil.
    apply Z.testbit_false; [lia|]. rewrite Z.div_small; [reflexivity|].
    split; [lia|]. eapply Z.lt_le_trans; [apply Hacc|]. apply Z.pow_le_mono_r; lia.
  - cbn [imap fold_left length]. rewrite Nat.add_0_r.
    assert (Hpow : 2 ^ Z.of_nat (S k) = 2 * 2 ^ Z.of_nat k)
      by (rewrite Nat2Z.inj_succ, Z.pow_succ_r; lia).
    assert (Hshl : JS.shl 1 (Z.of_nat k) = 2 ^ Z.of_nat k).
    { rewrite shl_small; [lia|cbn in Hk; lia|lia|].
      rewrite Z.mul_1_l. apply Z.pow_lt_mono_r; cbn in Hk; lia. }
    rewrite Hshl.
    rewrite (imap_ext _ (fun i a0 => ((S k + i)%nat, a0)))
      by (intros; cbn; f_equal; lia).
    match goal with
    | |- context [fold_left _ _ ?acc1] =>
        destruct (IH (S k) acc1) as [Hmask Hbits]
    end.
    { cbn in Hk. lia. }
    { destruct (a =? 0); lia. }
    cbv zeta in Hmask, Hbits. split.
    + replace (k + S (length attachments))%nat with (S k + length attachments)%nat by lia.
      exact Hmask.
    + intros j. rewrite Hbits.
      destruct (decide (j < S k)%nat) as [Hlt|Hge]; destruct (decide (j < k)%nat) as [Hlt'|Hge'];
        try lia.
      * destruct (a =? 0); [reflexivity|].
        rewrite testbit_add_pow2 by lia. rewrite (proj2 (Z.eqb_neq _ _)) by lia. reflexivity.
      * assert (j = k) by lia. subst j. rewrite Nat.sub_diag.
        unfold attachment_enabled. cbn [lookup list_lookup].
        destruct (a =? 0); cbn [negb].
        -- apply Z.testbit_false; [lia|]. by rewrite Z.div_small.
        -- rewrite testbit_add_pow2 by lia. by rewrite Z.eqb_refl.
      * unfold attachment_enabled.
        replace (j - k)%nat with (S (j - S k)) by lia. reflexivity.
Qed.

Lemma mrtEnabledMask_of_bits (attachments : list Z) :
  (length attachments <= 31)%nat ->
  0 <= mrtEnabledMask_of attachments < 2 ^ 31
  /\ forall i : nat,
       Z.testbit (mrtEnabledMask_of attachments) (Z.of_nat i)
       = attachment_enabled attachments i.
Proof.
  intros Hlength.
  destruct (mrtEnabledMask_loop attachments 0 0 ltac:(lia) ltac:(cbn; lia)) as [Hmask Hbits].
  cbv zeta in Hmask, Hbits. unfold mrtEnabledMask_of. split.
  - split; [apply Hmask|]. eapply Z.lt_le_trans; [apply Hmask|].
    apply Z.pow_le_mono_r; lia.
  - intros i. rewrite Hbits. case_decide; [lia|]. by rewrite Nat.sub_0_r.
Qed.

Lemma setMRTAttachments_fields (attachments : list Z) (this : WebGPUCacheRenderPipeline) :
  let this' := setMRTAttachments attachments this in
  _mrtEnabledMask this' = mrtEnabledMask_of attachments
  /\ _states this' = _states this
  /\ _mrtFormats this' = _mrtFormats this
  /\ _mrtAttachments this' = _mrtAttachments this
  /\ _writeMask this' = _writeMask this
  /\ _numAlphaBlendTargetsEnabled this' = _numAlphaBlendTargetsEnabled this
  /\ (forall blendIndex format mask,
        color_target format mask blendIndex this' = color_target format mask blendIndex this).
Proof.
  cbv zeta. unfold setMRTAttachments. cbv zeta.
  change (fold_left _ _ 0) with (mrtEnabledMask_of attachments).
  case_bool_decide as Hmask.
  - destruct this. unfold_updates. repeat split.
  - assert (Hsame : _mrtEnabledMask (this {{ mrtAttachments := attachments }})
                    = mrtEnabledMask_of attachments).
    { destruct (decide (_mrtEnabledMask (this {{ mrtAttachments := attachments }})
                        = mrtEnabledMask_of attachments)); [assumption|by destruct Hmask]. }
    clear Hmask. destruct this. unfold_updates. repeat split. exact Hsame.
Qed.

(** X14.  [setMRTAttachments] leaves the state vector as it is, and selects
    the write masks of the color targets of a multi render target: the
    target at an index gets the write mask of the object when the attachment
    at that index is there and is not 0, and the write mask 0 otherwise. *)
Theorem mrt_attachments_select_write_masks (attachments : list Z)
    (this : WebGPUCacheRenderPipeline) (i : nat) (target : GPUColorTargetState) :
  (length attachments <= 31)%nat ->
  (i < 31)%nat ->
  mrt_active this = true ->
  color_targets (setMRTAttachments attachments this) !! i = Some (Some target) ->
  writeMask target = (if attachment_enabled attachments i then _writeMask this else 0)
  /\ _states (setMRTAttachments attachments this) = _states this.
Proof.
  intros Hlength Hi Hactive Htarget.
  destruct (setMRTAttachments_fields attachments this)
    as (Hmask & Hstates & Hformats & Hattachments & Hwrite & Hblend & Hcolor).
  cbv zeta in *. split; [|assumption].
  unfold color_targets in Htarget.
  assert (Hactive' : mrt_active (setMRTAttachments attachments this) = true)
    by (unfold mrt_active in *; by rewrite Hattachments).
  rewrite Hactive', list_lookup_imap, Hmask, Hwrite in Htarget.
  destruct (_mrtFormats (setMRTAttachments attachments this) !! i) as [format|];
    [|discriminate].
  cbn [fmap option_fmap option_map] in Htarget.
  destruct (mrtEnabledMask_of_bits attachments Hlength) as [Hrange Hbits].
  assert (Hland : JS.land (mrtEnabledMask_of attachments) (JS.shl 1 (Z.of_nat i))
                  = if attachment_enabled attachments i then 2 ^ Z.of_nat i else 0).
  { assert (Hpow : 0 < 2 ^ Z.of_nat i < 2 ^ 31)
      by (split; [lia|apply Z.pow_lt_mono_r; lia]).
    unfold JS.land. rewrite shl_small by lia. rewrite Z.mul_1_l.
    rewrite !to_int32_small by lia.
    rewrite land_pow2 by lia. by rewrite Hbits. }
  rewrite Hland in Htarget.
  injection Htarget as Htarget. unfold color_target in Htarget.
  destruct (truthy_format format); [|discriminate].
  injection Htarget as <-. cbn [writeMask].
  destruct (attachment_enabled attachments i); [|reflexivity].
  rewrite (proj2 (Z.eqb_neq _ 0)) by lia. reflexivity.
Qed.

Lemma pow64_succ (i : nat) : 2 ^ (6 * Z.of_nat (S i)) = 64 * 2 ^ (6 * Z.of_nat i).
Proof.
  replace (6 * Z.of_nat (S i)) with (6 + 6 * Z.of_nat i) by lia.
  rewrite Z.pow_add_r by lia. reflexivity.
Qed.

(** A 6-bit number added above the ones below it does not change them, and
    is read back at its place. *)
Lemma digit64_add (acc x : Z) (i j : nat) :
  0 <= acc < 2 ^ (6 * Z.of_nat i) -> 0 <= x < 64 -> (j <= i)%nat ->
  ((acc + x * 2 ^ (6 * Z.of_nat i)) / 2 ^ (6 * Z.of_nat j)) mod 64
  = if decide (j = i) then x else (acc / 2 ^ (6 * Z.of_nat j)) mod 64.
Proof.
  intros Hacc Hx Hj. case_decide as Heq.
  - subst j. rewrite Z.div_add by lia. rewrite Z.div_small by lia.
    rewrite Z.add_0_l. apply Z.mod_small. lia.
  - replace (x * 2 ^ (6 * Z.of_nat i))
      with (x * 2 ^ (6 * Z.of_nat (i - S j)) * 64 * 2 ^ (6 * Z.of_nat j)).
    + rewrite Z.div_add by lia. by rewrite Z_mod_plus_full.
    + replace (6 * Z.of_nat i) with (6 * Z.of_nat (i - S j) + 6 + 6 * Z.of_nat j) by lia.
      rewrite !Z.pow_add_r by lia. change (2 ^ 6) with 64. ring.
Qed.

Lemma pow64_bound (i : nat) : (i <= 8)%nat -> 2 ^ (6 * Z.of_nat i) <= 2 ^ 48.
Proof. intros Hi. apply Z.pow_le_mono_r; lia. Qed.

Lemma setMRT_loop_formats textureArray webgpuColorFormat0 (n : nat) :
  forall (i : nat) (mrtFormats : list (option GPUTextureFormat)) (mrtAttachments : Z),
    (i <= length mrtFormats)%nat ->
    (i + n <= 8)%nat ->
    0 <= mrtAttachments < 2 ^ (6 * Z.of_nat i) ->
    (forall j, (i <= j < i + n)%nat ->
       exists index,
         renderableTextureFormatToIndex
           (default EmptyString (mrt_format textureArray webgpuColorFormat0 j)) = Some index
         /\ 0 <= index < 64) ->
    exists mrtFormats' mrtAttachments',
      setMRT_loop textureArray webgpuColorFormat0 n i mrtFormats (JS.Fin mrtAttachments)
      = (mrtFormats', JS.Fin mrtAttachments')
      /\ 0 <= mrtAttachments' < 2 ^ (6 * Z.of_nat (i + n))
      /\ (forall j, (i <= j < i + n)%nat ->
            mrtFormats' !! j = Some (mrt_format textureArray webgpuColorFormat0 j)
            /\ renderableTextureFormatToIndex
                 (default EmptyString (mrt_format textureArray webgpuColorFormat0 j))
               = Some ((mrtAttachments' / 2 ^ (6 * Z.of_nat j)) mod 64))
      /\ (forall j, (j < i)%nat ->
            mrtFormats' !! j = mrtFormats !! j
            /\ (mrtAttachments' / 2 ^ (6 * Z.of_nat j)) mod 64
               = (mrtAttachments / 2 ^ (6 * Z.of_nat j)) mod 64).
Proof.
  induction n as [|n IH]; intros i mrtFormats mrtAttachments Hi Hbound Hacc Hindex.
  { cbn [setMRT_loop]. rewrite Nat.add_0_r. exists mrtFormats, mrtAttachments.
    split; [reflexivity|]. split; [assumption|]. split; [intros; lia|done]. }
  cbn [setMRT_loop]. cbv zeta.
  fold (mrt_format textureArray webgpuColorFormat0 i).
  set (format := mrt_format textureArray webgpuColorFormat0 i) in *.
  set (formats1 := if decide (i < length mrtFormats)%nat then <[i := format]> mrtFormats
                   else mrtFormats ++ replicate (i - length mrtFormats) None ++ [format]).
  assert (Hformats1 : (S i <= length formats1)%nat
                      /\ formats1 !! i = Some format
                      /\ forall j, (j < i)%nat -> formats1 !! j = mrtFormats !! j).
  { subst formats1. case_decide as Hlt.
    - rewrite length_insert. split; [lia|]. split.
      + by apply list_lookup_insert_eq.
      + intros j Hj. apply list_lookup_insert_ne. lia.
    - assert (i = length mrtFormats) as Hlen by lia.
      rewrite Hlen, Nat.sub_diag. cbn [replicate app]. rewrite length_app. cbn.
      split; [lia|]. split.
      + by rewrite lookup_app_r, Nat.sub_diag by lia.
      + intros j Hj. by rewrite lookup_app_l by lia. }
  destruct Hformats1 as (Hlength1 & Hat & Hbelow).
  destruct (Hindex i ltac:(lia)) as (x & Hx & Hxr). fold format in Hx.
  rewrite Hx. cbn [JS.to_number JS.mul JS.add].
  pose proof (pow64_bound (S i) ltac:(lia)) as Hpow. rewrite pow64_succ in Hpow.
  assert (Hacc1 : 0 <= mrtAttachments + x * 2 ^ (6 * Z.of_nat i) < 2 ^ (6 * Z.of_nat (S i))).
  { rewrite pow64_succ. nia. }
  rewrite (round_double_safe (x * _)) by nia.
  rewrite round_double_safe by (rewrite pow64_succ in Hacc1; lia).
  destruct (IH (S i) formats1 (mrtAttachments + x * 2 ^ (6 * Z.of_nat i)) Hlength1
              ltac:(lia) Hacc1 ltac:(intros j Hj; apply Hindex; lia))
    as (mrtFormats' & mrtAttachments' & Hrun & Hrange & Habove & Hkept).
  exists mrtFormats', mrtAttachments'.
  split; [exact Hrun|].
  split; [by rewrite Nat.add_succ_r|]. split.
  - intros j Hj. destruct (decide (j = i)) as [->|Hne].
    + destruct (Hkept i ltac:(lia)) as [-> ->]. split; [assumption|].
      rewrite digit64_add by (assumption || lia). case_decide; [assumption|lia].
    + apply Habove. lia.
  - intros j Hj. destruct (Hkept j ltac:(lia)) as [-> ->]. split; [by apply Hbelow|].
    rewrite digit64_add by (assumption || lia). case_decide; [lia|reflexivity].
Qed.

(** X15.  [setMRT] with a count from 0 to 8 keeps, for each attachment, the
    format of its hardware texture (the first color format of the object
    when it has none), and packs the indices of these formats, 6 bits each:
    when the indices fit 6 bits, the index of each attachment is read back
    from the packed number. *)
Theorem setMRT_formats_round_trip (textureArray : list InternalTexture)
    (textureCount : option Z) (this : WebGPUCacheRenderPipeline) :
  let count := default (Z.of_nat (length textureArray)) textureCount in
  let format := mrt_format textureArray (mjoin (_webgpuColorFormat this !! 0%nat)) in
  let index i := renderableTextureFormatToIndex (default EmptyString (format i)) in
  0 <= count <= 8 ->
  (forall i, (i < Z.to_nat count)%nat -> exists x, index i = Some x /\ 0 <= x < 64) ->
  exists packed,
    _mrtAttachments (snd (setMRT textureArray textureCount this)) = Some (JS.Fin packed)
    /\ 0 <= packed < 2 ^ (6 * count)
    /\ forall i, (i < Z.to_nat count)%nat ->
         _mrtFormats (snd (setMRT textureArray textureCount this)) !! i = Some (format i)
         /\ index i = Some ((packed / 2 ^ (6 * Z.of_nat i)) mod 64).
Proof.
  cbv zeta. intros Hcount Hindex. unfold setMRT. cbv zeta.
  set (count := default (Z.of_nat (length textureArray)) textureCount) in *.
  rewrite (proj2 (Z.ltb_ge 8 count)) by lia.
  match goal with
  | |- context [setMRT_loop ?ta ?c0 ?n ?i ?fmts (JS.Fin ?att)] =>
      destruct (setMRT_loop_formats ta c0 n i fmts att)
        as (mrtFormats & packed & Hrun & Hrange & Habove & _)
  end.
  { lia. }
  { lia. }
  { cbn. lia. }
  { intros j Hj. apply Hindex. lia. }
  rewrite Hrun.
  rewrite (proj2 (Z.ltb_ge count 0)) by lia.
  exists packed.
  assert (Hresult :
    forall this1 : WebGPUCacheRenderPipeline,
      _mrtAttachments
        (if JS.strict_neq (_mrtAttachments this1) (Some (JS.Fin packed))
         then mark_dirty StatePosition.MRTAttachments
                (this1 {{ _mrtAttachments := Some (JS.Fin packed);
                          _states := JS.array_set StatePosition.MRTAttachments (JS.Fin packed)
                                       (_states this1) }})
         else this1) = Some (JS.Fin packed)
      /\ _mrtFormats
           (if JS.strict_neq (_mrtAttachments this1) (Some (JS.Fin packed))
            then mark_dirty StatePosition.MRTAttachments
                   (this1 {{ _mrtAttachments := Some (JS.Fin packed);
                             _states := JS.array_set StatePosition.MRTAttachments
                                          (JS.Fin packed) (_states this1) }})
            else this1) = _mrtFormats this1).
  { intros this1. destruct (JS.strict_neq _ _) eqn:Hne.
    - by destruct this1.
    - split; [|reflexivity]. by apply strict_neq_false in Hne. }
  cbn [snd]. rewrite !(proj1 (Hresult _)), !(proj2 (Hresult _)).
  split; [reflexivity|]. split.
  - replace (6 * count) with (6 * Z.of_nat (0 + Z.to_nat count)) by lia. exact Hrange.
  - intros i Hi. destruct (Habove i ltac:(lia)) as [Hformat Hdigit].
    split; [|exact Hdigit].
    destruct this. unfold_updates. rewrite lookup_take_lt by assumption. exact Hformat.
Qed.

(** ** Color states that are not numbers *)

Lemma strict_neq_number (a b : option JS.num) :
  JS.strict_neq a b = false -> a <> Some JS.NaN.
Proof. unfold JS.strict_neq. by destruct a as [[x|]|], b as [[y|]|]. Qed.

(** A run of the loop of [_setColorStates] that finds nothing dirty compared
    each color state it passed with a slot that holds a number, or
    nothing. *)
Lemma _setColorStates_loop_numbers n :
  forall i colorStates colorStateIndex isDirty this this',
    _setColorStates_loop n i colorStates colorStateIndex isDirty this = (false, this') ->
    (i = 2 * colorStateIndex + Nat.b2n (Nat.odd i))%nat ->
    forall k, (i <= 2 * k + 1 < i + n)%nat ->
      JS.array_get (StatePosition.ColorStates1 + k) (_states this) <> Some JS.NaN.
Proof.
  induction n as [|n IH];
    intros i colorStates colorStateIndex isDirty this this' Hrun Hindex k Hk; [lia|].
  cbn [_setColorStates_loop] in Hrun. cbv zeta in Hrun.
  destruct (Nat.odd i) eqn:Hodd; cbn [Nat.b2n] in Hindex.
  - pose proof (_setColorStates_loop_clean _ _ _ _ _ _ _ _ Hrun eq_refl) as [Hd _].
    apply orb_false_elim in Hd as [_ Hsame].
    destruct (decide (k = colorStateIndex)) as [->|Hne].
    + by apply strict_neq_number in Hsame.
    + match type of Hrun with
      | _setColorStates_loop _ _ ?cs _ _ ?this1 = _ =>
          assert (Hstates : _states this1 = _states this)
      end.
      { match goal with
        | |- context [?cs !! colorStateIndex] => destruct (cs !! colorStateIndex) as [c|]
        end; [|reflexivity].
        apply strict_neq_false in Hsame.
        by rewrite (array_set_id _ _ _ Hsame), with__states_same. }
      rewrite <- Hstates.
      apply (IH _ _ _ _ _ _ Hrun); [|lia].
      rewrite Nat.odd_succ, <- Nat.negb_odd, Hodd. cbn. lia.
  - apply (IH _ _ _ _ _ _ Hrun); [|].
    + rewrite Nat.odd_succ, <- Nat.negb_odd, Hodd. cbn. lia.
    + assert (i <> 2 * k + 1)%nat; [|lia].
      intros ->. rewrite Nat.add_comm, Nat.odd_add_mul_2 in Hodd. discriminate.
Qed.

Lemma _setColorStates_clean_numbers this :
  _isDirty (_setColorStates this) = false -> color_states_are_numbers this.
Proof.
  unfold _setColorStates.
  destruct (_setColorStates_loop 8 0 (colorStates_init this) 0 false this)
    as [isDirty this'] eqn:Hrun.
  destruct isDirty; [by rewrite mark_dirty_is_dirty|].
  intros _ k Hk. apply (_setColorStates_loop_numbers _ _ _ _ _ _ _ Hrun); [reflexivity|lia].
Qed.

(** When the packers leave the object clean, its color states are
    numbers. *)
Lemma prepare_clean_numbers fillMode effect sampleCount textureState w wp :
  prepare fillMode effect sampleCount textureState w = (None, wp) ->
  _isDirty (cache wp) = false ->
  color_states_are_numbers (cache w).
Proof.
  intros Hcall Hclean. unfold prepare in Hcall. cbv zeta in Hcall.
  remember (_setShaderStage (uniqueId effect) (cache w)) as c1 eqn:Hc1.
  remember (_setRasterizationState fillMode sampleCount c1) as c2 eqn:Hc2.
  remember (_setColorStates c2) as c3 eqn:Hc3.
  remember (_setDepthStencilState c3) as c4 eqn:Hc4.
  destruct (_setVertexState effect (w {{ cache := c4 }})) as [[e|] w5] eqn:Hvertex;
    [discriminate|].
  remember (_setTextureState textureState (cache w5)) as c6 eqn:Hc6.
  apply (f_equal snd) in Hcall. cbn [snd] in Hcall. subst wp.
  rewrite cache_with_cache in Hclean.
  destruct (with_lastStateDirtyLowestIndex c6 (Some (_stateDirtyLowestIndex c6)))
    as (_ & _ & Hd).
  rewrite Hd in Hclean. clear Hd.
  rewrite Hc6 in Hclean. rewrite (_setTextureState_clean _ _ Hclean) in Hclean.
  apply (_setVertexState_clean _ _ _ Hvertex) in Hclean as (Hclean & _ & _).
  rewrite cache_with_cache in Hclean.
  rewrite Hc4 in Hclean. rewrite (_setDepthStencilState_clean _ Hclean) in Hclean.
  rewrite Hc3 in Hclean.
  pose proof (_setColorStates_clean_numbers _ Hclean) as Hnumbers.
  rewrite (_setColorStates_clean _ Hclean) in Hclean.
  rewrite Hc2 in Hclean, Hnumbers.
  pose proof (_setRasterizationState_clean _ _ _ Hclean) as Hsame.
  rewrite Hsame in Hclean, Hnumbers. clear Hsame.
  rewrite Hc1 in Hclean, Hnumbers.
  by rewrite (_setShaderStage_clean _ _ Hclean) in Hnumbers.
Qed.

(** X16.  A call of [getRenderPipeline] counts a hit without hash only on
    color states that are numbers: with a color state that is [NaN] (a
    blend target enabled with no equation given), no call takes the fast
    path, as [NaN] differs from itself and the packers mark the object
    dirty every time. *)
Theorem memo_hit_needs_numbers (fillMode : Z) (effect : Effect)
    (sampleCount textureState : Z) (w : World) :
  let w' := snd (getRenderPipeline fillMode effect sampleCount textureState w) in
  NumCacheHitWithoutHash w' = NumCacheHitWithoutHash w + 1 ->
  color_states_are_numbers (cache w) /\ color_states_are_numbers (cache w').
Proof.
  cbv zeta. intros Hhit.
  assert (Hdis : disabled (cache w) = false).
  { pose proof (getRenderPipeline_outcome fillMode effect sampleCount textureState w) as Hout.
    destruct (getRenderPipeline fillMode effect sampleCount textureState w) as [r w'].
    cbn [fst snd] in *.
    inversion Hout as
      [ e0 w1 Htop Hc Hlog Hcnt | e0 w1 He Hc Hlog Hcnt
      | cached w1 Hen Hcached Hp Hc Hlog Hst Hcnt
      | found this w1 Hen Hfound Hp Hst Hc Hlog Hcnt
      | topology e0 w1 Htop He Hc Hlog Hcnt
      | topology layouts this e0 w1 Htop Hc Hts Hlog Hdev Hc' Hcnt
      | topology layouts this created w1 Htop Hc Hts Hlog Hdev Hc' Hcnt ]; subst.
    3: { assumption. }
    1,2,4,5: apply counters_inv in Hcnt as (Hcnt & _); lia.
    all: try (apply counters_values in Hcnt as (Hcnt & _); lia). }
  destruct (getRenderPipeline_enabled fillMode effect sampleCount textureState w Hdis)
    as [(e & wp & Hprep & Hcall)|[(wp & cached & Hprep & Hclean & _ & Hcall)
                                 |(wp & Hprep & _ & Hcall)]];
    pose proof (prepare_frame fillMode effect (GetSample sampleCount) textureState w)
      as (_ & _ & Ho & _);
    rewrite Hprep in Ho; cbn [snd] in Ho;
    apply outside_inv in Ho as (_ & _ & Hcnt); apply counters_inv in Hcnt as (Hcnt & _);
    rewrite Hcall in Hhit |- *; cbn [snd] in Hhit |- *.
  - lia.
  - pose proof (prepare_clean_numbers _ _ _ _ _ _ Hprep Hclean) as Hnumbers.
    split; [assumption|].
    destruct (memo_hit_fields wp) as (Hstates & _).
    apply (prepare_clean _ _ _ _ _ _ Hprep) in Hclean as (_ & Hstates' & _).
    unfold color_states_are_numbers. rewrite Hstates, Hstates'. exact Hnumbers.
  - destruct (resolve_frame fillMode effect (GetSample sampleCount) wp) as (_ & _ & Hsame).
    lia.
Qed.

(** ** The slots of the tracked fields *)

Lemma slots_in_sync_spec this :
  slots_in_sync this <->
  JS.array_get StatePosition.StencilReadMask (_states this) = JS.Fin <$> _stencilReadMask this
  /\ JS.array_get StatePosition.StencilWriteMask (_states this)
     = JS.Fin <$> _stencilWriteMask this
  /\ JS.array_get StatePosition.DepthBias (_states this) = JS.Fin <$> _depthBias this
  /\ JS.array_get StatePosition.DepthBiasSlopeScale (_states this)
     = JS.Fin <$> _depthBiasSlopeScale this
  /\ JS.array_get StatePosition.DepthStencilState (_states this) = _depthStencilState this
  /\ JS.array_get StatePosition.MRTAttachments (_states this) = _mrtAttachments this
  /\ JS.array_get StatePosition.RasterizationState (_states this)
     = JS.Fin <$> _rasterizationState this
  /\ JS.array_get StatePosition.ShaderStage (_states this) = JS.Fin <$> _shaderId this
  /\ JS.array_get StatePosition.TextureStage (_states this) = JS.Fin <$> _textureState this.
Proof.
  unfold slots_in_sync, tracked_fields. split.
  - intros Hsync.
    pose proof (Hsync _ _ (or_introl eq_refl)) as H1.
    pose proof (Hsync _ _ (or_intror (or_introl eq_refl))) as H2.
    pose proof (Hsync _ _ (or_intror (or_intror (or_introl eq_refl)))) as H3.
    pose proof (Hsync _ _ (or_intror (or_intror (or_intror (or_introl eq_refl))))) as H4.
    pose proof (Hsync _ _ (or_intror (or_intror (or_intror (or_intror (or_introl eq_refl))))))
      as H5.
    pose proof (Hsync _ _ (or_intror (or_intror (or_intror (or_intror (or_intror
                             (or_introl eq_refl))))))) as H6.
    pose proof (Hsync _ _ (or_intror (or_intror (or_intror (or_intror (or_intror
                             (or_intror (or_introl eq_refl)))))))) as H7.
    pose proof (Hsync _ _ (or_intror (or_intror (or_intror (or_intror (or_intror
                             (or_intror (or_intror (or_introl eq_refl))))))))) as H8.
    pose proof (Hsync _ _ (or_intror (or_intror (or_intror (or_intror (or_intror
                             (or_intror (or_intror (or_intror (or_introl eq_refl))))))))))
      as H9.
    repeat split; assumption.
  - intros (H1 & H2 & H3 & H4 & H5 & H6 & H7 & H8 & H9) position field Hin.
    cbn [In] in Hin.
    repeat (destruct Hin as [Hin|Hin]; [injection Hin as <- <-; assumption|]).
    destruct Hin.
Qed.

(** The slots of the tracked fields are below the vertex state, and none
    is a color state. *)
Lemma tracked_positions position field :
  In (position, field) tracked_fields ->
  (position < StatePosition.ColorStates1
   \/ StatePosition.ColorStates4 < position < StatePosition.VertexState)%nat.
Proof.
  unfold tracked_fields. cbn [In]. intros Hin.
  repeat (destruct Hin as [Hin|Hin]; [injection Hin as <- _; vm_compute; lia|]).
  destruct Hin.
Qed.

Lemma sync_frame this this' :
  (forall position field, In (position, field) tracked_fields -> field this' = field this) ->
  (forall j, (j < StatePosition.ColorStates1
              \/ StatePosition.ColorStates4 < j < StatePosition.VertexState)%nat ->
     JS.array_get j (_states this') = JS.array_get j (_states this)) ->
  slots_in_sync this -> slots_in_sync this'.
Proof.
  intros Hfields Hslots Hsync position field Hin.
  rewrite Hslots by (by eapply tracked_positions).
  rewrite (Hfields _ _ Hin). by apply Hsync.
Qed.

Lemma sync_view this this' :
  tracked_view this' = tracked_view this -> slots_in_sync this -> slots_in_sync this'.
Proof.
  unfold tracked_view. intros [= Hstates Hfields]. apply sync_frame.
  - intros position field Hin. unfold tracked_fields in Hin. cbn [In] in Hin.
    repeat (destruct Hin as [Hin|Hin]; [injection Hin as _ <-; assumption|]).
    destruct Hin.
  - intros j _. by rewrite Hstates.
Qed.

Ltac sync_writer this :=
  let Hsync := fresh "Hsync" in
  intros Hsync; first [case_bool_decide | destruct (JS.strict_neq _ _)]; [|assumption];
  apply slots_in_sync_spec in Hsync; apply slots_in_sync_spec;
  destruct Hsync as (? & ? & ? & ? & ? & ? & ? & ? & ?);
  destruct this; unfold_updates;
  repeat split;
  first [ apply array_get_set_eq | rewrite array_get_set_ne by done; assumption ].

Lemma setDepthBias_sync depthBias this :
  slots_in_sync this -> slots_in_sync (setDepthBias depthBias this).
Proof. unfold setDepthBias. sync_writer this. Qed.

Lemma setDepthBiasSlopeScale_sync depthBiasSlopeScale this :
  slots_in_sync this -> slots_in_sync (setDepthBiasSlopeScale depthBiasSlopeScale this).
Proof. unfold setDepthBiasSlopeScale. sync_writer this. Qed.

Lemma setStencilReadMask_sync mask this :
  slots_in_sync this -> slots_in_sync (setStencilReadMask mask this).
Proof. unfold setStencilReadMask. sync_writer this. Qed.

Lemma setStencilWriteMask_sync mask this :
  slots_in_sync this -> slots_in_sync (setStencilWriteMask mask this).
Proof. unfold setStencilWriteMask. sync_writer this. Qed.

Lemma _setShaderStage_sync id this :
  slots_in_sync this -> slots_in_sync (_setShaderStage id this).
Proof. unfold _setShaderStage. sync_writer this. Qed.

Lemma _setRasterizationState_sync topology sampleCount this :
  slots_in_sync this -> slots_in_sync (_setRasterizationState topology sampleCount this).
Proof.
  unfold _setRasterizationState. cbv zeta.
  generalize (rasterizationState_of topology sampleCount this). intros packed.
  sync_writer this.
Qed.

Lemma _setDepthStencilState_sync this :
  slots_in_sync this -> slots_in_sync (_setDepthStencilState this).
Proof.
  unfold _setDepthStencilState. cbv zeta.
  generalize (depthStencilState_of this). intros packed. sync_writer this.
Qed.

Lemma _setTextureState_sync textureState this :
  slots_in_sync this -> slots_in_sync (_setTextureState textureState this).
Proof. unfold _setTextureState. sync_writer this. Qed.

Lemma mark_dirty_view position this : tracked_view (mark_dirty position this) = tracked_view this.
Proof. by destruct this. Qed.

Lemma setMRTAttachments_sync attachments this :
  slots_in_sync this -> slots_in_sync (setMRTAttachments attachments this).
Proof.
  apply sync_view. unfold setMRTAttachments. cbv zeta.
  case_bool_decide; [rewrite mark_dirty_view|]; by destruct this.
Qed.

Lemma setDepthCullingState_sync cullEnabled frontFace cullFace zOffset zOffsetUnits
    depthTestEnabled depthWriteEnabled depthCompare this :
  slots_in_sync this ->
  slots_in_sync (setDepthCullingState cullEnabled frontFace cullFace zOffset zOffsetUnits
                   depthTestEnabled depthWriteEnabled depthCompare this).
Proof.
  intros Hsync. unfold setDepthCullingState. cbv zeta.
  apply setDepthBias_sync, setDepthBiasSlopeScale_sync.
  revert Hsync. apply sync_view. by destruct this.
Qed.

Lemma setStencilState_sync stencilEnabled compare depthFailOp passOp failOp readMask writeMask
    backCompare backDepthFailOp backPassOp backFailOp this :
  slots_in_sync this ->
  slots_in_sync (setStencilState stencilEnabled compare depthFailOp passOp failOp readMask
                   writeMask backCompare backDepthFailOp backPassOp backFailOp this).
Proof.
  intros Hsync. unfold setStencilState. cbv zeta.
  apply setStencilWriteMask_sync, setStencilReadMask_sync.
  revert Hsync. apply sync_view. by destruct this.
Qed.

Lemma setMRT_sync textureArray textureCount this :
  slots_in_sync this -> slots_in_sync (snd (setMRT textureArray textureCount this)).
Proof.
  intros Hsync. unfold setMRT. cbv zeta.
  destruct (8 <? _) ; [assumption|].
  destruct (setMRT_loop _ _ _ _ _ _) as [mrtFormats packed].
  destruct (_ <? 0); cbn [snd].
  { revert Hsync. apply sync_view. by destruct this. }
  match goal with
  | |- slots_in_sync (if JS.strict_neq (_mrtAttachments ?this1) _ then _ else _) =>
      assert (Hsync1 : slots_in_sync this1)
        by (revert Hsync; apply sync_view; by destruct this);
      generalize dependent this1
  end.
  intros this1. sync_writer this1.
Qed.

Lemma reset_sync this : slots_in_sync this -> slots_in_sync (snd (reset this)).
Proof.
  intros Hsync. unfold reset. cbv zeta.
  match goal with
  | |- context [setMRT [] None ?this1] =>
      assert (Hsync1 : slots_in_sync this1); [|remember this1 as this2 eqn:Hthis2; clear Hthis2]
  end.
  - unfold setColorFormat, setClampDepth, setAlphaToCoverage, resetDepthCullingState.
    remember (this {{ _isDirty := true; vertexBuffers := [] }}) as this0 eqn:H0.
    assert (Hsync0 : slots_in_sync this0)
      by (subst this0; revert Hsync; apply sync_view; by destruct this).
    clear H0 Hsync.
    remember (this0 {{ _alphaToCoverageEnabled := false }}) as this1 eqn:H1.
    assert (Hsync1 : slots_in_sync this1)
      by (subst this1; revert Hsync0; apply sync_view; by destruct this0).
    clear H1 Hsync0.
    pose proof (setDepthCullingState_sync false 2 1 0 0 true true (Some ALWAYS) this1 Hsync1)
      as Hsync2.
    remember (setDepthCullingState false 2 1 0 0 true true (Some ALWAYS) this1) as this2 eqn:H2.
    clear H2 Hsync1.
    remember (this2 {{ _clampDepth := false }}) as this3 eqn:H3.
    assert (Hsync3 : slots_in_sync this3)
      by (subst this3; revert Hsync2; apply sync_view; by destruct this2).
    clear H3 Hsync2.
    pose proof (setDepthBias_sync 0 this3 Hsync3) as Hsync4.
    remember (setDepthBias 0 this3) as this4 eqn:H4. clear H4 Hsync3.
    remember (this4 {{ _webgpuColorFormat := [Some TextureFormat_BGRA8Unorm] }})
      as this5 eqn:H5.
    assert (Hsync5 : slots_in_sync this5)
      by (subst this5; revert Hsync4; apply sync_view; by destruct this4).
    clear H5 Hsync4.
    revert Hsync5. apply sync_view. by destruct this5.
  - pose proof (setMRT_sync [] None this2 Hsync1) as Hmrt.
    destruct (setMRT [] None this2) as [[e|] this3]; cbn [snd] in Hmrt |- *; [assumption|].
    apply _setTextureState_sync.
    remember (setAlphaBlendEnabled [false] 1 this3) as this4 eqn:H4.
    assert (Hsync4 : slots_in_sync this4)
      by (subst this4; revert Hmrt; apply sync_view; by destruct this3).
    clear H4.
    remember (setAlphaBlendFactors [None; None; None; None] [None; None] this4)
      as this5 eqn:H5.
    assert (Hsync5 : slots_in_sync this5)
      by (subst this5; revert Hsync4; apply sync_view; by destruct this4).
    clear H5.
    remember (setWriteMask 15 this5) as this6 eqn:H6.
    assert (Hsync6 : slots_in_sync this6)
      by (subst this6; revert Hsync5; apply sync_view; by destruct this5).
    clear H6.
    remember (setDepthStencilFormat (Some TextureFormat_Depth24PlusStencil8) this6)
      as this7 eqn:H7.
    assert (Hsync7 : slots_in_sync this7)
      by (subst this7; revert Hsync6; apply sync_view; by destruct this6).
    clear H7.
    remember (setStencilEnabled false this7) as this8 eqn:H8.
    assert (Hsync8 : slots_in_sync this8)
      by (subst this8; revert Hsync7; apply sync_view; by destruct this7).
    clear H8.
    pose proof (setStencilState_sync false (Some ALWAYS) (Some KEEP) (Some REPLACE) (Some KEEP)
                  0xff 0xff None None None None this8 Hsync8) as Hsync9.
    fold (resetStencilState this8) in Hsync9.
    remember (resetStencilState this8) as this9 eqn:H9. clear H9.
    revert Hsync9. apply sync_view. by destruct this9.
Qed.

Lemma setter_call_sync this this' :
  setter_call this this' -> slots_in_sync this -> slots_in_sync this'.
Proof.
  intros Hcall.
  destruct Hcall;
    lazymatch goal with
    | |- _ -> slots_in_sync (snd (reset _)) => apply reset_sync
    | |- _ -> slots_in_sync (resetDepthCullingState _) =>
        unfold resetDepthCullingState; apply setDepthCullingState_sync
    | |- _ -> slots_in_sync (setDepthCullingState _ _ _ _ _ _ _ _ _) =>
        apply setDepthCullingState_sync
    | |- _ -> slots_in_sync (setDepthBias _ _) => apply setDepthBias_sync
    | |- _ -> slots_in_sync (setDepthBiasSlopeScale _ _) => apply setDepthBiasSlopeScale_sync
    | |- _ -> slots_in_sync (setMRTAttachments _ _) => apply setMRTAttachments_sync
    | |- _ -> slots_in_sync (snd (setMRT _ _ _)) => apply setMRT_sync
    | |- _ -> slots_in_sync (setStencilReadMask _ _) => apply setStencilReadMask_sync
    | |- _ -> slots_in_sync (setStencilWriteMask _ _) => apply setStencilWriteMask_sync
    | |- _ -> slots_in_sync (resetStencilState _) =>
        unfold resetStencilState; apply setStencilState_sync
    | |- _ -> slots_in_sync (setStencilState _ _ _ _ _ _ _ _ _ _ _ _) =>
        apply setStencilState_sync
    | |- _ => apply sync_view; by destruct this
    end.
Qed.

Lemma fields_of_eq this this' :
  fields_of this' = fields_of this ->
  forall position field, In (position, field) tracked_fields -> field this' = field this.
Proof.
  unfold fields_of, tracked_fields. cbn [map snd]. intros Hfields position field Hin.
  injection Hfields as H1 H2 H3 H4 H5 H6 H7 H8 H9.
  cbn [In] in Hin.
  repeat (destruct Hin as [Hin|Hin]; [injection Hin as _ <-; assumption|]).
  destruct Hin.
Qed.

Lemma _setColorStates_sync this : slots_in_sync this -> slots_in_sync (_setColorStates this).
Proof.
  apply sync_frame.
  - apply fields_of_eq. unfold _setColorStates.
    destruct (_setColorStates_loop_states 8 0 (colorStates_init this) 0 false this)
      as [states Hs].
    destruct (_setColorStates_loop 8 0 (colorStates_init this) 0 false this)
      as [isDirty this'].
    cbn [snd] in Hs. subst this'.
    destruct isDirty; destruct this; reflexivity.
  - intros j Hj. destruct (_setColorStates_footprint this) as (_ & _ & Hslots).
    apply Hslots. unfold StatePosition.VertexState in Hj. lia.
Qed.

(** The loop of [_setVertexState] leaves the slots below the one it starts
    at as they are, also when it throws. *)
Lemma _setVertexState_loop_low attributes :
  forall locations index currentGPUBuffer numVertexBuffers newNumStates w j,
    (j < newNumStates)%nat ->
    JS.array_get j (_states (cache (snd (snd (_setVertexState_loop attributes locations index
                                                 currentGPUBuffer numVertexBuffers
                                                 newNumStates w)))))
    = JS.array_get j (_states (cache w)).
Proof.
  induction attributes as [|name attributes IH];
    intros locations index currentGPUBuffer numVertexBuffers newNumStates w j Hj;
    [reflexivity|].
  cbn [_setVertexState_loop]. cbv zeta.
  destruct (bound_vertex_buffer (cache w) name) as [e|vertexBuffer]; [reflexivity|].
  destruct (negb _); rewrite IH by lia;
    destruct w as [[] ? ? ? ? ? ? ? ?]; unfold_updates; apply array_get_set_ne; lia.
Qed.

Lemma _setVertexState_sync effect w :
  slots_in_sync (cache w) -> slots_in_sync (cache (snd (_setVertexState effect w))).
Proof.
  apply sync_frame.
  - apply fields_of_eq.
    destruct (_setVertexState_frame effect w) as [Hframe _]. cbv zeta in Hframe.
    by apply (untracked_proj fields_of (fun t => ltac:(by destruct t))).
  - intros j Hj.
    assert (Hlow : (j < StatePosition.VertexState)%nat)
      by (unfold StatePosition.ColorStates1, StatePosition.VertexState in *; lia).
    pose proof (_setVertexState_loop_low (attributeNamesFromEffect effect)
                  (attributeLocationsFromEffect effect) 0 None 0 StatePosition.VertexState
                  w j Hlow) as Hloop.
    unfold _setVertexState. cbv zeta.
    destruct (_setVertexState_loop _ _ _ _ _ _ _) as [e [[numVertexBuffers newNumStates] wl]].
    cbn [snd] in Hloop. rewrite <- Hloop.
    destruct e as [e|]; cbn [snd]; [reflexivity|].
    match goal with |- context [if ?b then _ else _] => destruct b end;
      by destruct wl as [[] ? ? ? ? ? ? ? ?].
Qed.

Lemma prepare_sync fillMode effect sampleCount textureState w :
  slots_in_sync (cache w) ->
  slots_in_sync (cache (snd (prepare fillMode effect sampleCount textureState w))).
Proof.
  intros Hsync. unfold prepare. cbv zeta.
  apply (_setShaderStage_sync (uniqueId effect)) in Hsync.
  apply (_setRasterizationState_sync fillMode sampleCount) in Hsync.
  apply _setColorStates_sync, _setDepthStencilState_sync in Hsync.
  remember (_setDepthStencilState _) as c4 eqn:Hc4. clear Hc4.
  pose proof (_setVertexState_sync effect (w {{ cache := c4 }})) as Hvertex.
  rewrite cache_with_cache in Hvertex. specialize (Hvertex Hsync).
  destruct (_setVertexState effect (w {{ cache := c4 }})) as [[e|] w5];
    cbn [snd] in Hvertex |- *; [assumption|].
  rewrite cache_with_cache.
  apply (_setTextureState_sync textureState) in Hvertex.
  revert Hvertex. apply sync_view.
  by destruct (_setTextureState textureState (cache w5)).
Qed.

Lemma settled_sync this this' :
  settled_of this' = settled_of this -> slots_in_sync this -> slots_in_sync this'.
Proof.
  intros Hsettled. apply sync_view.
  by apply (settled_proj tracked_view (fun t => ltac:(by destruct t))).
Qed.

Lemma getRenderPipeline_sync fillMode effect sampleCount textureState w :
  slots_in_sync (cache w) ->
  slots_in_sync (cache (snd (getRenderPipeline fillMode effect sampleCount textureState w))).
Proof.
  intros Hsync. destruct (disabled (cache w)) eqn:Hdis.
  - unfold getRenderPipeline. cbv zeta. rewrite Hdis.
    destruct (_GetTopology fillMode) as [e|topology]; [assumption|].
    pose proof (_setVertexState_sync effect w Hsync) as Hvertex.
    destruct (_setVertexState effect w) as [[e|] w1]; cbn [snd] in Hvertex |- *;
      [assumption|].
    apply (_setTextureState_sync textureState) in Hvertex.
    remember (w1 {{ cache := _setTextureState textureState (cache w1) }}) as w2 eqn:Hw2.
    assert (Hsync2 : slots_in_sync (cache w2)) by (subst w2; by rewrite cache_with_cache).
    clear Hw2 Hvertex.
    destruct (_createRenderPipeline_cases effect topology (GetSample sampleCount) w2)
      as [(e & _ & ->)|(layouts & _ & ->)]; cbn [snd]; [assumption|].
    match goal with
    | |- context [w2 {{ device_log := ?log }}] =>
        destruct (with_device_log w2 log) as (Hd1 & _);
        remember (w2 {{ device_log := log }}) as wd eqn:Hwd; clear Hwd
    end.
    rewrite <- Hd1 in Hsync2.
    destruct (createRenderPipeline _ _) as [e|created]; cbn [snd]; [assumption|].
    destruct (adopt_settled false created wd) as (Hsettled & _).
    by apply (settled_sync _ _ Hsettled).
  - pose proof (prepare_sync fillMode effect (GetSample sampleCount) textureState w Hsync)
      as Hprepared.
    destruct (getRenderPipeline_enabled fillMode effect sampleCount textureState w Hdis)
      as [(e & wp & Hprep & ->)|[(wp & cached & Hprep & _ & _ & ->)
                                 |(wp & Hprep & _ & ->)]];
      rewrite Hprep in Hprepared; cbn [snd] in Hprepared |- *.
    + assumption.
    + destruct (memo_hit_settled wp) as (Hsettled & _).
      by apply (settled_sync _ _ Hsettled).
    + destruct (resolve_frame fillMode effect (GetSample sampleCount) wp) as (Hsettled & _).
      by apply (settled_sync _ _ Hsettled).
Qed.

(** X17.  From the construction on, whatever public methods are called,
    the slot of every tracked field holds the value of the field: the
    setters and the packers, which write a slot only when the value they
    are given differs from the field, never leave a slot behind its
    field. *)
Theorem tracked_slots_stay_in_sync (emptyVertexBuffer : VertexBuffer) (w w' : World) :
  cache w = snd (constructor emptyVertexBuffer) ->
  rtc method_call w w' ->
  slots_in_sync (cache w').
Proof.
  intros Hnew Hcalls.
  assert (Hsync : slots_in_sync (cache w)).
  { rewrite Hnew. unfold constructor. apply reset_sync.
    apply slots_in_sync_spec. by vm_compute. }
  clear Hnew. induction Hcalls as [w|w w1 w' Hcall _ IH]; [assumption|].
  apply IH. clear IH. destruct Hcall as [this' Hcall| |].
  - rewrite cache_with_cache. by apply (setter_call_sync _ _ Hcall).
  - by apply getRenderPipeline_sync.
  - unfold endFrame. by destruct w.
Qed.

(** ** The formats of the color targets *)

(** X18.  The color targets of the descriptor follow [colorFormats], the
    formats the object reports for its render pass: as long as the object
    holds one color format, there is one target per reported format, with
    that format, and no target where the format is null or empty. *)
Theorem color_targets_follow_colorFormats (this : WebGPUCacheRenderPipeline) :
  length (_webgpuColorFormat this) = 1%nat ->
  (fun target => target_format <$> target) <$> color_targets this
  = truthy_format <$> colorFormats this.
Proof.
  intros Hone. unfold color_targets, colorFormats, mrt_active.
  assert (Htarget : forall format mask blendIndex,
            target_format <$> color_target format mask blendIndex this
            = truthy_format format).
  { intros format mask blendIndex. unfold color_target.
    by destruct (truthy_format format). }
  destruct (JS.positive (_mrtAttachments this)).
  - rewrite fmap_imap. erewrite imap_ext; [apply imap_const|].
    intros i format _. apply Htarget.
  - destruct (_webgpuColorFormat this) as [|format [|]]; try discriminate.
    cbn. by rewrite Htarget.
Qed.

(** ** The format indices of the key *)

Lemma format_view_step this this' :
  format_view this' = format_view this ->
  format_indices_in_step this -> format_indices_in_step this'.
Proof.
  unfold format_view, format_indices_in_step.
  intros [= -> -> -> -> -> ->]. auto.
Qed.

Lemma packed_indices_ext (index index' : nat -> option Z) (count : nat) :
  (forall i, (i < count)%nat -> index i = index' i) ->
  packed_indices index count = packed_indices index' count.
Proof.
  induction count as [|count IH]; intros Hext; [reflexivity|].
  cbn [packed_indices]. rewrite IH by (intros; apply Hext; lia).
  by rewrite Hext by lia.
Qed.

Lemma setMRT_loop_packed textureArray webgpuColorFormat0 (n : nat) :
  forall (i : nat) (mrtFormats : list (option GPUTextureFormat)) (mrtAttachments : JS.num),
    let index j := renderableTextureFormatToIndex
                     (default EmptyString (mrt_format textureArray webgpuColorFormat0 j)) in
    (i <= length mrtFormats)%nat ->
    mrtAttachments = packed_indices index i ->
    let '(mrtFormats', mrtAttachments') :=
      setMRT_loop textureArray webgpuColorFormat0 n i mrtFormats mrtAttachments in
    mrtAttachments' = packed_indices index (i + n)
    /\ (i + n <= length mrtFormats')%nat
    /\ (forall j, (j < i + n)%nat -> (i <= j)%nat ->
          mrtFormats' !! j = Some (mrt_format textureArray webgpuColorFormat0 j))
    /\ (forall j, (j < i)%nat -> mrtFormats' !! j = mrtFormats !! j).
Proof.
  induction n as [|n IH]; intros i mrtFormats mrtAttachments index Hi Hacc.
  { cbn [setMRT_loop]. rewrite Nat.add_0_r. repeat split; auto with lia. }
  cbn [setMRT_loop]. cbv zeta.
  fold (mrt_format textureArray webgpuColorFormat0 i).
  set (format := mrt_format textureArray webgpuColorFormat0 i) in *.
  set (formats1 := if decide (i < length mrtFormats)%nat then <[i := format]> mrtFormats
                   else mrtFormats ++ replicate (i - length mrtFormats) None ++ [format]).
  assert (Hformats1 : (S i <= length formats1)%nat
                      /\ formats1 !! i = Some format
                      /\ forall j, (j < i)%nat -> formats1 !! j = mrtFormats !! j).
  { subst formats1. case_decide as Hlt.
    - rewrite length_insert. split; [lia|]. split.
      + by apply list_lookup_insert_eq.
      + intros j Hj. apply list_lookup_insert_ne. lia.
    - assert (i = length mrtFormats) as Hlen by lia.
      rewrite Hlen, Nat.sub_diag. cbn [replicate app]. rewrite length_app. cbn.
      split; [lia|]. split.
      + by rewrite lookup_app_r, Nat.sub_diag by lia.
      + intros j Hj. by rewrite lookup_app_l by lia. }
  destruct Hformats1 as (Hlength1 & Hat & Hbelow).
  specialize (IH (S i) formats1
                (JS.add mrtAttachments
                   (JS.mul (JS.to_number
                              (renderableTextureFormatToIndex (default EmptyString format)))
                           (JS.Fin (2 ^ (6 * Z.of_nat i)))))
                Hlength1 ltac:(by rewrite Hacc)).
  destruct (setMRT_loop textureArray webgpuColorFormat0 n (S i) formats1 _)
    as [mrtFormats' mrtAttachments'].
  destruct IH as (Hpacked & Hlength & Habove & Hkept).
  rewrite Nat.add_succ_r. split; [assumption|]. split; [assumption|]. split.
  - intros j Hj Hij. destruct (decide (j = i)) as [->|Hne].
    + by rewrite Hkept by lia.
    + apply Habove; lia.
  - intros j Hj. rewrite Hkept by lia. by apply Hbelow.
Qed.

Lemma setMRT_step textureArray textureCount this :
  format_indices_in_step this ->
  format_indices_in_step (snd (setMRT textureArray textureCount this)).
Proof.
  intros Hstep. unfold setMRT. cbv zeta.
  set (count := default (Z.of_nat (length textureArray)) textureCount).
  destruct (8 <? count); [assumption|].
  match goal with
  | |- context [setMRT_loop ?ta ?c0 ?n ?i ?fmts ?att] =>
      pose proof (setMRT_loop_packed ta c0 n i fmts att) as Hloop;
      destruct (setMRT_loop ta c0 n i fmts att) as [mrtFormats packed] eqn:Hrun
  end.
  cbv zeta in Hloop. destruct Hloop as (Hpacked & Hlength & Habove & _); [lia|reflexivity|].
  destruct (count <? 0) eqn:Hneg; cbn [snd].
  { apply Z.ltb_lt in Hneg.
    replace (Z.to_nat count) with 0%nat in Hrun by lia. cbn in Hrun.
    injection Hrun as <- _. revert Hstep. apply format_view_step. by destruct this. }
  assert (Hresult :
    forall this1 : WebGPUCacheRenderPipeline,
      format_view
        (if JS.strict_neq (_mrtAttachments this1) (Some packed)
         then mark_dirty StatePosition.MRTAttachments
                (this1 {{ _mrtAttachments := Some packed;
                          _states := JS.array_set StatePosition.MRTAttachments packed
                                       (_states this1) }})
         else this1)
      = (_webgpuColorFormat this1, _colorFormat this1, _webgpuDepthStencilFormat this1,
         _depthStencilFormat this1, _mrtFormats this1, Some packed)).
  { intros this1. destruct (JS.strict_neq _ _) eqn:Hne.
    - by destruct this1.
    - unfold format_view. do 2 f_equal. by apply strict_neq_false in Hne. }
  match goal with
  | |- format_indices_in_step
         (if JS.strict_neq (_mrtAttachments ?this1) _ then _ else _) =>
      remember this1 as this2 eqn:Hthis2
  end.
  assert (Hfields : _webgpuColorFormat this2 = _webgpuColorFormat this
                    /\ _colorFormat this2 = _colorFormat this
                    /\ _webgpuDepthStencilFormat this2 = _webgpuDepthStencilFormat this
                    /\ _depthStencilFormat this2 = _depthStencilFormat this
                    /\ _mrtFormats this2 = take (Z.to_nat count) mrtFormats)
    by (subst this2; by destruct this).
  clear Hthis2. specialize (Hresult this2).
  remember (if JS.strict_neq (_mrtAttachments this2) (Some packed) then _ else _)
    as this3 eqn:Hthis3.
  clear Hthis3. unfold format_view in Hresult.
  injection Hresult as Hv1 Hv2 Hv3 Hv4 Hv5 Hv6.
  destruct Hstep as (Hone & Hcolor & Hdepth & _).
  destruct Hfields as (Hf1 & Hf2 & Hf3 & Hf4 & Hf5).
  unfold format_indices_in_step.
  rewrite Hv1, Hv2, Hv3, Hv4, Hv5, Hv6, Hf1, Hf2, Hf3, Hf4, Hf5.
  repeat split; try assumption.
  rewrite Hpacked, Nat.add_0_l, length_take, Nat.min_l by lia.
  f_equal. apply packed_indices_ext. intros i Hi.
  by rewrite lookup_take_lt, Habove by lia.
Qed.

Lemma setColorFormat_step format this :
  format_indices_in_step this -> format_indices_in_step (setColorFormat format this).
Proof.
  intros (Hone & _ & Hdepth & Hmrt). unfold format_indices_in_step, setColorFormat.
  destruct (_webgpuColorFormat this) as [|format0 [|]] eqn:Hformats; try discriminate.
  destruct this. unfold_updates. subst. cbn. auto.
Qed.

Lemma setDepthStencilFormat_step format this :
  format_indices_in_step this -> format_indices_in_step (setDepthStencilFormat format this).
Proof.
  intros (Hone & Hcolor & _ & Hmrt). unfold format_indices_in_step, setDepthStencilFormat.
  destruct this. unfold_updates. auto.
Qed.

Lemma reset_step this : format_indices_in_step (snd (reset this)).
Proof.
  unfold reset. cbv zeta.
  match goal with
  | |- context [setMRT [] None ?this1] =>
      assert (Hstep1 : length (_webgpuColorFormat this1) = 1%nat
                       /\ _colorFormat this1
                          = renderableTextureFormatToIndex
                              (default EmptyString (mjoin (_webgpuColorFormat this1 !! 0%nat))));
      [|remember this1 as this2 eqn:Hthis2; clear Hthis2]
  end.
  - remember (setDepthBias 0 _) as this0 eqn:Hthis0. clear Hthis0.
    unfold setColorFormat. by destruct this0.
  - assert (Hmrt : fst (setMRT [] None this2) = None
                   /\ format_view (snd (setMRT [] None this2))
                      = (_webgpuColorFormat this2, _colorFormat this2,
                         _webgpuDepthStencilFormat this2, _depthStencilFormat this2,
                         [], Some (JS.Fin 0))).
    { unfold setMRT. cbv zeta.
      change (default (Z.of_nat (@length InternalTexture [])) None) with 0.
      change (8 <? 0) with false. change (0 <? 0) with false.
      change (Z.to_nat 0) with 0%nat. cbn [setMRT_loop take]. cbv iota beta.
      destruct (JS.strict_neq _ _) eqn:Hne.
      - by destruct this2.
      - split; [reflexivity|].
        apply strict_neq_false in Hne.
        destruct this2. unfold_updates. unfold format_view. cbn in *.
        by rewrite Hne. }
    destruct (setMRT [] None this2) as [e this3]. cbn [fst snd] in Hmrt.
    destruct Hmrt as [-> Hview]. cbn [snd].
    unfold format_view in Hview. injection Hview as Hv1 Hv2 _ _ Hv5 Hv6.
    destruct Hstep1 as [Hone Hcolor]. rewrite <- Hv1, <- Hv2 in *.
    clear Hv1 Hv2.
    remember (setAlphaBlendEnabled [false] 1 this3) as this4 eqn:H4.
    assert (Hview4 : format_view this4 = format_view this3) by (subst this4; by destruct this3).
    clear H4.
    remember (setAlphaBlendFactors [None; None; None; None] [None; None] this4)
      as this5 eqn:H5.
    assert (Hview5 : format_view this5 = format_view this3)
      by (rewrite <- Hview4; subst this5; by destruct this4).
    clear H5 Hview4.
    remember (setWriteMask 15 this5) as this6 eqn:H6.
    assert (Hview6 : format_view this6 = format_view this3)
      by (rewrite <- Hview5; subst this6; by destruct this5).
    clear H6 Hview5.
    assert (Hstep6 : format_indices_in_step
                       (setDepthStencilFormat (Some TextureFormat_Depth24PlusStencil8) this6)).
    { unfold format_view in Hview6. injection Hview6 as Hw1 Hw2 _ _ Hw5 Hw6.
      unfold format_indices_in_step, setDepthStencilFormat.
      destruct this6. unfold_updates. cbn in *. subst.
      rewrite Hv5, Hv6. cbn. auto. }
    remember (setDepthStencilFormat (Some TextureFormat_Depth24PlusStencil8) this6)
      as this7 eqn:H7.
    clear H7 Hview6.
    remember (setStencilEnabled false this7) as this8 eqn:H8.
    assert (Hstep8 : format_indices_in_step this8)
      by (subst this8; revert Hstep6; apply format_view_step; by destruct this7).
    clear H8 Hstep6.
    unfold resetStencilState.
    remember (setStencilState _ _ _ _ _ _ _ _ _ _ _ this8) as this9 eqn:H9.
    assert (Hstep9 : format_indices_in_step this9).
    { subst this9. revert Hstep8. apply format_view_step.
      unfold setStencilState, setStencilWriteMask, setStencilReadMask. cbv zeta.
      repeat case_bool_decide; by destruct this8. }
    clear H9 Hstep8.
    remember (setBuffers None None None this9) as this10 eqn:H10.
    assert (Hstep10 : format_indices_in_step this10)
      by (subst this10; revert Hstep9; apply format_view_step; by destruct this9).
    clear H10 Hstep9.
    revert Hstep10. apply format_view_step.
    unfold _setTextureState. case_bool_decide; by destruct this10.
Qed.

Lemma setter_call_step this this' :
  setter_call this this' -> format_indices_in_step this -> format_indices_in_step this'.
Proof.
  intros Hcall.
  destruct Hcall;
    lazymatch goal with
    | |- _ -> format_indices_in_step (snd (reset _)) => intros _; apply reset_step
    | |- _ -> format_indices_in_step (setColorFormat _ _) => apply setColorFormat_step
    | |- _ -> format_indices_in_step (setDepthStencilFormat _ _) =>
        apply setDepthStencilFormat_step
    | |- _ -> format_indices_in_step (snd (setMRT _ _ _)) => apply setMRT_step
    | |- _ =>
        apply format_view_step;
        unfold resetDepthCullingState, setDepthCullingState, setDepthBias,
          setDepthBiasSlopeScale, setMRTAttachments, resetStencilState, setStencilState,
          setStencilWriteMask, setStencilReadMask;
        cbv zeta; repeat case_bool_decide; by destruct this
    end.
Qed.

(** X19.  From the construction on, whatever public methods are called,
    the object holds one color format, and the numbers the packers put in
    the key for the color format, the depth-stencil format and the formats
    of a multi render target are the entries of the table for the formats
    the descriptor is built from: [undefined] for a color or depth-stencil
    format the table lacks, and [NaN] for a multi render target with such a
    format. *)
Theorem format_indices_stay_in_step (emptyVertexBuffer : VertexBuffer) (w w' : World) :
  cache w = snd (constructor emptyVertexBuffer) ->
  rtc method_call w w' ->
  format_indices_in_step (cache w').
Proof.
  intros Hnew Hcalls.
  assert (Hstep : format_indices_in_step (cache w)).
  { rewrite Hnew. unfold constructor. apply reset_step. }
  clear Hnew. induction Hcalls as [w|w w1 w' Hcall _ IH]; [assumption|].
  apply IH. clear IH. destruct Hcall as [this' Hcall| |].
  - rewrite cache_with_cache. by apply (setter_call_step _ _ Hcall).
  - revert Hstep. apply format_view_step.
    apply (config_proj format_view (fun t => ltac:(by destruct t))).
    pose proof (getRenderPipeline_outcome fillMode effect sampleCount textureState w) as Hout.
    destruct (getRenderPipeline fillMode effect sampleCount textureState w) as [r w1].
    cbn [fst snd] in *. by inversion Hout.
  - unfold endFrame. by destruct w.
Qed.

Lemma prepare_error fillMode effect sampleCount textureState w e :
  fst (prepare fillMode effect sampleCount textureState w) = Some e -> e = TypeError.
Proof.
  unfold prepare. cbv zeta.
  match goal with
  | |- context [_setVertexState effect ?w0] =>
      pose proof (_setVertexState_error effect w0 e) as Herror;
      destruct (_setVertexState effect w0) as [[e'|] w1]
  end; cbn [fst] in *; [assumption|discriminate].
Qed.

(** ** The claims on the resolver, path by path *)

(** What [getRenderPipeline] returns with the cache enabled. *)
Lemma getRenderPipeline_enabled_result fillMode effect sampleCount textureState w :
  disabled (cache w) = false ->
  let prepared := prepare fillMode effect (GetSample sampleCount) textureState w in
  fst (getRenderPipeline fillMode effect sampleCount textureState w)
  = match fst prepared with
    | Some e => inl e
    | None =>
        match cached_pipeline (snd prepared) with
        | Some cached => inr cached
        | None =>
            match _GetTopology fillMode with
            | inl e => inl e
            | inr topology =>
                fst (_createRenderPipeline effect topology (GetSample sampleCount)
                       (looked_up (snd prepared)))
            end
        end
    end.
Proof.
  intros Hdis. cbv zeta. unfold getRenderPipeline. cbv zeta. rewrite Hdis.
  destruct (prepare fillMode effect (GetSample sampleCount) textureState w) as [[e|] wp];
    cbn [fst snd]; [reflexivity|].
  unfold cached_pipeline.
  destruct (looked_up_frame wp) as (_ & _ & Hmemo & _). rewrite <- Hmemo.
  destruct (negb (_isDirty (cache wp))), (pipeline (_parameter (cache wp))) as [cached|];
    cbn [fst]; try reflexivity.
  all: destruct (pipeline (_parameter (cache (looked_up wp)))) as [found|]; [reflexivity|].
  all: destruct (_GetTopology fillMode) as [e|topology]; [reflexivity|].
  all: by destruct (_createRenderPipeline effect topology (GetSample sampleCount)
                      (looked_up wp)) as [[e|created] wc].
Qed.

(** The vertex state leaves the slots below its own as they are, also when
    it throws. *)
Lemma _setVertexState_low effect w j :
  (j < StatePosition.VertexState)%nat ->
  JS.array_get j (_states (cache (snd (_setVertexState effect w))))
  = JS.array_get j (_states (cache w)).
Proof.
  intros Hlow.
  pose proof (_setVertexState_loop_low (attributeNamesFromEffect effect)
                (attributeLocationsFromEffect effect) 0 None 0 StatePosition.VertexState
                w j Hlow) as Hloop.
  unfold _setVertexState. cbv zeta.
  destruct (_setVertexState_loop _ _ _ _ _ _ _) as [e [[numVertexBuffers newNumStates] wl]].
  cbn [snd] in Hloop. rewrite <- Hloop.
  destruct e as [e|]; cbn [snd]; [reflexivity|].
  match goal with |- context [if ?b then _ else _] => destruct b end;
    by destruct wl as [[] ? ? ? ? ? ? ? ?].
Qed.

Lemma _setShaderStage_rasterization id this :
  rasterization_in_sync this -> rasterization_in_sync (_setShaderStage id this).
Proof.
  unfold rasterization_in_sync, _setShaderStage. intros Hsync.
  case_bool_decide; [|assumption].
  destruct this. unfold_updates. by rewrite array_get_set_ne.
Qed.

(** The rasterization slot the packers leave. *)
Lemma prepare_rasterization_slot fillMode effect sampleCount textureState w :
  rasterization_in_sync (cache w) ->
  JS.array_get StatePosition.RasterizationState
    (_states (cache (snd (prepare fillMode effect sampleCount textureState w))))
  = Some (JS.Fin (rasterizationState_of fillMode sampleCount (cache w))).
Proof.
  intros Hsync. apply (_setShaderStage_rasterization (uniqueId effect)) in Hsync.
  pose proof (_setRasterizationState_slot fillMode sampleCount _ Hsync) as Hslot.
  rewrite (config_proj (rasterizationState_of fillMode sampleCount)
             (rasterizationState_of_config fillMode sampleCount)
             _ (cache w) (config_of__setShaderStage _ _)) in Hslot.
  unfold prepare. cbv zeta.
  remember (_setRasterizationState fillMode sampleCount
              (_setShaderStage (uniqueId effect) (cache w))) as c2 eqn:Hc2.
  clear Hc2 Hsync.
  destruct (_setColorStates_footprint c2) as (_ & _ & Hslots3).
  destruct (_setDepthStencilState_footprint (_setColorStates c2)) as (_ & _ & _ & Hslots4).
  cbv zeta in Hslots3, Hslots4.
  remember (_setDepthStencilState (_setColorStates c2)) as c4 eqn:Hc4.
  assert (Hslot4 : JS.array_get StatePosition.RasterizationState (_states c4)
                   = Some (JS.Fin (rasterizationState_of fillMode sampleCount (cache w)))).
  { rewrite Hslots4, Hslots3; [assumption|..].
    - left. unfold StatePosition.RasterizationState, StatePosition.ColorStates1. lia.
    - discriminate. }
  clear Hc4 Hslots3 Hslots4 Hslot.
  pose proof (_setVertexState_low effect (w {{ cache := c4 }})
                StatePosition.RasterizationState) as Hlow.
  rewrite cache_with_cache in Hlow.
  destruct (_setVertexState effect (w {{ cache := c4 }})) as [[e|] w5]; cbn [snd] in *.
  - rewrite Hlow; [assumption|].
    unfold StatePosition.RasterizationState, StatePosition.VertexState. lia.
  - rewrite cache_with_cache.
    destruct (_setTextureState_footprint textureState (cache w5))
      as (_ & _ & _ & _ & _ & _ & Hslots6).
    cbv zeta in Hslots6.
    destruct (with_lastStateDirtyLowestIndex (_setTextureState textureState (cache w5))
                (Some (_stateDirtyLowestIndex (_setTextureState textureState (cache w5)))))
      as (_ & _ & _).
    assert (Hstates : forall this index,
               _states (this {{ lastStateDirtyLowestIndex := index }}) = _states this)
      by (intros this index; by destruct this).
    rewrite Hstates, Hslots6 by discriminate.
    rewrite Hlow; [assumption|].
    unfold StatePosition.RasterizationState, StatePosition.VertexState. lia.
Qed.

(** With the cache enabled, the state vector [getRenderPipeline] leaves is
    the one the packers left. *)
Lemma getRenderPipeline_enabled_states fillMode effect sampleCount textureState w :
  disabled (cache w) = false ->
  _states (cache (snd (getRenderPipeline fillMode effect sampleCount textureState w)))
  = _states (cache (snd (prepare fillMode effect (GetSample sampleCount) textureState w))).
Proof.
  intros Hdis.
  destruct (getRenderPipeline_enabled fillMode effect sampleCount textureState w Hdis)
    as [(e & wp & Hprep & ->)|[(wp & cached & Hprep & _ & _ & ->)|(wp & Hprep & _ & ->)]];
    rewrite Hprep; cbn [snd].
  - reflexivity.
  - by destruct (memo_hit_fields wp) as (-> & _).
  - by destruct (resolve_fields fillMode effect (GetSample sampleCount) wp) as (-> & _).
Qed.

(** C3, with the front face as the code packs it.  After a call of
    [getRenderPipeline] with the cache enabled, for every front face (of
    magnitude 2^52 at most, so that the sum is exact), cull mode (0 when
    culling is disabled, else the cull face), depth-clamp flag,
    alpha-to-coverage flag, fill mode and sample count (as [GetSample]
    rounds it), on an object whose rasterization slot holds the value packed
    last, the rasterization slot is
    [frontFace - 1 + (cullMode << 1) + (clampDepth << 3) + (alphaToCoverage << 4)
     + (fillMode << 5) + (sampleCount << 8)]. *)
Theorem C3_rasterization_slot (fillMode : Z) (effect : Effect) (sampleCount textureState : Z)
    (w : World) :
  disabled (cache w) = false ->
  rasterization_in_sync (cache w) ->
  - 2 ^ 52 <= _frontFace (cache w) <= 2 ^ 52 ->
  let this := cache w in
  let frontFace := _frontFace this in
  let cullMode := if _cullEnabled this then _cullFace this else 0 in
  let clampDepth := if _clampDepth this then 1 else 0 in
  let alphaToCoverage := if _alphaToCoverageEnabled this then 1 else 0 in
  JS.array_get StatePosition.RasterizationState
    (_states (cache (snd (getRenderPipeline fillMode effect sampleCount textureState w))))
  = Some (JS.Fin (frontFace - 1 + JS.shl cullMode 1 + JS.shl clampDepth 3
                  + JS.shl alphaToCoverage 4 + JS.shl fillMode 5
                  + JS.shl (GetSample sampleCount) 8)).
Proof.
  intros Hdis Hsync Hfront. cbv zeta.
  rewrite getRenderPipeline_enabled_states by assumption.
  rewrite prepare_rasterization_slot by assumption.
  by rewrite rasterizationState_of_exact by assumption.
Qed.

(** C8, with the cases in which the cache answers.  A call of
    [getRenderPipeline] with the line-loop or the triangle-fan draw mode
    creates no pipeline: [createRenderPipeline] is not invoked, the
    structure of the strategy is at most looked up (nothing is stored in
    it), and no miss or creation is counted.  With the cache disabled the
    call throws the configuration error.  With the cache enabled, the
    packers run first, on the memo and the structure of before: when
    [_setVertexState] throws (a [TypeError]), the call throws that; else,
    when the memo (the object being clean) or the lookup strategy holds a
    pipeline for the packed state, the call returns it; else the call
    throws the configuration error. *)
Theorem C8_unsupported_fill_mode (fillMode : Z) (effect : Effect)
    (sampleCount textureState : Z) (w : World) :
  NoDup recognized_fill_modes ->
  fillMode = MATERIAL_LineLoopDrawMode \/ fillMode = MATERIAL_TriangleFanDrawMode ->
  let r := fst (getRenderPipeline fillMode effect sampleCount textureState w) in
  let w' := snd (getRenderPipeline fillMode effect sampleCount textureState w) in
  let prepared := prepare fillMode effect (GetSample sampleCount) textureState w in
  device_log w' = device_log w
  /\ looked_up_only w w'
  /\ NumCacheMiss w' = NumCacheMiss w
  /\ _NumPipelineCreationCurrentFrame w' = _NumPipelineCreationCurrentFrame w
  /\ (disabled (cache w) = true -> r = inl (unsupported_fill_mode_error fillMode))
  /\ (disabled (cache w) = false ->
      _parameter (cache (snd prepared)) = _parameter (cache w)
      /\ store (snd prepared) = store w
      /\ match fst prepared with
         | Some e => e = TypeError /\ r = inl e
         | None =>
             match cached_pipeline (snd prepared) with
             | Some cached => r = inr cached
             | None => r = inl (unsupported_fill_mode_error fillMode)
             end
         end).
Proof.
  intros Hnodup Hmode. cbv zeta.
  pose proof (_GetTopology_unsupported fillMode Hnodup Hmode) as Ht.
  assert (Hbypass : disabled (cache w) = true ->
                    fst (getRenderPipeline fillMode effect sampleCount textureState w)
                    = inl (unsupported_fill_mode_error fillMode)).
  { intros Hdis. unfold getRenderPipeline. by rewrite Hdis, Ht. }
  assert (Hpaths : disabled (cache w) = false ->
            _parameter (cache (snd (prepare fillMode effect (GetSample sampleCount)
                                      textureState w)))
            = _parameter (cache w)
            /\ store (snd (prepare fillMode effect (GetSample sampleCount) textureState w))
               = store w
            /\ match fst (prepare fillMode effect (GetSample sampleCount) textureState w) with
               | Some e =>
                   e = TypeError
                   /\ fst (getRenderPipeline fillMode effect sampleCount textureState w)
                      = inl e
               | None =>
                   match cached_pipeline
                           (snd (prepare fillMode effect (GetSample sampleCount)
                                   textureState w)) with
                   | Some cached =>
                       fst (getRenderPipeline fillMode effect sampleCount textureState w)
                       = inr cached
                   | None =>
                       fst (getRenderPipeline fillMode effect sampleCount textureState w)
                       = inl (unsupported_fill_mode_error fillMode)
                   end
               end).
  { intros Hdis.
    pose proof (getRenderPipeline_enabled_result fillMode effect sampleCount textureState w
                  Hdis) as Hresult.
    cbv zeta in Hresult. rewrite Ht in Hresult.
    destruct (prepare_frame fillMode effect (GetSample sampleCount) textureState w)
      as (_ & Hmemo & Hout & _).
    apply outside_inv in Hout as (Hstore & _).
    split; [exact Hmemo|]. split; [exact Hstore|].
    pose proof (prepare_error fillMode effect (GetSample sampleCount) textureState w)
      as Herror.
    destruct (fst (prepare fillMode effect (GetSample sampleCount) textureState w)) as [e|].
    - split; [by apply Herror|exact Hresult].
    - destruct (cached_pipeline _); exact Hresult. }
  pose proof (getRenderPipeline_outcome fillMode effect sampleCount textureState w) as Hout.
  destruct (getRenderPipeline fillMode effect sampleCount textureState w) as [r w'].
  cbn [fst snd] in *.
  inversion Hout as
    [ e w1 Htop Hc Hlog Hcnt Hlook Hmemo | e w1 He Hc Hlog Hcnt Hst Hp
    | cached w1 Hen Hcached Hp Hc Hlog Hst Hcnt
    | found this w1 Hen Hfound Hp Hst Hc Hlog Hcnt
    | topology e w1 Htop | topology layouts this e w1 Htop
    | topology layouts this created w1 Htop ]; subst; try congruence.
  - apply counters_inv in Hcnt as (_ & _ & ? & _ & ?).
    do 5 (split; [assumption|]). exact Hpaths.
  - apply counters_inv in Hcnt as (_ & _ & ? & _ & ?).
    split; [assumption|]. split; [by left|]. do 3 (split; [assumption|]). exact Hpaths.
  - injection Hcnt as _ _ ? _ ?.
    split; [assumption|]. split; [by left|]. do 3 (split; [assumption|]). exact Hpaths.
  - injection Hcnt as _ _ ? _ ?.
    split; [assumption|]. split; [right; eauto|]. do 3 (split; [assumption|]). exact Hpaths.
Qed.

(** What the lookup and the creation return, and what the device is asked,
    for a fill mode that has a topology. *)
Lemma resolve_asked fillMode effect sampleCount w topology :
  _GetTopology fillMode = inr topology ->
  match pipeline (fst (_getRenderPipeline (cache w) (store w))) with
  | Some found =>
      fst (resolve fillMode effect sampleCount w) = inr found
      /\ device_log (snd (resolve fillMode effect sampleCount w)) = device_log w
  | None =>
      match _getVertexInputDescriptor effect (looked_up w) with
      | inl e => fst (resolve fillMode effect sampleCount w) = inl e
      | inr layouts =>
          let descriptor :=
            render_pipeline_descriptor effect topology sampleCount layouts
              (cache (looked_up w)) in
          device_log (snd (resolve fillMode effect sampleCount w))
          = descriptor :: device_log w
          /\ fst (resolve fillMode effect sampleCount w)
             = createRenderPipeline (device_log w) descriptor
      end
  end.
Proof.
  intros Ht. unfold resolve. cbv zeta. rewrite Ht.
  destruct (looked_up_frame w) as (_ & _ & Hmemo & _ & Hlog & _).
  rewrite <- Hmemo, <- Hlog.
  remember (looked_up w) as wl eqn:Hwl. clear Hwl.
  destruct (pipeline (_parameter (cache wl))) as [found|]; cbn [fst snd].
  - split; [reflexivity|].
    by destruct (with_NumCacheHitWithHash wl (NumCacheHitWithHash wl + 1))
      as (_ & _ & -> & _).
  - destruct (_createRenderPipeline_cases effect topology sampleCount wl)
      as [(e & -> & ->)|(layouts & -> & ->)]; cbn [fst snd]; [reflexivity|].
    split.
    + destruct (createRenderPipeline _ _) as [e|created]; cbn [snd].
      * by destruct (with_device_log wl
                       (render_pipeline_descriptor effect topology sampleCount layouts
                          (cache wl) :: device_log wl))
          as (_ & _ & -> & _).
      * destruct (adopt_frame true created
                    (wl {{ device_log :=
                             render_pipeline_descriptor effect topology sampleCount layouts
                               (cache wl) :: device_log wl }}))
          as (_ & _ & _ & -> & _).
        by destruct (with_device_log wl
                       (render_pipeline_descriptor effect topology sampleCount layouts
                          (cache wl) :: device_log wl))
          as (_ & _ & -> & _).
    + by destruct (createRenderPipeline _ _).
Qed.

(** What [getRenderPipeline] returns with the cache disabled, for a fill
    mode that has a topology. *)
Lemma getRenderPipeline_disabled_result fillMode effect sampleCount textureState w topology :
  disabled (cache w) = true ->
  _GetTopology fillMode = inr topology ->
  fst (getRenderPipeline fillMode effect sampleCount textureState w)
  = match _setVertexState effect w with
    | (Some e, _) => inl e
    | (None, w1) =>
        fst (_createRenderPipeline effect topology (GetSample sampleCount)
               (w1 {{ cache := _setTextureState textureState (cache w1) }}))
    end.
Proof.
  intros Hdis Htopology. unfold getRenderPipeline. cbv zeta. rewrite Hdis, Htopology.
  destruct (_setVertexState effect w) as [[e|] w1]; [reflexivity|].
  by destruct (_createRenderPipeline effect topology (GetSample sampleCount) _)
    as [[e|created] wc].
Qed.

(** C10, with the cases in which the cache answers.  A fill mode that is
    none of the recognized constants is mapped to the triangle-list
    topology without any error.  So a call of [getRenderPipeline] with such
    a fill mode never throws a fill-mode error, hands the device
    triangle-list descriptors only and returns what the device answers.
    With the cache disabled, and with the cache enabled when neither the
    memo (the object being clean) nor the lookup strategy holds a pipeline
    for the packed state, the device is asked, unless the vertex state or
    the vertex layout throws; else the call returns the pipeline the cache
    holds for the packed state, whatever fill mode it was created for. *)
Theorem C10_unrecognized_fill_mode (fillMode : Z) (effect : Effect)
    (sampleCount textureState : Z) (w : World) :
  ~ In fillMode recognized_fill_modes ->
  let r := fst (getRenderPipeline fillMode effect sampleCount textureState w) in
  let w' := snd (getRenderPipeline fillMode effect sampleCount textureState w) in
  let prepared := prepare fillMode effect (GetSample sampleCount) textureState w in
  let asked (w0 : World) :=
    match _getVertexInputDescriptor effect w0 with
    | inl e => r = inl e
    | inr layouts =>
        let descriptor :=
          render_pipeline_descriptor effect PrimitiveTopology.TriangleList
            (GetSample sampleCount) layouts (cache w0) in
        device_log w' = descriptor :: device_log w
        /\ r = createRenderPipeline (device_log w) descriptor
    end in
  _GetTopology fillMode = inr PrimitiveTopology.TriangleList
  /\ (forall descriptor,
        device_log w' = descriptor :: device_log w ->
        topology (primitive descriptor) = PrimitiveTopology.TriangleList
        /\ r = createRenderPipeline (device_log w) descriptor)
  /\ (device_log w' = device_log w ->
        (exists cached, r = inr cached)
        \/ r = inl TypeError
        \/ exists kind ty norm size, r = inl (InvalidFormat kind ty norm size))
  /\ (disabled (cache w) = true ->
      match _setVertexState effect w with
      | (Some e, _) => r = inl e
      | (None, w1) => asked (w1 {{ cache := _setTextureState textureState (cache w1) }})
      end)
  /\ (disabled (cache w) = false ->
      match fst prepared with
      | Some e => r = inl e
      | None =>
          match cached_pipeline (snd prepared) with
          | Some cached => r = inr cached /\ device_log w' = device_log w
          | None => asked (looked_up (snd prepared))
          end
      end).
Proof.
  intros Hmode. cbv zeta.
  pose proof (_GetTopology_unrecognized fillMode Hmode) as Ht.
  split; [assumption|].
  split; [|split].
  - pose proof (getRenderPipeline_outcome fillMode effect sampleCount textureState w) as Hout.
    destruct (getRenderPipeline fillMode effect sampleCount textureState w) as [r w'].
    cbn [fst snd] in *.
    inversion Hout as
      [ e w1 Htop | e w1 ? ? Hlog | cached w1 ? ? ? ? Hlog | found this w1 ? ? ? ? ? Hlog
      | topology e w1 Htop He ? Hlog
      | topology layouts this e w1 Htop Hc Hts Hlog Hdev
      | topology layouts this created w1 Htop Hc Hts Hlog Hdev ]; subst;
      try congruence.
    1-4: intros descriptor Hd; exfalso; eapply cons_neq_self;
         etransitivity; [symmetry|]; eassumption.
    all: intros descriptor Hd; rewrite Hlog in Hd; injection Hd as <-;
         rewrite render_pipeline_descriptor_topology; split; congruence.
  - pose proof (getRenderPipeline_outcome fillMode effect sampleCount textureState w) as Hout.
    destruct (getRenderPipeline fillMode effect sampleCount textureState w) as [r w'].
    cbn [fst snd] in *.
    inversion Hout as
      [ e w1 Htop | e w1 | cached w1 | found this w1
      | topology e w1 Htop He ? Hlog
      | topology layouts this e w1 Htop Hc Hts Hlog Hdev
      | topology layouts this created w1 Htop Hc Hts Hlog Hdev ]; subst;
      try congruence.
    all: first
      [ intros _; eauto 10; fail
      | intros _; destruct He as [-> | (kind & ty & norm & size & ->)]; eauto 10; fail
      | intros Hsame; exfalso; eapply cons_neq_self;
        etransitivity; [symmetry|]; eassumption ].
  - split.
    + intros Hdis.
      rewrite (getRenderPipeline_disabled_result _ _ _ _ _ _ Hdis Ht).
      unfold getRenderPipeline. cbv zeta. rewrite Hdis, Ht.
      pose proof (_setVertexState_frame effect w) as [_ Hout]. cbv zeta in Hout.
      destruct (_setVertexState effect w) as [[e|] w1]; [reflexivity|].
      cbn [snd] in Hout. apply outside_inv in Hout as (_ & Hlog & _).
      remember (w1 {{ cache := _setTextureState textureState (cache w1) }}) as w2 eqn:Hw2.
      assert (Hlog2 : device_log w2 = device_log w).
      { rewrite <- Hlog. subst w2. by destruct w1. }
      clear Hw2.
      destruct (_createRenderPipeline_cases effect PrimitiveTopology.TriangleList
                  (GetSample sampleCount) w2)
        as [(e & -> & ->)|(layouts & -> & ->)]; cbn [fst snd]; [reflexivity|].
      rewrite <- Hlog2. split; [|reflexivity].
      destruct (createRenderPipeline _ _) as [e|created]; cbn [snd].
      * by destruct (with_device_log w2
                       (render_pipeline_descriptor effect PrimitiveTopology.TriangleList
                          (GetSample sampleCount) layouts (cache w2) :: device_log w2))
          as (_ & _ & -> & _).
      * destruct (adopt_frame false created
                    (w2 {{ device_log :=
                             render_pipeline_descriptor effect PrimitiveTopology.TriangleList
                               (GetSample sampleCount) layouts (cache w2) :: device_log w2 }}))
          as (_ & _ & _ & -> & _).
        by destruct (with_device_log w2
                       (render_pipeline_descriptor effect PrimitiveTopology.TriangleList
                          (GetSample sampleCount) layouts (cache w2) :: device_log w2))
          as (_ & _ & -> & _).
    + intros Hdis.
      destruct (prepare_frame fillMode effect (GetSample sampleCount) textureState w)
        as (_ & _ & Hout & _).
      apply outside_inv in Hout as (_ & Hlogp & _).
      destruct (getRenderPipeline_enabled fillMode effect sampleCount textureState w Hdis)
        as [(e & wp & Hprep & ->)|[(wp & cached & Hprep & Hclean & Hcached & ->)
                                  |(wp & Hprep & Hmiss & ->)]];
        rewrite Hprep in *; cbn [fst snd] in *.
      * reflexivity.
      * unfold cached_pipeline. rewrite Hclean, Hcached. cbn [negb].
        split; [reflexivity|].
        destruct (memo_hit_frame wp) as (_ & _ & _ & -> & _). exact Hlogp.
      * assert (Hcached : cached_pipeline wp
                          = pipeline (fst (_getRenderPipeline (cache wp) (store wp)))).
        { unfold cached_pipeline. destruct Hmiss as [-> | ->]; cbn [negb]; [reflexivity|].
          by destruct (negb _). }
        rewrite Hcached.
        pose proof (resolve_asked fillMode effect (GetSample sampleCount) wp _ Ht) as Hasked.
        rewrite Hlogp in Hasked. exact Hasked.
Qed.

End Properties.

(** * The loop block *)

Section ForLoopProperties.

Context {Graph : Type} {connections : Connections Graph}.

#[local] Existing Instances upd__executionVariables upd_index_value.

Lemma loop_count_0 s e k : 0 < k -> loop_count s e k = 0%nat -> e <= s.
Proof.
  unfold loop_count. intros Hk. destruct (Z.leb_spec e s) as [Hle|Hlt]; [lia|].
  intros Hcount.
  assert (1 <= (e - s + k - 1) / k); [|lia].
  apply Z.div_le_lower_bound; lia.
Qed.

Lemma loop_count_S s e k n :
  0 < k -> loop_count s e k = S n -> s < e /\ loop_count (s + k) e k = n.
Proof.
  unfold loop_count. intros Hk.
  destruct (Z.leb_spec e s) as [Hle|Hlt]; [discriminate|]. intros Hcount.
  split; [assumption|].
  replace (e - s + k - 1) with (e - (s + k) + k - 1 + 1 * k) in Hcount by lia.
  rewrite Z.div_add in Hcount by lia.
  destruct (Z.leb_spec e (s + k)) as [Hle'|Hlt'].
  - assert ((e - (s + k) + k - 1) / k = 0) as Hzero by (apply Z.div_small; lia). lia.
  - assert (0 <= (e - (s + k) + k - 1) / k) by (apply Z.div_pos; lia). lia.
Qed.

Lemma _executeLoop_runs (k e : Z) (n : nat) :
  onLoop_keeps_variables ->
  0 < k -> e + k <= 2 ^ 53 ->
  forall (s : Z) (context : FlowGraphContext Graph) (fuel : nat),
    _getExecutionVariable "index" context = Some (JS.Fin s) ->
    _getExecutionVariable "endIndex" context = Some (JS.Fin e) ->
    _getExecutionVariable "step" context = Some (JS.Fin k) ->
    - 2 ^ 53 < s ->
    loop_count s e k = n ->
    (n < fuel)%nat ->
    _executeLoop fuel context
    = Some (onDone_activateSignal (fold_left (loop_round k) (loop_indices n s k) context))
    /\ Forall (fun i => i < e) (loop_indices n s k)
    /\ e <= s + Z.of_nat n * k.
Proof.
  intros Hkeeps Hk Hsafe.
  induction n as [|n IH]; intros s context fuel Hindex Hend Hstep Hs Hcount Hfuel;
    (destruct fuel as [|fuel]; [lia|]); cbn [_executeLoop]; cbv zeta;
    rewrite Hindex, Hend; cbn [less_than].
  - apply loop_count_0 in Hcount; [|assumption].
    rewrite (proj2 (Z.ltb_ge s e)) by lia. cbn. repeat split; [constructor|lia].
  - apply loop_count_S in Hcount as [Hlt Hcount]; [|assumption].
    rewrite (proj2 (Z.ltb_lt s e)) by lia.
    unfold _getExecutionVariable at 1. rewrite Hkeeps.
    assert (Hvars : forall value : option JS.num,
              _executionVariables (context {{ index_value := value }})
              = _executionVariables context) by (intros; by destruct context).
    rewrite Hvars. unfold _getExecutionVariable in Hstep. rewrite Hstep.
    cbn [number_of default from_option id JS.add].
    rewrite round_double_safe by lia.
    fold (loop_round k context s).
    assert (Hround : _executionVariables (loop_round k context s)
                     = <["index" := JS.Fin (s + k)]> (_executionVariables context)).
    { unfold loop_round, _setExecutionVariable. rewrite Hkeeps, Hvars.
      by destruct (onLoop_activateSignal _). }
    destruct (IH (s + k) (loop_round k context s) fuel) as (Hrun & Hbelow & Hlast);
      try assumption; try lia.
    + unfold _getExecutionVariable. rewrite Hround. apply lookup_insert_eq.
    + unfold _getExecutionVariable in *. rewrite Hround, lookup_insert_ne by done.
      assumption.
    + unfold _getExecutionVariable in *. rewrite Hround, lookup_insert_ne by done.
      assumption.
    + cbn [loop_indices fold_left]. split; [exact Hrun|]. split; [by constructor|lia].
Qed.

Lemma started_variables (context : FlowGraphContext Graph) :
  _getExecutionVariable "index" (started context) = Some (startIndex_getValue context)
  /\ _getExecutionVariable "endIndex" (started context) = Some (endIndex_getValue context)
  /\ _getExecutionVariable "step" (started context) = Some (step_getValue context).
Proof.
  unfold started, _getExecutionVariable, _setExecutionVariable.
  destruct context as [variables value g]. cbn.
  rewrite !lookup_insert_eq, !lookup_insert_ne, !lookup_insert_eq by done.
  rewrite lookup_insert_ne, lookup_insert_eq by done. done.
Qed.

(** X20.  With a positive step, and the blocks of [onLoop] leaving the
    variables of the loop block alone, [_execute] runs one round for each
    of the indices start, start + step, ... that are below the end index,
    in this order, and then activates [onDone], once; the stack has to
    hold one call more than there are rounds. *)
Theorem for_loop_runs_a_round_per_index (context : FlowGraphContext Graph) (s e k : Z)
    (fuel : nat) :
  onLoop_keeps_variables ->
  startIndex_getValue context = JS.Fin s ->
  endIndex_getValue context = JS.Fin e ->
  step_getValue context = JS.Fin k ->
  safe_range s e k ->
  0 < k ->
  (loop_count s e k < fuel)%nat ->
  _execute fuel context
  = Some (onDone_activateSignal
            (fold_left (loop_round k) (loop_indices (loop_count s e k) s k) (started context)))
  /\ Forall (fun i => i < e) (loop_indices (loop_count s e k) s k)
  /\ e <= s + Z.of_nat (loop_count s e k) * k.
Proof.
  intros Hkeeps Hstart Hend Hstep (Hs & He & Hsum) Hk Hfuel.
  destruct (started_variables context) as (Hv1 & Hv2 & Hv3).
  rewrite Hstart in Hv1. rewrite Hend in Hv2. rewrite Hstep in Hv3.
  exact (_executeLoop_runs k e (loop_count s e k) Hkeeps Hk Hsum s (started context) fuel
           Hv1 Hv2 Hv3 Hs eq_refl Hfuel).
Qed.

(** A number at or below -2^53 rounds to a double at or below -2^53. *)
Lemma round_double_low (z : Z) : z <= - 2 ^ 53 -> JS.round_double z <= - 2 ^ 53.
Proof.
  intros Hz. unfold JS.round_double. cbv zeta.
  rewrite (proj2 (Z.ltb_ge (Z.abs z) (2 ^ 53))) by lia.
  rewrite Z.sgn_neg by lia.
  set (a := Z.abs z). assert (Ha : 2 ^ 53 <= a) by (unfold a; lia).
  assert (Hlog : 53 <= Z.log2 a).
  { change 53 with (Z.log2 (2 ^ 53)). apply Z.log2_le_mono. assumption. }
  set (ulp := 2 ^ (Z.log2 a - 52)).
  assert (Hulp : 2 <= ulp).
  { change 2 with (2 ^ 1). apply Z.pow_le_mono_r; lia. }
  assert (Hq : 2 ^ 52 <= a / ulp).
  { apply Z.div_le_lower_bound; [lia|].
    unfold ulp. rewrite <- Z.pow_add_r by lia.
    replace (Z.log2 a - 52 + 52) with (Z.log2 a) by lia.
    apply Z.log2_spec. lia. }
  match goal with
  | |- -1 * (?q' * ulp) <= _ => assert (Hq' : a / ulp <= q')
  end.
  { destruct (_ || _); lia. }
  match goal with
  | |- -1 * (?q' * ulp) <= _ => assert (2 ^ 52 * 2 <= q' * ulp); [|lia]
  end.
  apply Z.mul_le_mono_nonneg; lia.
Qed.

Lemma round_double_below (x k e : Z) :
  x < e -> k <= 0 -> - 2 ^ 53 < e <= 2 ^ 53 -> JS.round_double (x + k) < e.
Proof.
  intros Hx Hk He.
  destruct (Z.le_gt_cases (x + k) (- 2 ^ 53)) as [Hlow|Hhigh].
  - pose proof (round_double_low _ Hlow). lia.
  - rewrite round_double_safe; lia.
Qed.

Lemma _executeLoop_goes_on (k e : Z) (fuel : nat) :
  onLoop_keeps_variables ->
  k <= 0 -> - 2 ^ 53 < e <= 2 ^ 53 ->
  forall (s : Z) (context : FlowGraphContext Graph),
    _getExecutionVariable "index" context = Some (JS.Fin s) ->
    _getExecutionVariable "endIndex" context = Some (JS.Fin e) ->
    _getExecutionVariable "step" context = Some (JS.Fin k) ->
    s < e ->
    _executeLoop fuel context = None.
Proof.
  intros Hkeeps Hk He.
  induction fuel as [|fuel IH]; intros s context Hindex Hend Hstep Hlt; [reflexivity|].
  cbn [_executeLoop]. cbv zeta. rewrite Hindex, Hend. cbn [less_than].
  rewrite (proj2 (Z.ltb_lt s e)) by lia.
  unfold _getExecutionVariable at 1. rewrite Hkeeps.
  assert (Hvars : forall value : option JS.num,
            _executionVariables (context {{ index_value := value }})
            = _executionVariables context) by (intros; by destruct context).
  rewrite Hvars. unfold _getExecutionVariable in Hstep. rewrite Hstep.
  cbn [number_of default from_option id JS.add].
  match goal with
  | |- _executeLoop fuel ?context1 = None =>
      assert (Hround : _executionVariables context1
                       = <["index" := JS.Fin (JS.round_double (s + k))]>
                           (_executionVariables context))
  end.
  { unfold _setExecutionVariable. rewrite Hkeeps, Hvars.
    by destruct (onLoop_activateSignal _). }
  apply (IH (JS.round_double (s + k))).
  - unfold _getExecutionVariable. rewrite Hround. apply lookup_insert_eq.
  - unfold _getExecutionVariable in *. rewrite Hround, lookup_insert_ne by done. assumption.
  - unfold _getExecutionVariable in *. rewrite Hround, lookup_insert_ne by done. assumption.
  - by apply round_double_below.
Qed.

(** X21.  With the blocks of [onLoop] leaving the variables of the loop
    block alone, [_execute] returns, for a stack deep enough, exactly when
    the start index is not below the end index or the step is positive:
    with a start index below the end index and a step that is 0 or
    negative the recursion does not end, and [onDone] is never
    activated. *)
Theorem for_loop_returns_iff (context : FlowGraphContext Graph) (s e k : Z) :
  onLoop_keeps_variables ->
  startIndex_getValue context = JS.Fin s ->
  endIndex_getValue context = JS.Fin e ->
  step_getValue context = JS.Fin k ->
  safe_range s e k ->
  (exists fuel context', _execute fuel context = Some context') <-> (e <= s \/ 0 < k).
Proof.
  intros Hkeeps Hstart Hend Hstep (Hs & He & Hsum).
  destruct (started_variables context) as (Hv1 & Hv2 & Hv3).
  rewrite Hstart in Hv1. rewrite Hend in Hv2. rewrite Hstep in Hv3.
  split.
  - intros (fuel & context' & Hrun).
    destruct (Z.le_gt_cases e s) as [Hle|Hlt]; [by left|]. right.
    destruct (Z.lt_ge_cases 0 k) as [Hpos|Hneg]; [assumption|].
    unfold _execute in Hrun. cbv zeta in Hrun. fold (started context) in Hrun.
    rewrite (_executeLoop_goes_on k e fuel Hkeeps ltac:(lia) He s (started context)
               Hv1 Hv2 Hv3 ltac:(lia)) in Hrun.
    discriminate.
  - intros [Hle|Hpos].
    + exists 1%nat, (onDone_activateSignal (started context)).
      unfold _execute. cbv zeta. fold (started context).
      cbn [_executeLoop]. cbv zeta. rewrite Hv1, Hv2. cbn [less_than].
      by rewrite (proj2 (Z.ltb_ge s e)) by lia.
    + eexists (S (loop_count s e k)), _.
      exact (proj1 (_executeLoop_runs k e (loop_count s e k) Hkeeps Hpos Hsum s
                      (started context) _ Hv1 Hv2 Hv3 Hs eq_refl (Nat.lt_succ_diag_r _))).
Qed.

End ForLoopProperties.

(** * Runs of the model *)

Section OnAcceptingDevice.

#[local] Existing Instance accepting_device.

(** C1.  The color states are not a collision-free encoding, and not
    within the safe integers: blending on the first target only and on the
    second target only, with the same factors and equations, give the same
    four color states, as the two targets of a color state are added at the
    same bits; with a write mask other than 0 the first color state starts
    from 2^53, above the largest safe integer, so that the factors
    [SRC_COLOR] and [ONE_MINUS_SRC_COLOR], one apart in the lowest bits,
    round to the same number; in both cases the color targets handed to
    the device differ. *)
Theorem C1_color_states_collide :
  color_state_slots (_setColorStates blend_on_first_target)
  = color_state_slots (_setColorStates blend_on_second_target)
  /\ color_targets blend_on_first_target <> color_targets blend_on_second_target
  /\ color_state_slots (_setColorStates blend_src_color)
     = color_state_slots (_setColorStates blend_one_minus_src_color)
  /\ color_targets blend_src_color <> color_targets blend_one_minus_src_color
  /\ JS.array_get StatePosition.ColorStates1 (_states (_setColorStates (cache first_world)))
     = Some (JS.Fin (2 ^ 53))
  /\ JS.MAX_SAFE_INTEGER < 2 ^ 53.
Proof.
  split; [by vm_compute|].
  split; [intros H; vm_compute in H; discriminate|].
  split; [by vm_compute|].
  split; [intros H; vm_compute in H; discriminate|].
  split; by vm_compute.
Qed.


(** C3 does not hold with the front face unshifted: on a cache just constructed (front face 2,
    no culling, no depth clamp, no alpha to coverage), the resolution for
    the fill mode 0 and one sample leaves 257 in the rasterization slot,
    where the formula of the specification gives 258. *)
Lemma C3_slot_is_one_less :
  let this := cache (snd (getRenderPipeline 0 plain_effect 1 0 first_world)) in
  JS.array_get StatePosition.RasterizationState (_states this) = Some (JS.Fin 257)
  /\ rasterization_slot_as_specified 0 (GetSample 1) this = 258.
Proof. by vm_compute. Qed.

(** C3 on a cache just constructed, for the fill mode 0 and three samples,
    which [GetSample] rounds to four. *)
Lemma C3_rasterization_slot_witness :
  disabled (cache first_world) = false
  /\ rasterization_in_sync (cache first_world)
  /\ - 2 ^ 52 <= _frontFace (cache first_world) <= 2 ^ 52
  /\ JS.array_get StatePosition.RasterizationState
       (_states (cache (snd (getRenderPipeline 0 plain_effect 3 0 first_world))))
     = Some (JS.Fin (2 - 1 + JS.shl 0 1 + JS.shl 0 3 + JS.shl 0 4 + JS.shl 0 5 + JS.shl 4 8)).
Proof.
  assert (Hfront : - 2 ^ 52 <= _frontFace (cache first_world) <= 2 ^ 52).
  { split; apply Z.leb_le; by vm_compute. }
  split; [by vm_compute|]. split; [by vm_compute|]. split; [exact Hfront|].
  pose proof (C3_rasterization_slot 0 plain_effect 3 0 first_world) as Hslot.
  cbv zeta in Hslot. rewrite Hslot; [by vm_compute..|exact Hfront].
Defined.

(** C4 does not hold when a packed state is not a number: with blending
    enabled for the first target and no equation given, the first color
    state is [NaN]; the first call creates the pipeline 0, and the second
    call, which finds the object dirty as [NaN] differs from itself,
    returns it from the lookup strategy and counts a hit with hash, not a
    hit without hash. *)
Lemma C4_nan_state_is_hit_with_hash :
  let w1 := snd (getRenderPipeline 0 plain_effect 1 0 blend_without_equation_world) in
  let w2 := snd (getRenderPipeline 0 plain_effect 1 0 w1) in
  disabled (cache blend_without_equation_world) = false
  /\ fst (getRenderPipeline 0 plain_effect 1 0 blend_without_equation_world) = inr 0%nat
  /\ JS.array_get StatePosition.ColorStates1 (_states (cache w1)) = Some JS.NaN
  /\ fst (getRenderPipeline 0 plain_effect 1 0 w1) = inr 0%nat
  /\ NumCacheHitWithoutHash w2 = NumCacheHitWithoutHash w1
  /\ NumCacheHitWithHash w2 = NumCacheHitWithHash w1 + 1.
Proof. by vm_compute. Qed.

(** C4 on a cache just constructed: the first call creates the pipeline 0,
    the second one returns it from the memo. *)
Lemma C4_second_call_hits_memo_witness :
  disabled (cache first_world) = false
  /\ getRenderPipeline 0 plain_effect 1 0 first_world
     = (inr 0%nat, snd (getRenderPipeline 0 plain_effect 1 0 first_world))
  /\ exists w2,
       getRenderPipeline 0 plain_effect 1 0
         (snd (getRenderPipeline 0 plain_effect 1 0 first_world))
       = (inr 0%nat, w2)
       /\ NumCacheHitWithoutHash w2 = 0 + 1
       /\ NumCacheHitWithHash w2 = 0
       /\ NumCacheMiss w2 = 1
       /\ _NumPipelineCreationCurrentFrame w2 = 1.
Proof.
  split; [by vm_compute|]. split; [by vm_compute|].
  destruct (C4_second_call_hits_memo 0 plain_effect 1 0 first_world
              (snd (getRenderPipeline 0 plain_effect 1 0 first_world)) 0%nat)
    as (w2 & Hcall & H1 & H2 & H3 & H4 & _).
  - by vm_compute.
  - by vm_compute.
  - split; [|by vm_compute].
    intros k Hk. destruct k as [|[|[|[|k]]]]; [by vm_compute..|lia].
  - exists w2. split; [exact Hcall|].
    rewrite H1, H2, H3, H4. vm_compute. repeat split.
Defined.

(** The layouts of the two effects: [position] and [normal] share a GPU
    buffer and a layout; [position] and [uv] have a layout each. *)
Example lit_effect_layouts :
  _getVertexInputDescriptor lit_effect (bound_world lit_effect)
  = inr [ {| arrayStride := 24;
             stepMode := VertexStepMode.Vertex;
             attributes := [ {| shaderLocation := Some 0; offset := 0;
                                format := VertexFormat.Float32x3 |};
                             {| shaderLocation := Some 1; offset := 12;
                                format := VertexFormat.Float32x3 |} ] |} ].
Proof. by vm_compute. Qed.

Example textured_effect_layouts :
  _getVertexInputDescriptor textured_effect (bound_world textured_effect)
  = inr [ {| arrayStride := 24;
             stepMode := VertexStepMode.Vertex;
             attributes := [ {| shaderLocation := Some 0; offset := 0;
                                format := VertexFormat.Float32x3 |} ] |};
          {| arrayStride := 8;
             stepMode := VertexStepMode.Vertex;
             attributes := [ {| shaderLocation := Some 1; offset := 0;
                                format := VertexFormat.Float32x2 |} ] |} ].
Proof. by vm_compute. Qed.

(** When the offset of the first of two attributes is out of range, the
    second one opens a layout although it shares the GPU buffer and its own
    offset is in range; the layout of the first one has the offset 0. *)
Example bumped_effect_layouts :
  _getVertexInputDescriptor bumped_effect (bound_world bumped_effect)
  = inr [ {| arrayStride := 24;
             stepMode := VertexStepMode.Vertex;
             attributes := [ {| shaderLocation := Some 0; offset := 0;
                                format := VertexFormat.Float32x3 |} ] |};
          {| arrayStride := 24;
             stepMode := VertexStepMode.Vertex;
             attributes := [ {| shaderLocation := Some 1; offset := 12;
                                format := VertexFormat.Float32x3 |} ] |} ].
Proof. by vm_compute. Qed.

(** C6 does not hold on the offset of the second attribute alone:
    [tangent] and [normal] resolve to the same GPU buffer and the offset of
    [normal] is in range, but the offset of [tangent], the attribute
    before, is not, and each gets a layout of its own. *)
Lemma C6_first_offset_out_of_range_splits :
  attributeNamesFromEffect bumped_effect = ["tangent"; "normal"]
  /\ bound_vertex_buffer (cache (bound_world bumped_effect)) "tangent" = inr tangent_buffer
  /\ bound_vertex_buffer (cache (bound_world bumped_effect)) "normal" = inr normal_buffer
  /\ underlyingResource tangent_buffer = Some 7%nat
  /\ underlyingResource normal_buffer = Some 7%nat
  /\ offset_in_valid_range (cache (bound_world bumped_effect)) normal_buffer
  /\ ~ offset_in_valid_range (cache (bound_world bumped_effect)) tangent_buffer
  /\ range_checked (bound_world bumped_effect) tangent_buffer
  /\ range_checked (bound_world bumped_effect) normal_buffer
  /\ _getVertexInputDescriptor bumped_effect (bound_world bumped_effect)
     = inr [ {| arrayStride := 24;
                stepMode := VertexStepMode.Vertex;
                attributes := [ {| shaderLocation := Some 0; offset := 0;
                                   format := VertexFormat.Float32x3 |} ] |};
             {| arrayStride := 24;
                stepMode := VertexStepMode.Vertex;
                attributes := [ {| shaderLocation := Some 1; offset := 12;
                                   format := VertexFormat.Float32x3 |} ] |} ].
Proof.
  split; [reflexivity|]. split; [by vm_compute|]. split; [by vm_compute|].
  split; [reflexivity|]. split; [reflexivity|].
  split; [unfold offset_in_valid_range; cbn; lia|].
  split; [unfold offset_in_valid_range; cbn; lia|].
  split; [by vm_compute|]. split; by vm_compute.
Qed.

(** C6 on the effect with [position] and [normal]. *)
Lemma C6_vertex_layout_merging_witness :
  attributeNamesFromEffect lit_effect = [] ++ "position" :: "normal" :: []
  /\ bound_vertex_buffer (cache (bound_world lit_effect)) "position" = inr position_buffer
  /\ bound_vertex_buffer (cache (bound_world lit_effect)) "normal" = inr normal_buffer
  /\ range_checked (bound_world lit_effect) position_buffer
  /\ range_checked (bound_world lit_effect) normal_buffer
  /\ _getVertexInputDescriptor lit_effect (bound_world lit_effect)
     = inr [ {| arrayStride := 24;
                stepMode := VertexStepMode.Vertex;
                attributes := [ {| shaderLocation := Some 0; offset := 0;
                                   format := VertexFormat.Float32x3 |};
                                {| shaderLocation := Some 1; offset := 12;
                                   format := VertexFormat.Float32x3 |} ] |} ]
  /\ exists i layout l r formatA formatB,
       [ {| arrayStride := 24;
            stepMode := VertexStepMode.Vertex;
            attributes := [ {| shaderLocation := Some 0; offset := 0;
                               format := VertexFormat.Float32x3 |};
                            {| shaderLocation := Some 1; offset := 12;
                               format := VertexFormat.Float32x3 |} ] |} ] !! i
       = Some layout
       /\ attributes layout
          = l ++ [ {| shaderLocation := Some 0; offset := 0; format := formatA |};
                   {| shaderLocation := Some 1; offset := 12; format := formatB |} ] ++ r.
Proof.
  split; [reflexivity|]. split; [by vm_compute|]. split; [by vm_compute|].
  split; [by vm_compute|]. split; [by vm_compute|]. split; [by vm_compute|].
  destruct (C6_vertex_layout_merging lit_effect (bound_world lit_effect) [] []
              "position" "normal" position_buffer normal_buffer
              [ {| arrayStride := 24;
                   stepMode := VertexStepMode.Vertex;
                   attributes := [ {| shaderLocation := Some 0; offset := 0;
                                      format := VertexFormat.Float32x3 |};
                                   {| shaderLocation := Some 1; offset := 12;
                                      format := VertexFormat.Float32x3 |} ] |} ])
    as [Hmerged _]; [by vm_compute..|].
  destruct (Hmerged 7%nat) as (i & layout & l & r & formatA & formatB & Hi & Hattributes & _);
    [by vm_compute..|].
  exists i, layout, l, r, formatA, formatB. split; [exact Hi|exact Hattributes].
Defined.

(** C7 on a cache with the depth format [depth24plus] and the stencil
    test enabled. *)
Lemma C7_stencil_state_needs_stencil_aspect_witness :
  (forall format, _webgpuDepthStencilFormat (cache depth_only_world) = Some format ->
                  HasStencilAspect format = false)
  /\ _stencilEnabled (cache (snd (getRenderPipeline 0 plain_effect 1 0 depth_only_world)))
     = true
  /\ forall descriptor,
       device_log (snd (getRenderPipeline 0 plain_effect 1 0 depth_only_world))
       = descriptor :: device_log depth_only_world ->
       match depthStencil descriptor with
       | Some state =>
           stencilFront state = None /\ stencilBack state = None
           /\ stencilReadMask state = None /\ stencilWriteMask state = None
       | None => True
       end.
Proof.
  assert (Hformat : forall format,
            _webgpuDepthStencilFormat (cache depth_only_world) = Some format ->
            HasStencilAspect format = false).
  { intros format Hformat. vm_compute in Hformat. injection Hformat as <-. reflexivity. }
  split; [exact Hformat|].
  pose proof (C7_stencil_state_needs_stencil_aspect 0 plain_effect 1 0 depth_only_world
                Hformat) as [Henabled Homitted].
  split; [rewrite Henabled; by vm_compute|exact Homitted].
Defined.

(** C8 does not hold when the memo answers: after a resolution for the fill mode 32
    and one sample, whose rasterization slot is 1281, the call for the
    triangle fan draw mode (8) and four samples finds the same slot, the
    object not dirty, and returns the pipeline of the memo; on a cache just
    constructed the same call throws. *)
Lemma C8_triangle_fan_answered_by_memo :
  MATERIAL_TriangleFanDrawMode = 8
  /\ fst (getRenderPipeline 32 plain_effect 1 0 first_world) = inr 0%nat
  /\ fst (getRenderPipeline 8 plain_effect 4 0
            (snd (getRenderPipeline 32 plain_effect 1 0 first_world)))
     = inr 0%nat
  /\ fst (getRenderPipeline 8 plain_effect 4 0 first_world)
     = inl (Throw "TriangleFan is an unsupported fillmode in WebGPU").
Proof. by vm_compute. Qed.

(** C8 on a cache just constructed, for the triangle fan draw mode: the
    packers run, neither the memo nor the lookup strategy holds a pipeline,
    and the call throws the configuration error without a call of the
    device. *)
Lemma C8_unsupported_fill_mode_witness :
  NoDup recognized_fill_modes
  /\ (8 = MATERIAL_LineLoopDrawMode \/ 8 = MATERIAL_TriangleFanDrawMode)
  /\ disabled (cache first_world) = false
  /\ fst (prepare 8 plain_effect (GetSample 1) 0 first_world) = None
  /\ cached_pipeline (snd (prepare 8 plain_effect (GetSample 1) 0 first_world)) = None
  /\ fst (getRenderPipeline 8 plain_effect 1 0 first_world)
     = inl (unsupported_fill_mode_error 8)
  /\ device_log (snd (getRenderPipeline 8 plain_effect 1 0 first_world))
     = device_log first_world
  /\ NumCacheMiss (snd (getRenderPipeline 8 plain_effect 1 0 first_world))
     = NumCacheMiss first_world.
Proof.
  assert (Hmodes : NoDup recognized_fill_modes).
  { apply (bool_decide_unpack _). by vm_compute. }
  assert (Hprepared : fst (prepare 8 plain_effect (GetSample 1) 0 first_world) = None)
    by (by vm_compute).
  assert (Hcached : cached_pipeline (snd (prepare 8 plain_effect (GetSample 1) 0 first_world))
                    = None) by (by vm_compute).
  split; [exact Hmodes|]. split; [by right|]. split; [by vm_compute|].
  split; [exact Hprepared|]. split; [exact Hcached|].
  destruct (C8_unsupported_fill_mode 8 plain_effect 1 0 first_world Hmodes
              (or_intror eq_refl)) as (Hlog & _ & Hmiss & _ & _ & Henabled).
  destruct (Henabled ltac:(by vm_compute)) as (_ & _ & Hresult).
  rewrite Hprepared, Hcached in Hresult.
  split; [exact Hresult|]. by split.
Defined.

(** C10 does not hold when the cache answers: the fill mode 26 is none of
    the recognized constants, but with one sample it packs the
    rasterization slot of the point fill mode (2) with four samples; after
    a resolution for the latter, which created a point-list pipeline, the
    call for the fill mode 26 finds the object clean and returns that
    pipeline from the memo, without a call of the device. *)
Lemma C10_fill_mode_26_gets_point_list_pipeline :
  let w1 := snd (getRenderPipeline 2 plain_effect 4 0 first_world) in
  let w2 := snd (getRenderPipeline 26 plain_effect 1 0 w1) in
  bool_decide (In 26 recognized_fill_modes) = false
  /\ fst (getRenderPipeline 2 plain_effect 4 0 first_world) = inr 0%nat
  /\ (topology ∘ primitive) <$> device_log w1 = [PrimitiveTopology.PointList]
  /\ JS.array_get StatePosition.RasterizationState (_states (cache w1))
     = Some (JS.Fin 1089)
  /\ fst (getRenderPipeline 26 plain_effect 1 0 w1) = inr 0%nat
  /\ JS.array_get StatePosition.RasterizationState (_states (cache w2))
     = Some (JS.Fin 1089)
  /\ device_log w2 = device_log w1
  /\ NumCacheHitWithoutHash w2 = NumCacheHitWithoutHash w1 + 1.
Proof.
  split; [apply bool_decide_eq_false_2; vm_compute; intuition discriminate|].
  by vm_compute.
Qed.

(** C10 on a cache just constructed, for the fill mode 32: the packers
    run, neither the memo nor the lookup strategy holds a pipeline, the
    vertex layout is empty, and the device is asked for a triangle-list
    pipeline, which the call returns. *)
Lemma C10_unrecognized_fill_mode_witness :
  bool_decide (In 32 recognized_fill_modes) = false
  /\ _GetTopology 32 = inr PrimitiveTopology.TriangleList
  /\ disabled (cache first_world) = false
  /\ (exists descriptor,
        device_log (snd (getRenderPipeline 32 plain_effect 1 0 first_world))
        = descriptor :: device_log first_world
        /\ topology (primitive descriptor) = PrimitiveTopology.TriangleList
        /\ fst (getRenderPipeline 32 plain_effect 1 0 first_world)
           = createRenderPipeline (device_log first_world) descriptor)
  /\ fst (getRenderPipeline 32 plain_effect 1 0 first_world) = inr 0%nat.
Proof.
  assert (Hmode : ~ In 32 recognized_fill_modes).
  { vm_compute. intuition discriminate. }
  assert (Hprepared : fst (prepare 32 plain_effect (GetSample 1) 0 first_world) = None)
    by (by vm_compute).
  assert (Hcached : cached_pipeline (snd (prepare 32 plain_effect (GetSample 1) 0 first_world))
                    = None) by (by vm_compute).
  assert (Hlayouts : _getVertexInputDescriptor plain_effect
                       (looked_up (snd (prepare 32 plain_effect (GetSample 1) 0 first_world)))
                     = inr []) by (by vm_compute).
  split; [by apply bool_decide_eq_false_2|].
  destruct (C10_unrecognized_fill_mode 32 plain_effect 1 0 first_world Hmode)
    as (Htopology & Hdevice & _ & _ & Henabled).
  specialize (Henabled ltac:(by vm_compute)).
  rewrite Hprepared, Hcached, Hlayouts in Henabled. cbv zeta in Henabled.
  destruct Henabled as [Hlog Hresult].
  split; [exact Htopology|]. split; [by vm_compute|]. split.
  - eexists. split; [exact Hlog|]. split; [|exact Hresult].
    exact (proj1 (Hdevice _ Hlog)).
  - rewrite Hresult. by vm_compute.
Defined.

End OnAcceptingDevice.

Section OnRejectingDevice.

#[local] Existing Instance rejecting_device.

(** C5 on a cache just constructed, on the device that refuses every
    pipeline. *)
Lemma C5_device_failure_witness :
  exists descriptor,
    device_log (snd (getRenderPipeline 0 plain_effect 1 0 refused_world))
    = descriptor :: device_log refused_world
    /\ createRenderPipeline (device_log refused_world) descriptor
       = inl (DeviceError "validation error")
    /\ fst (getRenderPipeline 0 plain_effect 1 0 refused_world)
       = inl (DeviceError "validation error")
    /\ pipeline (_parameter (cache (snd (getRenderPipeline 0 plain_effect 1 0 refused_world))))
       = None
    /\ store (snd (getRenderPipeline 0 plain_effect 1 0 refused_world)) = []
    /\ counters (snd (getRenderPipeline 0 plain_effect 1 0 refused_world))
       = counters refused_world.
Proof.
  exists (render_pipeline_descriptor plain_effect PrimitiveTopology.TriangleList 1 []
            (cache (snd (getRenderPipeline 0 plain_effect 1 0 refused_world)))).
  assert (Hlog : device_log (snd (getRenderPipeline 0 plain_effect 1 0 refused_world))
                 = render_pipeline_descriptor plain_effect PrimitiveTopology.TriangleList 1 []
                     (cache (snd (getRenderPipeline 0 plain_effect 1 0 refused_world)))
                   :: device_log refused_world) by (by vm_compute).
  assert (Hthrown : createRenderPipeline (device_log refused_world)
                      (render_pipeline_descriptor plain_effect PrimitiveTopology.TriangleList
                         1 [] (cache (snd (getRenderPipeline 0 plain_effect 1 0 refused_world))))
                    = inl (DeviceError "validation error")) by (by vm_compute).
  destruct (C5_device_failure 0 plain_effect 1 0 refused_world _ _ Hlog Hthrown)
    as (Hresult & _ & _ & Hmemo & Hcounters).
  split; [exact Hlog|]. split; [exact Hthrown|]. split; [exact Hresult|].
  split; [exact Hmemo|]. split; [by vm_compute|exact Hcounters].
Defined.

End OnRejectingDevice.

(** * Further runs of the model *)

Section ExtraRuns.

#[local] Existing Instance accepting_device.

(** X1 on the second call after a resolution on a cache just constructed. *)
Lemma memo_hit_keeps_state_vector_witness :
  NumCacheHitWithoutHash (snd (getRenderPipeline 0 plain_effect 1 0 resolved_world))
  = NumCacheHitWithoutHash resolved_world + 1
  /\ disabled (cache resolved_world) = false
  /\ _isDirty (cache resolved_world) = false
  /\ _states (cache (snd (getRenderPipeline 0 plain_effect 1 0 resolved_world)))
     = _states (cache resolved_world).
Proof.
  assert (Hhit : NumCacheHitWithoutHash
                   (snd (getRenderPipeline 0 plain_effect 1 0 resolved_world))
                 = NumCacheHitWithoutHash resolved_world + 1) by (by vm_compute).
  split; [exact Hhit|].
  pose proof (memo_hit_keeps_state_vector 0 plain_effect 1 0 resolved_world Hhit)
    as (Hdis & Hclean & _ & _ & Hstates & _).
  split; [exact Hdis|]. split; [exact Hclean|exact Hstates].
Defined.

(** X2 on the first resolution on a cache just constructed. *)
Lemma resolution_keeps_slots_below_dirty_index_witness :
  disabled (cache first_world) = false
  /\ getRenderPipeline 0 plain_effect 1 0 first_world = (inr 0%nat, resolved_world)
  /\ exists lowest,
       lastStateDirtyLowestIndex (cache resolved_world) = Some lowest
       /\ (lowest <= _stateDirtyLowestIndex (cache first_world))%nat
       /\ _isDirty (cache resolved_world) = false
       /\ _stateDirtyLowestIndex (cache resolved_world) = _statesLength (cache resolved_world).
Proof.
  assert (Hdis : disabled (cache first_world) = false) by (by vm_compute).
  assert (Hcall : getRenderPipeline 0 plain_effect 1 0 first_world
                  = (inr 0%nat, resolved_world)) by (by vm_compute).
  split; [exact Hdis|]. split; [exact Hcall|].
  destruct (resolution_keeps_slots_below_dirty_index 0 plain_effect 1 0 first_world
              resolved_world 0%nat Hdis Hcall)
    as (lowest & Hlast & Hle & _ & Hclean & Hindex).
  exists lowest. split; [exact Hlast|]. split; [exact Hle|]. split; [exact Hclean|exact Hindex].
Defined.

(** X5 on a cache just constructed and disabled. *)
Lemma disabled_cache_always_creates_witness :
  disabled (cache disabled_world) = true
  /\ store (snd (getRenderPipeline 0 plain_effect 1 0 disabled_world)) = store disabled_world
  /\ NumCacheHitWithoutHash (snd (getRenderPipeline 0 plain_effect 1 0 disabled_world))
     = NumCacheHitWithoutHash disabled_world
  /\ NumCacheHitWithHash (snd (getRenderPipeline 0 plain_effect 1 0 disabled_world))
     = NumCacheHitWithHash disabled_world
  /\ NumCacheMiss (snd (getRenderPipeline 0 plain_effect 1 0 disabled_world))
     = NumCacheMiss disabled_world + 1.
Proof.
  assert (Hdis : disabled (cache disabled_world) = true) by (by vm_compute).
  split; [exact Hdis|].
  pose proof (disabled_cache_always_creates 0 plain_effect 1 0 disabled_world Hdis)
    as (Hstore & Hhit & Hhash & Hcreated).
  split; [exact Hstore|]. split; [exact Hhit|]. split; [exact Hhash|].
  destruct (Hcreated 0%nat) as (_ & _ & Hmiss); [by vm_compute|exact Hmiss].
Defined.

(** X6 on a frame of two resolutions on a cache just constructed. *)
Lemma endFrame_reports_misses_witness :
  rtc frame_step first_world (snd (getRenderPipeline 0 plain_effect 1 0 resolved_world))
  /\ NumPipelineCreationLastFrame
       (endFrame (snd (getRenderPipeline 0 plain_effect 1 0 resolved_world)))
     = _NumPipelineCreationCurrentFrame first_world
       + (NumCacheMiss (snd (getRenderPipeline 0 plain_effect 1 0 resolved_world))
          - NumCacheMiss first_world)
  /\ _NumPipelineCreationCurrentFrame
       (endFrame (snd (getRenderPipeline 0 plain_effect 1 0 resolved_world))) = 0.
Proof.
  assert (Hframe : rtc frame_step first_world
                     (snd (getRenderPipeline 0 plain_effect 1 0 resolved_world))).
  { unfold resolved_world.
    eapply rtc_l; [apply (frame_resolves first_world 0 plain_effect 1 0)|].
    apply rtc_once. apply frame_resolves. }
  split; [exact Hframe|].
  pose proof (endFrame_reports_misses _ _ Hframe) as (_ & _ & Hlast & Hcurrent & _).
  split; [exact Hlast|exact Hcurrent].
Defined.


(** X8 on the effect with [position] and [normal]. *)
Lemma vertex_layout_covers_attributes_witness :
  _getVertexInputDescriptor lit_effect (bound_world lit_effect)
  = inr [ {| arrayStride := 24;
             stepMode := VertexStepMode.Vertex;
             attributes := [ {| shaderLocation := Some 0; offset := 0;
                                format := VertexFormat.Float32x3 |};
                             {| shaderLocation := Some 1; offset := 12;
                                format := VertexFormat.Float32x3 |} ] |} ]
  /\ Some <$> layout_attributes
                [ {| arrayStride := 24;
                     stepMode := VertexStepMode.Vertex;
                     attributes := [ {| shaderLocation := Some 0; offset := 0;
                                        format := VertexFormat.Float32x3 |};
                                     {| shaderLocation := Some 1; offset := 12;
                                        format := VertexFormat.Float32x3 |} ] |} ]
     = imap (fun i name =>
               attribute_of (bound_world lit_effect) name
                 (attributeLocationsFromEffect lit_effect !! i))
            (attributeNamesFromEffect lit_effect).
Proof.
  assert (Hlayouts : _getVertexInputDescriptor lit_effect (bound_world lit_effect)
                     = inr [ {| arrayStride := 24;
                                stepMode := VertexStepMode.Vertex;
                                attributes := [ {| shaderLocation := Some 0; offset := 0;
                                                   format := VertexFormat.Float32x3 |};
                                                {| shaderLocation := Some 1; offset := 12;
                                                   format := VertexFormat.Float32x3 |} ] |} ])
    by (vm_compute; reflexivity).
  split; [exact Hlayouts|].
  exact (vertex_layout_covers_attributes lit_effect (bound_world lit_effect) _ Hlayouts).
Defined.


(** X10 on the effect with [position] and [uv]. *)
Lemma vertex_buffers_match_layouts_witness :
  _setVertexState textured_effect buffers_world = (None, bound_world textured_effect)
  /\ _getVertexInputDescriptor textured_effect (bound_world textured_effect)
     = inr [ {| arrayStride := 24;
                stepMode := VertexStepMode.Vertex;
                attributes := [ {| shaderLocation := Some 0; offset := 0;
                                   format := VertexFormat.Float32x3 |} ] |};
             {| arrayStride := 8;
                stepMode := VertexStepMode.Vertex;
                attributes := [ {| shaderLocation := Some 1; offset := 0;
                                   format := VertexFormat.Float32x2 |} ] |} ]
  /\ length (vertexBuffers (cache (bound_world textured_effect))) = 2%nat
  /\ exists vertexBuffer,
       JS.array_get 1 (vertexBuffers (cache (bound_world textured_effect))) = Some vertexBuffer
       /\ 8 = effectiveByteStride vertexBuffer.
Proof.
  assert (Hcall : _setVertexState textured_effect buffers_world
                  = (None, bound_world textured_effect)) by (vm_compute; reflexivity).
  assert (Hlayouts : _getVertexInputDescriptor textured_effect (bound_world textured_effect)
                     = inr [ {| arrayStride := 24;
                                stepMode := VertexStepMode.Vertex;
                                attributes := [ {| shaderLocation := Some 0; offset := 0;
                                                   format := VertexFormat.Float32x3 |} ] |};
                             {| arrayStride := 8;
                                stepMode := VertexStepMode.Vertex;
                                attributes := [ {| shaderLocation := Some 1; offset := 0;
                                                   format := VertexFormat.Float32x2 |} ] |} ])
    by (vm_compute; reflexivity).
  split; [exact Hcall|]. split; [exact Hlayouts|].
  destruct (vertex_buffers_match_layouts textured_effect buffers_world
              (bound_world textured_effect) _ Hcall Hlayouts) as [Hlength Hmatch].
  split; [exact Hlength|].
  destruct (Hmatch 1%nat _ eq_refl) as (vertexBuffer & Hget & Hstride & _).
  exists vertexBuffer. split; [exact Hget|exact Hstride].
Defined.

(** X12 on a cache just constructed, before and after a depth bias is
    set. *)
Lemma rasterization_slot_tells_states_apart_witness :
  rasterization_fields_in_range 0 1 (cache first_world)
  /\ rasterization_fields_in_range 0 1 (setDepthBias 5 (cache first_world))
  /\ rasterizationState_of 0 1 (cache first_world)
     = rasterizationState_of 0 1 (setDepthBias 5 (cache first_world))
  /\ _clampDepth (cache first_world) = _clampDepth (setDepthBias 5 (cache first_world))
  /\ _alphaToCoverageEnabled (cache first_world)
     = _alphaToCoverageEnabled (setDepthBias 5 (cache first_world)).
Proof.
  assert (Hrange : forall this : WebGPUCacheRenderPipeline,
            _frontFace this = 2 -> _cullEnabled this = false ->
            rasterization_fields_in_range 0 1 this).
  { intros this Hfront Hcull. unfold rasterization_fields_in_range.
    rewrite Hfront, Hcull. repeat split; (by right) || discriminate || lia. }
  assert (H1 : rasterization_fields_in_range 0 1 (cache first_world))
    by (apply Hrange; vm_compute; reflexivity).
  assert (H2 : rasterization_fields_in_range 0 1 (setDepthBias 5 (cache first_world)))
    by (apply Hrange; vm_compute; reflexivity).
  assert (H3 : rasterizationState_of 0 1 (cache first_world)
               = rasterizationState_of 0 1 (setDepthBias 5 (cache first_world)))
    by (vm_compute; reflexivity).
  split; [exact H1|]. split; [exact H2|]. split; [exact H3|].
  destruct (rasterization_slot_tells_states_apart 0 1 0 1 _ _ H1 H2 H3)
    as (_ & _ & Hclamp & Hcoverage & _).
  split; [exact Hclamp|exact Hcoverage].
Defined.

(** X13 on a cache just constructed, before and after a depth bias is
    set. *)
Lemma depth_stencil_slot_tells_states_apart_witness :
  depth_stencil_fields_in_range (cache first_world)
  /\ depth_stencil_fields_in_range (setDepthBias 5 (cache first_world))
  /\ depthStencilState_of (cache first_world)
     = depthStencilState_of (setDepthBias 5 (cache first_world))
  /\ _depthStencilFormat (cache first_world)
     = _depthStencilFormat (setDepthBias 5 (cache first_world)).
Proof.
  assert (Hrange : forall this : WebGPUCacheRenderPipeline,
            (_depthStencilFormat this, _depthCompare this,
             _stencilFrontCompare this, _stencilBackCompare this)
            = (Some 1, 7, 7, 7) ->
            (_stencilFrontDepthFailOp this, _stencilFrontPassOp this,
             _stencilFrontFailOp this)
            = (Some 1, Some 2, Some 1) ->
            (_stencilBackDepthFailOp this, _stencilBackPassOp this,
             _stencilBackFailOp this)
            = (Some 1, Some 2, Some 1) ->
            depth_stencil_fields_in_range this).
  { intros this E1 E2 E3. unfold depth_stencil_fields_in_range, stencil_op_in_range.
    injection E1 as -> -> -> ->. injection E2 as -> -> ->. injection E3 as -> -> ->.
    repeat split; try lia; eexists; (split; [reflexivity|lia]). }
  assert (H1 : depth_stencil_fields_in_range (cache first_world))
    by (apply Hrange; vm_compute; reflexivity).
  assert (H2 : depth_stencil_fields_in_range (setDepthBias 5 (cache first_world)))
    by (apply Hrange; vm_compute; reflexivity).
  assert (H3 : depthStencilState_of (cache first_world)
               = depthStencilState_of (setDepthBias 5 (cache first_world)))
    by (vm_compute; reflexivity).
  split; [exact H1|]. split; [exact H2|]. split; [exact H3|].
  destruct (depth_stencil_slot_tells_states_apart _ _ H1 H2 H3) as (Hformat & _).
  exact Hformat.
Defined.

(** X14 on a multi render target of two attachments, the second one
    disabled. *)
Lemma mrt_attachments_select_write_masks_witness :
  (length [1; 0] <= 31)%nat
  /\ (1 < 31)%nat
  /\ mrt_active mrt_cache = true
  /\ color_targets (setMRTAttachments [1; 0] mrt_cache) !! 1%nat
     = Some (Some {| target_format := "bgra8unorm"; writeMask := 0; blend := None |})
  /\ 0 = (if attachment_enabled [1; 0] 1 then _writeMask mrt_cache else 0)
  /\ _states (setMRTAttachments [1; 0] mrt_cache) = _states mrt_cache.
Proof.
  assert (H1 : (length [1; 0] <= 31)%nat) by (cbn; lia).
  assert (H2 : (1 < 31)%nat) by lia.
  assert (H3 : mrt_active mrt_cache = true) by (vm_compute; reflexivity).
  assert (H4 : color_targets (setMRTAttachments [1; 0] mrt_cache) !! 1%nat
               = Some (Some {| target_format := "bgra8unorm"; writeMask := 0;
                               blend := None |})) by (vm_compute; reflexivity).
  split; [exact H1|]. split; [exact H2|]. split; [exact H3|]. split; [exact H4|].
  exact (mrt_attachments_select_write_masks [1; 0] mrt_cache 1 _ H1 H2 H3 H4).
Defined.

(** X15 on a multi render target of two attachments. *)
Lemma setMRT_formats_round_trip_witness :
  0 <= default (Z.of_nat (length mrt_textures)) None <= 8
  /\ exists packed,
       _mrtAttachments (snd (setMRT mrt_textures None (cache first_world)))
       = Some (JS.Fin packed)
       /\ _mrtFormats (snd (setMRT mrt_textures None (cache first_world))) !! 1%nat
          = Some (mrt_format mrt_textures (mjoin (_webgpuColorFormat (cache first_world) !! 0%nat))
                    1)
       /\ renderableTextureFormatToIndex
            (default EmptyString
               (mrt_format mrt_textures
                  (mjoin (_webgpuColorFormat (cache first_world) !! 0%nat)) 1))
          = Some ((packed / 2 ^ (6 * Z.of_nat 1)) mod 64).
Proof.
  assert (Hcount : 0 <= default (Z.of_nat (length mrt_textures)) None <= 8) by (cbn; lia).
  split; [exact Hcount|].
  pose proof (setMRT_formats_round_trip mrt_textures None (cache first_world)) as Htrip.
  cbv zeta in Htrip.
  destruct (Htrip Hcount) as (packed & Hpacked & _ & Hdigits).
  { intros i Hi.
    destruct i as [|[|i]]; [exists 1; split; [by vm_compute|lia]..|cbn in Hi; lia]. }
  exists packed. split; [exact Hpacked|].
  exact (Hdigits 1%nat ltac:(cbn; lia)).
Defined.

(** A multi render target with a format the table lacks: the packed number
    is [NaN], in the field and in the slot, and the object reports the
    color format of before, not the formats of the attachments. *)
Example missing_format_packs_nan :
  let textures := [ {| _hardwareTexture := Some {| texture_format := "bc1-rgba-unorm" |} |} ] in
  let this := snd (setMRT textures None (cache first_world)) in
  _mrtAttachments this = Some JS.NaN
  /\ JS.array_get StatePosition.MRTAttachments (_states this) = Some JS.NaN
  /\ _mrtFormats this = [Some "bc1-rgba-unorm"%string]
  /\ colorFormats this = [Some "bgra8unorm"%string].
Proof. by vm_compute. Qed.

(** X16 on the second call after a resolution on a cache just
    constructed. *)
Lemma memo_hit_needs_numbers_witness :
  NumCacheHitWithoutHash (snd (getRenderPipeline 0 plain_effect 1 0 resolved_world))
  = NumCacheHitWithoutHash resolved_world + 1
  /\ color_states_are_numbers (cache resolved_world).
Proof.
  assert (Hhit : NumCacheHitWithoutHash
                   (snd (getRenderPipeline 0 plain_effect 1 0 resolved_world))
                 = NumCacheHitWithoutHash resolved_world + 1) by (vm_compute; reflexivity).
  split; [exact Hhit|].
  exact (proj1 (memo_hit_needs_numbers 0 plain_effect 1 0 resolved_world Hhit)).
Defined.

(** X17 on a cache just constructed, after a depth bias is set and a
    pipeline resolved. *)
Lemma tracked_slots_stay_in_sync_witness :
  cache first_world = snd (constructor emptyVertexBuffer)
  /\ rtc method_call first_world
       (snd (getRenderPipeline 0 plain_effect 1 0
               (first_world {{ cache := setDepthBias 5 (cache first_world) }})))
  /\ slots_in_sync
       (cache (snd (getRenderPipeline 0 plain_effect 1 0
                      (first_world {{ cache := setDepthBias 5 (cache first_world) }})))).
Proof.
  assert (Hnew : cache first_world = snd (constructor emptyVertexBuffer)) by reflexivity.
  assert (Hcalls : rtc method_call first_world
                     (snd (getRenderPipeline 0 plain_effect 1 0
                             (first_world {{ cache := setDepthBias 5 (cache first_world) }})))).
  { eapply rtc_l;
      [apply (calls_setter first_world (setDepthBias 5 (cache first_world))),
             call_setDepthBias|].
    apply rtc_once. apply calls_getRenderPipeline. }
  split; [exact Hnew|]. split; [exact Hcalls|].
  exact (tracked_slots_stay_in_sync emptyVertexBuffer _ _ Hnew Hcalls).
Defined.

(** X18 on a cache just constructed. *)
Lemma color_targets_follow_colorFormats_witness :
  length (_webgpuColorFormat (cache first_world)) = 1%nat
  /\ (fun target => target_format <$> target) <$> color_targets (cache first_world)
     = truthy_format <$> colorFormats (cache first_world).
Proof.
  assert (Hone : length (_webgpuColorFormat (cache first_world)) = 1%nat)
    by (vm_compute; reflexivity).
  split; [exact Hone|].
  exact (color_targets_follow_colorFormats (cache first_world) Hone).
Defined.

(** X19 on a cache just constructed, after a multi render target is set
    and a pipeline resolved. *)
Lemma format_indices_stay_in_step_witness :
  cache first_world = snd (constructor emptyVertexBuffer)
  /\ rtc method_call first_world
       (snd (getRenderPipeline 0 plain_effect 1 0
               (first_world {{ cache := snd (setMRT mrt_textures None (cache first_world)) }})))
  /\ format_indices_in_step
       (cache (snd (getRenderPipeline 0 plain_effect 1 0
                      (first_world {{ cache := snd (setMRT mrt_textures None
                                                      (cache first_world)) }})))).
Proof.
  assert (Hnew : cache first_world = snd (constructor emptyVertexBuffer)) by reflexivity.
  assert (Hcalls : rtc method_call first_world
                     (snd (getRenderPipeline 0 plain_effect 1 0
                             (first_world {{ cache := snd (setMRT mrt_textures None
                                                             (cache first_world)) }})))).
  { eapply rtc_l;
      [apply (calls_setter first_world (snd (setMRT mrt_textures None (cache first_world)))),
             call_setMRT|].
    apply rtc_once. apply calls_getRenderPipeline. }
  split; [exact Hnew|]. split; [exact Hcalls|].
  exact (format_indices_stay_in_step emptyVertexBuffer _ _ Hnew Hcalls).
Defined.

End ExtraRuns.

Section LoopRuns.

(** X20 on the loop from 0 to 3 by 1: the blocks of [onLoop] see 0, 1
    and 2, then [onDone] is activated. *)
Lemma for_loop_runs_a_round_per_index_witness :
  onLoop_keeps_variables (connections := recording_connections 0 3 1)
  /\ safe_range 0 3 1
  /\ (loop_count 0 3 1 < 5)%nat
  /\ graph <$> _execute (connections := recording_connections 0 3 1) 5 fresh_context
     = Some [0; 1; 2; -1].
Proof.
  assert (Hkeeps : onLoop_keeps_variables (connections := recording_connections 0 3 1))
    by (intros context; reflexivity).
  assert (Hsafe : safe_range 0 3 1) by (unfold safe_range; lia).
  assert (Hfuel : (loop_count 0 3 1 < 5)%nat) by (vm_compute; lia).
  split; [exact Hkeeps|]. split; [exact Hsafe|]. split; [exact Hfuel|].
  destruct (for_loop_runs_a_round_per_index (connections := recording_connections 0 3 1)
              fresh_context 0 3 1 5 Hkeeps eq_refl eq_refl eq_refl Hsafe ltac:(lia) Hfuel)
    as (Hrun & _).
  rewrite Hrun. vm_compute. reflexivity.
Defined.

(** X21 on the loop from 0 to 3 by 1. *)
Lemma for_loop_returns_iff_witness :
  onLoop_keeps_variables (connections := recording_connections 0 3 1)
  /\ safe_range 0 3 1
  /\ exists fuel context',
       _execute (connections := recording_connections 0 3 1) fuel fresh_context
       = Some context'.
Proof.
  assert (Hkeeps : onLoop_keeps_variables (connections := recording_connections 0 3 1))
    by (intros context; reflexivity).
  assert (Hsafe : safe_range 0 3 1) by (unfold safe_range; lia).
  split; [exact Hkeeps|]. split; [exact Hsafe|].
  apply (for_loop_returns_iff (connections := recording_connections 0 3 1)
           fresh_context 0 3 1 Hkeeps eq_refl eq_refl eq_refl Hsafe).
  right. lia.
Defined.

End LoopRuns.
